(** * typegraphql-prisma: schema transformation and block orchestration

    A shallow embedding of the parts of the generator that decide how the
    raw Prisma DMMF document is turned into the enriched document
    ([src/generator/dmmf/transform.ts], [dmmf-document.ts]), how the
    relation resolvers pick their [where] filter
    ([src/generator/resolvers/relations.ts]), how the block generators are
    sequenced ([block-generation/block-generator-factory.ts]) and how the
    driver treats a failing formatter ([generate-code.ts]).

    JavaScript strings are modelled by [string]; a character is one code
    unit below 256, which covers the identifiers Prisma emits.  Exceptions
    are modelled by the [result] type, JavaScript [Map]s by [gmap]. *)

From Stdlib Require Import String Ascii List ZArith Bool Lia.
From stdpp Require Import base option list gmap strings.

Import ListNotations.
Local Open Scope string_scope.
Local Open Scope list_scope.

(** ** Exceptions *)

Inductive result (A : Type) : Type :=
| Ok (a : A)
| Throw (msg : string).
Arguments Ok {A} a.
Arguments Throw {A} msg.

Definition rbind {A B} (r : result A) (k : A -> result B) : result B :=
  match r with
  | Ok a => k a
  | Throw m => Throw m
  end.

Definition isOk {A} (r : result A) : bool :=
  match r with Ok _ => true | Throw _ => false end.

(** [Array.prototype.map] with a callback that may throw: the first
    exception aborts the traversal. *)
Fixpoint mapM {A B} (f : A -> result B) (l : list A) : result (list B) :=
  match l with
  | [] => Ok []
  | x :: l' =>
      rbind (f x) (fun y => rbind (mapM f l') (fun ys => Ok (y :: ys)))
  end.

(** ** The JavaScript string methods used by the generator *)

Module JS.

(** [s.startsWith(p)] *)
Definition startsWith (p s : string) : bool := String.prefix p s.

(** Drop the first [n] code units: [s.slice(n)] for [0 <= n]. *)
Fixpoint drop (n : nat) (s : string) : string :=
  match n, s with
  | O, _ => s
  | S n', String _ s' => drop n' s'
  | S _, EmptyString => EmptyString
  end.

(** [s.slice(start, end)]: negative indices count from the end, both are
    clamped to the string, an empty range gives the empty string. *)
Definition sliceIndex (len i : Z) : Z :=
  if (i <? 0)%Z then Z.max (len + i) 0 else Z.min i len.

Definition slice (s : string) (first last : Z) : string :=
  let len := Z.of_nat (String.length s) in
  let from := sliceIndex len first in
  let to := sliceIndex len last in
  String.substring (Z.to_nat from) (Z.to_nat (Z.max (to - from) 0)) s.

(** [s.slice(start)] *)
Definition sliceFrom (s : string) (first : Z) : string :=
  slice s first (Z.of_nat (String.length s)).

(** [s.endsWith(suffix)] *)
Definition endsWith (suffix s : string) : bool :=
  (String.length suffix <=? String.length s)%nat &&
  String.eqb (drop (String.length s - String.length suffix) s) suffix.

(** [s.includes(sub)] *)
Fixpoint includes (sub s : string) : bool :=
  String.prefix sub s ||
  match s with
  | EmptyString => false
  | String _ s' => includes sub s'
  end.

(** [s.replace(pat, by)] with a string pattern: only the first
    occurrence is replaced. *)
Fixpoint replace (pat by_ s : string) : string :=
  if String.prefix pat s then by_ +:+ drop (String.length pat) s
  else match s with
       | EmptyString => EmptyString
       | String c s' => String c (replace pat by_ s')
       end.

(** [c.toLowerCase()] on the Latin letters. *)
Definition lowerChar (c : ascii) : ascii :=
  let n := nat_of_ascii c in
  if ((65 <=? n) && (n <=? 90))%nat then ascii_of_nat (n + 32) else c.

Fixpoint toLocaleLowerCase (s : string) : string :=
  match s with
  | EmptyString => EmptyString
  | String c s' => String (lowerChar c) (toLocaleLowerCase s')
  end.

(** [xs.join(sep)] *)
Fixpoint join (sep : string) (xs : list string) : string :=
  match xs with
  | [] => EmptyString
  | [x] => x
  | x :: xs' => x +:+ sep +:+ join sep xs'
  end.

(** A template literal prints an [undefined] value as the text
    [undefined]. *)
Definition template (v : option string) : string :=
  match v with
  | Some s => s
  | None => "undefined"
  end.

(** *** The two regular expressions of the simple-inputs denylist

    A small backtracking matcher in continuation style, enough for
    [/.+Create.+Input/] and [/.+Update.+Input/].  The dot of a
    JavaScript regular expression does not match a line terminator. *)

Definition isLineTerminator (c : ascii) : bool :=
  (nat_of_ascii c =? 10)%nat || (nat_of_ascii c =? 13)%nat.

(** [.+] followed by the continuation [k] *)
Fixpoint dotPlus (k : string -> bool) (s : string) : bool :=
  match s with
  | EmptyString => false
  | String c s' => negb (isLineTerminator c) && (k s' || dotPlus k s')
  end.

(** a literal followed by the continuation [k] *)
Definition lit (l : string) (k : string -> bool) (s : string) : bool :=
  String.prefix l s && k (drop (String.length l) s).

(** [re.test(s)] for a pattern without anchors: the match may start at
    any position and end anywhere. *)
Fixpoint test (m : (string -> bool) -> string -> bool) (s : string) : bool :=
  m (fun _ => true) s ||
  match s with
  | EmptyString => false
  | String _ s' => test m s'
  end.

(** [/.+Create.+Input/] *)
Definition reCreateInput (k : string -> bool) : string -> bool :=
  dotPlus (lit "Create" (dotPlus (lit "Input" k))).

(** [/.+Update.+Input/] *)
Definition reUpdateInput (k : string -> bool) : string -> bool :=
  dotPlus (lit "Update" (dotPlus (lit "Input" k))).

End JS.

(** ** Type references of the raw schema *)

Inductive FieldLocation : Type :=
| scalar
| inputObjectTypes
| outputObjectTypes
| enumTypes
| fieldRefTypes.

Definition FieldLocation_eqb (a b : FieldLocation) : bool :=
  match a, b with
  | scalar, scalar
  | inputObjectTypes, inputObjectTypes
  | outputObjectTypes, outputObjectTypes
  | enumTypes, enumTypes
  | fieldRefTypes, fieldRefTypes => true
  | _, _ => false
  end.

(** [PrismaDMMF.InputTypeRef]; [DMMF.TypeInfo] and
    [DMMF.SchemaArgInputType] have the same three properties. *)
Record InputTypeRef : Type := {
  it_type : string;
  it_location : FieldLocation;
  it_isList : bool;
}.

Abbreviation TypeInfo := InputTypeRef.

(** [InputOmitSetting] of [generator/config.ts] *)
Inductive InputOmitSetting : Type :=
| OmitCreate
| OmitUpdate
| OmitWhere
| OmitOrderBy.

Definition InputOmitSetting_eqb (a b : InputOmitSetting) : bool :=
  match a, b with
  | OmitCreate, OmitCreate
  | OmitUpdate, OmitUpdate
  | OmitWhere, OmitWhere
  | OmitOrderBy, OmitOrderBy => true
  | _, _ => false
  end.

(** The [input] part of [isOmitted]: [boolean | InputOmitSetting[]]. *)
Inductive InputOmit : Type :=
| OmitBool (b : bool)
| OmitList (settings : list InputOmitSetting).

(** The formatters that [formatGeneratedCode] can name. *)
Inductive FormatTool : Type :=
| prettier
| tsc
| biome.

(** The resolved options, as far as the functions below read them. *)
Record GeneratorOptions : Type := {
  useUncheckedScalarInputs : bool;
  useSimpleInputs : bool;
  omitInputFieldsByDefault : option (list string);
  omitOutputFieldsByDefault : option (list string);
  blocksToEmit : list string;
  outputDirPath : string;
  emitTranspiledCode : option bool;
  formatGeneratedCode : option FormatTool;
}.

(** ** The raw document ([PrismaDMMF]) *)

Inductive FieldKind : Type :=
| kind_scalar
| kind_object
| kind_enum
| kind_unsupported.

Record PrimaryKey : Type := {
  pk_name : option string;
  pk_fields : list string;
}.

Record UniqueIndex : Type := {
  ui_name : option string;
  ui_fields : list string;
}.

Record RawField : Type := {
  rf_name : string;
  rf_kind : FieldKind;
  rf_type : string;
  rf_isList : bool;
  rf_isRequired : bool;
  rf_isId : bool;
  rf_isUnique : bool;
  rf_relationName : option string;
  rf_documentation : option string;
}.

Record RawModel : Type := {
  rm_name : string;
  rm_fields : list RawField;
  rm_primaryKey : option PrimaryKey;
  rm_uniqueIndexes : list UniqueIndex;
  rm_documentation : option string;
}.

Record Deprecation : Type := {
  sinceVersion : string;
  reason : string;
}.

Record RawSchemaArg : Type := {
  ra_name : string;
  ra_isRequired : bool;
  ra_inputTypes : list InputTypeRef;
  ra_deprecation : option Deprecation;
}.

Record RawInputType : Type := {
  rit_name : string;
  rit_fields : list RawSchemaArg;
}.

Record RawSchemaField : Type := {
  rsf_name : string;
  rsf_isNullable : option bool;
  rsf_outputType : TypeInfo;
  rsf_args : list RawSchemaArg;
  rsf_deprecation : option Deprecation;
}.

Record RawOutputType : Type := {
  rot_name : string;
  rot_fields : list RawSchemaField;
}.

(** An enum value is a string in the schema enums and an object with a
    [name] in the datamodel enums; only the name is read. *)
Record RawEnum : Type := {
  re_name : string;
  re_values : list string;
  re_documentation : option string;
}.

Record RawSchema : Type := {
  rs_inputObjectTypes_prisma : option (list RawInputType);
  rs_inputObjectTypes_model : option (list RawInputType);
  rs_outputObjectTypes_prisma : option (list RawOutputType);
  rs_outputObjectTypes_model : option (list RawOutputType);
  rs_enumTypes_prisma : option (list RawEnum);
  rs_enumTypes_model : option (list RawEnum);
}.

Record RawDatamodel : Type := {
  rd_models : list RawModel;
  rd_types : list RawModel;
  rd_enums : list RawEnum;
}.

(** ** The transformed document ([DMMF]) *)

Record ModelField : Type := {
  mf_name : string;
  mf_kind : FieldKind;
  mf_type : string;
  mf_isList : bool;
  mf_isRequired : bool;
  mf_isId : bool;
  mf_isUnique : bool;
  mf_relationName : option string;
  mf_location : FieldLocation;
  mf_typeFieldAlias : option string;
  mf_fieldTSType : string;
  mf_typeGraphQLType : string;
  mf_docs : option string;
  mf_isOmitted_input : InputOmit;
  mf_isOmitted_output : bool;
}.

Record Model : Type := {
  model_name : string;
  model_typeName : string;
  model_fields : list ModelField;
  model_docs : option string;
  model_plural : option string;
  model_isOmitted_output : bool;
  model_primaryKey : option PrimaryKey;
  model_uniqueIndexes : list UniqueIndex;
}.

Record Enum : Type := {
  enum_name : string;
  enum_typeName : string;
  enum_docs : option string;
  (* pairs [(value, name)] *)
  enum_valuesMap : list (string * string);
}.

Record SchemaArg : Type := {
  sa_name : string;
  sa_isRequired : bool;
  sa_inputTypes : list InputTypeRef;
  sa_deprecation : option Deprecation;
  sa_selectedInputType : InputTypeRef;
  sa_typeName : string;
  sa_typeGraphQLType : string;
  sa_fieldTSType : string;
  sa_hasMappedName : bool;
  sa_isOmitted : bool;
}.

Record InputType : Type := {
  input_name : string;
  input_typeName : string;
  input_fields : list SchemaArg;
}.

Record OutputSchemaField : Type := {
  of_name : string;
  of_isRequired : bool;
  of_outputType : TypeInfo;
  of_fieldTSType : string;
  of_typeGraphQLType : string;
  of_args : list SchemaArg;
  of_argsTypeName : option string;
  of_deprecation : option Deprecation;
}.

Record OutputType : Type := {
  output_name : string;
  output_typeName : string;
  output_fields : list OutputSchemaField;
}.

Record RelationField : Type := {
  relf_field : ModelField;
  relf_outputTypeField : option OutputSchemaField;
  relf_argsTypeName : option string;
  relf_type : option string;
}.

Record RelationModel : Type := {
  rel_model : Model;
  rel_outputType : option OutputType;
  rel_relationFields : list RelationField;
  rel_resolverName : string;
}.

(** [DMMF.ModelMapping]; its actions are not read by what follows. *)
Record ModelMapping : Type := {
  mapping_modelName : string;
  mapping_modelTypeName : string;
  mapping_resolverName : string;
}.

(** The instance state of [DmmfDocument].  A property that the
    constructor has not assigned yet holds its initial value here. *)
Record DmmfDocument : Type := {
  models : list Model;
  datamodel_models : list Model;
  datamodel_enums : list Enum;
  schema_inputTypes : list InputType;
  schema_outputTypes : list OutputType;
  enums : list Enum;
  modelMappings : list ModelMapping;
  relationModels : list RelationModel;
  outputTypeCache : gmap string OutputType;
  modelsCache : gmap string Model;
  modelTypeNameCache : gset string;
  fieldAliasCache : gmap string (gmap string string);
  enumsCache : gmap string Enum;
  modelFieldsCache : gmap string (gmap string ModelField);
  outputTypeFieldsCache : gmap string (gmap string OutputSchemaField);
  options : GeneratorOptions;
}.

(** The document right after the caches have been initialised. *)
Definition emptyDocument (opts : GeneratorOptions) : DmmfDocument :=
  {| models := []; datamodel_models := []; datamodel_enums := [];
     schema_inputTypes := []; schema_outputTypes := []; enums := [];
     modelMappings := []; relationModels := [];
     outputTypeCache := ∅; modelsCache := ∅; modelTypeNameCache := ∅;
     fieldAliasCache := ∅; enumsCache := ∅; modelFieldsCache := ∅;
     outputTypeFieldsCache := ∅; options := opts |}.

(** Assignments to the properties of [this]. *)
Definition set_models (v : list Model) (d : DmmfDocument) : DmmfDocument :=
  {| models := v; datamodel_models := datamodel_models d;
     datamodel_enums := datamodel_enums d;
     schema_inputTypes := schema_inputTypes d;
     schema_outputTypes := schema_outputTypes d; enums := enums d;
     modelMappings := modelMappings d; relationModels := relationModels d;
     outputTypeCache := outputTypeCache d; modelsCache := modelsCache d;
     modelTypeNameCache := modelTypeNameCache d;
     fieldAliasCache := fieldAliasCache d; enumsCache := enumsCache d;
     modelFieldsCache := modelFieldsCache d;
     outputTypeFieldsCache := outputTypeFieldsCache d; options := options d |}.

Definition set_enums (v : list Enum) (d : DmmfDocument) : DmmfDocument :=
  {| models := models d; datamodel_models := datamodel_models d;
     datamodel_enums := datamodel_enums d;
     schema_inputTypes := schema_inputTypes d;
     schema_outputTypes := schema_outputTypes d; enums := v;
     modelMappings := modelMappings d; relationModels := relationModels d;
     outputTypeCache := outputTypeCache d; modelsCache := modelsCache d;
     modelTypeNameCache := modelTypeNameCache d;
     fieldAliasCache := fieldAliasCache d; enumsCache := enumsCache d;
     modelFieldsCache := modelFieldsCache d;
     outputTypeFieldsCache := outputTypeFieldsCache d; options := options d |}.

(** The four cache writes of the second pass, for one model. *)
Definition cacheModel (rawName : string) (transformed : Model)
    (modelFields : gmap string ModelField)
    (fieldAliases : gmap string string) (d : DmmfDocument) : DmmfDocument :=
  {| models := models d; datamodel_models := datamodel_models d;
     datamodel_enums := datamodel_enums d;
     schema_inputTypes := schema_inputTypes d;
     schema_outputTypes := schema_outputTypes d; enums := enums d;
     modelMappings := modelMappings d; relationModels := relationModels d;
     outputTypeCache := outputTypeCache d;
     modelsCache := <[rawName := transformed]> (modelsCache d);
     modelTypeNameCache := modelTypeNameCache d ∪ {[model_typeName transformed]};
     fieldAliasCache :=
       (if (0 <? size fieldAliases)%nat
        then <[rawName := fieldAliases]> (fieldAliasCache d)
        else fieldAliasCache d);
     enumsCache := enumsCache d;
     modelFieldsCache := <[rawName := modelFields]> (modelFieldsCache d);
     outputTypeFieldsCache := outputTypeFieldsCache d; options := options d |}.

Definition set_enumsCache (v : gmap string Enum) (d : DmmfDocument)
  : DmmfDocument :=
  {| models := models d; datamodel_models := datamodel_models d;
     datamodel_enums := datamodel_enums d;
     schema_inputTypes := schema_inputTypes d;
     schema_outputTypes := schema_outputTypes d; enums := enums d;
     modelMappings := modelMappings d; relationModels := relationModels d;
     outputTypeCache := outputTypeCache d; modelsCache := modelsCache d;
     modelTypeNameCache := modelTypeNameCache d;
     fieldAliasCache := fieldAliasCache d; enumsCache := v;
     modelFieldsCache := modelFieldsCache d;
     outputTypeFieldsCache := outputTypeFieldsCache d; options := options d |}.

Definition set_datamodel (ms : list Model) (es : list Enum) (d : DmmfDocument)
  : DmmfDocument :=
  {| models := models d; datamodel_models := ms; datamodel_enums := es;
     schema_inputTypes := schema_inputTypes d;
     schema_outputTypes := schema_outputTypes d; enums := enums d;
     modelMappings := modelMappings d; relationModels := relationModels d;
     outputTypeCache := outputTypeCache d; modelsCache := modelsCache d;
     modelTypeNameCache := modelTypeNameCache d;
     fieldAliasCache := fieldAliasCache d; enumsCache := enumsCache d;
     modelFieldsCache := modelFieldsCache d;
     outputTypeFieldsCache := outputTypeFieldsCache d; options := options d |}.

Definition set_schema (its : list InputType) (ots : list OutputType)
    (d : DmmfDocument) : DmmfDocument :=
  {| models := models d; datamodel_models := datamodel_models d;
     datamodel_enums := datamodel_enums d;
     schema_inputTypes := its; schema_outputTypes := ots; enums := enums d;
     modelMappings := modelMappings d; relationModels := relationModels d;
     outputTypeCache := outputTypeCache d; modelsCache := modelsCache d;
     modelTypeNameCache := modelTypeNameCache d;
     fieldAliasCache := fieldAliasCache d; enumsCache := enumsCache d;
     modelFieldsCache := modelFieldsCache d;
     outputTypeFieldsCache := outputTypeFieldsCache d; options := options d |}.

Definition cacheOutputType (ot : OutputType)
    (fieldsCache : gmap string OutputSchemaField) (d : DmmfDocument)
  : DmmfDocument :=
  {| models := models d; datamodel_models := datamodel_models d;
     datamodel_enums := datamodel_enums d;
     schema_inputTypes := schema_inputTypes d;
     schema_outputTypes := schema_outputTypes d; enums := enums d;
     modelMappings := modelMappings d; relationModels := relationModels d;
     outputTypeCache := <[output_name ot := ot]> (outputTypeCache d);
     modelsCache := modelsCache d;
     modelTypeNameCache := modelTypeNameCache d;
     fieldAliasCache := fieldAliasCache d; enumsCache := enumsCache d;
     modelFieldsCache := modelFieldsCache d;
     outputTypeFieldsCache :=
       <[output_name ot := fieldsCache]> (outputTypeFieldsCache d);
     options := options d |}.

Definition set_modelMappings (v : list ModelMapping) (d : DmmfDocument)
  : DmmfDocument :=
  {| models := models d; datamodel_models := datamodel_models d;
     datamodel_enums := datamodel_enums d;
     schema_inputTypes := schema_inputTypes d;
     schema_outputTypes := schema_outputTypes d; enums := enums d;
     modelMappings := v; relationModels := relationModels d;
     outputTypeCache := outputTypeCache d; modelsCache := modelsCache d;
     modelTypeNameCache := modelTypeNameCache d;
     fieldAliasCache := fieldAliasCache d; enumsCache := enumsCache d;
     modelFieldsCache := modelFieldsCache d;
     outputTypeFieldsCache := outputTypeFieldsCache d; options := options d |}.

Definition set_relationModels (v : list RelationModel) (d : DmmfDocument)
  : DmmfDocument :=
  {| models := models d; datamodel_models := datamodel_models d;
     datamodel_enums := datamodel_enums d;
     schema_inputTypes := schema_inputTypes d;
     schema_outputTypes := schema_outputTypes d; enums := enums d;
     modelMappings := modelMappings d; relationModels := v;
     outputTypeCache := outputTypeCache d; modelsCache := modelsCache d;
     modelTypeNameCache := modelTypeNameCache d;
     fieldAliasCache := fieldAliasCache d; enumsCache := enumsCache d;
     modelFieldsCache := modelFieldsCache d;
     outputTypeFieldsCache := outputTypeFieldsCache d; options := options d |}.

(** JavaScript truthiness of a possibly missing string. *)
Definition truthy (v : option string) : bool :=
  match v with
  | Some s => negb (String.eqb s EmptyString)
  | None => false
  end.

(** ** Lookups of [DmmfDocument] *)

Definition getModelTypeName (d : DmmfDocument) (modelName : string)
  : option string :=
  match modelsCache d !! modelName with
  | Some cachedModel => Some (model_typeName cachedModel)
  | None =>
      match List.find
              (fun it => String.eqb (JS.toLocaleLowerCase (model_name it))
                                    (JS.toLocaleLowerCase modelName))
              (models d) with
      | Some it => Some (model_typeName it)
      | None => None
      end
  end.

Definition isModelName (d : DmmfDocument) (typeName : string) : bool :=
  bool_decide (is_Some (modelsCache d !! typeName)).

Definition isModelTypeName (d : DmmfDocument) (typeName : string) : bool :=
  bool_decide (typeName ∈ modelTypeNameCache d).

Definition getModelFieldAlias (d : DmmfDocument) (modelName fieldName : string)
  : option string :=
  match fieldAliasCache d !! modelName with
  | Some fieldAliases => fieldAliases !! fieldName
  | None => None
  end.

Definition shouldGenerateBlock (d : DmmfDocument) (block : string) : bool :=
  existsb (String.eqb block) (blocksToEmit (options d)).

Definition getModelField (d : DmmfDocument) (modelName fieldName : string)
  : option ModelField :=
  match modelFieldsCache d !! modelName with
  | Some modelFields => modelFields !! fieldName
  | None => None
  end.

Definition getOutputTypeField (d : DmmfDocument)
    (outputTypeName fieldName : string) : option OutputSchemaField :=
  match outputTypeFieldsCache d !! outputTypeName with
  | Some outputTypeFields => outputTypeFields !! fieldName
  | None => None
  end.

(** ** State and exceptions

    A computation that reads and writes a state of type [S] and may throw;
    what was written before the exception stays written. *)

Definition M (S A : Type) : Type := S -> result A * S.

Definition ret {S A} (a : A) : M S A := fun s => (Ok a, s).

Definition throw {S A} (msg : string) : M S A := fun s => (Throw msg, s).

Definition bind {S A B} (m : M S A) (k : A -> M S B) : M S B :=
  fun s =>
    match m s with
    | (Ok a, s') => k a s'
    | (Throw msg, s') => (Throw msg, s')
    end.

Definition lift {S A} (r : result A) : M S A := fun s => (r, s).

Definition get {S} : M S S := fun s => (Ok s, s).

Definition modify {S} (f : S -> S) : M S unit := fun s => (Ok tt, f s).

(** [try { body } catch (error) { handler(error) }] *)
Definition tryCatch {S A} (body : M S A) (handler : string -> M S A) : M S A :=
  fun s =>
    match body s with
    | (Ok a, s') => (Ok a, s')
    | (Throw msg, s') => handler msg s'
    end.

Declare Scope js_scope.
Delimit Scope js_scope with js.
Notation "'do' x <- m ; k" := (bind m (fun x => k))
  (at level 10, x name, m at level 100, k at level 200) : js_scope.
Notation "'run' m ; k" := (bind m (fun _ => k))
  (at level 10, m at level 100, k at level 200) : js_scope.

(** [xs.map(f)] for a stateful callback that may throw. *)
Fixpoint mapMS {S A B} (f : A -> M S B) (l : list A) : M S (list B) :=
  match l with
  | [] => ret []
  | x :: l' =>
      bind (f x) (fun y => bind (mapMS f l') (fun ys => ret (y :: ys)))
  end.

(** ** The transformation ([dmmf/transform.ts]) *)

(** What [parseDocumentationAttributes] can return at its four call
    sites: a partial object with these properties. *)
Record Attributes : Type := {
  attr_name : option string;
  attr_plural : option string;
  attr_output : option bool;
  attr_input : option InputOmit;
}.

(** [PrismaDMMF.ModelMapping]: the model and its table of actions. *)
Record RawModelMapping : Type := {
  rmap_model : string;
  rmap_actions : list (string * option string);
}.

Record RawDocument : Type := {
  raw_datamodel : RawDatamodel;
  raw_schema : RawSchema;
  raw_mappings : list RawModelMapping;
}.

(** The module-level [outputTypeNameCache]. *)
Abbreviation NameCache := (gmap string string).

Definition DEDICATED_TYPE_SUFFIXES : list string :=
  [ "CountAggregateOutputType";
    "MinAggregateOutputType";
    "MaxAggregateOutputType";
    "AvgAggregateOutputType";
    "SumAggregateOutputType";
    "GroupByOutputType";
    "CountOutputType" ].

Definition ENUM_SUFFIXES : list string :=
  [ "OrderByRelevanceFieldEnum"; "ScalarFieldEnum" ].

Definition clearOutputTypeNameCache : M NameCache unit :=
  modify (fun _ => ∅).

(** The body of [getMappedOutputTypeName] after a cache miss. *)
Definition computeMappedOutputTypeName (d : DmmfDocument)
    (outputTypeName : string) : result string :=
  if JS.startsWith "Aggregate" outputTypeName then
    let modelTypeName := getModelTypeName d (JS.sliceFrom outputTypeName 9) in
    Ok ("Aggregate" +:+ JS.template modelTypeName)
  else if JS.startsWith "CreateMany" outputTypeName &&
          JS.endsWith "AndReturnOutputType" outputTypeName then
    let modelName := JS.slice outputTypeName 10 (-19) in
    let modelTypeName := getModelTypeName d modelName in
    Ok ("CreateManyAndReturn" +:+ JS.template modelTypeName)
  else if isModelName d outputTypeName then
    match getModelTypeName d outputTypeName with
    | Some _result =>
        if truthy (Some _result) then Ok _result
        else Throw ("Model type not found for " +:+ outputTypeName)
    | None => Throw ("Model type not found for " +:+ outputTypeName)
    end
  else
    match List.find (fun suffix => JS.endsWith suffix outputTypeName)
                    DEDICATED_TYPE_SUFFIXES with
    | Some dedicatedTypeSuffix =>
        if truthy (Some dedicatedTypeSuffix) then
          let modelName :=
            JS.slice outputTypeName 0
                     (- Z.of_nat (String.length dedicatedTypeSuffix)) in
          let operationName := JS.replace "OutputType" EmptyString dedicatedTypeSuffix in
          Ok (JS.template (getModelTypeName d modelName) +:+ operationName)
        else Ok outputTypeName
    | None => Ok outputTypeName
    end.

Definition getMappedOutputTypeName (d : DmmfDocument)
    (outputTypeName : string) : M NameCache string :=
  fun cache =>
    match cache !! outputTypeName with
    | Some cached => (Ok cached, cache)
    | None =>
        match computeMappedOutputTypeName d outputTypeName with
        | Ok result_ => (Ok result_, <[outputTypeName := result_]> cache)
        | Throw msg => (Throw msg, cache)
        end
    end.

Section Transform.

Local Open Scope js_scope.

(** The helpers of [dmmf/helpers.ts] and [generator/helpers.ts] are
    taken as given; they read the document but do not change it. *)
Variable parseDocumentationAttributes :
  option string -> string -> string -> Attributes.
Variable pascalCase : string -> string.
Variable cleanDocsString : option string -> option string.
Variable getInputTypeName : string -> DmmfDocument -> string.
Variable getModelNameFromInputType : string -> option string.
Variable getTypeGraphQLType :
  TypeInfo -> DmmfDocument -> option string -> option string ->
  option bool -> string.
Variable getFieldTSType :
  DmmfDocument -> TypeInfo -> bool -> bool -> option string ->
  option string -> string.
(** [transformMappings] depends on the action tables of
    [generator/config.ts]; only the fact that it may throw matters to
    the constructor. *)
Variable transformMappings :
  list RawModelMapping -> DmmfDocument -> result (list ModelMapping).

Definition transformBareModel (model : RawModel) : Model :=
  let attributeArgs :=
    parseDocumentationAttributes (rm_documentation model) "type" "model" in
  let output :=
    match attr_output
            (parseDocumentationAttributes (rm_documentation model)
                                          "omit" "model") with
    | Some o => o
    | None => false
    end in
  {| model_name := rm_name model;
     model_typeName :=
       match attr_name attributeArgs with
       | Some n => n
       | None => pascalCase (rm_name model)
       end;
     model_fields := [];
     model_docs := cleanDocsString (rm_documentation model);
     model_plural := attr_plural attributeArgs;
     model_isOmitted_output := output;
     model_primaryKey := rm_primaryKey model;
     model_uniqueIndexes := rm_uniqueIndexes model |}.

Definition fieldLocation (field : RawField) : FieldLocation :=
  match rf_kind field with
  | kind_enum => enumTypes
  | kind_object => outputObjectTypes
  | _ => scalar
  end.

(** The [typeInfo] of [transformModelField]: the type reference of a
    model field, with the target renamed when it is a model.  A name that
    [isModelName] accepts is in [modelsCache], so that [getModelTypeName]
    is defined on it. *)
Definition modelFieldTypeInfo (d : DmmfDocument) (field : RawField)
  : TypeInfo :=
  {| it_location := fieldLocation field;
     it_isList := rf_isList field;
     it_type :=
       if isModelName d (rf_type field)
       then JS.template (getModelTypeName d (rf_type field))
       else rf_type field |}.

(** [field.type] is a string in every raw document, so the guard on
    [typeof field.type] never fires. *)
Definition transformModelField (d : DmmfDocument) (field : RawField)
  : ModelField :=
  let attributeArgs :=
    parseDocumentationAttributes (rf_documentation field) "field" "field" in
  let typeInfo := modelFieldTypeInfo d field in
  let fieldTSType :=
    getFieldTSType d typeInfo (rf_isRequired field) false None None in
  let typeGraphQLType :=
    getTypeGraphQLType typeInfo d None None (Some (rf_isId field)) in
  let omitFieldAttribute :=
    parseDocumentationAttributes (rf_documentation field) "omit" "field" in
  {| mf_name := rf_name field;
     mf_kind := rf_kind field;
     mf_type := rf_type field;
     mf_isList := rf_isList field;
     mf_isRequired := rf_isRequired field;
     mf_isId := rf_isId field;
     mf_isUnique := rf_isUnique field;
     mf_relationName := rf_relationName field;
     mf_location := fieldLocation field;
     mf_typeFieldAlias := attr_name attributeArgs;
     mf_fieldTSType := fieldTSType;
     mf_typeGraphQLType := typeGraphQLType;
     mf_docs := cleanDocsString (rf_documentation field);
     mf_isOmitted_input :=
       match attr_input omitFieldAttribute with
       | Some v => v
       | None =>
           match omitInputFieldsByDefault (options d) with
           | Some l => OmitBool (existsb (String.eqb (rf_name field)) l)
           | None => OmitBool false
           end
       end;
     mf_isOmitted_output :=
       match attr_output omitFieldAttribute with
       | Some v => v
       | None =>
           match omitOutputFieldsByDefault (options d) with
           | Some l => existsb (String.eqb (rf_name field)) l
           | None => false
           end
       end |}.

Definition transformModelWithFields (d : DmmfDocument) (model : RawModel)
  : Model :=
  let bare := transformBareModel model in
  {| model_name := model_name bare;
     model_typeName := model_typeName bare;
     model_fields := List.map (transformModelField d) (rm_fields model);
     model_docs := model_docs bare;
     model_plural := model_plural bare;
     model_isOmitted_output := model_isOmitted_output bare;
     model_primaryKey := model_primaryKey bare;
     model_uniqueIndexes := model_uniqueIndexes bare |}.

Definition uncheckedScalarInputsFilter (d : DmmfDocument)
    (inputType : RawInputType) : bool :=
  if useUncheckedScalarInputs (options d) then true
  else negb (JS.includes "Unchecked" (rit_name inputType)).

(** *** [selectInputTypeFromTypes] *)

(** The denylist of the simple-inputs mode. *)
Definition isCompoundOperationInput (t : string) : bool :=
  JS.includes "OperationsInput" t ||
  JS.includes "CreateEnvelopeInput" t ||
  JS.test JS.reCreateInput t ||
  JS.test JS.reUpdateInput t.

Definition isObjectCandidate (opts : GeneratorOptions) (it : InputTypeRef)
  : bool :=
  FieldLocation_eqb (it_location it) inputObjectTypes &&
  (negb (useSimpleInputs opts) ||
   negb (isCompoundOperationInput (it_type it))).

Definition isScalarCandidate (it : InputTypeRef) : bool :=
  FieldLocation_eqb (it_location it) scalar &&
  negb (String.eqb (it_type it) "Null").

Definition isEnumCandidate (it : InputTypeRef) : bool :=
  FieldLocation_eqb (it_location it) enumTypes.

(** The successive assignments to [possibleInputTypes]. *)
Definition possibleInputTypes (opts : GeneratorOptions)
    (inputTypes : list InputTypeRef) : list InputTypeRef :=
  let p1 := List.filter (isObjectCandidate opts) inputTypes in
  let p2 := if (length p1 =? 0)%nat
            then List.filter isScalarCandidate inputTypes else p1 in
  let p3 := if (length p2 =? 0)%nat
            then List.filter isEnumCandidate inputTypes else p2 in
  if (length p3 =? 0)%nat then inputTypes else p3.

Definition isUnchecked (it : InputTypeRef) : bool :=
  JS.includes "Unchecked" (it_type it).

(** [find(isList) || (useUncheckedScalarInputs && find(Unchecked)) ||
    possibleInputTypes[0]]; [None] stands for [undefined]. *)
Definition selectedInputType (opts : GeneratorOptions)
    (inputTypes : list InputTypeRef) : option InputTypeRef :=
  let possible := possibleInputTypes opts inputTypes in
  match List.find it_isList possible with
  | Some it => Some it
  | None =>
      match (if useUncheckedScalarInputs opts
             then List.find isUnchecked possible else None) with
      | Some it => Some it
      | None => List.nth_error possible 0
      end
  end.

Definition selectInputTypeFromTypes (d : DmmfDocument)
    (inputTypes : list InputTypeRef) : result InputTypeRef :=
  match selectedInputType (options d) inputTypes with
  | None => Throw "TypeError: Cannot read properties of undefined"
  | Some sel =>
      let inputType := it_type sel in
      match it_location sel with
      | enumTypes =>
          match List.find (fun it => String.eqb (enum_name it) inputType)
                          (enums d) with
          | Some enumDef =>
              Ok {| it_type := enum_typeName enumDef;
                    it_location := it_location sel;
                    it_isList := it_isList sel |}
          | None => Throw "TypeError: Cannot read properties of undefined"
          end
      | inputObjectTypes =>
          Ok {| it_type := getInputTypeName inputType d;
                it_location := it_location sel;
                it_isList := it_isList sel |}
      | _ => Ok sel
      end
  end.

(** *** Input and output types *)

Definition notDeprecated (deprecation : option Deprecation) : bool :=
  match deprecation with
  | None => true
  | Some _ => false
  end.

Definition includesSetting (s : InputOmitSetting)
    (l : list InputOmitSetting) : bool :=
  existsb (InputOmitSetting_eqb s) l.

(** The [isOmitted] flag of an input field. *)
Definition inputFieldIsOmitted (modelField : option ModelField)
    (inputTypeName : string) : bool :=
  match modelField with
  | None => false
  | Some mf =>
      match mf_isOmitted_input mf with
      | OmitBool b => b
      | OmitList l =>
          (includesSetting OmitCreate l && JS.includes "Create" inputTypeName) ||
          (includesSetting OmitUpdate l && JS.includes "Update" inputTypeName) ||
          (includesSetting OmitWhere l && JS.includes "Where" inputTypeName) ||
          (includesSetting OmitOrderBy l && JS.includes "OrderBy" inputTypeName)
      end
  end.

Definition transformInputField (d : DmmfDocument) (inputTypeName : string)
    (modelType : option Model) (field : RawSchemaArg) : result SchemaArg :=
  let modelField :=
    match modelType with
    | Some mt => getModelField d (model_name mt) (ra_name field)
    | None => None
    end in
  let typeName :=
    match modelField with
    | Some mf =>
        match mf_typeFieldAlias mf with
        | Some a => a
        | None => ra_name field
        end
    | None => ra_name field
    end in
  rbind (selectInputTypeFromTypes d (ra_inputTypes field))
    (fun selected =>
       Ok {| sa_name := ra_name field;
             sa_isRequired := ra_isRequired field;
             sa_inputTypes := ra_inputTypes field;
             sa_deprecation := ra_deprecation field;
             sa_selectedInputType := selected;
             sa_typeName := typeName;
             sa_typeGraphQLType := getTypeGraphQLType selected d None None None;
             sa_fieldTSType :=
               getFieldTSType d selected (ra_isRequired field) true None None;
             sa_hasMappedName := negb (String.eqb (ra_name field) typeName);
             sa_isOmitted := inputFieldIsOmitted modelField inputTypeName |}).

Definition transformInputType (d : DmmfDocument) (inputType : RawInputType)
  : result InputType :=
  let modelName := getModelNameFromInputType (rit_name inputType) in
  let modelType :=
    if truthy modelName
    then match modelName with
         | Some n => modelsCache d !! n
         | None => None
         end
    else None in
  rbind
    (mapM (transformInputField d (rit_name inputType) modelType)
          (List.filter (fun field => notDeprecated (ra_deprecation field))
                       (rit_fields inputType)))
    (fun fields =>
       Ok {| input_name := rit_name inputType;
             input_typeName := getInputTypeName (rit_name inputType) d;
             input_fields := fields |}).

(** An argument of an output-type field; [typeName] is the mapped name
    of the enclosing output type. *)
Definition transformOutputArg (d : DmmfDocument) (typeName : string)
    (arg : RawSchemaArg) : result SchemaArg :=
  rbind (selectInputTypeFromTypes d (ra_inputTypes arg))
    (fun selected =>
       Ok {| sa_name := ra_name arg;
             sa_isRequired := ra_isRequired arg;
             sa_inputTypes := ra_inputTypes arg;
             sa_deprecation := ra_deprecation arg;
             sa_selectedInputType := selected;
             sa_typeName := ra_name arg;
             sa_typeGraphQLType := getTypeGraphQLType selected d None None None;
             sa_fieldTSType :=
               getFieldTSType d selected (ra_isRequired arg) true None None;
             sa_hasMappedName := negb (String.eqb (ra_name arg) typeName);
             sa_isOmitted := false |}).

Definition transformOutputField (d : DmmfDocument) (typeName : string)
    (field : RawSchemaField) : M NameCache OutputSchemaField :=
  let isFieldRequired :=
    negb (match rsf_isNullable field with Some true => true | _ => false end)
    && negb (String.eqb (rsf_name field) "_count") in
  do mapped <- getMappedOutputTypeName d (it_type (rsf_outputType field));
  let outputTypeInfo :=
    {| it_type := mapped;
       it_location := it_location (rsf_outputType field);
       it_isList := it_isList (rsf_outputType field) |} in
  do args <- lift (mapM (transformOutputArg d typeName) (rsf_args field));
  ret {| of_name := rsf_name field;
         of_isRequired := isFieldRequired;
         of_outputType := outputTypeInfo;
         of_fieldTSType :=
           getFieldTSType d outputTypeInfo isFieldRequired false None None;
         of_typeGraphQLType :=
           getTypeGraphQLType outputTypeInfo d None None None;
         of_args := args;
         of_argsTypeName :=
           if (0 <? length args)%nat
           then Some (typeName +:+ pascalCase (rsf_name field) +:+ "Args")
           else None;
         of_deprecation := rsf_deprecation field |}.

Definition transformOutputType (d : DmmfDocument) (outputType : RawOutputType)
  : M NameCache OutputType :=
  do typeName <- getMappedOutputTypeName d (rot_name outputType);
  do fields <-
    mapMS (transformOutputField d typeName)
          (List.filter (fun field => notDeprecated (rsf_deprecation field))
                       (rot_fields outputType));
  ret {| output_name := rot_name outputType;
         output_typeName := typeName;
         output_fields := fields |}.

Definition orEmpty {A} (l : option (list A)) : list A :=
  match l with
  | Some l' => l'
  | None => []
  end.

Definition transformSchema (datamodel : RawSchema) (d : DmmfDocument)
  : M NameCache (list InputType * list OutputType) :=
  let inputObjectTypes :=
    orEmpty (rs_inputObjectTypes_prisma datamodel) ++
    orEmpty (rs_inputObjectTypes_model datamodel) in
  let outputObjectTypes :=
    orEmpty (rs_outputObjectTypes_prisma datamodel) ++
    orEmpty (rs_outputObjectTypes_model datamodel) in
  do inputTypes <-
    lift (mapM (transformInputType d)
               (List.filter (uncheckedScalarInputsFilter d) inputObjectTypes));
  do outputTypes <- mapMS (transformOutputType d) outputObjectTypes;
  ret (inputTypes, outputTypes).

(** *** Enums *)

Definition transformEnums (d : DmmfDocument) (enumDef : RawEnum) : Enum :=
  let detectedSuffix :=
    List.find (fun suffix => JS.endsWith suffix (re_name enumDef))
              ENUM_SUFFIXES in
  let modelName :=
    if truthy detectedSuffix
    then match detectedSuffix with
         | Some suffix => Some (JS.replace suffix EmptyString (re_name enumDef))
         | None => None
         end
    else None in
  let typeName :=
    match detectedSuffix, modelName with
    | Some suffix, Some mn =>
        JS.template (getModelTypeName d mn) +:+ suffix
    | _, _ => re_name enumDef
    end in
  {| enum_name := re_name enumDef;
     enum_typeName := typeName;
     enum_docs :=
       match re_documentation enumDef with
       | Some _ => cleanDocsString (re_documentation enumDef)
       | None => None
       end;
     enum_valuesMap :=
       List.map
         (fun enumValueName =>
            (enumValueName,
             match modelName with
             | Some mn =>
                 if truthy (Some mn) && truthy (getModelFieldAlias d mn enumValueName)
                 then JS.template (getModelFieldAlias d mn enumValueName)
                 else enumValueName
             | None => enumValueName
             end))
         (re_values enumDef) |}.

(** *** Relation models *)

Definition isRelationFieldOf (outputType : OutputType) (field : ModelField)
  : bool :=
  truthy (mf_relationName field) &&
  negb (mf_isOmitted_output field) &&
  existsb (fun it => String.eqb (of_name it) (mf_name field))
          (output_fields outputType).

Definition generateRelationField (d : DmmfDocument) (model : Model)
    (outputType : OutputType) (field : ModelField) : result RelationField :=
  match getOutputTypeField d (output_name outputType) (mf_name field) with
  | None => Throw "TypeError: Cannot read properties of undefined"
  | Some outputTypeField =>
      Ok {| relf_field := field;
            relf_outputTypeField := Some outputTypeField;
            relf_argsTypeName :=
              if (0 <? length (of_args outputTypeField))%nat
              then Some (model_typeName model +:+ pascalCase (mf_name field)
                         +:+ "Args")
              else None;
            relf_type := getModelTypeName d (mf_type field) |}
  end.

Definition generateRelationModel (d : DmmfDocument) (model : Model)
  : result RelationModel :=
  let resolverName := model_typeName model +:+ "RelationsResolver" in
  match outputTypeCache d !! model_name model with
  | None =>
      (* [outputType.fields] is read for the first field that is a
         relation and is not omitted *)
      if existsb (fun field => truthy (mf_relationName field) &&
                               negb (mf_isOmitted_output field))
                 (model_fields model)
      then Throw "TypeError: Cannot read properties of undefined"
      else Ok {| rel_model := model; rel_outputType := None;
                 rel_relationFields := []; rel_resolverName := resolverName |}
  | Some outputType =>
      rbind
        (mapM (generateRelationField d model outputType)
              (List.filter (isRelationFieldOf outputType) (model_fields model)))
        (fun relationFields =>
           Ok {| rel_model := model; rel_outputType := Some outputType;
                 rel_relationFields := relationFields;
                 rel_resolverName := resolverName |})
  end.

(** ** The constructor of [DmmfDocument] ([dmmf/dmmf-document.ts]) *)

Definition isExposedRelation (field : ModelField) : bool :=
  bool_decide (is_Some (mf_relationName field)) &&
  negb (mf_isOmitted_output field).

(** The first [filter] of the relation models. *)
Definition hasExposedRelation (model : Model) : bool :=
  existsb isExposedRelation (model_fields model).

(** The second [filter] of the relation models. *)
Definition hasExposedRelationInOutput (d : DmmfDocument) (model : Model)
  : bool :=
  match outputTypeCache d !! model_name model with
  | None => false
  | Some outputType =>
      existsb
        (fun outputTypeField =>
           existsb
             (fun modelField =>
                String.eqb (mf_name modelField) (of_name outputTypeField) &&
                bool_decide (is_Some (mf_relationName modelField)) &&
                negb (mf_isOmitted_output modelField))
             (model_fields model))
        (output_fields outputType)
  end.

(** The models that are given a relation model, in order. *)
Definition relationModelSources (d : DmmfDocument) : list Model :=
  List.filter (hasExposedRelationInOutput d)
              (List.filter hasExposedRelation (models d)).

(** One step of the second pass over the raw models: the callback of
    [models.map(model => ...)], which transforms the fields against the
    current state of [this] and then fills the caches. *)
Definition transformAndCacheModel (d : DmmfDocument) (model : RawModel)
  : Model * DmmfDocument :=
  let transformed := transformModelWithFields d model in
  let modelFields :=
    fold_left (fun acc field => <[mf_name field := field]> acc)
              (model_fields transformed) (∅ : gmap string ModelField) in
  let fieldAliases :=
    fold_left
      (fun acc field =>
         if truthy (mf_typeFieldAlias field)
         then <[mf_name field := JS.template (mf_typeFieldAlias field)]> acc
         else acc)
      (model_fields transformed) (∅ : gmap string string) in
  (transformed,
   cacheModel (rm_name model) transformed modelFields fieldAliases d).

Fixpoint transformModelsWithFields (d : DmmfDocument) (rawModels : list RawModel)
  : list Model * DmmfDocument :=
  match rawModels with
  | [] => ([], d)
  | model :: rest =>
      let (transformed, d1) := transformAndCacheModel d model in
      let (others, d2) := transformModelsWithFields d1 rest in
      (transformed :: others, d2)
  end.

Definition cacheEnum (d : DmmfDocument) (enumType : RawEnum)
  : Enum * DmmfDocument :=
  let transformed := transformEnums d enumType in
  (transformed,
   set_enumsCache (<[re_name enumType := transformed]> (enumsCache d)) d).

Fixpoint transformAndCacheEnums (d : DmmfDocument) (enumTypes : list RawEnum)
  : list Enum * DmmfDocument :=
  match enumTypes with
  | [] => ([], d)
  | enumType :: rest =>
      let (transformed, d1) := cacheEnum d enumType in
      let (others, d2) := transformAndCacheEnums d1 rest in
      (transformed :: others, d2)
  end.

Definition cacheOutputTypes (d : DmmfDocument) : DmmfDocument :=
  fold_left
    (fun acc outputType =>
       cacheOutputType outputType
         (fold_left (fun fc field => <[of_name field := field]> fc)
                    (output_fields outputType)
                    (∅ : gmap string OutputSchemaField))
         acc)
    (schema_outputTypes d) d.

Definition newDmmfDocument (raw : RawDocument) (opts : GeneratorOptions)
  : M NameCache DmmfDocument :=
  run clearOutputTypeNameCache;
  let d0 := emptyDocument opts in
  let enumTypes :=
    orEmpty (rs_enumTypes_prisma (raw_schema raw)) ++
    orEmpty (rs_enumTypes_model (raw_schema raw)) in
  let rawModels :=
    rd_models (raw_datamodel raw) ++ rd_types (raw_datamodel raw) in
  (* transform bare model without fields *)
  let d1 := set_models (List.map transformBareModel rawModels) d0 in
  (* transform enums before model fields *)
  let d2 := set_enums (List.map (transformEnums d1) enumTypes) d1 in
  (* then transform once again to map the fields *)
  let (withFields, d3) := transformModelsWithFields d2 rawModels in
  let d4 := set_models withFields d3 in
  (* transform enums again to map renamed fields *)
  let (enumsAgain, d5) := transformAndCacheEnums d4 enumTypes in
  let d6 := set_enums enumsAgain d5 in
  let d7 :=
    set_datamodel (models d6)
      (List.map (transformEnums d6) (rd_enums (raw_datamodel raw))) d6 in
  do schema <- transformSchema (raw_schema raw) d7;
  let d8 := set_schema (fst schema) (snd schema) d7 in
  let d9 := cacheOutputTypes d8 in
  do mappings <- lift (transformMappings (raw_mappings raw) d9);
  let d10 := set_modelMappings mappings d9 in
  do relations <-
    lift (mapM (generateRelationModel d10) (relationModelSources d10));
  ret (set_relationModels relations d10).

End Transform.

(** ** Relation resolvers ([resolvers/relations.ts]) *)

Definition NL : string := String (ascii_of_nat 10) EmptyString.

(** One method of the emitted resolver class. *)
Record ResolverMethod : Type := {
  method_name : string;
  method_returnType : string;
  method_whereConditionString : string;
  method_statement : string;
}.

Record ResolverClass : Type := {
  class_name : string;
  class_methods : list ResolverMethod;
}.

(** The locals that the [forEach] over [model.fields] assigns. *)
Record FieldScan : Type := {
  fieldsCache : gmap string ModelField;
  singleIdField : option ModelField;
  singleUniqueField : option ModelField;
}.

Definition scanField (acc : FieldScan) (field : ModelField) : FieldScan :=
  {| fieldsCache := <[mf_name field := field]> (fieldsCache acc);
     singleIdField :=
       match singleIdField acc with
       | None => if mf_isId field then Some field else None
       | Some f => Some f
       end;
     singleUniqueField :=
       match singleUniqueField acc with
       | None => if mf_isUnique field then Some field else None
       | Some f => Some f
       end |}.

Definition scanFields (fields : list ModelField) : FieldScan :=
  fold_left scanField fields
    {| fieldsCache := ∅; singleIdField := None; singleUniqueField := None |}.

(** [names.map(n => fieldsCache.get(n) ?? throw ...)] *)
Definition lookupKeyFields (what modelName : string)
    (cache : gmap string ModelField) (names : list string)
  : result (list ModelField) :=
  mapM (fun n =>
          match cache !! n with
          | Some field => Ok field
          | None =>
              Throw (what +:+ " '" +:+ n +:+ "' not found in model '"
                     +:+ modelName +:+ "' fields")
          end)
       names.

(** The text of the filter on a single field. *)
Definition singleWhereCondition (rootArgName : string) (field : ModelField)
  : string :=
  NL +:+ "            " +:+ mf_name field +:+ ": " +:+ rootArgName +:+ "."
     +:+ mf_name field +:+ "," +:+ NL +:+ "          ".

(** The text of the filter on a composite key. *)
Definition compositeWhereCondition (rootArgName filterKeyName : string)
    (compositeFilterFields : list ModelField) : string :=
  NL +:+ "            " +:+ filterKeyName +:+ ": {" +:+ NL
     +:+ "              "
     +:+ JS.join NL
           (List.map (fun idField =>
                        mf_name idField +:+ ": " +:+ rootArgName +:+ "."
                        +:+ mf_name idField +:+ ",")
                     compositeFilterFields)
     +:+ NL +:+ "            }," +:+ NL +:+ "          ".

Definition optionOr {A} (a b : option A) : option A :=
  match a with
  | Some _ => a
  | None => b
  end.

Section RelationsResolver.

(** [camelCase] of [generator/helpers.ts] *)
Variable camelCase : string -> string.

(** [model.primaryKey?.name ?? model.uniqueIndexes[0]?.name ??
    compositeFilterFields.map(it => it.name).join("_")] *)
Definition filterKeyName (model : Model)
    (compositeFilterFields : list ModelField) : string :=
  match optionOr
          (match model_primaryKey model with
           | Some pk => pk_name pk
           | None => None
           end)
          (match List.nth_error (model_uniqueIndexes model) 0 with
           | Some ui => ui_name ui
           | None => None
           end) with
  | Some n => n
  | None => JS.join "_" (List.map mf_name compositeFilterFields)
  end.

(** The filter that every method of the class uses. *)
Definition whereConditionString (model : Model)
    (singleFilterField : option ModelField)
    (compositeFilterFields : list ModelField) : result string :=
  let rootArgName := camelCase (model_typeName model) in
  match singleFilterField with
  | Some field => Ok (singleWhereCondition rootArgName field)
  | None =>
      if (0 <? length compositeFilterFields)%nat
      then Ok (compositeWhereCondition rootArgName
                 (filterKeyName model compositeFilterFields)
                 compositeFilterFields)
      else Throw ("Unexpected error happened on generating "
                  +:+ "'whereConditionString' for "
                  +:+ model_typeName model +:+ " relation resolver")
  end.

Definition relationMethod (model : Model)
    (singleFilterField : option ModelField)
    (compositeFilterFields : list ModelField) (field : RelationField)
  : result ResolverMethod :=
  rbind (whereConditionString model singleFilterField compositeFilterFields)
    (fun whereCondition =>
       let f := relf_field field in
       Ok {| method_name :=
               match mf_typeFieldAlias f with
               | Some a => a
               | None => mf_name f
               end;
             method_returnType := "Promise<" +:+ mf_fieldTSType f +:+ ">";
             method_whereConditionString := whereCondition;
             method_statement :=
               " const { _count } = transformInfoIntoPrismaArgs(info);" +:+ NL
               +:+ "            return getPrismaFromContext(ctx)."
               +:+ camelCase (model_name model) +:+ ".findUniqueOrThrow({" +:+ NL
               +:+ "              where: {" +:+ whereCondition +:+ "}," +:+ NL
               +:+ "            })." +:+ mf_name f +:+ "({ "
               +:+ (if truthy (relf_argsTypeName field)
                    then NL +:+ "...args," else EmptyString) +:+ NL
               +:+ "              ...(_count && "
               +:+ "transformCountFieldIntoSelectRelationsCount(_count))," +:+ NL
               +:+ "            });" |}).

(** The class that [generateRelationsResolverClassesFromModel] adds to
    the source file of the model.  The calls to the AST builder that
    create the file and its imports cannot throw here and are left out. *)
Definition generateRelationsResolverClassesFromModel (rel : RelationModel)
  : result ResolverClass :=
  let model := rel_model rel in
  let scan := scanFields (model_fields model) in
  let singleFilterField :=
    optionOr (singleIdField scan) (singleUniqueField scan) in
  rbind
    (match model_primaryKey model with
     | Some pk =>
         lookupKeyFields "Primary key field" (model_name model)
                         (fieldsCache scan) (pk_fields pk)
     | None => Ok []
     end)
    (fun compositeIdFields =>
  rbind
    (match List.nth_error (model_uniqueIndexes model) 0 with
     | Some ui =>
         lookupKeyFields "Unique field" (model_name model)
                         (fieldsCache scan) (ui_fields ui)
     | None => Ok []
     end)
    (fun compositeUniqueFields =>
  let compositeFilterFields :=
    if (0 <? length compositeIdFields)%nat
    then compositeIdFields else compositeUniqueFields in
  rbind
    (mapM (relationMethod model singleFilterField compositeFilterFields)
          (rel_relationFields rel))
    (fun methods =>
       Ok {| class_name := rel_resolverName rel;
             class_methods := methods |}))).

End RelationsResolver.

(** ** The block generators and their orchestrator
    ([block-generation/block-generator-factory.ts]) *)

(** [timeElapsed] is a duration in milliseconds; its value plays no role
    but for being absent, zero or not. *)
Record GenerationMetrics : Type := {
  itemsGenerated : Z;
  timeElapsed : option Z;
}.

(** What the orchestrator does, as seen from outside: it enters and leaves
    [generate] of a block and calls the metrics callback. *)
Inductive Event : Type :=
| EvEnter (blockName : string)
| EvReturn (blockName : string) (metrics : GenerationMetrics)
| EvCallback (blockName : string) (metrics : GenerationMetrics).

Definition blockOrder : list string :=
  [ "enums"; "models"; "outputs"; "inputs"; "relationResolvers";
    "crudResolvers" ].

Section Orchestrator.

Local Open Scope js_scope.

(** Everything the generators, the logger and the callback act on: the
    AST project, the generators' own fields, the console. *)
Variable World : Type.

(** [BaseBlockGenerator]; [isOutputBlockGenerator] answers
    [generator instanceof OutputBlockGenerator]. *)
Record BlockGenerator : Type := {
  getBlockName : string;
  generate : M World GenerationMetrics;
  isOutputBlockGenerator : bool;
  getGeneratedOutputTypes : World -> list OutputType;
}.

(** The prologue shared by every [generate] of the repository:
    a block that should not be generated reports zero items. *)
Definition guardedGenerate (shouldGenerate : World -> bool)
    (body : M World GenerationMetrics) : M World GenerationMetrics :=
  fun w =>
    if shouldGenerate w then body w
    else (Ok {| itemsGenerated := 0; timeElapsed := None |}, w).

(** The state of a run of the orchestrator: the world and the record of
    what happened so far. *)
Record Run : Type := {
  world : World;
  trace : list Event;
}.

Definition emit (e : Event) : M Run unit :=
  modify (fun r => {| world := world r; trace := trace r ++ [e] |}).

(** Run a computation on the world inside a run. *)
Definition onWorld {A} (m : M World A) : M Run A :=
  fun r =>
    let (res, w) := m (world r) in
    (res, {| world := w; trace := trace r |}).

(** [initializeGenerators] *)
Definition initializeGenerators
    (enumGenerator modelGenerator inputGenerator outputGenerator
     relationResolverGenerator crudResolverGenerator : BlockGenerator)
  : gmap string BlockGenerator :=
  <["crudResolvers" := crudResolverGenerator]>
    (<["relationResolvers" := relationResolverGenerator]>
       (<["outputs" := outputGenerator]>
          (<["inputs" := inputGenerator]>
             (<["models" := modelGenerator]>
                (<["enums" := enumGenerator]> ∅))))).

Section GenerateAllBlocks.

Variable generators : gmap string BlockGenerator.
Variable log : string -> M World unit.
Variable metricsCallback :
  option (string -> GenerationMetrics -> M World unit).

(** The body of the [for] loop for one block name. *)
Definition generateBlock (outputTypesToGenerate : list OutputType)
    (blockName : string) : M Run (list OutputType) :=
  match generators !! blockName with
  | None => ret outputTypesToGenerate
  | Some generator =>
      run onWorld (log ("Generating " +:+ getBlockName generator +:+ "..."));
      run emit (EvEnter blockName);
      do metrics <- onWorld (generate generator);
      run emit (EvReturn blockName metrics);
      run (match metricsCallback with
           | Some callback =>
               if (0 <? itemsGenerated metrics)%Z
               then run emit (EvCallback blockName metrics);
                    onWorld (callback blockName metrics)
               else ret tt
           | None => ret tt
           end);
      if String.eqb blockName "outputs" && isOutputBlockGenerator generator
      then do r <- get; ret (getGeneratedOutputTypes generator (world r))
      else ret outputTypesToGenerate
  end.

Fixpoint generateBlocks (outputTypesToGenerate : list OutputType)
    (names : list string) : M Run (list OutputType) :=
  match names with
  | [] => ret outputTypesToGenerate
  | blockName :: rest =>
      do outputTypes <- generateBlock outputTypesToGenerate blockName;
      generateBlocks outputTypes rest
  end.

Definition generateAllBlocks : M Run (list OutputType) :=
  generateBlocks [] blockOrder.

End GenerateAllBlocks.

(** *** Reading a trace *)

(** The blocks whose [generate] was entered, in order. *)
Definition invocations (t : list Event) : list string :=
  flat_map (fun e => match e with EvEnter b => [b] | _ => [] end) t.

(** The blocks whose [generate] returned, with what they reported. *)
Definition returned (t : list Event) : list (string * GenerationMetrics) :=
  flat_map (fun e => match e with EvReturn b m => [(b, m)] | _ => [] end) t.

(** The calls of the metrics callback. *)
Definition callbacks (t : list Event) : list (string * GenerationMetrics) :=
  flat_map (fun e => match e with EvCallback b m => [(b, m)] | _ => [] end) t.

(** No [generate] is entered while another one is running: [running]
    is the block whose [generate] has been entered and has not returned. *)
Fixpoint sequentialFrom (running : option string) (t : list Event) : bool :=
  match t with
  | [] => true
  | EvEnter b :: t' =>
      match running with
      | None => sequentialFrom (Some b) t'
      | Some _ => false
      end
  | EvReturn b _ :: t' =>
      match running with
      | Some b' => String.eqb b b' && sequentialFrom None t'
      | None => false
      end
  | EvCallback _ _ :: t' => sequentialFrom running t'
  end.

End Orchestrator.

Arguments getBlockName {World} _.
Arguments generate {World} _.
Arguments isOutputBlockGenerator {World} _.
Arguments getGeneratedOutputTypes {World} _.
Arguments world {World} _.
Arguments trace {World} _.

(** ** The driver ([generate-code.ts]) *)

(** [formatGeneratedCode] as the user gives it:
    [boolean | "prettier" | "tsc" | "biome" | undefined]. *)
Inductive FormatOption : Type :=
| FormatFlag (b : bool)
| FormatWith (tool : FormatTool).

(** The options handed to [generateCode]. *)
Record BaseOptions : Type := {
  base_useUncheckedScalarInputs : bool;
  base_useSimpleInputs : bool;
  base_omitInputFieldsByDefault : option (list string);
  base_omitOutputFieldsByDefault : option (list string);
  base_emitOnly : option (list string);
  base_outputDirPath : string;
  base_emitTranspiledCode : option bool;
  base_formatGeneratedCode : option FormatOption;
}.

(** What reaches the metrics listener; the durations are clock readings
    and are left out. *)
Inductive SinkEvent : Type :=
| Metric (phase : string) (count : option Z)
| Complete.

Definition formatToolName (t : FormatTool) : string :=
  match t with
  | prettier => "prettier"
  | tsc => "tsc"
  | biome => "biome"
  end.

Definition resolveFormatGeneratedCodeOption (formatOption : option FormatOption)
  : option FormatTool :=
  match formatOption with
  | Some (FormatFlag false) => None
  | None => Some tsc
  | Some (FormatFlag true) => Some tsc
  | Some (FormatWith tool) => Some tool
  end.

Definition DQ : string := String (ascii_of_nat 34) EmptyString.

(** [JSON.stringify] of the default Prettier configuration. *)
Definition defaultPrettierConfig : string :=
  "{" +:+ DQ +:+ "semi" +:+ DQ +:+ ":true,"
      +:+ DQ +:+ "trailingComma" +:+ DQ +:+ ":" +:+ DQ +:+ "es5" +:+ DQ +:+ ","
      +:+ DQ +:+ "singleQuote" +:+ DQ +:+ ":false,"
      +:+ DQ +:+ "printWidth" +:+ DQ +:+ ":120,"
      +:+ DQ +:+ "tabWidth" +:+ DQ +:+ ":2,"
      +:+ DQ +:+ "useTabs" +:+ DQ +:+ ":false}".

Section CodeGenerator.

Local Open Scope js_scope.

(** The AST project in memory and the output tree on disk. *)
Variable Project : Type.
Variable Disk : Type.

(** What a run of the driver acts on. *)
Record PipelineWorld : Type := {
  pw_project : Project;
  pw_disk : Disk;
  pw_outputTypeNameCache : NameCache;
  pw_logged : list string;
  pw_sink : list SinkEvent;
}.

(** The helpers of the transformation, as in section [Transform]. *)
Variable parseDocumentationAttributes :
  option string -> string -> string -> Attributes.
Variable pascalCase : string -> string.
Variable cleanDocsString : option string -> option string.
Variable getInputTypeName : string -> DmmfDocument -> string.
Variable getModelNameFromInputType : string -> option string.
Variable getTypeGraphQLType :
  TypeInfo -> DmmfDocument -> option string -> option string ->
  option bool -> string.
Variable getFieldTSType :
  DmmfDocument -> TypeInfo -> bool -> bool -> option string ->
  option string -> string.
Variable transformMappings :
  list RawModelMapping -> DmmfDocument -> result (list ModelMapping).

(** The collaborators of the driver. *)
Variable ensureInstalledCorrectPrismaPackage : result unit.
Variable getBlocksToEmit : option (list string) -> list string.
Variable newProject : bool -> Project.
(** The six block generators, by the name they are registered under. *)
Variable newBlockGenerator :
  string -> DmmfDocument -> GeneratorOptions -> string ->
  BlockGenerator PipelineWorld.
(** The enhance map, the scalars, the helpers and the index file. *)
Variable generateAuxiliaryFiles :
  DmmfDocument -> list OutputType -> Project -> result Project.
Variable projectEmit : Project -> Disk -> result unit * Disk.
Variable projectSave : Project -> Disk -> result unit * Disk.
(** [execa(command, { cwd })]: the external formatter. *)
Variable execa : string -> string -> Disk -> result unit * Disk.
(** [fs.promises.access(path)] succeeds. *)
Variable fsAccess : string -> Disk -> bool.
Variable pathResolve : string -> string -> string.

(** Is a [MetricsListener] given, and has it an [onComplete]? *)
Variable hasMetrics : bool.
Variable hasOnComplete : bool.

Definition log (msg : string) : M PipelineWorld unit :=
  modify (fun w =>
            {| pw_project := pw_project w; pw_disk := pw_disk w;
               pw_outputTypeNameCache := pw_outputTypeNameCache w;
               pw_logged := pw_logged w ++ [msg];
               pw_sink := pw_sink w |}).

Definition toSink (e : SinkEvent) : M PipelineWorld unit :=
  modify (fun w =>
            {| pw_project := pw_project w; pw_disk := pw_disk w;
               pw_outputTypeNameCache := pw_outputTypeNameCache w;
               pw_logged := pw_logged w;
               pw_sink := pw_sink w ++ [e] |}).

(** [this.metrics?.emitMetric(phase, duration, count)] *)
Definition emitMetric (phase : string) (count : option Z)
  : M PipelineWorld unit :=
  if hasMetrics then toSink (Metric phase count) else ret tt.

Definition onProject (f : Project -> result Project) : M PipelineWorld unit :=
  fun w =>
    match f (pw_project w) with
    | Ok p => (Ok tt,
               {| pw_project := p; pw_disk := pw_disk w;
                  pw_outputTypeNameCache := pw_outputTypeNameCache w;
                  pw_logged := pw_logged w; pw_sink := pw_sink w |})
    | Throw msg => (Throw msg, w)
    end.

Definition onDisk {A} (f : Disk -> result A * Disk) : M PipelineWorld A :=
  fun w =>
    let (res, disk) := f (pw_disk w) in
    (res, {| pw_project := pw_project w; pw_disk := disk;
             pw_outputTypeNameCache := pw_outputTypeNameCache w;
             pw_logged := pw_logged w; pw_sink := pw_sink w |}).

Definition onNameCache {A} (m : M NameCache A) : M PipelineWorld A :=
  fun w =>
    let (res, cache) := m (pw_outputTypeNameCache w) in
    (res, {| pw_project := pw_project w; pw_disk := pw_disk w;
             pw_outputTypeNameCache := cache;
             pw_logged := pw_logged w; pw_sink := pw_sink w |}).

Definition resolveOptions (baseOptions : BaseOptions) : GeneratorOptions :=
  {| useUncheckedScalarInputs := base_useUncheckedScalarInputs baseOptions;
     useSimpleInputs := base_useSimpleInputs baseOptions;
     omitInputFieldsByDefault := base_omitInputFieldsByDefault baseOptions;
     omitOutputFieldsByDefault := base_omitOutputFieldsByDefault baseOptions;
     blocksToEmit := getBlocksToEmit (base_emitOnly baseOptions);
     outputDirPath := base_outputDirPath baseOptions;
     emitTranspiledCode := base_emitTranspiledCode baseOptions;
     formatGeneratedCode :=
       resolveFormatGeneratedCodeOption
         (base_formatGeneratedCode baseOptions) |}.

(** The command line of each formatter, inside the [try]. *)
Definition runFormatter (tool : FormatTool) (baseDirPath : string)
  : M PipelineWorld unit :=
  match tool with
  | tsc =>
      run onDisk (execa ("tsc " +:+ JS.join " "
                           ["--noEmit"; "--project"; baseDirPath])
                        baseDirPath);
      emitMetric "tsc-formatting" None
  | prettier =>
      let prettierArgs :=
        [ "--write"; baseDirPath +:+ "/**/*.ts"; "--ignore-path";
          pathResolve baseDirPath ".prettierignore" ] in
      do w <- get;
      let prettierArgs :=
        if fsAccess (pathResolve baseDirPath ".prettierrc") (pw_disk w)
        then prettierArgs
        else prettierArgs ++ ["--config"; defaultPrettierConfig] in
      run onDisk (execa ("npx prettier " +:+ JS.join " " prettierArgs)
                        baseDirPath);
      emitMetric "prettier-formatting" None
  | biome =>
      (* whether [biome.json] can be accessed changes nothing *)
      let biomeArgs := ["format"; "--write"; baseDirPath +:+ "/**/*.ts"] in
      run onDisk (execa ("npx biome " +:+ JS.join " " biomeArgs) baseDirPath);
      emitMetric "biome-formatting" None
  end.

(** [if (options.formatGeneratedCode) { try { ... } catch (error) { ... } }] *)
Definition formatGeneratedCodeStep (options : GeneratorOptions)
  : M PipelineWorld unit :=
  match formatGeneratedCode options with
  | None => ret tt
  | Some tool =>
      tryCatch
        (run log ("Formatting generated code with " +:+ formatToolName tool);
         run runFormatter tool (outputDirPath options);
         emitMetric "code-formatting" None)
        (fun message => log ("Warning: Code formatting failed: " +:+ message))
  end.

(** The metrics callback handed to the orchestrator. *)
Definition blockMetricsCallback (blockName : string)
    (metrics : GenerationMetrics) : M PipelineWorld unit :=
  if hasMetrics &&
     match timeElapsed metrics with
     | Some t => negb (t =? 0)%Z
     | None => false
     end
  then toSink (Metric (blockName +:+ "-generation")
                      (Some (itemsGenerated metrics)))
  else ret tt.

(** Everything up to and including the persistence of the output tree. *)
Definition generateAndPersist (dmmf : RawDocument)
    (options : GeneratorOptions) : M (Run PipelineWorld) unit :=
  let baseDirPath := outputDirPath options in
  let emitTranspiled :=
    match emitTranspiledCode options with
    | Some b => b
    | None => JS.includes "node_modules" (outputDirPath options)
    end in
  run onWorld _ (onProject (fun _ => Ok (newProject emitTranspiled)));
  run onWorld _ (log "Transforming dmmfDocument...");
  do dmmfDocument <-
    onWorld _
      (onNameCache
         (newDmmfDocument parseDocumentationAttributes pascalCase
            cleanDocsString getInputTypeName getModelNameFromInputType
            getTypeGraphQLType getFieldTSType transformMappings
            dmmf options));
  run onWorld _ (emitMetric "dmmf-document-creation" None);
  let generator kind :=
    newBlockGenerator kind dmmfDocument options baseDirPath in
  do outputTypesToGenerate <-
    generateAllBlocks _
      (initializeGenerators _
         (generator "enums") (generator "models") (generator "inputs")
         (generator "outputs") (generator "relationResolvers")
         (generator "crudResolvers"))
      log (Some blockMetricsCallback);
  run onWorld _ (log "Generate auxiliary files");
  run onWorld _
    (onProject (generateAuxiliaryFiles dmmfDocument outputTypesToGenerate));
  run onWorld _ (emitMetric "auxiliary-files" None);
  run onWorld _ (log "Emitting final code");
  if emitTranspiled then
    run onWorld _ (log "Transpiling generated code");
    onWorld _ (do w <- get; onDisk (projectEmit (pw_project w)))
  else
    run onWorld _ (log "Saving generated code");
    run onWorld _ (do w <- get; onDisk (projectSave (pw_project w)));
    onWorld _ (emitMetric "save-files" None).

(** The formatting step and the closing metrics. *)
Definition formatAndReport (options : GeneratorOptions)
  : M (Run PipelineWorld) unit :=
  run onWorld _ (formatGeneratedCodeStep options);
  run onWorld _ (emitMetric "code-emission" None);
  run onWorld _ (emitMetric "total-generation" None);
  onWorld _ (if hasMetrics && hasOnComplete then toSink Complete else ret tt).

(** [CodeGenerator.generate] *)
Definition generateCode (dmmf : RawDocument) (baseOptions : BaseOptions)
  : M (Run PipelineWorld) unit :=
  run lift ensureInstalledCorrectPrismaPackage;
  let options := resolveOptions baseOptions in
  run generateAndPersist dmmf options;
  formatAndReport options.

End CodeGenerator.

(** ** Further lookups of [DmmfDocument] *)

(** The cache of enums is filled under the source name of each enum. *)
Definition getEnumByTypeName (d : DmmfDocument) (typeName : string)
  : option Enum :=
  enumsCache d !! typeName.

(** ** The source file of a relation resolver ([resolvers/relations.ts]) *)

(** What [generateRelationsResolverClassesFromModel] puts into the
    source file it creates: the names given to [generateModelsImports]
    and to [generateArgsImports], and the class. *)
Record RelationsResolverFile : Type := {
  file_directory : string;
  file_name : string;
  file_modelsImports : list (option string);
  file_argsImports : list string;
  file_class : ResolverClass;
}.

(** [relationFields.filter(it => it.argsTypeName !== undefined).map(it =>
    { if (!it.argsTypeName) throw ...; return it.argsTypeName; })] *)
Definition argTypeNames (relationFields : list RelationField)
  : result (list string) :=
  mapM (fun it =>
          if negb (truthy (relf_argsTypeName it))
          then Throw ("Expected argsTypeName to be defined for relation "
                      +:+ "field after filtering, but got "
                      +:+ JS.template (relf_argsTypeName it))
          else Ok (JS.template (relf_argsTypeName it)))
       (List.filter
          (fun it => bool_decide (is_Some (relf_argsTypeName it)))
          relationFields).

Section RelationsResolverFile.

Variable camelCase : string -> string.

(** The whole of [generateRelationsResolverClassesFromModel], with the
    imports of the source file: the key fields are looked up first, then
    the names of the argument types are collected, then the methods are
    built. *)
Definition generateRelationsResolverFile (rel : RelationModel)
  : result RelationsResolverFile :=
  let model := rel_model rel in
  let scan := scanFields (model_fields model) in
  let singleFilterField :=
    optionOr (singleIdField scan) (singleUniqueField scan) in
  rbind
    (match model_primaryKey model with
     | Some pk =>
         lookupKeyFields "Primary key field" (model_name model)
                         (fieldsCache scan) (pk_fields pk)
     | None => Ok []
     end)
    (fun compositeIdFields =>
  rbind
    (match List.nth_error (model_uniqueIndexes model) 0 with
     | Some ui =>
         lookupKeyFields "Unique field" (model_name model)
                         (fieldsCache scan) (ui_fields ui)
     | None => Ok []
     end)
    (fun compositeUniqueFields =>
  let compositeFilterFields :=
    if (0 <? length compositeIdFields)%nat
    then compositeIdFields else compositeUniqueFields in
  rbind (argTypeNames (rel_relationFields rel))
    (fun argNames =>
  rbind
    (mapM (relationMethod camelCase model singleFilterField
             compositeFilterFields)
          (rel_relationFields rel))
    (fun methods =>
       Ok {| file_directory := model_typeName model;
             file_name := rel_resolverName rel +:+ ".ts";
             file_modelsImports :=
               List.map relf_type (rel_relationFields rel)
               ++ [Some (model_typeName model)];
             file_argsImports := argNames;
             file_class :=
               {| class_name := rel_resolverName rel;
                  class_methods := methods |} |})))).

End RelationsResolverFile.

(** ** The class of a model ([model-type-class.ts]) *)

(** A decorator: its name and its arguments. *)
Record Decorator : Type := {
  decorator_name : string;
  decorator_arguments : list string;
}.

Record ClassProperty : Type := {
  prop_name : string;
  prop_type : string;
  prop_hasExclamationToken : bool;
  prop_hasQuestionToken : bool;
  prop_trailingTrivia : string;
  prop_decorators : list Decorator;
  prop_docs : option string;
}.

Record ClassAccessor : Type := {
  acc_name : string;
  acc_returnType : string;
  acc_trailingTrivia : string;
  acc_decorators : list Decorator;
  acc_statements : list string;
  acc_docs : option string;
}.

(** What [generateObjectTypeClassFromModel] puts into the source file of
    a model: the names given to the import helpers, and the class. *)
Record ModelClassFile : Type := {
  mcf_fileName : string;
  mcf_modelsImports : list (option string);
  mcf_enumsImports : list string;
  mcf_resolversOutputsImports : option (list string);
  mcf_className : string;
  mcf_isExported : bool;
  mcf_decorators : list Decorator;
  mcf_properties : list ClassProperty;
  mcf_getAccessors : list ClassAccessor;
  mcf_docs : option string;
}.

(** A boolean inside a template literal. *)
Definition boolText (b : bool) : string :=
  if b then "true" else "false".

Definition CRLF : string :=
  String (ascii_of_nat 13) (String (ascii_of_nat 10) EmptyString).

Section ModelTypeClass.

(** [convertNewLines] of [generator/helpers.ts] *)
Variable convertNewLines : string -> string.

(** [options.emitIsAbstract] and [options.simpleResolvers]: two options
    that the record of options above does not hold. *)
Variable emitIsAbstract : bool.
Variable simpleResolvers : bool.

(** [...(docs && { docs: [{ description: `\n${convertNewLines(docs)}` }] })] *)
Definition docsOf (docs : option string) : option string :=
  match docs with
  | Some text =>
      if truthy docs then Some (NL +:+ convertNewLines text) else None
  | None => None
  end.

(** The options object of [TypeGraphQL.Field]. *)
Definition fieldDecoratorOptions (nullable : bool) (docs : option string)
  : string :=
  "{ " +:+
  JS.join ", "
    (("nullable: " +:+ boolText nullable) ::
     (if truthy docs
      then ["description: " +:+ DQ +:+ JS.template docs +:+ DQ]
      else []))
  +:+ " }".

(** The property of the class for a field of the model. *)
Definition fieldProperty (field : ModelField) : ClassProperty :=
  let isOptional :=
    truthy (mf_relationName field) ||
    mf_isOmitted_output field ||
    (negb (mf_isRequired field) &&
     negb (bool_decide (is_Some (mf_typeFieldAlias field)))) in
  {| prop_name := mf_name field;
     prop_type := mf_fieldTSType field;
     prop_hasExclamationToken := negb isOptional;
     prop_hasQuestionToken := isOptional;
     prop_trailingTrivia := CRLF;
     prop_decorators :=
       if truthy (mf_relationName field) ||
          truthy (mf_typeFieldAlias field) ||
          mf_isOmitted_output field
       then []
       else [ {| decorator_name := "TypeGraphQL.Field";
                 decorator_arguments :=
                   [ "_type => " +:+ mf_typeGraphQLType field;
                     fieldDecoratorOptions isOptional (mf_docs field) ] |} ];
     prop_docs := docsOf (mf_docs field) |}.

(** The property of the class for the field [_count] of the output type. *)
Definition countProperty (countField : OutputSchemaField) : ClassProperty :=
  {| prop_name := of_name countField;
     prop_type := of_fieldTSType countField;
     prop_hasExclamationToken := of_isRequired countField;
     prop_hasQuestionToken := negb (of_isRequired countField);
     prop_trailingTrivia := CRLF;
     prop_decorators :=
       [ {| decorator_name := "TypeGraphQL.Field";
            decorator_arguments :=
              [ "_type => " +:+ of_typeGraphQLType countField;
                "{ nullable: " +:+ boolText (negb (of_isRequired countField))
                +:+ " }" ] |} ];
     prop_docs := None |}.

(** The fields that are exposed under their alias by an accessor. *)
Definition hasAccessor (field : ModelField) : bool :=
  truthy (mf_typeFieldAlias field) &&
  negb (truthy (mf_relationName field)) &&
  negb (mf_isOmitted_output field).

Definition fieldAccessor (field : ModelField) : ClassAccessor :=
  {| acc_name := JS.template (mf_typeFieldAlias field);
     acc_returnType := mf_fieldTSType field;
     acc_trailingTrivia := CRLF;
     acc_decorators :=
       [ {| decorator_name := "TypeGraphQL.Field";
            decorator_arguments :=
              [ "_type => " +:+ mf_typeGraphQLType field;
                fieldDecoratorOptions (negb (mf_isRequired field))
                                      (mf_docs field) ] |} ];
     acc_statements :=
       [ if mf_isRequired field
         then "return this." +:+ mf_name field +:+ ";"
         else "return this." +:+ mf_name field +:+ " ?? null;" ];
     acc_docs := docsOf (mf_docs field) |}.

(** The options object of [TypeGraphQL.ObjectType]. *)
Definition objectTypeOptions (model : Model) : string :=
  let options :=
    (if emitIsAbstract then ["isAbstract: true"] else []) ++
    (if truthy (model_docs model)
     then ["description: " +:+ DQ +:+ JS.template (model_docs model) +:+ DQ]
     else []) ++
    (if simpleResolvers then ["simpleResolvers: true"] else []) in
  if (0 <? length options)%nat
  then "{ " +:+ JS.join ", " options +:+ " }"
  else "{}".

(** [generateObjectTypeClassFromModel] *)
Definition generateObjectTypeClassFromModel (model : Model)
    (modelOutputType : OutputType) (d : DmmfDocument) : ModelClassFile :=
  let countField :=
    getOutputTypeField d (output_name modelOutputType) "_count" in
  let shouldEmitCountField :=
    bool_decide (is_Some countField) &&
    shouldGenerateBlock d "crudResolvers" in
  {| mcf_fileName := model_typeName model +:+ ".ts";
     mcf_modelsImports :=
       List.map
         (fun field =>
            if isModelName d (mf_type field)
            then getModelTypeName d (mf_type field)
            else Some (mf_type field))
         (List.filter
            (fun field => negb (String.eqb (mf_type field) (model_name model)))
            (List.filter
               (fun field =>
                  FieldLocation_eqb (mf_location field) outputObjectTypes)
               (model_fields model)));
     mcf_enumsImports :=
       List.map mf_type
         (List.filter
            (fun field => FieldLocation_eqb (mf_location field) enumTypes)
            (model_fields model));
     mcf_resolversOutputsImports :=
       match countField with
       | Some field =>
           if shouldEmitCountField then Some [of_typeGraphQLType field]
           else None
       | None => None
       end;
     mcf_className := model_typeName model;
     mcf_isExported := true;
     mcf_decorators :=
       if model_isOmitted_output model then []
       else [ {| decorator_name := "TypeGraphQL.ObjectType";
                 decorator_arguments :=
                   [ DQ +:+ model_typeName model +:+ DQ;
                     objectTypeOptions model ] |} ];
     mcf_properties :=
       List.map fieldProperty (model_fields model) ++
       match countField with
       | Some field => if shouldEmitCountField then [countProperty field] else []
       | None => []
       end;
     mcf_getAccessors :=
       List.map fieldAccessor (List.filter hasAccessor (model_fields model));
     mcf_docs := docsOf (model_docs model) |}.

End ModelTypeClass.

(** ** The block generators ([block-generation/*.ts]) *)

(** What a block generator adds to the AST project: the calls that
    create source files, with what they are given.  The helpers of
    [enum.ts], [type-class.ts] and [imports.ts] are not among the sources;
    a call of one of them is recorded with its arguments and is taken not
    to throw.  The directory of a file is recorded by the folders below
    the base directory; the names of the folders are those of
    [generator/config.ts]. *)
Inductive PathSegment : Type :=
| resolversFolderName
| outputsFolderName
| relationsResolversFolderName
| argsFolderName
| Folder (name : string).

Inductive Emission : Type :=
| EnumFile (enumDef : Enum)
| ModelFile (file : ModelClassFile)
| InputTypeFile (type : InputType)
| OutputTypeFile (type : OutputType)
| ArgsFile (directory : list PathSegment) (args : list SchemaArg)
           (argsTypeName : string)
| RelationsResolverSourceFile (file : RelationsResolverFile)
| EnumsBarrelFile (names : list string)
| ModelsBarrelFile (names : list string)
| InputsBarrelFile (names : list string)
| OutputsBarrelFile (names : list string) (hasSomeArgs : bool)
| ArgsBarrelFile (directory : list PathSegment) (names : list string)
| ResolversBarrelFile (directory : list PathSegment)
                      (resolvers : list (string * string))
| ArgsIndexFile (directory : list PathSegment) (modelNames : list string)
| ResolversIndexFile (directory : list PathSegment) (kind : string)
                     (hasSomeArgs : bool).

(** The world of the block generators: the project, the field
    [outputTypesToGenerate] of the generator of output types, and the
    readings of [performance.now()] still to come. *)
Record GeneratorWorld : Type := {
  gw_project : list Emission;
  gw_outputTypesToGenerate : list OutputType;
  gw_clock : list Z;
}.

Definition addToProject (e : Emission) : M GeneratorWorld unit :=
  modify (fun w =>
            {| gw_project := gw_project w ++ [e];
               gw_outputTypesToGenerate := gw_outputTypesToGenerate w;
               gw_clock := gw_clock w |}).

Definition setOutputTypesToGenerate (types : list OutputType)
  : M GeneratorWorld unit :=
  modify (fun w =>
            {| gw_project := gw_project w;
               gw_outputTypesToGenerate := types;
               gw_clock := gw_clock w |}).

(** [performance.now()] *)
Definition performanceNow : M GeneratorWorld Z :=
  fun w =>
    match gw_clock w with
    | t :: later =>
        (Ok t, {| gw_project := gw_project w;
                  gw_outputTypesToGenerate := gw_outputTypesToGenerate w;
                  gw_clock := later |})
    | [] => (Ok 0%Z, w)
    end.

(** [xs.forEach(f)] for a callback that acts on the state and may throw. *)
Fixpoint forEachM {S A} (f : A -> M S unit) (l : list A) : M S unit :=
  match l with
  | [] => ret tt
  | x :: l' => bind (f x) (fun _ => forEachM f l')
  end.

(** [Array.from(new Set(names))]: the first occurrence of every name, in
    order. *)
Fixpoint uniqueAfter (seen names : list string) : list string :=
  match names with
  | [] => []
  | n :: rest =>
      if existsb (String.eqb n) seen then uniqueAfter seen rest
      else n :: uniqueAfter (n :: seen) rest
  end.

Definition unique (names : list string) : list string :=
  uniqueAfter [] names.

Section BlockGenerators.

Local Open Scope js_scope.

Variable d : DmmfDocument.

(** The metrics that a generator returns at the end of [generate]. *)
Definition metricsSince (startTime : Z) (items : nat)
  : M GeneratorWorld GenerationMetrics :=
  do endTime <- performanceNow;
  ret {| itemsGenerated := Z.of_nat items;
         timeElapsed := Some (endTime - startTime)%Z |}.

(** *** [EnumBlockGenerator]

    [schema.enums] is the array [this.enums] of the document. *)
Definition allEnums : list Enum :=
  datamodel_enums d ++
  List.filter
    (fun enumDef =>
       negb (existsb (String.eqb (enum_typeName enumDef))
                     (List.map enum_typeName (datamodel_enums d))))
    (enums d).

Definition emittedEnumNames : list string :=
  unique (List.map enum_typeName (enums d)
          ++ List.map enum_typeName (datamodel_enums d)).

Definition enumBlockGenerate : M GeneratorWorld GenerationMetrics :=
  guardedGenerate GeneratorWorld (fun _ => shouldGenerateBlock d "enums")
    (do startTime <- performanceNow;
     run forEachM (fun enumDef => addToProject (EnumFile enumDef)) allEnums;
     run addToProject (EnumsBarrelFile emittedEnumNames);
     metricsSince startTime (length allEnums)).

(** *** [InputBlockGenerator] *)
Definition inputBlockGenerate : M GeneratorWorld GenerationMetrics :=
  guardedGenerate GeneratorWorld (fun _ => shouldGenerateBlock d "inputs")
    (do startTime <- performanceNow;
     run forEachM (fun type => addToProject (InputTypeFile type))
                  (schema_inputTypes d);
     run addToProject
           (InputsBarrelFile (List.map input_typeName (schema_inputTypes d)));
     metricsSince startTime (length (schema_inputTypes d))).

(** *** [OutputBlockGenerator]

    [rootTypes] holds the elements of [schema.outputTypes] named [Query]
    or [Mutation], so that [rootTypes.includes(type)] holds of an element
    of [schema.outputTypes] exactly when it has one of these names. *)
Definition isRootType (type : OutputType) : bool :=
  existsb (String.eqb (output_name type)) ["Query"; "Mutation"].

Definition outputTypesToGenerate : list OutputType :=
  let modelNames := List.map model_name (datamodel_models d) in
  List.filter
    (fun type =>
       negb (existsb (String.eqb (output_name type)) modelNames) &&
       negb (isRootType type))
    (schema_outputTypes d).

Definition outputTypesFieldsArgsToGenerate : list OutputSchemaField :=
  List.filter (fun it => truthy (of_argsTypeName it))
    (fold_left (fun a b => a ++ b)
               (List.map output_fields outputTypesToGenerate) []).

Definition outputArgsFile (field : OutputSchemaField)
  : M GeneratorWorld unit :=
  if negb (truthy (of_argsTypeName field))
  then throw ("Expected argsTypeName to be defined for field after "
              +:+ "filtering, but got "
              +:+ JS.template (of_argsTypeName field))
  else addToProject
         (ArgsFile [resolversFolderName; outputsFolderName] (of_args field)
                   (JS.template (of_argsTypeName field))).

Definition outputArgsBarrelNames (fields : list OutputSchemaField)
  : result (list string) :=
  mapM (fun it =>
          if negb (truthy (of_argsTypeName it))
          then Throw ("Expected argsTypeName to be defined after filtering, "
                      +:+ "but got " +:+ JS.template (of_argsTypeName it))
          else Ok (JS.template (of_argsTypeName it)))
       fields.

Definition outputBlockGenerate : M GeneratorWorld GenerationMetrics :=
  guardedGenerate GeneratorWorld (fun _ => shouldGenerateBlock d "outputs")
    (do startTime <- performanceNow;
     run setOutputTypesToGenerate outputTypesToGenerate;
     run forEachM (fun type => addToProject (OutputTypeFile type))
                  outputTypesToGenerate;
     run (if (0 <? length outputTypesFieldsArgsToGenerate)%nat
          then
            run forEachM outputArgsFile outputTypesFieldsArgsToGenerate;
            do names <-
              lift (outputArgsBarrelNames outputTypesFieldsArgsToGenerate);
            addToProject
              (ArgsBarrelFile
                 [resolversFolderName; outputsFolderName; argsFolderName]
                 names)
          else ret tt);
     run addToProject
           (OutputsBarrelFile
              (List.map output_typeName outputTypesToGenerate)
              (existsb
                 (fun type =>
                    existsb (fun field => truthy (of_argsTypeName field))
                            (output_fields type))
                 outputTypesToGenerate));
     metricsSince startTime (length outputTypesToGenerate)).

(** *** [ModelBlockGenerator] *)
Section ModelBlock.

Variable convertNewLines : string -> string.
Variable emitIsAbstract : bool.
Variable simpleResolvers : bool.

Definition modelFile (model : Model) : M GeneratorWorld unit :=
  match outputTypeCache d !! model_name model with
  | None =>
      throw ("Model " +:+ model_name model +:+ " has no output type. "
             +:+ "This indicates a problem with the DMMF document "
             +:+ "processing.")
  | Some modelOutputType =>
      addToProject
        (ModelFile
           (generateObjectTypeClassFromModel convertNewLines emitIsAbstract
              simpleResolvers model modelOutputType d))
  end.

Definition modelBlockGenerate : M GeneratorWorld GenerationMetrics :=
  guardedGenerate GeneratorWorld (fun _ => shouldGenerateBlock d "models")
    (do startTime <- performanceNow;
     run forEachM modelFile (datamodel_models d);
     run addToProject
           (ModelsBarrelFile (List.map model_typeName (datamodel_models d)));
     metricsSince startTime (length (datamodel_models d))).

End ModelBlock.

(** *** [RelationResolverBlockGenerator] *)
Section RelationResolverBlock.

Variable camelCase : string -> string.

Definition relationsFolder : list PathSegment :=
  [resolversFolderName; relationsResolversFolderName].

Definition relationResolverFile (relationModel : RelationModel)
  : M GeneratorWorld unit :=
  do file <- lift (generateRelationsResolverFile camelCase relationModel);
  addToProject (RelationsResolverSourceFile file).

Definition relationModelsWithArgs : list RelationModel :=
  List.filter
    (fun relationModelData =>
       existsb (fun it => bool_decide (is_Some (relf_argsTypeName it)))
               (rel_relationFields relationModelData))
    (relationModels d).

(** [generateBarrelFiles] *)
Definition relationBarrelFiles : M GeneratorWorld unit :=
  run addToProject
        (ResolversBarrelFile relationsFolder
           (List.map (fun relationModel =>
                        (rel_resolverName relationModel,
                         model_typeName (rel_model relationModel)))
                     (relationModels d)));
  run (if (0 <? length relationModelsWithArgs)%nat
       then addToProject
              (ArgsIndexFile relationsFolder
                 (List.map (fun relationModelData =>
                              model_typeName (rel_model relationModelData))
                           relationModelsWithArgs))
       else ret tt);
  addToProject
    (ResolversIndexFile relationsFolder "relations"
       (0 <? length relationModelsWithArgs)%nat).

Definition relationArgsFile (resolverDirPath : list PathSegment)
    (field : RelationField) : M GeneratorWorld unit :=
  if negb (truthy (relf_argsTypeName field))
  then throw ("Expected argsTypeName to be defined for relation field "
              +:+ "after filtering, but got "
              +:+ JS.template (relf_argsTypeName field))
  else
    match relf_outputTypeField field with
    | None => throw "TypeError: Cannot read properties of undefined"
    | Some outputTypeField =>
        addToProject
          (ArgsFile resolverDirPath (of_args outputTypeField)
                    (JS.template (relf_argsTypeName field)))
    end.

Definition relationArgsBarrelNames (relationFields : list RelationField)
  : result (list string) :=
  mapM (fun it =>
          if negb (truthy (relf_argsTypeName it))
          then Throw ("Expected argsTypeName to be defined after filtering, "
                      +:+ "but got " +:+ JS.template (relf_argsTypeName it))
          else Ok (JS.template (relf_argsTypeName it)))
       (List.filter
          (fun it => bool_decide (is_Some (relf_argsTypeName it)))
          relationFields).

(** The body of the loop of [generateArgs]. *)
Definition relationArgsOf (relationModelData : RelationModel)
  : M GeneratorWorld unit :=
  let resolverDirPath :=
    relationsFolder ++ [Folder (model_typeName (rel_model relationModelData))]
  in
  let fieldsWithArgs :=
    List.filter (fun field => truthy (relf_argsTypeName field))
                (rel_relationFields relationModelData) in
  run forEachM (relationArgsFile resolverDirPath) fieldsWithArgs;
  do argTypeNames <-
    lift (relationArgsBarrelNames (rel_relationFields relationModelData));
  if (0 <? length argTypeNames)%nat
  then addToProject
         (ArgsBarrelFile (resolverDirPath ++ [argsFolderName]) argTypeNames)
  else ret tt.

Definition relationResolverBlockGenerate
  : M GeneratorWorld GenerationMetrics :=
  guardedGenerate GeneratorWorld
    (fun _ => (0 <? length (relationModels d))%nat &&
              shouldGenerateBlock d "relationResolvers")
    (do startTime <- performanceNow;
     run forEachM relationResolverFile (relationModels d);
     run relationBarrelFiles;
     run forEachM relationArgsOf (relationModels d);
     metricsSince startTime (length (relationModels d))).

End RelationResolverBlock.

End BlockGenerators.

(** *** The generators of [BlockGeneratorFactory] *)

Section Factory.

Variable d : DmmfDocument.
Variable convertNewLines : string -> string.
Variable emitIsAbstract : bool.
Variable simpleResolvers : bool.
Variable camelCase : string -> string.

(** [CrudResolverBlockGenerator] depends on the actions of the model
    mappings, which the document here does not hold; its [generate] is
    taken as given. *)
Variable crudResolverBlockGenerate : M GeneratorWorld GenerationMetrics.

(** A generator other than the one of output types. *)
Definition blockGenerator (name : string)
    (generateBlockOf : M GeneratorWorld GenerationMetrics)
  : BlockGenerator GeneratorWorld :=
  {| getBlockName := name;
     generate := generateBlockOf;
     isOutputBlockGenerator := false;
     getGeneratedOutputTypes := fun _ => [] |}.

Definition outputBlockGenerator : BlockGenerator GeneratorWorld :=
  {| getBlockName := "outputs";
     generate := outputBlockGenerate d;
     isOutputBlockGenerator := true;
     getGeneratedOutputTypes := gw_outputTypesToGenerate |}.

(** The generators that the constructor of the factory registers. *)
Definition blockGenerators : gmap string (BlockGenerator GeneratorWorld) :=
  initializeGenerators GeneratorWorld
    (blockGenerator "enums" (enumBlockGenerate d))
    (blockGenerator "models"
       (modelBlockGenerate d convertNewLines emitIsAbstract simpleResolvers))
    (blockGenerator "inputs" (inputBlockGenerate d))
    outputBlockGenerator
    (blockGenerator "relationResolvers"
       (relationResolverBlockGenerate d camelCase))
    (blockGenerator "crudResolvers" crudResolverBlockGenerate).

End Factory.

(** ** The metrics collector ([metrics.ts]) *)

Section MetricsCollector.

(** The durations are JavaScript numbers.  They are only added, divided
    by a count, compared and printed; nothing is assumed of these
    operations. *)
Variable Num : Type.
Variable zero : Num.
Variable add : Num -> Num -> Num.
Variable divide : Num -> nat -> Num.
Variable minOf : list Num -> Num.
Variable maxOf : list Num -> Num.
(** [duration.toFixed(2)] and a count or a timestamp inside a template. *)
Variable toFixed2 : Num -> string.
Variable showNumber : Z -> string.
(** [Record<string, any>] *)
Variable Details : Type.
(** The chart sign and the blank that start a line of [logMetric]. *)
Variable metricSign : string.

Record MetricData : Type := {
  metric_phase : string;
  metric_duration : option Num;
  metric_count : option Z;
  metric_details : option Details;
  metric_timestamp : Z;
}.

(** An entry of the result of [getPhaseStatistics]. *)
Record PhaseStatistics : Type := {
  stat_phase : string;
  stat_totalTime : Num;
  stat_avgTime : Num;
  stat_count : nat;
  stat_minTime : Num;
  stat_maxTime : Num;
}.

(** The lines that [onComplete] prints for a collector that logs: they
    are made from the total duration, the statistics of the phases and
    the metrics. *)
Variable summaryLines :
  Num -> list PhaseStatistics -> list MetricData -> list string.

(** [SimpleMetricsCollector], with the console it writes to.
    [phaseTimings] is a [Map], whose entries keep the order in which
    their keys were first set. *)
Record Collector : Type := {
  metrics : list MetricData;
  phaseTimings : list (string * list Num);
  startTime : Z;
  verboseLogging : bool;
  console : list string;
}.

(** [new SimpleMetricsCollector(verboseLogging)] at the time [now]. *)
Definition newCollector (verbose : option bool) (now : Z) : Collector :=
  {| metrics := [];
     phaseTimings := [];
     startTime := now;
     verboseLogging := match verbose with Some b => b | None => false end;
     console := [] |}.

(** [if (!phaseTimings.has(phase)) phaseTimings.set(phase, []);
     phaseTimings.get(phase)!.push(duration)] *)
Fixpoint pushTiming (phase : string) (duration : Num)
    (timings : list (string * list Num)) : list (string * list Num) :=
  match timings with
  | [] => [(phase, [duration])]
  | (p, durations) :: rest =>
      if String.eqb p phase
      then (p, durations ++ [duration]) :: rest
      else (p, durations) :: pushTiming phase duration rest
  end.

Definition consoleLog (line : string) (c : Collector) : Collector :=
  {| metrics := metrics c; phaseTimings := phaseTimings c;
     startTime := startTime c; verboseLogging := verboseLogging c;
     console := console c ++ [line] |}.

Definition logMetric (metric : MetricData) (c : Collector) : Collector :=
  let parts :=
    [ "[" +:+ showNumber (metric_timestamp metric) +:+ "ms] "
      +:+ metric_phase metric ]
    ++ match metric_duration metric with
       | Some duration => [toFixed2 duration +:+ "ms"]
       | None => []
       end
    ++ match metric_count metric with
       | Some count => ["(" +:+ showNumber count +:+ " items)"]
       | None => []
       end in
  if verboseLogging c
  then consoleLog (metricSign +:+ JS.join " - " parts) c
  else c.

(** [emitMetric] at the time [now]. *)
Definition collectorEmitMetric (phase : string) (duration : option Num)
    (count : option Z) (details : option Details) (now : Z) (c : Collector)
  : Collector :=
  let metric :=
    {| metric_phase := phase; metric_duration := duration;
       metric_count := count; metric_details := details;
       metric_timestamp := (now - startTime c)%Z |} in
  logMetric metric
    {| metrics := metrics c ++ [metric];
       phaseTimings :=
         match duration with
         | Some d => pushTiming phase d (phaseTimings c)
         | None => phaseTimings c
         end;
       startTime := startTime c; verboseLogging := verboseLogging c;
       console := console c |}.

Definition getTotalDuration (c : Collector) : Num :=
  fold_left
    (fun total m =>
       match metric_duration m with
       | Some duration => add total duration
       | None => total
       end)
    (List.filter (fun m => bool_decide (is_Some (metric_duration m)))
                 (metrics c))
    zero.

Definition getPhaseStatistics (c : Collector) : list PhaseStatistics :=
  List.map
    (fun entry =>
       let durations := snd entry in
       {| stat_phase := fst entry;
          stat_totalTime := fold_left add durations zero;
          stat_avgTime :=
            divide (fold_left add durations zero) (length durations);
          stat_count := length durations;
          stat_minTime := minOf durations;
          stat_maxTime := maxOf durations |})
    (phaseTimings c).

Definition collectorOnComplete (c : Collector) : Collector :=
  if negb (verboseLogging c) then c
  else fold_left (fun acc line => consoleLog line acc)
         (summaryLines (getTotalDuration c) (getPhaseStatistics c) (metrics c))
         c.

Definition getMetrics (c : Collector) : list MetricData := metrics c.

(** [reset] at the time [now]. *)
Definition collectorReset (now : Z) (c : Collector) : Collector :=
  {| metrics := []; phaseTimings := []; startTime := now;
     verboseLogging := verboseLogging c; console := console c |}.

(** The calls that a user of the collector makes. *)
Inductive CollectorCall : Type :=
| CallEmitMetric (phase : string) (duration : option Num) (count : option Z)
                 (details : option Details) (now : Z)
| CallOnComplete
| CallReset (now : Z).

Definition collectorCall (c : Collector) (call : CollectorCall) : Collector :=
  match call with
  | CallEmitMetric phase duration count details now =>
      collectorEmitMetric phase duration count details now c
  | CallOnComplete => collectorOnComplete c
  | CallReset now => collectorReset now c
  end.

Definition collectorCalls (calls : list CollectorCall) (c : Collector)
  : Collector :=
  fold_left collectorCall calls c.

End MetricsCollector.

(** * Auxiliary definitions for the properties *)

(** ** Selection of the input type of an argument *)

(** A candidate on the denylist of the simple-inputs mode. *)
Definition isCompoundCandidate (it : InputTypeRef) : bool :=
  FieldLocation_eqb (it_location it) inputObjectTypes &&
  isCompoundOperationInput (it_type it).

(** A candidate that one of the first three filters keeps. *)
Definition isPreferredCandidate (opts : GeneratorOptions) (it : InputTypeRef)
  : bool :=
  isObjectCandidate opts it || isScalarCandidate it || isEnumCandidate it.

(** The precedence in the words of the specification: the object-shaped
    candidates if there is one, else the scalar ones, else the enumeration
    ones, else all of them; among those a list-typed one, else an
    unchecked one when that mode is on, else the first. *)
Definition survivingCandidates (inputTypes : list InputTypeRef)
  : list InputTypeRef :=
  let isObject it := FieldLocation_eqb (it_location it) inputObjectTypes in
  if existsb isObject inputTypes then List.filter isObject inputTypes
  else if existsb isScalarCandidate inputTypes
       then List.filter isScalarCandidate inputTypes
       else if existsb isEnumCandidate inputTypes
            then List.filter isEnumCandidate inputTypes
            else inputTypes.

Definition selectInputTypeVariant (unchecked : bool)
    (inputTypes : list InputTypeRef) : option InputTypeRef :=
  let survivors := survivingCandidates inputTypes in
  match List.find it_isList survivors with
  | Some it => Some it
  | None =>
      match (if unchecked then List.find isUnchecked survivors else None) with
      | Some it => Some it
      | None => List.head survivors
      end
  end.

(** ** Sample inputs *)

Definition sampleOptions (simple unchecked : bool) : GeneratorOptions :=
  {| useUncheckedScalarInputs := unchecked;
     useSimpleInputs := simple;
     omitInputFieldsByDefault := None;
     omitOutputFieldsByDefault := None;
     blocksToEmit :=
       ["enums"; "models"; "inputs"; "outputs"; "crudResolvers";
        "relationResolvers"];
     outputDirPath := "generated/type-graphql";
     emitTranspiledCode := Some false;
     formatGeneratedCode := Some prettier |}.

Definition candidate (location : FieldLocation) (type : string) (isList : bool)
  : InputTypeRef :=
  {| it_type := type; it_location := location; it_isList := isList |}.

(** The candidates of [UserUpdateInput.name]. *)
Definition nameUpdateCandidates : list InputTypeRef :=
  [ candidate scalar "String" false;
    candidate inputObjectTypes "StringFieldUpdateOperationsInput" false ].

(** The only candidate of [UserUpdateInput.posts]. *)
Definition postsUpdateCandidates : list InputTypeRef :=
  [ candidate inputObjectTypes "PostUpdateManyWithoutAuthorNestedInput" false ].

(** ** Relation resolvers *)

(** A stand-in for [camelCase] of [generator/helpers.ts] on the sample
    inputs: the first letter in lower case. *)
Definition sampleCamelCase (s : string) : string :=
  match s with
  | EmptyString => EmptyString
  | String c s' => String (JS.lowerChar c) s'
  end.

Definition sampleField (name type : string) (kind : FieldKind)
    (isId isUnique : bool) (relationName : option string) : ModelField :=
  {| mf_name := name; mf_kind := kind; mf_type := type; mf_isList := false;
     mf_isRequired := true; mf_isId := isId; mf_isUnique := isUnique;
     mf_relationName := relationName;
     mf_location :=
       match kind with
       | kind_object => outputObjectTypes
       | kind_enum => enumTypes
       | _ => scalar
       end;
     mf_typeFieldAlias := None; mf_fieldTSType := type;
     mf_typeGraphQLType := type; mf_docs := None;
     mf_isOmitted_input := OmitBool false; mf_isOmitted_output := false |}.

Definition sampleModel (name : string) (fields : list ModelField)
    (primaryKey : option PrimaryKey) (uniqueIndexes : list UniqueIndex) : Model :=
  {| model_name := name; model_typeName := name; model_fields := fields;
     model_docs := None; model_plural := None;
     model_isOmitted_output := false; model_primaryKey := primaryKey;
     model_uniqueIndexes := uniqueIndexes |}.

Definition sampleRelationModel (model : Model) (relations : list ModelField)
  : RelationModel :=
  {| rel_model := model; rel_outputType := None;
     rel_relationFields :=
       List.map (fun f => {| relf_field := f; relf_outputTypeField := None;
                             relf_argsTypeName := None;
                             relf_type := Some (mf_type f) |})
                relations;
     rel_resolverName := model_typeName model +:+ "RelationsResolver" |}.

(** [model Membership { userId teamId slug region team
      @@id([userId, teamId])  @@unique([slug, region], name: "slugRegion") }]
    as the document holds it. *)
Definition membershipFields : list ModelField :=
  [ sampleField "userId" "Int" kind_scalar false false None;
    sampleField "teamId" "Int" kind_scalar false false None;
    sampleField "slug" "String" kind_scalar false false None;
    sampleField "region" "String" kind_scalar false false None;
    sampleField "team" "Team" kind_object false false (Some "MembershipToTeam") ].

Definition membership : Model :=
  sampleModel "Membership" membershipFields
    (Some {| pk_name := None; pk_fields := ["userId"; "teamId"] |})
    [ {| ui_name := Some "slugRegion"; ui_fields := ["slug"; "region"] |} ].

(** [model Post { id @id  slug @unique  author }] *)
Definition postFields : list ModelField :=
  [ sampleField "slug" "String" kind_scalar false true None;
    sampleField "id" "Int" kind_scalar true false None;
    sampleField "author" "User" kind_object false false (Some "PostToUser") ].

Definition post : Model := sampleModel "Post" postFields None [].

(** The fields of the key that a model filters by when it has no single
    id or unique field: those of the primary key, else those of the first
    unique index. *)
Definition compositeKeyFieldNames (model : Model) : list string :=
  match model_primaryKey model with
  | Some pk =>
      if (0 <? length (pk_fields pk))%nat then pk_fields pk
      else match List.nth_error (model_uniqueIndexes model) 0 with
           | Some ui => ui_fields ui
           | None => []
           end
  | None =>
      match List.nth_error (model_uniqueIndexes model) 0 with
      | Some ui => ui_fields ui
      | None => []
      end
  end.

(** The single field that a model filters by: the first id field, else the
    first unique field. *)
Definition singleKeyField (model : Model) : option ModelField :=
  optionOr (List.find mf_isId (model_fields model))
           (List.find mf_isUnique (model_fields model)).

(** ** Construction of the document *)

(** Stand-ins for the helpers of [helpers.ts] on the sample inputs. *)

Definition upperChar (c : ascii) : ascii :=
  let n := nat_of_ascii c in
  if ((97 <=? n) && (n <=? 122))%nat then ascii_of_nat (n - 32) else c.

(** [pascalCase]: the first letter in upper case. *)
Definition samplePascalCase (s : string) : string :=
  match s with
  | EmptyString => EmptyString
  | String c s' => String (upperChar c) s'
  end.

(** The documentation [@@TypeGraphQL.type(name: "Client")] of a model. *)
Definition renamedToClient : string :=
  "@@TypeGraphQL.type(name: " +:+ DQ +:+ "Client" +:+ DQ +:+ ")".

Definition noAttributes : Attributes :=
  {| attr_name := None; attr_plural := None; attr_output := None;
     attr_input := None |}.

(** [parseDocumentationAttributes] on the documentation above: the
    [type] attribute of a model carries the name [Client]. *)
Definition sampleParse (documentation : option string)
    (attributeName attributeKind : string) : Attributes :=
  match documentation with
  | Some doc =>
      if String.eqb doc renamedToClient && String.eqb attributeName "type"
         && String.eqb attributeKind "model"
      then {| attr_name := Some "Client"; attr_plural := None;
              attr_output := None; attr_input := None |}
      else noAttributes
  | None => noAttributes
  end.

Definition sampleCleanDocs (documentation : option string) : option string :=
  documentation.

(** The TypeScript and GraphQL types of a reference show its type name. *)
Definition sampleFieldTSType (d : DmmfDocument) (typeInfo : TypeInfo)
    (isRequired isInput : bool) (modelName typeName : option string) : string :=
  it_type typeInfo.

Definition sampleTypeGraphQLType (typeInfo : TypeInfo) (d : DmmfDocument)
    (modelName typeName : option string) (isId : option bool) : string :=
  it_type typeInfo.

Definition sampleInputTypeName (name : string) (d : DmmfDocument) : string :=
  name.

Definition sampleModelNameFromInputType (name : string) : option string := None.

Definition sampleTransformMappings (mappings : list RawModelMapping)
    (d : DmmfDocument) : result (list ModelMapping) :=
  Ok [].

Definition rawField (name type : string) (kind : FieldKind) (isId : bool)
    (relationName : option string) : RawField :=
  {| rf_name := name; rf_kind := kind; rf_type := type; rf_isList := false;
     rf_isRequired := true; rf_isId := isId; rf_isUnique := false;
     rf_relationName := relationName; rf_documentation := None |}.

Definition rawModel (name : string) (documentation : option string)
    (fields : list RawField) : RawModel :=
  {| rm_name := name; rm_fields := fields; rm_primaryKey := None;
     rm_uniqueIndexes := []; rm_documentation := documentation |}.

(** [model Post { id  author User }] *)
Definition rawPost : RawModel :=
  rawModel "Post" None
    [ rawField "id" "Int" kind_scalar true None;
      rawField "author" "User" kind_object false (Some "PostToUser") ].

(** [/// @@TypeGraphQL.type(name: "Client")  model User { id  posts Post }] *)
Definition rawUser : RawModel :=
  rawModel "User" (Some renamedToClient)
    [ rawField "id" "Int" kind_scalar true None;
      rawField "posts" "Post" kind_object false (Some "PostToUser") ].

Definition emptySchema : RawSchema :=
  {| rs_inputObjectTypes_prisma := None; rs_inputObjectTypes_model := None;
     rs_outputObjectTypes_prisma := None; rs_outputObjectTypes_model := None;
     rs_enumTypes_prisma := None; rs_enumTypes_model := None |}.

Definition rawDocumentOf (rawModels : list RawModel) (schema : RawSchema)
  : RawDocument :=
  {| raw_datamodel :=
       {| rd_models := rawModels; rd_types := []; rd_enums := [] |};
     raw_schema := schema;
     raw_mappings := [] |}.

(** The constructor with the stand-ins, on a cache left by an earlier
    run. *)
Definition sampleDocument (raw : RawDocument) : result DmmfDocument :=
  fst (newDmmfDocument sampleParse samplePascalCase sampleCleanDocs
         sampleInputTypeName sampleModelNameFromInputType
         sampleTypeGraphQLType sampleFieldTSType sampleTransformMappings
         raw (sampleOptions false false) ∅).

(** The TypeScript type that the document gives to a field of a model. *)
Definition fieldTSTypeOf (d : result DmmfDocument) (modelName fieldName : string)
  : option string :=
  match d with
  | Ok doc => option_map mf_fieldTSType (getModelField doc modelName fieldName)
  | Throw _ => None
  end.

Definition typeNameOf (d : result DmmfDocument) (modelName : string)
  : option string :=
  match d with
  | Ok doc => getModelTypeName doc modelName
  | Throw _ => None
  end.

(** The display name of an entity in the words of the specification: the
    alias given by the annotation of the entity if there is one, else the
    casing transform of the raw name. *)
Definition displayName
    (parseDocumentationAttributes :
       option string -> string -> string -> Attributes)
    (pascalCase : string -> string) (model : RawModel) : string :=
  match attr_name
          (parseDocumentationAttributes (rm_documentation model) "type" "model")
  with
  | Some alias => alias
  | None => pascalCase (rm_name model)
  end.


(** [model Client { id }] *)
Definition rawClient : RawModel :=
  rawModel "Client" None [ rawField "id" "Int" kind_scalar true None ].

(** The document of a sample, or the empty one if the constructor threw. *)
Definition documentOf (r : result DmmfDocument) : DmmfDocument :=
  match r with
  | Ok d => d
  | Throw _ => emptyDocument (sampleOptions false false)
  end.

Definition sampleConstruct (raw : RawDocument)
  : result DmmfDocument * NameCache :=
  newDmmfDocument sampleParse samplePascalCase sampleCleanDocs
    sampleInputTypeName sampleModelNameFromInputType
    sampleTypeGraphQLType sampleFieldTSType sampleTransformMappings
    raw (sampleOptions false false) ∅.

Definition rawOutputField (name type : string) (location : FieldLocation)
    (deprecation : option Deprecation) : RawSchemaField :=
  {| rsf_name := name; rsf_isNullable := Some false;
     rsf_outputType := candidate location type false;
     rsf_args := []; rsf_deprecation := deprecation |}.

(** The output types of a schema in which [Post.author] is not part of
    the output shape of [Post]. *)
Definition blogSchema : RawSchema :=
  {| rs_inputObjectTypes_prisma := None; rs_inputObjectTypes_model := None;
     rs_outputObjectTypes_prisma := None;
     rs_outputObjectTypes_model :=
       Some [ {| rot_name := "User";
                 rot_fields :=
                   [ rawOutputField "id" "Int" scalar None;
                     rawOutputField "posts" "Post" outputObjectTypes None ] |};
              {| rot_name := "Post";
                 rot_fields := [ rawOutputField "id" "Int" scalar None ] |} ];
     rs_enumTypes_prisma := None; rs_enumTypes_model := None |}.

Definition blogDocument : RawDocument :=
  rawDocumentOf [rawUser; rawPost] blogSchema.

(** The raw model [Membership] above, the model [Team] it refers to, and
    their output types. *)
Definition rawMembership : RawModel :=
  {| rm_name := "Membership";
     rm_fields :=
       [ rawField "userId" "Int" kind_scalar false None;
         rawField "teamId" "Int" kind_scalar false None;
         rawField "slug" "String" kind_scalar false None;
         rawField "region" "String" kind_scalar false None;
         rawField "team" "Team" kind_object false (Some "MembershipToTeam") ];
     rm_primaryKey := Some {| pk_name := None; pk_fields := ["userId"; "teamId"] |};
     rm_uniqueIndexes :=
       [ {| ui_name := Some "slugRegion"; ui_fields := ["slug"; "region"] |} ];
     rm_documentation := None |}.

Definition rawTeam : RawModel :=
  rawModel "Team" None [ rawField "id" "Int" kind_scalar true None ].

Definition membershipSchema : RawSchema :=
  {| rs_inputObjectTypes_prisma := None; rs_inputObjectTypes_model := None;
     rs_outputObjectTypes_prisma := None;
     rs_outputObjectTypes_model :=
       Some [ {| rot_name := "Team";
                 rot_fields := [ rawOutputField "id" "Int" scalar None ] |};
              {| rot_name := "Membership";
                 rot_fields :=
                   [ rawOutputField "userId" "Int" scalar None;
                     rawOutputField "teamId" "Int" scalar None;
                     rawOutputField "slug" "String" scalar None;
                     rawOutputField "region" "String" scalar None;
                     rawOutputField "team" "Team" outputObjectTypes None ] |} ];
     rs_enumTypes_prisma := None; rs_enumTypes_model := None |}.

Definition membershipDocument : RawDocument :=
  rawDocumentOf [rawTeam; rawMembership] membershipSchema.

(** The resolver classes generated for the relation models of a raw
    document. *)
Definition sampleRelationResolvers (raw : RawDocument)
  : list (result ResolverClass) :=
  List.map (generateRelationsResolverClassesFromModel sampleCamelCase)
           (relationModels (documentOf (fst (sampleConstruct raw)))).

(** Two entities that end up with the display name [Client]. *)
Definition clashingDocument : RawDocument :=
  rawDocumentOf [rawUser; rawClient] emptySchema.

(** ** Names of output types *)

(** A sequence of calls of [getMappedOutputTypeName] in one run, each at
    the state the document has at that time; a call that throws leaves
    the cache as it is and the run may go on. *)
Fixpoint callAll (calls : list (DmmfDocument * string)) (cache : NameCache)
  : list (result string) * NameCache :=
  match calls with
  | [] => ([], cache)
  | (d, outputTypeName) :: rest =>
      let (r, cache1) := getMappedOutputTypeName d outputTypeName cache in
      let (rs, cache2) := callAll rest cache1 in
      (r :: rs, cache2)
  end.

(** [getMappedOutputTypeName] applied to its own result. *)
Definition mappedTwice (d : DmmfDocument) (outputTypeName : string)
  : M NameCache string :=
  bind (getMappedOutputTypeName d outputTypeName)
       (fun once => getMappedOutputTypeName d once).

(** A name that none of the rewriting rules recognises. *)
Definition isPlainOutputTypeName (d : DmmfDocument) (outputTypeName : string)
  : bool :=
  negb (JS.startsWith "Aggregate" outputTypeName) &&
  negb (JS.startsWith "CreateMany" outputTypeName &&
        JS.endsWith "AndReturnOutputType" outputTypeName) &&
  negb (isModelName d outputTypeName) &&
  negb (existsb (fun suffix => JS.endsWith suffix outputTypeName)
                DEDICATED_TYPE_SUFFIXES).

(** The document of the single entity [User], renamed to [Client]. *)
Definition clientDocument : DmmfDocument :=
  documentOf (fst (sampleConstruct (rawDocumentOf [rawUser] emptySchema))).

(** A cache that holds nothing but results for the document [d]. *)
Definition cacheAgrees (d : DmmfDocument) (cache : NameCache) : Prop :=
  forall k v, cache !! k = Some v -> computeMappedOutputTypeName d k = Ok v.

(** ** The orchestrator *)

(** The events of one turn of the loop for the block [b]: nothing when
    the logger threw, the entry alone when [generate] threw, else the
    entry, the return and, when a callback is given and the block
    reports a positive number of items, the call of the callback. *)
Definition callbackEvents (callbackGiven : bool) (b : string)
    (m : GenerationMetrics) : list Event :=
  if callbackGiven && (0 <? itemsGenerated m)%Z then [EvCallback b m] else [].

Definition blockOutcome (callbackGiven : bool) (b : string)
    (added : list Event) (ok : bool) : Prop :=
  (ok = false /\ added = []) \/
  (ok = false /\ added = [EvEnter b]) \/
  (exists m, added = EvEnter b :: EvReturn b m :: callbackEvents callbackGiven b m).

(** What the loop may add to the trace for the registered blocks
    [names]: the complete turns of a prefix of them, then, if the loop was
    left by an exception, one turn that may be incomplete. *)
Fixpoint blocksOutcome (callbackGiven : bool) (names : list string)
    (added : list Event) (ok : bool) : Prop :=
  match names with
  | [] => added = [] /\ ok = true
  | b :: rest =>
      exists first others ok1,
        added = first ++ others /\
        blockOutcome callbackGiven b first ok1 /\
        (if ok1 then blocksOutcome callbackGiven rest others ok
         else others = [] /\ ok = false)
  end.

Definition isRegisteredIn (World : Type)
    (generators : gmap string (BlockGenerator World)) (blockName : string)
  : bool :=
  match generators !! blockName with Some _ => true | None => false end.

Definition positiveItems (entry : string * GenerationMetrics) : bool :=
  (0 <? itemsGenerated (snd entry))%Z.

(** Sample generators on a world that counts the calls of [generate]:
    a block reports as many items as its name has letters beyond six. *)
Definition countingGenerator (name : string) : BlockGenerator nat :=
  {| getBlockName := name;
     generate :=
       fun w => (Ok {| itemsGenerated := Z.of_nat (String.length name) - 6;
                       timeElapsed := Some 1%Z |}, S w);
     isOutputBlockGenerator := String.eqb name "outputs";
     getGeneratedOutputTypes := fun _ => [] |}.

Definition sampleGenerators : gmap string (BlockGenerator nat) :=
  initializeGenerators nat
    (countingGenerator "enums") (countingGenerator "models")
    (countingGenerator "inputs") (countingGenerator "outputs")
    (countingGenerator "relationResolvers") (countingGenerator "crudResolvers").

Definition sampleRun : result (list OutputType) * Run nat :=
  generateAllBlocks nat sampleGenerators (fun _ => ret tt)
    (Some (fun _ _ => ret tt)) {| world := 0; trace := [] |}.

(** ** Deprecated fields *)

Definition sinceTwo : Deprecation :=
  {| sinceVersion := "2.0.0"; reason := "use name" |}.

Definition rawArg (name : string) (inputTypes : list InputTypeRef)
    (deprecation : option Deprecation) : RawSchemaArg :=
  {| ra_name := name; ra_isRequired := false; ra_inputTypes := inputTypes;
     ra_deprecation := deprecation |}.

(** An input type with a deprecated field between two others. *)
Definition userCreateInput : RawInputType :=
  {| rit_name := "UserCreateInput";
     rit_fields :=
       [ rawArg "name" [candidate scalar "String" false] None;
         rawArg "fullName" [candidate scalar "String" false] (Some sinceTwo);
         rawArg "age" [candidate scalar "Int" false] None ] |}.

(** An output type with a deprecated field. *)
Definition userOutputType : RawOutputType :=
  {| rot_name := "User";
     rot_fields :=
       [ rawOutputField "id" "Int" scalar None;
         rawOutputField "fullName" "String" scalar (Some sinceTwo);
         rawOutputField "name" "String" scalar None ] |}.

Definition sampleInputType (inputType : RawInputType) : result InputType :=
  transformInputType sampleInputTypeName sampleModelNameFromInputType
    sampleTypeGraphQLType sampleFieldTSType clientDocument inputType.

Definition userCreateInputTransformed : InputType :=
  match sampleInputType userCreateInput with
  | Ok t => t
  | Throw _ => {| input_name := EmptyString; input_typeName := EmptyString; input_fields := [] |}
  end.

Definition sampleOutputType (outputType : RawOutputType)
  : result OutputType * NameCache :=
  transformOutputType samplePascalCase sampleInputTypeName
    sampleTypeGraphQLType sampleFieldTSType clientDocument outputType ∅.

(** ** The driver *)

(** The command line that the formatting step hands to [execa]. *)
Definition formatterCommand {Disk : Type} (fsAccess : string -> Disk -> bool)
    (pathResolve : string -> string -> string) (tool : FormatTool)
    (baseDirPath : string) (disk : Disk) : string :=
  match tool with
  | tsc => "tsc " +:+ JS.join " " ["--noEmit"; "--project"; baseDirPath]
  | prettier =>
      "npx prettier "
      +:+ JS.join " "
            ([ "--write"; baseDirPath +:+ "/**/*.ts"; "--ignore-path";
               pathResolve baseDirPath ".prettierignore" ]
             ++ (if fsAccess (pathResolve baseDirPath ".prettierrc") disk
                 then [] else ["--config"; defaultPrettierConfig]))
  | biome =>
      "npx biome "
      +:+ JS.join " " ["format"; "--write"; baseDirPath +:+ "/**/*.ts"]
  end.


(** What the closing metrics add to the sink. *)
Definition closingMetrics (hasMetrics hasOnComplete : bool) : list SinkEvent :=
  if hasMetrics
  then [Metric "code-emission" None; Metric "total-generation" None]
       ++ (if hasOnComplete then [Complete] else [])
  else [].

(** A sample run of the driver: the project is the list of the blocks
    generated so far, the disk the list of the files written, and the
    formatter is not installed. *)
Definition sampleBlockGenerator (name : string) (d : DmmfDocument)
    (opts : GeneratorOptions) (baseDirPath : string)
  : BlockGenerator (PipelineWorld (list string) (list string)) :=
  {| getBlockName := name;
     generate :=
       fun w =>
         (Ok {| itemsGenerated := 1; timeElapsed := Some 2%Z |},
          {| pw_project := pw_project _ _ w ++ [name];
             pw_disk := pw_disk _ _ w;
             pw_outputTypeNameCache := pw_outputTypeNameCache _ _ w;
             pw_logged := pw_logged _ _ w;
             pw_sink := pw_sink _ _ w |});
     isOutputBlockGenerator := String.eqb name "outputs";
     getGeneratedOutputTypes := fun _ => [] |}.

Definition sampleExeca (command cwd : string) (disk : list string)
  : result unit * list string :=
  (Throw ("Command failed: " +:+ command), disk).

Definition sampleSave (project disk : list string)
  : result unit * list string :=
  (Ok tt, disk ++ project).

Definition sampleBaseOptions : BaseOptions :=
  {| base_useUncheckedScalarInputs := false;
     base_useSimpleInputs := false;
     base_omitInputFieldsByDefault := None;
     base_omitOutputFieldsByDefault := None;
     base_emitOnly := None;
     base_outputDirPath := "generated";
     base_emitTranspiledCode := None;
     base_formatGeneratedCode := Some (FormatWith biome) |}.

Definition sampleGetBlocksToEmit (emitOnly : option (list string))
  : list string :=
  match emitOnly with
  | Some blocks => blocks
  | None => blockOrder
  end.

Definition samplePathResolve (dir file : string) : string :=
  dir +:+ "/" +:+ file.

Definition sampleStart : Run (PipelineWorld (list string) (list string)) :=
  {| world := {| pw_project := []; pw_disk := [];
                 pw_outputTypeNameCache := ∅; pw_logged := [];
                 pw_sink := [] |};
     trace := [] |}.

Definition samplePersist
  : result unit * Run (PipelineWorld (list string) (list string)) :=
  generateAndPersist (list string) (list string)
    sampleParse samplePascalCase sampleCleanDocs sampleInputTypeName
    sampleModelNameFromInputType sampleTypeGraphQLType sampleFieldTSType
    sampleTransformMappings (fun _ => []) sampleBlockGenerator
    (fun _ _ project => Ok (project ++ ["enhance"; "scalars"; "helpers"; "index"]))
    sampleSave sampleSave true blogDocument
    (resolveOptions sampleGetBlocksToEmit sampleBaseOptions) sampleStart.

Definition sampleGenerateCode
  : result unit * Run (PipelineWorld (list string) (list string)) :=
  generateCode (list string) (list string)
    sampleParse samplePascalCase sampleCleanDocs sampleInputTypeName
    sampleModelNameFromInputType sampleTypeGraphQLType sampleFieldTSType
    sampleTransformMappings (Ok tt) sampleGetBlocksToEmit (fun _ => [])
    sampleBlockGenerator
    (fun _ _ project => Ok (project ++ ["enhance"; "scalars"; "helpers"; "index"]))
    sampleSave sampleSave sampleExeca (fun _ _ => false) samplePathResolve
    true true blogDocument sampleBaseOptions sampleStart.
(** * Auxiliary definitions for the further properties *)

(** The map that [forEach(field => cache.set(field.name, field))] builds
    from the fields of a model. *)
Definition modelFieldsMap (fields : list ModelField) : gmap string ModelField :=
  fold_left (fun acc field => <[mf_name field := field]> acc) fields ∅.

(** The map of the aliases of the fields of a model that have one. *)
Definition fieldAliasesMap (fields : list ModelField) : gmap string string :=
  fold_left
    (fun acc field =>
       if truthy (mf_typeFieldAlias field)
       then <[mf_name field := JS.template (mf_typeFieldAlias field)]> acc
       else acc)
    fields ∅.

(** The same for the fields of an output type. *)
Definition outputFieldsMap (fields : list OutputSchemaField)
  : gmap string OutputSchemaField :=
  fold_left (fun fc field => <[of_name field := field]> fc) fields ∅.

(** The caches of output types agree, and every output type is cached
    under its own name. *)
Definition outputCachesInSync (d : DmmfDocument) : Prop :=
  forall n,
    outputTypeFieldsCache d !! n
    = option_map (fun ot => outputFieldsMap (output_fields ot))
                 (outputTypeCache d !! n) /\
    (forall ot, outputTypeCache d !! n = Some ot -> output_name ot = n).

(** A document with the four caches of the second pass replaced. *)
Definition withModelCaches (mc : gmap string Model) (tn : gset string)
    (fa : gmap string (gmap string string))
    (mf : gmap string (gmap string ModelField)) (d : DmmfDocument)
  : DmmfDocument :=
  {| models := models d; datamodel_models := datamodel_models d;
     datamodel_enums := datamodel_enums d;
     schema_inputTypes := schema_inputTypes d;
     schema_outputTypes := schema_outputTypes d; enums := enums d;
     modelMappings := modelMappings d; relationModels := relationModels d;
     outputTypeCache := outputTypeCache d; modelsCache := mc;
     modelTypeNameCache := tn; fieldAliasCache := fa;
     enumsCache := enumsCache d; modelFieldsCache := mf;
     outputTypeFieldsCache := outputTypeFieldsCache d; options := options d |}.

(** A document with the two caches of the output types replaced. *)
Definition withOutputCaches (oc : gmap string OutputType)
    (ofc : gmap string (gmap string OutputSchemaField)) (d : DmmfDocument)
  : DmmfDocument :=
  {| models := models d; datamodel_models := datamodel_models d;
     datamodel_enums := datamodel_enums d;
     schema_inputTypes := schema_inputTypes d;
     schema_outputTypes := schema_outputTypes d; enums := enums d;
     modelMappings := modelMappings d; relationModels := relationModels d;
     outputTypeCache := oc; modelsCache := modelsCache d;
     modelTypeNameCache := modelTypeNameCache d;
     fieldAliasCache := fieldAliasCache d; enumsCache := enumsCache d;
     modelFieldsCache := modelFieldsCache d;
     outputTypeFieldsCache := ofc; options := options d |}.

(** The states of [this] at three points of the constructor, read back
    from the finished document: before [relationModels] is assigned,
    before [modelMappings] is assigned, and before the schema is
    transformed and its output types are cached. *)
Definition beforeRelationModels (d : DmmfDocument) : DmmfDocument :=
  set_relationModels [] d.

Definition beforeMappings (d : DmmfDocument) : DmmfDocument :=
  set_modelMappings [] (beforeRelationModels d).

Definition beforeSchema (d : DmmfDocument) : DmmfDocument :=
  withOutputCaches ∅ ∅ (set_schema [] [] (beforeMappings d)).

(** The raw models and the raw enum types that the constructor reads. *)
Definition rawModelsOf (raw : RawDocument) : list RawModel :=
  rd_models (raw_datamodel raw) ++ rd_types (raw_datamodel raw).

Definition rawEnumTypesOf (raw : RawDocument) : list RawEnum :=
  orEmpty (rs_enumTypes_prisma (raw_schema raw)) ++
  orEmpty (rs_enumTypes_model (raw_schema raw)).

Definition rawInputTypesOf (raw : RawDocument) : list RawInputType :=
  orEmpty (rs_inputObjectTypes_prisma (raw_schema raw)) ++
  orEmpty (rs_inputObjectTypes_model (raw_schema raw)).

Definition rawOutputTypesOf (raw : RawDocument) : list RawOutputType :=
  orEmpty (rs_outputObjectTypes_prisma (raw_schema raw)) ++
  orEmpty (rs_outputObjectTypes_model (raw_schema raw)).

(** The message of an exception. *)
Definition messageOf {A} (r : result A) : string :=
  match r with
  | Throw msg => msg
  | Ok _ => EmptyString
  end.

(** A raw document whose schema has an input type with a field that has
    no candidate type. *)
Definition inputWithoutCandidates : RawInputType :=
  {| rit_name := "OrphanInput"; rit_fields := [ rawArg "value" [] None ] |}.

Definition orphanDocument : RawDocument :=
  rawDocumentOf [rawUser]
    {| rs_inputObjectTypes_prisma := Some [ inputWithoutCandidates ];
       rs_inputObjectTypes_model := None;
       rs_outputObjectTypes_prisma := None;
       rs_outputObjectTypes_model := None;
       rs_enumTypes_prisma := None; rs_enumTypes_model := None |}.

(** [model Order { id @id  @@id([id, shop]) }]: the primary key names a
    field [shop] that the model does not have. *)
Definition orderWithUnknownKey : Model :=
  sampleModel "Order"
    [ sampleField "id" "Int" kind_scalar true false None ]
    (Some {| pk_name := None; pk_fields := ["id"; "shop"] |}) [].

(** The class of a relation model, when there is one. *)
Definition classOf (r : result ResolverClass) : ResolverClass :=
  match r with
  | Ok cls => cls
  | Throw _ => {| class_name := EmptyString; class_methods := [] |}
  end.

(** The relation model of [Post] with its relation to the author. *)
Definition postRelationModel : RelationModel :=
  sampleRelationModel post
    [ sampleField "author" "User" kind_object false false (Some "PostToUser") ].

(** ** The block generators *)

(** The world after the emissions [es]. *)
Definition emitted (es : list Emission) (w : GeneratorWorld) : GeneratorWorld :=
  {| gw_project := gw_project w ++ es;
     gw_outputTypesToGenerate := gw_outputTypesToGenerate w;
     gw_clock := gw_clock w |}.

(** The world after a reading of the clock. *)
Definition tick (w : GeneratorWorld) : GeneratorWorld :=
  snd (performanceNow w).

(** The file that [ModelBlockGenerator] emits for a model that has an
    output type. *)
Definition modelFilesOf (convertNewLines : string -> string)
    (emitIsAbstract simpleResolvers : bool) (d : DmmfDocument)
    (someModels : list Model) : list Emission :=
  flat_map
    (fun model =>
       match outputTypeCache d !! model_name model with
       | Some modelOutputType =>
           [ ModelFile
               (generateObjectTypeClassFromModel convertNewLines
                  emitIsAbstract simpleResolvers model modelOutputType d) ]
       | None => []
       end)
    someModels.

(** The files of arguments that [OutputBlockGenerator] emits. *)
Definition outputArgsEmissions (d : DmmfDocument) : list Emission :=
  if (0 <? length (outputTypesFieldsArgsToGenerate d))%nat
  then
    List.map
      (fun field =>
         ArgsFile [resolversFolderName; outputsFolderName] (of_args field)
                  (JS.template (of_argsTypeName field)))
      (outputTypesFieldsArgsToGenerate d)
    ++ [ ArgsBarrelFile
           [resolversFolderName; outputsFolderName; argsFolderName]
           (List.map (fun field => JS.template (of_argsTypeName field))
                     (outputTypesFieldsArgsToGenerate d)) ]
  else [].

(** The world after the assignment to [outputTypesToGenerate]. *)
Definition withOutputTypes (types : list OutputType) (w : GeneratorWorld)
  : GeneratorWorld :=
  {| gw_project := gw_project w;
     gw_outputTypesToGenerate := types;
     gw_clock := gw_clock w |}.

(** What [OutputBlockGenerator] adds to the project. *)
Definition outputEmissions (d : DmmfDocument) : list Emission :=
  List.map OutputTypeFile (outputTypesToGenerate d)
  ++ outputArgsEmissions d
  ++ [ OutputsBarrelFile
         (List.map output_typeName (outputTypesToGenerate d))
         (existsb
            (fun type =>
               existsb (fun field => truthy (of_argsTypeName field))
                       (output_fields type))
            (outputTypesToGenerate d)) ].

(** The message of [ModelBlockGenerator] for a model without output
    type. *)
Definition noOutputTypeMessage (model : Model) : string :=
  "Model " +:+ model_name model +:+ " has no output type. "
  +:+ "This indicates a problem with the DMMF document processing.".

(** What [RelationResolverBlockGenerator] adds to the project: the
    source files of the relation models, the barrel files, and for every
    relation model the files of the arguments of its relation fields. *)
Definition relationFilesOf (camelCase : string -> string)
    (someRelationModels : list RelationModel) : list Emission :=
  flat_map
    (fun relationModel =>
       match generateRelationsResolverFile camelCase relationModel with
       | Ok file => [RelationsResolverSourceFile file]
       | Throw _ => []
       end)
    someRelationModels.

Definition relationBarrelEmissions (d : DmmfDocument) : list Emission :=
  [ ResolversBarrelFile relationsFolder
      (List.map (fun relationModel =>
                   (rel_resolverName relationModel,
                    model_typeName (rel_model relationModel)))
                (relationModels d)) ]
  ++ (if (0 <? length (relationModelsWithArgs d))%nat
      then [ ArgsIndexFile relationsFolder
               (List.map (fun relationModelData =>
                            model_typeName (rel_model relationModelData))
                         (relationModelsWithArgs d)) ]
      else [])
  ++ [ ResolversIndexFile relationsFolder "relations"
         (0 <? length (relationModelsWithArgs d))%nat ].

Definition relationArgsEmissions (relationModelData : RelationModel)
  : list Emission :=
  let resolverDirPath :=
    relationsFolder ++ [Folder (model_typeName (rel_model relationModelData))]
  in
  let fieldsWithArgs :=
    List.filter (fun field => truthy (relf_argsTypeName field))
                (rel_relationFields relationModelData) in
  flat_map
    (fun field =>
       match relf_outputTypeField field with
       | Some outputTypeField =>
           [ ArgsFile resolverDirPath (of_args outputTypeField)
                      (JS.template (relf_argsTypeName field)) ]
       | None => []
       end)
    fieldsWithArgs
  ++ (if (0 <? length fieldsWithArgs)%nat
      then [ ArgsBarrelFile (resolverDirPath ++ [argsFolderName])
               (List.map (fun field => JS.template (relf_argsTypeName field))
                         fieldsWithArgs) ]
      else []).

(** A relation model whose relation fields with arguments carry their
    output-type field and a name for the arguments that is not empty. *)
Definition relationFieldsComplete (relationModelData : RelationModel) : Prop :=
  Forall (fun field =>
            is_Some (relf_outputTypeField field) /\
            relf_argsTypeName field <> Some EmptyString)
         (rel_relationFields relationModelData).

(** A computation that leaves the field [outputTypesToGenerate] of the
    generator of output types as it is. *)
Definition keepsOutputTypes {A} (m : M GeneratorWorld A) : Prop :=
  forall w,
    gw_outputTypesToGenerate (snd (m w)) = gw_outputTypesToGenerate w.

(** ** The driver *)

(** What the formatting step logs and reports for the outcome of the
    formatter. *)
Definition formattingLines (tool : FormatTool) (outcome : result unit)
  : list string :=
  ("Formatting generated code with " +:+ formatToolName tool)
  :: match outcome with
     | Ok _ => []
     | Throw message => ["Warning: Code formatting failed: " +:+ message]
     end.

Definition formattingMetrics (hasMetrics : bool) (tool : FormatTool)
    (outcome : result unit) : list SinkEvent :=
  match outcome with
  | Ok _ =>
      if hasMetrics
      then [ Metric (formatToolName tool +:+ "-formatting") None;
             Metric "code-formatting" None ]
      else []
  | Throw _ => []
  end.

(** ** The metrics collector *)

Section CollectorReadings.

Variable Num : Type.
Variable Details : Type.

(** The durations emitted for a phase, in order. *)
Definition durationsOf (phase : string) (ms : list (MetricData Num Details))
  : list Num :=
  flat_map
    (fun m =>
       if String.eqb (metric_phase _ _ m) phase
       then match metric_duration _ _ m with
            | Some duration => [duration]
            | None => []
            end
       else [])
    ms.

(** The phases emitted with a duration, in order. *)
Definition timedPhases (ms : list (MetricData Num Details)) : list string :=
  List.map (metric_phase _ _)
    (List.filter (fun m => bool_decide (is_Some (metric_duration _ _ m))) ms).

(** The metrics that calls add to a collector started at [start]. *)
Definition metricsOfCalls (start : Z)
    (calls : list (CollectorCall Num Details))
  : list (MetricData Num Details) :=
  flat_map
    (fun call =>
       match call with
       | CallEmitMetric _ _ phase duration count details now =>
           [ {| metric_phase := phase; metric_duration := duration;
                metric_count := count; metric_details := details;
                metric_timestamp := (now - start)%Z |} ]
       | _ => []
       end)
    calls.

Definition isReset (call : CollectorCall Num Details) : bool :=
  match call with
  | CallReset _ _ _ => true
  | _ => false
  end.

Definition isEmitMetric (call : CollectorCall Num Details) : bool :=
  match call with
  | CallEmitMetric _ _ _ _ _ _ _ => true
  | _ => false
  end.

(** The fields [metrics] and [phaseTimings] agree: the phases are those
    emitted with a duration, in the order of their first emission, each
    with the durations emitted for it. *)
Definition timingsAgree (c : Collector Num Details) : Prop :=
  List.map fst (phaseTimings _ _ c) = unique (timedPhases (metrics _ _ c))
  /\
  forall p ds,
    In (p, ds) (phaseTimings _ _ c) ->
    ds = durationsOf p (metrics _ _ c) /\ ds <> [].

End CollectorReadings.

(** ** A document with enums, root types and arguments *)

Definition rawOutputFieldWithArgs (name type : string)
    (location : FieldLocation) (args : list RawSchemaArg) : RawSchemaField :=
  {| rsf_name := name; rsf_isNullable := Some false;
     rsf_outputType := candidate location type false;
     rsf_args := args; rsf_deprecation := None |}.

(** The schema of a forum: the root type [Query], the output types of
    the two models with their relations to each other, the count type of
    [User] whose field takes an argument, and two enums. *)
Definition forumSchema : RawSchema :=
  {| rs_inputObjectTypes_prisma := None; rs_inputObjectTypes_model := None;
     rs_outputObjectTypes_prisma :=
       Some [ {| rot_name := "Query";
                 rot_fields :=
                   [ rawOutputFieldWithArgs "findManyUser" "User"
                       outputObjectTypes
                       [ rawArg "take" [candidate scalar "Int" false] None ] ]
              |};
              {| rot_name := "UserCountOutputType";
                 rot_fields :=
                   [ rawOutputFieldWithArgs "posts" "Int" scalar
                       [ rawArg "where" [candidate scalar "Int" false] None ] ]
              |} ];
     rs_outputObjectTypes_model :=
       Some [ {| rot_name := "User";
                 rot_fields :=
                   [ rawOutputField "id" "Int" scalar None;
                     rawOutputField "posts" "Post" outputObjectTypes None;
                     rawOutputField "_count" "UserCountOutputType"
                       outputObjectTypes None ] |};
              {| rot_name := "Post";
                 rot_fields :=
                   [ rawOutputField "id" "Int" scalar None;
                     rawOutputField "author" "User" outputObjectTypes None ]
              |} ];
     rs_enumTypes_prisma :=
       Some [ {| re_name := "SortOrder"; re_values := ["asc"; "desc"];
                 re_documentation := None |} ];
     rs_enumTypes_model :=
       Some [ {| re_name := "Role"; re_values := ["ADMIN"; "USER"];
                 re_documentation := None |} ] |}.

Definition forumDocument : RawDocument :=
  {| raw_datamodel :=
       {| rd_models := [rawUser; rawPost]; rd_types := [];
          rd_enums :=
            [ {| re_name := "Role"; re_values := ["ADMIN"; "USER"];
                 re_documentation := None |} ] |};
     raw_schema := forumSchema;
     raw_mappings := [] |}.

Definition forum : DmmfDocument :=
  documentOf (fst (sampleConstruct forumDocument)).

(** An empty project, with a clock that reads 3 and then 8. *)
Definition freshProject : GeneratorWorld :=
  {| gw_project := []; gw_outputTypesToGenerate := [];
     gw_clock := [3; 8]%Z |}.

Definition quietLog (message : string) : M GeneratorWorld unit := ret tt.

Definition noCrudResolvers : M GeneratorWorld GenerationMetrics :=
  ret {| itemsGenerated := 0; timeElapsed := None |}.

(** All the blocks of the forum, generated into the empty project. *)
Definition forumBlocks : result (list OutputType) * Run GeneratorWorld :=
  generateAllBlocks GeneratorWorld
    (blockGenerators forum id false false sampleCamelCase noCrudResolvers)
    quietLog None {| world := freshProject; trace := [] |}.

(** The constructor and the driver on the document whose input type has
    a field without candidates. *)
Definition orphanConstruct : result DmmfDocument * NameCache :=
  newDmmfDocument sampleParse samplePascalCase sampleCleanDocs
    sampleInputTypeName sampleModelNameFromInputType
    sampleTypeGraphQLType sampleFieldTSType sampleTransformMappings
    orphanDocument (resolveOptions sampleGetBlocksToEmit sampleBaseOptions)
    (pw_outputTypeNameCache _ _ (world sampleStart)).

Definition orphanGenerateCode
  : result unit * Run (PipelineWorld (list string) (list string)) :=
  generateCode (list string) (list string)
    sampleParse samplePascalCase sampleCleanDocs sampleInputTypeName
    sampleModelNameFromInputType sampleTypeGraphQLType sampleFieldTSType
    sampleTransformMappings (Ok tt) sampleGetBlocksToEmit (fun _ => [])
    sampleBlockGenerator
    (fun _ _ project => Ok (project ++ ["enhance"; "scalars"; "helpers"; "index"]))
    sampleSave sampleSave sampleExeca (fun _ _ => false) samplePathResolve
    true true orphanDocument sampleBaseOptions sampleStart.
(** * Properties *)

(** Closes a conjunction of equations between closed terms by evaluating
    both sides. *)
Ltac by_evaluation :=
  repeat match goal with |- _ /\ _ => split end; vm_compute; reflexivity.


(** ** The string helpers on sample inputs *)

Example slice_CreateMany :
  JS.slice "CreateManyUserAndReturnOutputType" 10 (-19) = "User".
Proof. reflexivity. Qed.

Example slice_suffix :
  JS.slice "UserCountAggregateOutputType" 0 (-24) = "User".
Proof. reflexivity. Qed.

Example endsWith_samples :
  JS.endsWith "GroupByOutputType" "PostGroupByOutputType" = true /\
  JS.endsWith "GroupByOutputType" "OutputType" = false.
Proof. split; reflexivity. Qed.

Example replace_first_only :
  JS.replace "ab" EmptyString "xabyab" = "xyab".
Proof. reflexivity. Qed.

Example regexp_samples :
  JS.test JS.reUpdateInput "PostUpdateManyWithoutAuthorNestedInput" = true /\
  JS.test JS.reUpdateInput "UpdateInput" = false /\
  JS.test JS.reUpdateInput "PostUpdateInput" = false /\
  JS.test JS.reCreateInput "xCreateyInputz" = true /\
  JS.test JS.reCreateInput "PostWhereInput" = false.
Proof. repeat split; reflexivity. Qed.

Example denylist_samples :
  isCompoundOperationInput "StringFieldUpdateOperationsInput" = true /\
  isCompoundOperationInput "PostCreateNestedManyWithoutAuthorInput" = true /\
  isCompoundOperationInput "PostWhereInput" = false /\
  isCompoundOperationInput "String" = false.
Proof. repeat split; reflexivity. Qed.

(** ** Selection of the input type of an argument *)


Section SelectionFacts.

Variable opts : GeneratorOptions.

Lemma length_eqb_0_nil {A} (l : list A) :
  (length l =? 0)%nat = true <-> l = [].
Proof.
  destruct l; simpl; split; intros H; try reflexivity; discriminate.
Qed.

(** The four possible outcomes of the chain of filters. *)
Lemma possibleInputTypes_cases (inputTypes : list InputTypeRef) :
  let possible := possibleInputTypes opts inputTypes in
  (possible = List.filter (isObjectCandidate opts) inputTypes /\ possible <> [])
  \/ (List.filter (isObjectCandidate opts) inputTypes = [] /\
      possible = List.filter isScalarCandidate inputTypes /\ possible <> [])
  \/ (List.filter (isObjectCandidate opts) inputTypes = [] /\
      List.filter isScalarCandidate inputTypes = [] /\
      possible = List.filter isEnumCandidate inputTypes /\ possible <> [])
  \/ (List.filter (isObjectCandidate opts) inputTypes = [] /\
      List.filter isScalarCandidate inputTypes = [] /\
      List.filter isEnumCandidate inputTypes = [] /\
      possible = inputTypes).
Proof.
  unfold possibleInputTypes.
  destruct (List.filter (isObjectCandidate opts) inputTypes) as [|o os] eqn:Eo;
    simpl.
  - destruct (List.filter isScalarCandidate inputTypes) as [|s ss] eqn:Es;
      simpl.
    + destruct (List.filter isEnumCandidate inputTypes) as [|e es] eqn:Ee;
        simpl.
      * right; right; right; repeat split; reflexivity.
      * right; right; left; repeat split; try reflexivity; discriminate.
    + right; left; repeat split; try reflexivity; discriminate.
  - left; split; [reflexivity | discriminate].
Qed.

Lemma selectedInputType_In (inputTypes : list InputTypeRef) sel :
  selectedInputType opts inputTypes = Some sel ->
  In sel (possibleInputTypes opts inputTypes).
Proof.
  unfold selectedInputType.
  set (possible := possibleInputTypes opts inputTypes).
  destruct (List.find it_isList possible) as [a|] eqn:Ea.
  - intros [= <-]. apply (find_some _ _ Ea).
  - destruct (useUncheckedScalarInputs opts).
    + destruct (List.find isUnchecked possible) as [b|] eqn:Eb.
      * intros [= <-]. apply (find_some _ _ Eb).
      * destruct possible; simpl; intros [= <-]; now left.
    + destruct possible; simpl; intros [= <-]; now left.
Qed.

Lemma selectedInputType_is_Some (inputTypes : list InputTypeRef) :
  possibleInputTypes opts inputTypes <> [] ->
  exists sel, selectedInputType opts inputTypes = Some sel.
Proof.
  unfold selectedInputType.
  set (possible := possibleInputTypes opts inputTypes). intros Hne.
  destruct (List.find it_isList possible); [eauto|].
  destruct (useUncheckedScalarInputs opts).
  - destruct (List.find isUnchecked possible); [eauto|].
    destruct possible; [contradiction | simpl; eauto].
  - destruct possible; [contradiction | simpl; eauto].
Qed.

Lemma filter_nil_existsb {A} (p : A -> bool) (l : list A) :
  List.filter p l = [] -> existsb p l = false.
Proof.
  induction l as [|x l IH]; simpl; [reflexivity|].
  destruct (p x); [discriminate | exact IH].
Qed.

Lemma preferred_not_compound (it : InputTypeRef) :
  useSimpleInputs opts = true ->
  isPreferredCandidate opts it = true -> isCompoundCandidate it = false.
Proof.
  unfold isPreferredCandidate, isCompoundCandidate, isObjectCandidate,
    isScalarCandidate, isEnumCandidate.
  intros ->. simpl.
  destruct (it_location it); simpl;
    destruct (isCompoundOperationInput (it_type it)); simpl;
    try reflexivity; discriminate.
Qed.

End SelectionFacts.


Lemma filter_existsb_cases {A} (p : A -> bool) (l : list A) :
  (existsb p l = true /\ List.filter p l <> []) \/
  (existsb p l = false /\ List.filter p l = []).
Proof.
  induction l as [|x l IH]; simpl.
  - right; split; reflexivity.
  - destruct (p x); simpl.
    + left; split; [reflexivity | discriminate].
    + exact IH.
Qed.

Lemma possibleInputTypes_survivingCandidates opts inputTypes :
  useSimpleInputs opts = false ->
  possibleInputTypes opts inputTypes = survivingCandidates inputTypes.
Proof.
  intros Hoff. unfold possibleInputTypes, survivingCandidates.
  assert (Hobj : forall it,
             isObjectCandidate opts it
             = FieldLocation_eqb (it_location it) inputObjectTypes).
  { intros it. unfold isObjectCandidate. rewrite Hoff. simpl.
    apply andb_true_r. }
  rewrite (List.filter_ext _ _ Hobj).
  set (isObject := fun it => FieldLocation_eqb (it_location it) inputObjectTypes).
  destruct (filter_existsb_cases isObject inputTypes) as [[-> Ho]|[-> ->]].
  - destruct (List.filter isObject inputTypes); [contradiction | reflexivity].
  - simpl.
    destruct (filter_existsb_cases isScalarCandidate inputTypes)
      as [[-> Hs]|[-> ->]].
    + destruct (List.filter isScalarCandidate inputTypes);
        [contradiction | reflexivity].
    + simpl.
      destruct (filter_existsb_cases isEnumCandidate inputTypes)
        as [[-> He]|[-> ->]].
      * destruct (List.filter isEnumCandidate inputTypes);
          [contradiction | reflexivity].
      * reflexivity.
Qed.

(** C1, as the code has it.  With [useSimpleInputs] on, as soon as one
    candidate is an input object off the denylist, a scalar other than
    [Null] or an enumeration, a candidate is selected and it is not a
    compound-operation input object.  With [useSimpleInputs] off, the
    selection is the precedence of the specification: input objects, else
    scalars other than [Null], else enumerations, else every candidate;
    among them the first list-typed one, else the first unchecked one when
    [useUncheckedScalarInputs] is on, else the first. *)
Theorem selectInputType_precedence (opts : GeneratorOptions)
    (inputTypes : list InputTypeRef) :
  (useSimpleInputs opts = true ->
   existsb (isPreferredCandidate opts) inputTypes = true ->
   exists sel,
     selectedInputType opts inputTypes = Some sel /\
     isCompoundCandidate sel = false) /\
  (useSimpleInputs opts = false ->
   selectedInputType opts inputTypes
   = selectInputTypeVariant (useUncheckedScalarInputs opts) inputTypes).
Proof.
  split.
  - intros Hon Hex.
    assert (Hpref : possibleInputTypes opts inputTypes <> [] /\
                    forall it, In it (possibleInputTypes opts inputTypes) ->
                               isPreferredCandidate opts it = true).
    { pose proof (possibleInputTypes_cases opts inputTypes) as Hc.
      cbv zeta in Hc.
      destruct Hc as [[Hp Hne]|[[_ [Hp Hne]]|[[_ [_ [Hp Hne]]]|[H1 [H2 [H3 _]]]]]].
      - split; [exact Hne|]. intros it Hin. rewrite Hp in Hin.
        apply filter_In in Hin as [_ Hin]. unfold isPreferredCandidate.
        rewrite Hin. reflexivity.
      - split; [exact Hne|]. intros it Hin. rewrite Hp in Hin.
        apply filter_In in Hin as [_ Hin]. unfold isPreferredCandidate.
        rewrite Hin. apply orb_true_iff; left; apply orb_true_r.
      - split; [exact Hne|]. intros it Hin. rewrite Hp in Hin.
        apply filter_In in Hin as [_ Hin]. unfold isPreferredCandidate.
        rewrite Hin. apply orb_true_r.
      - exfalso. apply existsb_exists in Hex as [it [Hin Hit]].
        unfold isPreferredCandidate in Hit.
        apply filter_nil_existsb in H1, H2, H3.
        assert (Hn : forall p, existsb p inputTypes = false -> p it = false).
        { intros p Hp. destruct (p it) eqn:E; [|reflexivity].
          rewrite <- Hp. symmetry. apply existsb_exists. eauto. }
        rewrite (Hn _ H1), (Hn _ H2), (Hn _ H3) in Hit. discriminate. }
    destruct Hpref as [Hne Hall].
    destruct (selectedInputType_is_Some opts inputTypes Hne) as [sel Hsel].
    exists sel. split; [exact Hsel|].
    apply (preferred_not_compound opts); [exact Hon|].
    apply Hall, selectedInputType_In, Hsel.
  - intros Hoff. unfold selectedInputType, selectInputTypeVariant.
    rewrite (possibleInputTypes_survivingCandidates _ _ Hoff).
    destruct (survivingCandidates inputTypes); reflexivity.
Qed.


Example select_simple_scalar :
  selectedInputType (sampleOptions true false) nameUpdateCandidates
  = Some (candidate scalar "String" false).
Proof. reflexivity. Qed.

Example select_plain_compound :
  selectedInputType (sampleOptions false false) nameUpdateCandidates
  = Some (candidate inputObjectTypes "StringFieldUpdateOperationsInput" false).
Proof. reflexivity. Qed.

Example select_list_first :
  selectedInputType (sampleOptions false true)
    [ candidate inputObjectTypes "PostUncheckedCreateInput" false;
      candidate inputObjectTypes "PostCreateManyInput" true ]
  = Some (candidate inputObjectTypes "PostCreateManyInput" true).
Proof. reflexivity. Qed.

Example select_unchecked :
  selectedInputType (sampleOptions false true)
    [ candidate inputObjectTypes "PostCreateInput" false;
      candidate inputObjectTypes "PostUncheckedCreateInput" false ]
  = Some (candidate inputObjectTypes "PostUncheckedCreateInput" false).
Proof. reflexivity. Qed.

Example select_nothing :
  selectedInputType (sampleOptions false false) [] = None.
Proof. reflexivity. Qed.

Lemma selectInputType_precedence_witness :
  (exists sel,
     selectedInputType (sampleOptions true false) nameUpdateCandidates = Some sel /\
     isCompoundCandidate sel = false) /\
  selectedInputType (sampleOptions false true) nameUpdateCandidates
  = selectInputTypeVariant true nameUpdateCandidates.
Proof.
  split.
  - apply (proj1 (selectInputType_precedence (sampleOptions true false)
                    nameUpdateCandidates)); reflexivity.
  - apply (proj2 (selectInputType_precedence (sampleOptions false true)
                    nameUpdateCandidates)); reflexivity.
Defined.

(** C1 as stated fails: with [useSimpleInputs] on, an argument whose only
    candidate is a compound-operation input object gets that candidate,
    through the last fallback to every candidate. *)
Lemma selectInputType_simple_counterexample :
  useSimpleInputs (sampleOptions true false) = true /\
  selectedInputType (sampleOptions true false) postsUpdateCandidates
  = Some (candidate inputObjectTypes "PostUpdateManyWithoutAuthorNestedInput"
                    false) /\
  isCompoundCandidate
    (candidate inputObjectTypes "PostUpdateManyWithoutAuthorNestedInput" false)
  = true /\
  selectInputTypeFromTypes (fun name _ => name)
    (emptyDocument (sampleOptions true false)) postsUpdateCandidates
  = Ok (candidate inputObjectTypes "PostUpdateManyWithoutAuthorNestedInput"
                  false).
Proof. repeat split; reflexivity. Qed.

(** ** The filter of a relation resolver *)

Lemma scanFields_fold (fields : list ModelField) (acc : FieldScan) :
  singleIdField (fold_left scanField fields acc)
  = optionOr (singleIdField acc) (List.find mf_isId fields) /\
  singleUniqueField (fold_left scanField fields acc)
  = optionOr (singleUniqueField acc) (List.find mf_isUnique fields).
Proof.
  revert acc. induction fields as [|f fields IH]; intros acc; simpl.
  - split; destruct (singleIdField acc), (singleUniqueField acc); reflexivity.
  - destruct (IH (scanField acc f)) as [-> ->]. simpl.
    split.
    + destruct (singleIdField acc); simpl; [reflexivity|].
      destruct (mf_isId f); reflexivity.
    + destruct (singleUniqueField acc); simpl; [reflexivity|].
      destruct (mf_isUnique f); reflexivity.
Qed.

(** The single filter field is the first id field, else the first unique
    field, in the order of the fields. *)
Lemma scanFields_single (fields : list ModelField) :
  singleIdField (scanFields fields) = List.find mf_isId fields /\
  singleUniqueField (scanFields fields) = List.find mf_isUnique fields.
Proof. unfold scanFields. destruct (scanFields_fold fields
    {| fieldsCache := ∅; singleIdField := None; singleUniqueField := None |})
    as [-> ->]. split; reflexivity.
Qed.

Lemma scanFields_cache_fold (fields : list ModelField) (acc : FieldScan)
    (n : string) (f : ModelField) :
  fieldsCache (fold_left scanField fields acc) !! n = Some f ->
  (mf_name f = n /\ In f fields) \/ fieldsCache acc !! n = Some f.
Proof.
  revert acc. induction fields as [|g fields IH]; intros acc; simpl.
  - intros H; right; exact H.
  - intros H. destruct (IH _ H) as [[Hn Hin]|Hacc].
    + left; split; [exact Hn | right; exact Hin].
    + simpl in Hacc. destruct (decide (mf_name g = n)) as [Heq|Hne].
      * rewrite <- Heq, lookup_insert_eq in Hacc. injection Hacc as <-.
        left; split; [exact Heq | left; reflexivity].
      * rewrite lookup_insert_ne in Hacc by exact Hne. right; exact Hacc.
Qed.

(** What the cache of fields returns for a name is a field of the model
    with that name. *)
Lemma scanFields_cache (fields : list ModelField) (n : string) (f : ModelField) :
  fieldsCache (scanFields fields) !! n = Some f ->
  mf_name f = n /\ In f fields.
Proof.
  intros H. destruct (scanFields_cache_fold _ _ _ _ H) as [Hf|Hempty];
    [exact Hf|].
  simpl in Hempty. rewrite lookup_empty in Hempty. discriminate.
Qed.

Lemma lookupKeyFields_names (what modelName : string) (fields : list ModelField)
    (names : list string) (found : list ModelField) :
  lookupKeyFields what modelName (fieldsCache (scanFields fields)) names
  = Ok found ->
  List.map mf_name found = names /\ Forall (fun f => In f fields) found.
Proof.
  unfold lookupKeyFields. generalize (scanFields fields) (scanFields_cache fields).
  intros scan Hscan.
  revert found. induction names as [|n names IH]; intros found; cbn [mapM].
  - intros [= <-]. split; [reflexivity | constructor].
  - destruct (fieldsCache scan !! n) as [f|] eqn:Ef; cbn [rbind];
      [|discriminate].
    match goal with
    | |- context [mapM ?g names] => destruct (mapM g names) as [fs|] eqn:Efs
    end; cbn [rbind]; [|discriminate].
    intros [= <-]. destruct (IH fs eq_refl) as [Hn Hall].
    destruct (Hscan _ _ Ef) as [Hname Hin].
    cbn [List.map]. rewrite Hname, Hn. split; [reflexivity|].
    constructor; assumption.
Qed.

Lemma mapM_Ok_Forall2 {A B} (f : A -> result B) (l : list A) (l' : list B) :
  mapM f l = Ok l' -> Forall2 (fun x y => f x = Ok y) l l'.
Proof.
  revert l'. induction l as [|x l IH]; intros l'; simpl.
  - intros [= <-]. constructor.
  - destruct (f x) as [y|] eqn:Ey; simpl; [|discriminate].
    destruct (mapM f l) as [ys|] eqn:Eys; simpl; [|discriminate].
    intros [= <-]. constructor; [exact Ey | apply IH; reflexivity].
Qed.

Lemma mapM_Throw_head {A B} (f : A -> result B) (x : A) (l : list A) msg :
  f x = Throw msg -> mapM f (x :: l) = Throw msg.
Proof. intros H. simpl. rewrite H. reflexivity. Qed.

Section RelationsResolverFacts.

Variable camelCase : string -> string.

(** With a single id or unique field, every method of a generated class
    filters by that field alone: its name and the value the parent
    object has for it. *)
Lemma relations_single_filter (rel : RelationModel) (cls : ResolverClass)
    (key : ModelField) :
  generateRelationsResolverClassesFromModel camelCase rel = Ok cls ->
  singleKeyField (rel_model rel) = Some key ->
  Forall (fun m =>
            method_whereConditionString m
            = singleWhereCondition (camelCase (model_typeName (rel_model rel)))
                                   key)
         (class_methods cls).
Proof.
  unfold generateRelationsResolverClassesFromModel, singleKeyField.
  destruct (scanFields_single (model_fields (rel_model rel))) as [-> ->].
  intros Hgen Hkey. rewrite Hkey in Hgen.
  destruct (match model_primaryKey (rel_model rel) with
            | Some pk => _ | None => _ end) as [ids|]; cbn [rbind] in Hgen;
    [|discriminate].
  destruct (match List.nth_error (model_uniqueIndexes (rel_model rel)) 0 with
            | Some ui => _ | None => _ end) as [uniques|]; cbn [rbind] in Hgen;
    [|discriminate].
  match type of Hgen with
  | rbind (mapM ?f ?l) _ = _ => destruct (mapM f l) as [methods|] eqn:Em
  end; cbn [rbind] in Hgen; [|discriminate].
  injection Hgen as <-. simpl.
  apply mapM_Ok_Forall2 in Em.
  induction Em as [|x y l l' Hxy _ IH]; constructor; [|exact IH].
  unfold relationMethod, whereConditionString in Hxy. simpl in Hxy.
  injection Hxy as <-. reflexivity.
Qed.

(** Without a single id or unique field, every method of a generated
    class filters by the fields of the primary key, or of the first unique
    index when there is no primary key, under the key computed by
    [filterKeyName]. *)
Lemma relations_composite_filter (rel : RelationModel) (cls : ResolverClass) :
  generateRelationsResolverClassesFromModel camelCase rel = Ok cls ->
  singleKeyField (rel_model rel) = None ->
  class_methods cls = [] \/
  exists keyFields,
    List.map mf_name keyFields = compositeKeyFieldNames (rel_model rel) /\
    keyFields <> [] /\
    Forall (fun f => In f (model_fields (rel_model rel))) keyFields /\
    Forall (fun m =>
              method_whereConditionString m
              = compositeWhereCondition
                  (camelCase (model_typeName (rel_model rel)))
                  (filterKeyName (rel_model rel) keyFields) keyFields)
           (class_methods cls).
Proof.
  unfold generateRelationsResolverClassesFromModel, singleKeyField,
    compositeKeyFieldNames.
  destruct (scanFields_single (model_fields (rel_model rel))) as [-> ->].
  intros Hgen Hkey. rewrite Hkey in Hgen.
  set (model := rel_model rel) in *.
  assert (Hids : exists ids,
             match model_primaryKey model with
             | Some pk => lookupKeyFields "Primary key field" (model_name model)
                            (fieldsCache (scanFields (model_fields model)))
                            (pk_fields pk)
             | None => Ok []
             end = Ok ids /\
             List.map mf_name ids
             = match model_primaryKey model with
               | Some pk => pk_fields pk | None => [] end /\
             Forall (fun f => In f (model_fields model)) ids).
  { destruct (model_primaryKey model) as [pk|].
    - destruct (lookupKeyFields _ _ _ (pk_fields pk)) as [ids|] eqn:E;
        cbn [rbind] in Hgen; [|discriminate].
      exists ids. split; [reflexivity|]. apply (lookupKeyFields_names _ _ _ _ _ E).
    - exists []. repeat split; constructor. }
  destruct Hids as [ids [Eids [Hidn Hidin]]]. rewrite Eids in Hgen.
  cbn [rbind] in Hgen.
  assert (Huns : exists uniques,
             match List.nth_error (model_uniqueIndexes model) 0 with
             | Some ui => lookupKeyFields "Unique field" (model_name model)
                            (fieldsCache (scanFields (model_fields model)))
                            (ui_fields ui)
             | None => Ok []
             end = Ok uniques /\
             List.map mf_name uniques
             = match List.nth_error (model_uniqueIndexes model) 0 with
               | Some ui => ui_fields ui | None => [] end /\
             Forall (fun f => In f (model_fields model)) uniques).
  { destruct (List.nth_error (model_uniqueIndexes model) 0) as [ui|].
    - destruct (lookupKeyFields _ _ _ (ui_fields ui)) as [us|] eqn:E;
        cbn [rbind] in Hgen; [|discriminate].
      exists us. split; [reflexivity|]. apply (lookupKeyFields_names _ _ _ _ _ E).
    - exists []. repeat split; constructor. }
  destruct Huns as [uniques [Euns [Hunn Hunin]]]. rewrite Euns in Hgen.
  cbn [rbind] in Hgen.
  match type of Hgen with
  | rbind (mapM ?f ?l) _ = _ => destruct (mapM f l) as [methods|] eqn:Em
  end; cbn [rbind] in Hgen; [|discriminate].
  injection Hgen as <-. simpl.
  destruct methods as [|m0 methods]; [left; reflexivity | right].
  set (keyFields := if (0 <? length ids)%nat then ids else uniques) in *.
  exists keyFields.
  assert (Hlen : length ids = length (match model_primaryKey model with
                                      | Some pk => pk_fields pk | None => [] end)).
  { rewrite <- Hidn. symmetry. apply List.length_map. }
  apply mapM_Ok_Forall2 in Em.
  assert (Hne : keyFields <> []).
  { inversion Em as [|x y l l' Hxy _]; subst.
    unfold relationMethod, whereConditionString in Hxy.
    destruct (0 <? length keyFields)%nat eqn:E; simpl in Hxy; [|discriminate].
    intros Hnil. rewrite Hnil in E. discriminate. }
  split; [|split; [exact Hne | split]].
  - subst keyFields. destruct (model_primaryKey model) as [pk|].
    + rewrite Hlen. destruct (0 <? length (pk_fields pk))%nat; assumption.
    + rewrite Hlen. simpl. exact Hunn.
  - subst keyFields. destruct (0 <? length ids)%nat; assumption.
  - clear Hne. induction Em as [|x y l l' Hxy _ IH]; constructor; [|exact IH].
    unfold relationMethod, whereConditionString in Hxy.
    destruct (0 <? length keyFields)%nat; simpl in Hxy; [|discriminate].
    injection Hxy as <-. reflexivity.
Qed.

(** A model with relation fields that has no single id or unique field
    and no fields in a primary key or a first unique index makes the
    generation throw. *)
Lemma relations_no_key_throws (rel : RelationModel) :
  singleKeyField (rel_model rel) = None ->
  compositeKeyFieldNames (rel_model rel) = [] ->
  rel_relationFields rel <> [] ->
  generateRelationsResolverClassesFromModel camelCase rel
  = Throw ("Unexpected error happened on generating "
           +:+ "'whereConditionString' for "
           +:+ model_typeName (rel_model rel) +:+ " relation resolver").
Proof.
  unfold generateRelationsResolverClassesFromModel, singleKeyField,
    compositeKeyFieldNames.
  destruct (scanFields_single (model_fields (rel_model rel))) as [-> ->].
  intros -> Hnames Hrel.
  set (model := rel_model rel) in *.
  assert (Hpk : match model_primaryKey model with
                | Some pk => lookupKeyFields "Primary key field"
                               (model_name model)
                               (fieldsCache (scanFields (model_fields model)))
                               (pk_fields pk)
                | None => Ok []
                end = Ok []).
  { destruct (model_primaryKey model) as [pk|]; [|reflexivity].
    destruct (pk_fields pk); [reflexivity | discriminate]. }
  rewrite Hpk. cbn [rbind].
  assert (Hui : match List.nth_error (model_uniqueIndexes model) 0 with
                | Some ui => lookupKeyFields "Unique field" (model_name model)
                               (fieldsCache (scanFields (model_fields model)))
                               (ui_fields ui)
                | None => Ok []
                end = Ok []).
  { destruct (List.nth_error (model_uniqueIndexes model) 0) as [ui|];
      [|reflexivity].
    destruct (model_primaryKey model) as [pk|].
    - destruct (pk_fields pk); [|discriminate]. simpl in Hnames.
      rewrite Hnames. reflexivity.
    - rewrite Hnames. reflexivity. }
  rewrite Hui. cbn [rbind].
  destruct (rel_relationFields rel) as [|r rs]; [contradiction|].
  reflexivity.
Qed.

End RelationsResolverFacts.

Example relations_post_filters_by_id :
  option_map (List.map method_whereConditionString)
    (match generateRelationsResolverClassesFromModel sampleCamelCase
             (sampleRelationModel post
                [sampleField "author" "User" kind_object false false
                   (Some "PostToUser")]) with
     | Ok cls => Some (class_methods cls)
     | Throw _ => None
     end)
  = Some [ NL +:+ "            id: post.id," +:+ NL +:+ "          " ].
Proof. vm_compute. reflexivity. Qed.

(** C2 at a model with an unnamed composite primary key and a named
    unique index: the filter holds the fields of the primary key, but
    under the name of the unique index and not under the joined names of
    the fields of the primary key. *)
Theorem relations_unnamed_primaryKey_filter :
  List.map
    (fun generated =>
       match generated with
       | Ok cls =>
           Some (class_name cls,
                 List.map (fun m => (method_name m, method_whereConditionString m))
                          (class_methods cls))
       | Throw _ => None
       end)
    (sampleRelationResolvers membershipDocument)
  = [ Some ("MembershipRelationsResolver",
            [ ("team",
               NL +:+ "            slugRegion: {" +:+ NL
               +:+ "              userId: membership.userId," +:+ NL
               +:+ "teamId: membership.teamId," +:+ NL
               +:+ "            }," +:+ NL +:+ "          ") ]) ] /\
  filterKeyName membership
    [ sampleField "userId" "Int" kind_scalar false false None;
      sampleField "teamId" "Int" kind_scalar false false None ]
  = "slugRegion" /\
  singleKeyField membership = None /\
  JS.join "_" (compositeKeyFieldNames membership) = "userId_teamId".
Proof. by_evaluation. Qed.

(** ** The two passes over the models *)

Example document_Post_then_User :
  typeNameOf (sampleDocument (rawDocumentOf [rawPost; rawUser] emptySchema)) "User"
  = Some "Client" /\
  fieldTSTypeOf (sampleDocument (rawDocumentOf [rawPost; rawUser] emptySchema))
                "User" "posts"
  = Some "Post".
Proof. by_evaluation. Qed.

Section TransformFacts.

Variable parseDocumentationAttributes :
  option string -> string -> string -> Attributes.
Variable pascalCase : string -> string.
Variable cleanDocsString : option string -> option string.
Variable getInputTypeName : string -> DmmfDocument -> string.
Variable getModelNameFromInputType : string -> option string.
Variable getTypeGraphQLType :
  TypeInfo -> DmmfDocument -> option string -> option string ->
  option bool -> string.
Variable getFieldTSType :
  DmmfDocument -> TypeInfo -> bool -> bool -> option string ->
  option string -> string.
Variable transformMappings :
  list RawModelMapping -> DmmfDocument -> result (list ModelMapping).

Local Abbreviation bareModel :=
  (transformBareModel parseDocumentationAttributes pascalCase cleanDocsString).
Local Abbreviation modelWithFields :=
  (transformModelWithFields parseDocumentationAttributes pascalCase
     cleanDocsString getTypeGraphQLType getFieldTSType).
Local Abbreviation secondPass :=
  (transformModelsWithFields parseDocumentationAttributes pascalCase
     cleanDocsString getTypeGraphQLType getFieldTSType).
Local Abbreviation cacheStep :=
  (transformAndCacheModel parseDocumentationAttributes pascalCase
     cleanDocsString getTypeGraphQLType getFieldTSType).

Lemma modelWithFields_typeName (d : DmmfDocument) (model : RawModel) :
  model_typeName (modelWithFields d model) = model_typeName (bareModel model) /\
  model_name (modelWithFields d model) = rm_name model.
Proof. split; reflexivity. Qed.

(** The second pass processes the models one after the other: the model
    at a position is transformed against the caches left by the models
    before it. *)
Lemma secondPass_app (d : DmmfDocument) (before after : list RawModel) :
  secondPass d (before ++ after)
  = (fst (secondPass d before) ++ fst (secondPass (snd (secondPass d before)) after),
     snd (secondPass (snd (secondPass d before)) after)).
Proof.
  revert d. induction before as [|m before IH]; intros d.
  - simpl. destruct (secondPass d after); reflexivity.
  - cbn [app transformModelsWithFields].
    destruct (cacheStep d m) as [t d1] eqn:Et.
    rewrite IH. destruct (secondPass d1 before) as [ms d2]. cbn [fst snd].
    destruct (secondPass d2 after) as [ms' d3]. reflexivity.
Qed.

Lemma secondPass_at (d : DmmfDocument) (before : list RawModel)
    (model : RawModel) (after : list RawModel) :
  nth_error (fst (secondPass d (before ++ model :: after))) (length before)
  = Some (modelWithFields (snd (secondPass d before)) model).
Proof.
  rewrite secondPass_app. cbn [fst].
  assert (Hlen : length (fst (secondPass d before)) = length before).
  { clear. revert d. induction before as [|m before IH]; intros d;
      [reflexivity|].
    cbn [transformModelsWithFields].
    destruct (cacheStep d m) as [t d1]. specialize (IH d1).
    destruct (secondPass d1 before). cbn [fst] in *. simpl. now rewrite IH. }
  rewrite nth_error_app2 by lia. rewrite Hlen, Nat.sub_diag.
  cbn [transformModelsWithFields].
  destruct (cacheStep _ model) as [t d1] eqn:Et.
  destruct (secondPass d1 after). cbn [fst nth_error].
  unfold transformAndCacheModel in Et. injection Et as <- _. reflexivity.
Qed.

(** During the second pass the models known to [isModelName] are those
    already processed, and [this.models] still is the list of the first
    pass. *)
Lemma secondPass_modelsCache (d : DmmfDocument) (rawModels : list RawModel)
    (n : string) :
  models (snd (secondPass d rawModels)) = models d /\
  (modelsCache (snd (secondPass d rawModels)) !! n = None <->
   modelsCache d !! n = None /\ ~ In n (List.map rm_name rawModels)).
Proof.
  revert d. induction rawModels as [|m rawModels IH]; intros d.
  - simpl. split; [reflexivity|]. tauto.
  - cbn [transformModelsWithFields].
    destruct (cacheStep d m) as [t d1] eqn:Et.
    specialize (IH d1). destruct (secondPass d1 rawModels) as [ms d2].
    cbn [snd] in *. destruct IH as [Hm Hc].
    unfold transformAndCacheModel in Et. injection Et as _ <-.
    split; [rewrite Hm; reflexivity|].
    rewrite Hc. cbn [cacheModel modelsCache List.map In].
    destruct (decide (rm_name m = n)) as [->|Hne].
    + rewrite lookup_insert_eq. split; [intros [? _]; discriminate|].
      intros [_ H]. exfalso. apply H. left; reflexivity.
    + rewrite lookup_insert_ne by exact Hne. tauto.
Qed.

(** A field that refers to a model which is not among the models before
    its own keeps the raw name of its target: to it, the target is not a
    model yet.  This covers the model itself and every later model. *)
Lemma secondPass_forward_reference (d : DmmfDocument)
    (before : list RawModel) (field : RawField) :
  modelsCache d = ∅ ->
  ~ In (rf_type field) (List.map rm_name before) ->
  isModelName (snd (secondPass d before)) (rf_type field) = false /\
  it_type (modelFieldTypeInfo (snd (secondPass d before)) field)
  = rf_type field.
Proof.
  intros Hempty Hnot.
  assert (Hnone : modelsCache (snd (secondPass d before)) !! rf_type field = None).
  { apply secondPass_modelsCache. split; [|exact Hnot].
    rewrite Hempty. apply lookup_empty. }
  assert (His : isModelName (snd (secondPass d before)) (rf_type field) = false).
  { unfold isModelName. rewrite Hnone. apply bool_decide_eq_false.
    intros [x Hx]. discriminate. }
  split; [exact His|]. unfold modelFieldTypeInfo. cbn [it_type].
  rewrite His. reflexivity.
Qed.

(** A field that refers to a model before its own gets the display name
    of a model of that name. *)
Lemma secondPass_backward_reference (d : DmmfDocument)
    (before : list RawModel) (field : RawField) :
  In (rf_type field) (List.map rm_name before) ->
  exists target,
    In target before /\ rm_name target = rf_type field /\
    it_type (modelFieldTypeInfo (snd (secondPass d before)) field)
    = model_typeName (bareModel target).
Proof.
  revert d. induction before as [|m before IH]; intros d Hin; [destruct Hin|].
  destruct (in_dec String.string_dec (rf_type field) (List.map rm_name before))
    as [Hlater|Hnot].
  - cbn [transformModelsWithFields].
    destruct (cacheStep d m) as [t d1].
    destruct (IH d1 Hlater) as [target [Ht [Hn Hty]]].
    destruct (secondPass d1 before) as [ms d2]. cbn [snd] in *.
    exists target. split; [right; exact Ht | split; assumption].
  - destruct Hin as [Hm|Hin]; [|contradiction].
    exists m. split; [left; reflexivity | split; [exact Hm|]].
    cbn [transformModelsWithFields].
    destruct (cacheStep d m) as [t d1] eqn:Et.
    pose proof (secondPass_modelsCache d1 before (rf_type field)) as [_ Hc].
    assert (Hd1 : modelsCache d1 !! rf_type field = Some (modelWithFields d m)).
    { unfold transformAndCacheModel in Et. injection Et as _ <-.
      cbn [cacheModel modelsCache]. rewrite <- Hm. apply lookup_insert_eq. }
    assert (Hkeep : modelsCache (snd (secondPass d1 before)) !! rf_type field
                    = Some (modelWithFields d m)).
    { clear - Hd1 Hnot. revert d1 Hd1.
      induction before as [|b before IH]; intros d1 Hd1; [exact Hd1|].
      cbn [transformModelsWithFields].
      destruct (cacheStep d1 b) as [t d2] eqn:Et.
      specialize (IH (fun H => Hnot (or_intror H)) d2).
      destruct (secondPass d2 before) as [ms d3]. cbn [snd] in *.
      apply IH. unfold transformAndCacheModel in Et. injection Et as _ <-.
      cbn [cacheModel modelsCache]. rewrite lookup_insert_ne; [exact Hd1|].
      intros Heq. apply Hnot. left. exact Heq. }
    destruct (secondPass d1 before) as [ms d2]. cbn [snd] in *.
    unfold modelFieldTypeInfo, isModelName, getModelTypeName. cbn [it_type].
    rewrite Hkeep. rewrite bool_decide_eq_true_2 by eauto. reflexivity.
Qed.

Local Abbreviation construct :=
  (newDmmfDocument parseDocumentationAttributes pascalCase cleanDocsString
     getInputTypeName getModelNameFromInputType getTypeGraphQLType
     getFieldTSType transformMappings).
Local Abbreviation relationModel :=
  (generateRelationModel pascalCase).
Local Abbreviation enumsAgain :=
  (transformAndCacheEnums cleanDocsString).

Lemma secondPass_map_typeName (d : DmmfDocument) (rawModels : list RawModel) :
  List.map model_typeName (fst (secondPass d rawModels))
  = List.map (fun m => model_typeName (bareModel m)) rawModels /\
  List.map model_name (fst (secondPass d rawModels))
  = List.map rm_name rawModels.
Proof.
  revert d. induction rawModels as [|m rawModels IH]; intros d.
  - split; reflexivity.
  - cbn [transformModelsWithFields].
    destruct (cacheStep d m) as [t d1] eqn:Et.
    specialize (IH d1). destruct (secondPass d1 rawModels) as [ms d2].
    cbn [fst] in *. destruct IH as [IH1 IH2].
    unfold transformAndCacheModel in Et. injection Et as <- _.
    cbn [List.map]. rewrite IH1, IH2. split; reflexivity.
Qed.

Lemma enumsAgain_keeps (d : DmmfDocument) (enumTypes : list RawEnum) :
  models (snd (enumsAgain d enumTypes)) = models d /\
  outputTypeCache (snd (enumsAgain d enumTypes)) = outputTypeCache d.
Proof.
  revert d. induction enumTypes as [|e enumTypes IH]; intros d.
  - split; reflexivity.
  - cbn [transformAndCacheEnums]. unfold cacheEnum.
    match goal with
    | |- context [transformAndCacheEnums _ ?d1 enumTypes] =>
        specialize (IH d1); destruct (transformAndCacheEnums cleanDocsString d1 enumTypes)
    end.
    cbn [snd] in *. exact IH.
Qed.

Lemma cacheOutputTypes_models (d : DmmfDocument) :
  models (cacheOutputTypes d) = models d.
Proof.
  unfold cacheOutputTypes.
  assert (H : forall l acc,
             models (fold_left
                       (fun acc outputType =>
                          cacheOutputType outputType
                            (fold_left (fun fc field => <[of_name field := field]> fc)
                               (output_fields outputType)
                               (∅ : gmap string OutputSchemaField))
                            acc) l acc)
             = models acc).
  { induction l as [|o l IH]; intros acc; [reflexivity|].
    cbn [fold_left]. rewrite IH. reflexivity. }
  apply H.
Qed.

(** What the constructor returns: the models of the second pass, and the
    relation models computed from the document as it stands before the
    last assignment. *)
Lemma construct_inv (raw : RawDocument) (opts : GeneratorOptions)
    (cache cache' : NameCache) (d : DmmfDocument) :
  construct raw opts cache = (Ok d, cache') ->
  exists d10 relations,
    d = set_relationModels relations d10 /\
    mapM (relationModel d10) (relationModelSources d10) = Ok relations /\
    models d10
    = fst (secondPass
             (set_enums
                (List.map
                   (transformEnums cleanDocsString
                      (set_models
                         (List.map bareModel
                            (rd_models (raw_datamodel raw)
                             ++ rd_types (raw_datamodel raw)))
                         (emptyDocument opts)))
                   (orEmpty (rs_enumTypes_prisma (raw_schema raw))
                    ++ orEmpty (rs_enumTypes_model (raw_schema raw))))
                (set_models
                   (List.map bareModel
                      (rd_models (raw_datamodel raw)
                       ++ rd_types (raw_datamodel raw)))
                   (emptyDocument opts)))
             (rd_models (raw_datamodel raw) ++ rd_types (raw_datamodel raw))).
Proof.
  unfold newDmmfDocument, bind, clearOutputTypeNameCache, modify, lift, ret.
  match goal with
  | |- context [transformModelsWithFields _ _ _ _ _ ?d2 ?l] =>
      destruct (transformModelsWithFields parseDocumentationAttributes
                  pascalCase cleanDocsString getTypeGraphQLType
                  getFieldTSType d2 l) as [withFields d3] eqn:E2
  end.
  match goal with
  | |- context [transformAndCacheEnums _ ?d4 ?l] =>
      pose proof (enumsAgain_keeps d4 l) as [Hkeep _];
      destruct (transformAndCacheEnums cleanDocsString d4 l)
        as [again d5] eqn:E5
  end.
  cbn [snd] in Hkeep.
  match goal with
  | |- context [transformSchema ?a ?b ?c ?e ?f ?g ?h ?i] =>
      destruct (transformSchema a b c e f g h i) as [[schema|msg] c1] eqn:Es
  end; [|discriminate].
  match goal with
  | |- context [transformMappings ?a ?d9] =>
      destruct (transformMappings a d9) as [mappings|msg] eqn:Em
  end; [|discriminate].
  match goal with
  | |- context [mapM ?f ?l] =>
      destruct (mapM f l) as [relations|msg] eqn:Er
  end; [|discriminate].
  intros [= <- <-].
  eexists _, relations. split; [reflexivity|]. split; [exact Er|].
  cbn [fst].
  cbn [set_modelMappings models]. rewrite cacheOutputTypes_models.
  cbn [set_schema set_datamodel set_enums models]. rewrite Hkeep.
  reflexivity.
Qed.

Lemma construct_models (raw : RawDocument) (opts : GeneratorOptions)
    (cache cache' : NameCache) (d : DmmfDocument) :
  construct raw opts cache = (Ok d, cache') ->
  List.map model_typeName (models d)
  = List.map (fun m => model_typeName (bareModel m))
             (rd_models (raw_datamodel raw) ++ rd_types (raw_datamodel raw)) /\
  List.map model_name (models d)
  = List.map rm_name
             (rd_models (raw_datamodel raw) ++ rd_types (raw_datamodel raw)).
Proof.
  intros H. destruct (construct_inv _ _ _ _ _ H) as [d10 [rels [-> [_ Hm]]]].
  cbn [set_relationModels models]. rewrite Hm. apply secondPass_map_typeName.
Qed.

(** C4, as the code has it.  In the document that the constructor
    returns, the display name of every entity is the alias of its
    annotation when it has one and the pascal-cased raw name otherwise, so
    that an explicit alias wins over the computed name.  Nothing detects
    or resolves a collision: the display names are pairwise distinct when
    these names are. *)
Theorem displayName_alias_wins (raw : RawDocument) (opts : GeneratorOptions)
    (cache cache' : NameCache) (d : DmmfDocument) :
  construct raw opts cache = (Ok d, cache') ->
  List.map model_typeName (models d)
  = List.map (displayName parseDocumentationAttributes pascalCase)
             (rd_models (raw_datamodel raw) ++ rd_types (raw_datamodel raw)) /\
  (forall model alias,
      attr_name (parseDocumentationAttributes (rm_documentation model)
                                              "type" "model") = Some alias ->
      displayName parseDocumentationAttributes pascalCase model = alias) /\
  (NoDup (List.map (displayName parseDocumentationAttributes pascalCase)
                   (rd_models (raw_datamodel raw) ++ rd_types (raw_datamodel raw))) ->
   NoDup (List.map model_typeName (models d))).
Proof.
  intros H. destruct (construct_models _ _ _ _ _ H) as [Ht _].
  assert (Hd : List.map model_typeName (models d)
               = List.map (displayName parseDocumentationAttributes pascalCase)
                   (rd_models (raw_datamodel raw)
                    ++ rd_types (raw_datamodel raw))).
  { rewrite Ht. apply List.map_ext. intros m. reflexivity. }
  split; [exact Hd|]. split.
  - intros model alias Ha. unfold displayName. rewrite Ha. reflexivity.
  - intros Hnd. rewrite Hd. exact Hnd.
Qed.

(** *** Relation models *)






End TransformFacts.

(** C3 on the models [Post] and [User], the latter renamed to [Client].
    With [Post] first, the type of [Post.author] is resolved while [User]
    is not known as a model and stays [User]; the display name [Client]
    is known since the first pass.  With [User] first it is [Client]. *)
Theorem secondPass_misses_later_models :
  typeNameOf (sampleDocument (rawDocumentOf [rawPost; rawUser] emptySchema)) "User"
  = Some "Client" /\
  fieldTSTypeOf (sampleDocument (rawDocumentOf [rawPost; rawUser] emptySchema))
                "Post" "author"
  = Some "User" /\
  fieldTSTypeOf (sampleDocument (rawDocumentOf [rawUser; rawPost] emptySchema))
                "Post" "author"
  = Some "Client".
Proof. by_evaluation. Qed.

Example blog_relation_models :
  List.map (fun rel => (model_name (rel_model rel), rel_resolverName rel,
                        List.map (fun f => mf_name (relf_field f))
                                 (rel_relationFields rel)))
           (relationModels (documentOf (fst (sampleConstruct blogDocument))))
  = [ ("User", "ClientRelationsResolver", ["posts"]) ].
Proof. vm_compute. reflexivity. Qed.


Lemma displayName_alias_wins_witness :
  sampleConstruct blogDocument
  = (Ok (documentOf (fst (sampleConstruct blogDocument))),
     snd (sampleConstruct blogDocument)) /\
  List.map model_typeName
    (models (documentOf (fst (sampleConstruct blogDocument))))
  = List.map (displayName sampleParse samplePascalCase) [rawUser; rawPost].
Proof.
  assert (H : sampleConstruct blogDocument
              = (Ok (documentOf (fst (sampleConstruct blogDocument))),
                 snd (sampleConstruct blogDocument)))
    by (vm_compute; reflexivity).
  split; [exact H|].
  exact (proj1 (displayName_alias_wins
                  sampleParse samplePascalCase sampleCleanDocs
                  sampleInputTypeName sampleModelNameFromInputType
                  sampleTypeGraphQLType sampleFieldTSType
                  sampleTransformMappings
                  blogDocument (sampleOptions false false) ∅ _ _ H)).
Defined.

(** C4 as stated fails: the entity [User], renamed to [Client] by its
    annotation, and the entity [Client] get the same display name. *)
Lemma displayName_clash_counterexample :
  List.map (fun m => (model_name m, model_typeName m))
    (models (documentOf (fst (sampleConstruct clashingDocument))))
  = [ ("User", "Client"); ("Client", "Client") ] /\
  ~ NoDup (List.map model_typeName
             (models (documentOf (fst (sampleConstruct clashingDocument))))).
Proof.
  assert (H : List.map (fun m => (model_name m, model_typeName m))
                (models (documentOf (fst (sampleConstruct clashingDocument))))
              = [ ("User", "Client"); ("Client", "Client") ])
    by (vm_compute; reflexivity).
  split; [exact H|].
  assert (Hn : List.map model_typeName
                 (models (documentOf (fst (sampleConstruct clashingDocument))))
               = ["Client"; "Client"]) by (vm_compute; reflexivity).
  rewrite Hn. intros Hnd. inversion Hnd as [|x l Hnotin _]; subst.
  apply Hnotin. left; reflexivity.
Qed.

(** ** Names of output types *)

Example mapped_names :
  fst (callAll [ (clientDocument, "User");
                 (clientDocument, "AggregateUser");
                 (clientDocument, "CreateManyUserAndReturnOutputType");
                 (clientDocument, "UserCountAggregateOutputType");
                 (clientDocument, "UserGroupByOutputType");
                 (clientDocument, "AffectedRowsOutput");
                 (clientDocument, "AggregatePost") ] ∅)
  = [ Ok "Client"; Ok "AggregateClient"; Ok "CreateManyAndReturnClient";
      Ok "ClientCountAggregate"; Ok "ClientGroupBy"; Ok "AffectedRowsOutput";
      Ok "Aggregateundefined" ].
Proof. vm_compute. reflexivity. Qed.

(** A call looks at the cache first, adds its result and changes no
    entry that is there. *)
Lemma getMappedOutputTypeName_cache (d : DmmfDocument) (n : string)
    (cache : NameCache) :
  (forall k v, cache !! k = Some v ->
               snd (getMappedOutputTypeName d n cache) !! k = Some v) /\
  (forall v, fst (getMappedOutputTypeName d n cache) = Ok v ->
             snd (getMappedOutputTypeName d n cache) !! n = Some v) /\
  (forall v, cache !! n = Some v ->
             fst (getMappedOutputTypeName d n cache) = Ok v).
Proof.
  unfold getMappedOutputTypeName.
  destruct (cache !! n) as [cached|] eqn:Ec; cbn [fst snd].
  - repeat split; try tauto; congruence.
  - destruct (computeMappedOutputTypeName d n) as [r|msg]; cbn [fst snd].
    + split; [|split].
      * intros k v Hk. destruct (decide (n = k)) as [->|Hne];
          [congruence | rewrite lookup_insert_ne; assumption].
      * intros v [= <-]. apply lookup_insert_eq.
      * discriminate.
    + repeat split; try tauto; discriminate.
Qed.

(** Once a name is in the cache, every later call on it returns the
    cached string, whatever the document has become. *)
Lemma callAll_cached (calls : list (DmmfDocument * string))
    (cache : NameCache) (n v : string) :
  cache !! n = Some v ->
  forall j d, nth_error calls j = Some (d, n) ->
              nth_error (fst (callAll calls cache)) j = Some (Ok v).
Proof.
  revert cache. induction calls as [|[d0 n0] calls IH]; intros cache Hc j d Hj.
  - destruct j; discriminate.
  - cbn [callAll].
    pose proof (getMappedOutputTypeName_cache d0 n0 cache) as [Hkeep [_ Hhit]].
    destruct (getMappedOutputTypeName d0 n0 cache) as [r cache1].
    cbn [fst snd] in *.
    specialize (IH cache1 (Hkeep _ _ Hc)).
    destruct (callAll calls cache1) as [rs cache2]. cbn [fst] in *.
    destruct j as [|j]; cbn [nth_error] in *.
    + injection Hj as -> ->. rewrite (Hhit _ Hc). reflexivity.
    + apply (IH _ _ Hj).
Qed.

Lemma callAll_same_name (calls : list (DmmfDocument * string))
    (cache : NameCache) (i j : nat) (di dj : DmmfDocument) (n v w : string) :
  nth_error calls i = Some (di, n) ->
  nth_error calls j = Some (dj, n) ->
  nth_error (fst (callAll calls cache)) i = Some (Ok v) ->
  nth_error (fst (callAll calls cache)) j = Some (Ok w) ->
  v = w.
Proof.
  revert cache i j. induction calls as [|[d0 n0] calls IH]; intros cache i j.
  - destruct i; discriminate.
  - cbn [callAll].
    pose proof (getMappedOutputTypeName_cache d0 n0 cache) as [_ [Hadd _]].
    pose proof (callAll_cached calls
                  (snd (getMappedOutputTypeName d0 n0 cache))) as Hlater.
    specialize (IH (snd (getMappedOutputTypeName d0 n0 cache))).
    destruct (getMappedOutputTypeName d0 n0 cache) as [r cache1].
    cbn [fst snd] in *.
    destruct (callAll calls cache1) as [rs cache2]. cbn [fst] in *.
    destruct i as [|i], j as [|j]; cbn [nth_error]; intros Hi Hj Hv Hw.
    + congruence.
    + injection Hi as -> ->. injection Hv as ->.
      rewrite (Hlater n v (Hadd v eq_refl) j dj Hj) in Hw. congruence.
    + injection Hj as -> ->. injection Hw as ->.
      rewrite (Hlater n w (Hadd w eq_refl) i di Hi) in Hv. congruence.
    + apply (IH i j Hi Hj Hv Hw).
Qed.

Lemma getMappedOutputTypeName_agrees (d : DmmfDocument) (n : string)
    (cache : NameCache) :
  cacheAgrees d cache ->
  fst (getMappedOutputTypeName d n cache) = computeMappedOutputTypeName d n /\
  cacheAgrees d (snd (getMappedOutputTypeName d n cache)).
Proof.
  intros Hc. unfold getMappedOutputTypeName.
  destruct (cache !! n) as [cached|] eqn:Ec; cbn [fst snd].
  - split; [symmetry; apply Hc, Ec | exact Hc].
  - destruct (computeMappedOutputTypeName d n) as [r|msg] eqn:Er; cbn [fst snd].
    + split; [reflexivity|]. intros k v.
      destruct (decide (n = k)) as [<-|Hne].
      * rewrite lookup_insert_eq. congruence.
      * rewrite lookup_insert_ne by exact Hne. apply Hc.
    + split; [reflexivity | exact Hc].
Qed.

Lemma callAll_fixed_document (d : DmmfDocument) (names : list string)
    (cache : NameCache) :
  cacheAgrees d cache ->
  fst (callAll (List.map (fun n => (d, n)) names) cache)
  = List.map (computeMappedOutputTypeName d) names.
Proof.
  revert cache. induction names as [|n names IH]; intros cache Hc;
    [reflexivity|].
  cbn [List.map callAll].
  destruct (getMappedOutputTypeName_agrees d n cache Hc) as [Hr Hc1].
  destruct (getMappedOutputTypeName d n cache) as [r cache1].
  cbn [fst snd] in *. specialize (IH cache1 Hc1).
  destruct (callAll _ cache1) as [rs cache2]. cbn [fst] in *.
  rewrite Hr, IH. reflexivity.
Qed.

Lemma computeMappedOutputTypeName_plain (d : DmmfDocument) (n : string) :
  isPlainOutputTypeName d n = true -> computeMappedOutputTypeName d n = Ok n.
Proof.
  unfold isPlainOutputTypeName, computeMappedOutputTypeName. intros H.
  apply andb_true_iff in H as [H H4]. apply andb_true_iff in H as [H H3].
  apply andb_true_iff in H as [H1 H2].
  apply negb_true_iff in H1, H2, H3, H4.
  rewrite H1, H2, H3.
  destruct (List.find _ DEDICATED_TYPE_SUFFIXES) as [s|] eqn:Ef;
    [|reflexivity].
  apply find_some in Ef as [Hin Hs].
  assert (Hex : existsb (fun suffix => JS.endsWith suffix n)
                        DEDICATED_TYPE_SUFFIXES = true)
    by (apply existsb_exists; eauto).
  congruence.
Qed.

(** C5, as the code has it.  Within a run the function is deterministic:
    starting from the cleared cache and with the document fixed, every
    call on a name returns what the rules compute for that name, however
    many calls were made before and in whatever order; and even while the
    document changes, two calls on the same name that return a string
    return the same one.  Applied to its own result it returns that
    result whenever the result is a name that no rule recognises. *)
Theorem getMappedOutputTypeName_deterministic :
  (forall (d : DmmfDocument) (names : list string),
      fst (callAll (List.map (fun n => (d, n)) names) ∅)
      = List.map (computeMappedOutputTypeName d) names) /\
  (forall (calls : list (DmmfDocument * string)) (cache : NameCache)
          (i j : nat) (di dj : DmmfDocument) (n v w : string),
      nth_error calls i = Some (di, n) ->
      nth_error calls j = Some (dj, n) ->
      nth_error (fst (callAll calls cache)) i = Some (Ok v) ->
      nth_error (fst (callAll calls cache)) j = Some (Ok w) ->
      v = w) /\
  (forall (d : DmmfDocument) (n once : string),
      fst (getMappedOutputTypeName d n ∅) = Ok once ->
      isPlainOutputTypeName d once = true ->
      fst (mappedTwice d n ∅) = Ok once).
Proof.
  split; [|split].
  - intros d names. apply callAll_fixed_document.
    intros k v Hk. rewrite lookup_empty in Hk. discriminate.
  - apply callAll_same_name.
  - intros d n once Hn Hplain. unfold mappedTwice, bind.
    assert (He : cacheAgrees d ∅).
    { intros k v Hk. rewrite lookup_empty in Hk. discriminate. }
    destruct (getMappedOutputTypeName_agrees d n ∅ He) as [_ Hc1].
    destruct (getMappedOutputTypeName d n ∅) as [r cache1].
    cbn [fst snd] in *. subst r.
    destruct (getMappedOutputTypeName_agrees d once cache1 Hc1) as [-> _].
    apply computeMappedOutputTypeName_plain, Hplain.
Qed.

Lemma getMappedOutputTypeName_deterministic_witness :
  fst (callAll [ (clientDocument, "AggregateUser");
                 (emptyDocument (sampleOptions false false), "AggregateUser") ]
               ∅)
  = [ Ok "AggregateClient"; Ok "AggregateClient" ] /\
  "AggregateClient" = "AggregateClient" /\
  fst (mappedTwice clientDocument "UserGroupByOutputType" ∅)
  = Ok "ClientGroupBy".
Proof.
  assert (H : fst (callAll
                     [ (clientDocument, "AggregateUser");
                       (emptyDocument (sampleOptions false false),
                        "AggregateUser") ] ∅)
              = [ Ok "AggregateClient"; Ok "AggregateClient" ])
    by (vm_compute; reflexivity).
  split; [exact H|]. split.
  - apply (proj1 (proj2 getMappedOutputTypeName_deterministic)
             [ (clientDocument, "AggregateUser");
               (emptyDocument (sampleOptions false false), "AggregateUser") ]
             ∅ 0 1 clientDocument (emptyDocument (sampleOptions false false))
             "AggregateUser" "AggregateClient" "AggregateClient");
      try reflexivity; rewrite H; reflexivity.
  - apply (proj2 (proj2 getMappedOutputTypeName_deterministic));
      vm_compute; reflexivity.
Defined.

(** C5 as stated fails on idempotence: with the entity [User] renamed to
    [Client], [AggregateUser] is mapped to [AggregateClient], and
    [AggregateClient] to [Aggregateundefined], for no model is called
    [Client]. *)
Lemma getMappedOutputTypeName_not_idempotent :
  fst (getMappedOutputTypeName clientDocument "AggregateUser" ∅)
  = Ok "AggregateClient" /\
  fst (mappedTwice clientDocument "AggregateUser" ∅)
  = Ok "Aggregateundefined" /\
  fst (mappedTwice clientDocument "AggregateUser" ∅)
  <> fst (getMappedOutputTypeName clientDocument "AggregateUser" ∅).
Proof.
  assert (Honce : fst (getMappedOutputTypeName clientDocument "AggregateUser" ∅)
                  = Ok "AggregateClient") by (vm_compute; reflexivity).
  assert (Htwice : fst (mappedTwice clientDocument "AggregateUser" ∅)
                   = Ok "Aggregateundefined") by (vm_compute; reflexivity).
  split; [exact Honce|]. split; [exact Htwice|].
  rewrite Honce, Htwice. discriminate.
Qed.

(** ** The orchestrator *)

Example sampleRun_trace :
  invocations (trace (snd sampleRun)) = blockOrder /\
  List.map fst (callbacks (trace (snd sampleRun)))
  = ["outputs"; "relationResolvers"; "crudResolvers"] /\
  world (snd sampleRun) = 6.
Proof. by_evaluation. Qed.

Section OrchestratorFacts.

Variable World : Type.
Variable generators : gmap string (BlockGenerator World).
Variable log : string -> M World unit.
Variable metricsCallback : option (string -> GenerationMetrics -> M World unit).

Local Abbreviation callbackGiven :=
  (match metricsCallback with Some _ => true | None => false end).

Local Abbreviation isRegistered := (isRegisteredIn World generators).

(** One turn of the loop. *)
Lemma generateBlock_outcome (outputTypes : list OutputType) (b : string)
    (r : Run World) :
  match generators !! b with
  | None => generateBlock World generators log metricsCallback outputTypes b r
            = (Ok outputTypes, r)
  | Some _ =>
      exists added,
        trace (snd (generateBlock World generators log metricsCallback
                      outputTypes b r))
        = trace r ++ added /\
        blockOutcome callbackGiven b added
          (isOk (fst (generateBlock World generators log metricsCallback
                        outputTypes b r)))
  end.
Proof.
  unfold generateBlock.
  destruct (generators !! b) as [g|]; [|reflexivity].
  unfold bind, onWorld, emit, modify, ret, get.
  destruct (log _ (world r)) as [[[]|msg] w1]; cbn [fst snd trace world isOk].
  2:{ exists []. split; [symmetry; apply app_nil_r | left; split; reflexivity]. }
  destruct (generate g w1) as [[m|msg] w2]; cbn [fst snd trace world isOk].
  2:{ exists [EvEnter b]. split; [reflexivity | right; left; split; reflexivity]. }
  unfold blockOutcome.
  assert (Hadd : forall t : list Event,
             (exists added,
                 t = trace r ++ added /\
                 exists m0, added = EvEnter b :: EvReturn b m0
                                      :: callbackEvents callbackGiven b m0) ->
             forall ok,
             exists added,
               t = trace r ++ added /\
               ((ok = false /\ added = []) \/
                (ok = false /\ added = [EvEnter b]) \/
                (exists m0, added = EvEnter b :: EvReturn b m0
                                      :: callbackEvents callbackGiven b m0))).
  { intros t [added [Ht Hm]] ok. exists added. split; [exact Ht|].
    right; right; exact Hm. }
  destruct metricsCallback as [callback|].
  - destruct (0 <? itemsGenerated m)%Z eqn:Epos; cbn [fst snd trace world isOk].
    + assert (Hev : exists added,
                 ((trace r ++ [EvEnter b]) ++ [EvReturn b m]) ++ [EvCallback b m]
                 = trace r ++ added /\
                 exists m0, added = EvEnter b :: EvReturn b m0
                                      :: callbackEvents true b m0).
      { exists [EvEnter b; EvReturn b m; EvCallback b m].
        split; [rewrite <- !app_assoc; reflexivity|].
        exists m. unfold callbackEvents. rewrite Epos. reflexivity. }
      destruct (callback b m w2) as [[[]|msg] w3];
        cbn [fst snd trace world isOk].
      * destruct (String.eqb b "outputs" && isOutputBlockGenerator g);
          cbn [fst snd trace]; apply Hadd, Hev.
      * apply Hadd, Hev.
    + assert (Hev : exists added,
                 (trace r ++ [EvEnter b]) ++ [EvReturn b m]
                 = trace r ++ added /\
                 exists m0, added = EvEnter b :: EvReturn b m0
                                      :: callbackEvents true b m0).
      { exists [EvEnter b; EvReturn b m].
        split; [rewrite <- !app_assoc; reflexivity|].
        exists m. unfold callbackEvents. rewrite Epos. reflexivity. }
      destruct (String.eqb b "outputs" && isOutputBlockGenerator g);
        cbn [fst snd trace]; apply Hadd, Hev.
  - assert (Hev : exists added,
               (trace r ++ [EvEnter b]) ++ [EvReturn b m]
               = trace r ++ added /\
               exists m0, added = EvEnter b :: EvReturn b m0
                                    :: callbackEvents false b m0).
    { exists [EvEnter b; EvReturn b m].
      split; [rewrite <- !app_assoc; reflexivity|].
      exists m. reflexivity. }
    destruct (String.eqb b "outputs" && isOutputBlockGenerator g);
      cbn [fst snd trace]; apply Hadd, Hev.
Qed.

Lemma generateBlock_Ok_outcome (outputTypes : list OutputType) (b : string)
    (r : Run World) (added : list Event) :
  blockOutcome callbackGiven b added true ->
  exists m, added = EvEnter b :: EvReturn b m :: callbackEvents callbackGiven b m.
Proof.
  intros [[H _]|[[H _]|H]]; try discriminate. exact H.
Qed.

Lemma generateBlocks_cons (b : string) (names : list string)
    (outputTypes : list OutputType) (r : Run World) :
  generateBlocks World generators log metricsCallback outputTypes (b :: names) r
  = match generateBlock World generators log metricsCallback outputTypes b r with
    | (Ok o, r1) =>
        generateBlocks World generators log metricsCallback o names r1
    | (Throw msg, r1) => (Throw msg, r1)
    end.
Proof. reflexivity. Qed.

(** The whole loop. *)
Lemma generateBlocks_outcome (names : list string)
    (outputTypes : list OutputType) (r : Run World) :
  exists added,
    trace (snd (generateBlocks World generators log metricsCallback
                  outputTypes names r))
    = trace r ++ added /\
    blocksOutcome callbackGiven (List.filter isRegistered names) added
      (isOk (fst (generateBlocks World generators log metricsCallback
                    outputTypes names r))).
Proof.
  revert outputTypes r. induction names as [|b names IH]; intros outputTypes r.
  - exists []. split; [symmetry; apply app_nil_r | split; reflexivity].
  - rewrite generateBlocks_cons. cbn [List.filter].
    pose proof (generateBlock_outcome outputTypes b r) as Hb.
    unfold isRegisteredIn at 1.
    destruct (generators !! b) as [g|].
    + destruct Hb as [first [Ht Hout]].
      destruct (generateBlock World generators log metricsCallback
                  outputTypes b r) as [[o|msg] r1]; cbn [fst snd isOk] in *.
      * destruct (IH o r1) as [others [Ht' Hout']].
        exists (first ++ others). split.
        { rewrite Ht', Ht, app_assoc. reflexivity. }
        cbn [blocksOutcome]. exists first, others, true.
        split; [reflexivity|]. split; [exact Hout | exact Hout'].
      * exists first. split; [exact Ht|].
        cbn [blocksOutcome]. exists first, [], false.
        split; [symmetry; apply app_nil_r|].
        split; [exact Hout | split; reflexivity].
    + rewrite Hb. apply IH.
Qed.

End OrchestratorFacts.

(** *** What a trace of the loop looks like *)

Lemma sequentialFrom_callbackEvents (cb : bool) (b : string)
    (m : GenerationMetrics) (running : option string) (t : list Event) :
  sequentialFrom running (callbackEvents cb b m ++ t) = sequentialFrom running t.
Proof.
  unfold callbackEvents. destruct (cb && (0 <? itemsGenerated m)%Z); reflexivity.
Qed.

Lemma blockOutcome_facts (cb : bool) (b : string) (added : list Event)
    (ok : bool) :
  blockOutcome cb b added ok ->
  (invocations added = [] \/ invocations added = [b]) /\
  sequentialFrom None added = true /\
  callbacks added
  = (if cb then List.filter positiveItems (returned added) else []) /\
  (ok = true ->
   invocations added = [b] /\
   List.map fst (returned added) = [b] /\
   forall t, sequentialFrom None (added ++ t) = sequentialFrom None t).
Proof.
  intros [[-> ->]|[[-> ->]|[m ->]]].
  - repeat split; try (left; reflexivity); try discriminate.
    destruct cb; reflexivity.
  - repeat split; try (right; reflexivity); try discriminate.
    destruct cb; reflexivity.
  - assert (Hinv : invocations (EvEnter b :: EvReturn b m :: callbackEvents cb b m)
                   = [b]).
    { unfold callbackEvents. destruct (cb && _); reflexivity. }
    assert (Hret : returned (EvEnter b :: EvReturn b m :: callbackEvents cb b m)
                   = [(b, m)]).
    { unfold callbackEvents. destruct (cb && _); reflexivity. }
    assert (Hseq : forall t,
               sequentialFrom None
                 ((EvEnter b :: EvReturn b m :: callbackEvents cb b m) ++ t)
               = sequentialFrom None t).
    { intros t. cbn [app sequentialFrom]. rewrite String.eqb_refl.
      cbn [andb]. apply sequentialFrom_callbackEvents. }
    split; [right; exact Hinv|]. split.
    { rewrite <- (app_nil_r (_ :: _ :: _)). rewrite Hseq. reflexivity. }
    split.
    { rewrite Hret. unfold callbackEvents, positiveItems. cbn [List.filter snd].
      destruct cb; cbn [andb]; [|reflexivity].
      destruct (0 <? itemsGenerated m)%Z; reflexivity. }
    intros _. rewrite Hinv, Hret. repeat split. exact Hseq.
Qed.

Lemma flat_map_app_nil {A B} (f : A -> list B) (l : list A) :
  flat_map f (l ++ []) = flat_map f l.
Proof. rewrite app_nil_r. reflexivity. Qed.

Lemma blocksOutcome_facts (cb : bool) (names : list string)
    (added : list Event) (ok : bool) :
  blocksOutcome cb names added ok ->
  invocations added `prefix_of` names /\
  sequentialFrom None added = true /\
  callbacks added
  = (if cb then List.filter positiveItems (returned added) else []) /\
  (ok = true ->
   invocations added = names /\
   List.map fst (returned added) = names /\
   forall t, sequentialFrom None (added ++ t) = sequentialFrom None t).
Proof.
  revert added ok. induction names as [|b names IH]; intros added ok.
  - intros [-> ->]. split; [exists []; reflexivity|].
    split; [reflexivity|]. split; [destruct cb; reflexivity|].
    intros _. repeat split.
  - intros [first [others [ok1 [-> [Hfirst Hrest]]]]].
    destruct (blockOutcome_facts _ _ _ _ Hfirst) as [Hinv [Hseq [Hcb Hok]]].
    unfold invocations, returned, callbacks in *.
    rewrite !flat_map_app.
    destruct ok1.
    + destruct (Hok eq_refl) as [Hinv1 [Hret1 Hclosed]].
      destruct (IH _ _ Hrest) as [Hpre [Hseq' [Hcb' Hok']]].
      unfold invocations, returned, callbacks in *.
      split; [|split; [|split]].
      * rewrite Hinv1. destruct Hpre as [k Hk]. exists k.
        cbn [app]. rewrite Hk. reflexivity.
      * rewrite Hclosed. exact Hseq'.
      * rewrite Hcb, Hcb'. destruct cb; [|reflexivity].
        rewrite List.filter_app. reflexivity.
      * intros Hall. destruct (Hok' Hall) as [Hi [Hr Hc]].
        rewrite Hinv1, Hi, List.map_app, Hret1, Hr.
        repeat split. intros t. rewrite <- app_assoc, Hclosed. apply Hc.
    + destruct Hrest as [-> ->]. cbn [flat_map]. rewrite !app_nil_r.
      split; [|split; [|split]].
      * destruct Hinv as [->| ->]; [exists (b :: names) | exists names];
          reflexivity.
      * exact Hseq.
      * rewrite Hcb. reflexivity.
      * discriminate.
Qed.




Lemma guardedGenerate_disabled (World : Type) (shouldGenerate : World -> bool)
    (body : M World GenerationMetrics) (w : World) :
  shouldGenerate w = false ->
  guardedGenerate World shouldGenerate body w
  = (Ok {| itemsGenerated := 0; timeElapsed := None |}, w).
Proof. intros H. unfold guardedGenerate. rewrite H. reflexivity. Qed.



(** Without a callback nothing is called. *)
Lemma no_metricsCallback_no_call (World : Type)
    (generators : gmap string (BlockGenerator World))
    (log : string -> M World unit) (r : Run World) :
  exists added,
    trace (snd (generateAllBlocks World generators log None r))
    = trace r ++ added /\
    callbacks added = [].
Proof.
  unfold generateAllBlocks.
  destruct (generateBlocks_outcome World generators log None
              blockOrder [] r) as [added [Ht Hout]].
  destruct (blocksOutcome_facts _ _ _ _ Hout) as [_ [_ [Hcb _]]].
  exists added. split; assumption.
Qed.

(** ** Deprecated fields *)

Example userCreateInput_fields :
  match sampleInputType userCreateInput with
  | Ok t => List.map sa_name (input_fields t)
  | Throw _ => []
  end = ["name"; "age"].
Proof. vm_compute. reflexivity. Qed.

Example userOutputType_fields :
  match fst (sampleOutputType userOutputType) with
  | Ok t => (output_typeName t, List.map of_name (output_fields t))
  | Throw _ => (EmptyString, [])
  end = ("Client", ["id"; "name"]).
Proof. vm_compute. reflexivity. Qed.

Lemma mapMS_Ok_Forall2 {S A B} (f : A -> M S B) (l : list A) (l' : list B)
    (s s' : S) :
  mapMS f l s = (Ok l', s') ->
  Forall2 (fun x y => exists s1 s2, f x s1 = (Ok y, s2)) l l'.
Proof.
  revert l' s s'. induction l as [|x l IH]; intros l' s s'; cbn [mapMS].
  - intros [= <- _]. constructor.
  - unfold bind at 1. destruct (f x s) as [[y|msg] s1] eqn:Ey; [|discriminate].
    unfold bind at 1.
    destruct (mapMS f l s1) as [[ys|msg] s2] eqn:Eys; [|discriminate].
    intros [= <- _]. constructor; [eauto | eapply IH; exact Eys].
Qed.

Lemma Forall2_filter_names {A B} (keep : A -> bool) (nameA : A -> string)
    (nameB : B -> string) (P : B -> Prop) (R : A -> B -> Prop)
    (raw : list A) (l' : list B) :
  (forall x y, keep x = true -> R x y -> nameB y = nameA x /\ P y) ->
  Forall2 R (List.filter keep raw) l' ->
  List.map nameB l' = List.map nameA (List.filter keep raw) /\ Forall P l'.
Proof.
  intros HR H.
  assert (Hkeep : Forall (fun x => keep x = true) (List.filter keep raw)).
  { apply List.Forall_forall. intros x Hx. apply filter_In in Hx. tauto. }
  induction H as [|x y l l'' Hxy _ IH]; [split; constructor|].
  inversion Hkeep as [|? ? Hk Hks]; subst.
  destruct (HR _ _ Hk Hxy) as [Hn HP]. destruct (IH Hks) as [Hns HPs].
  cbn [List.map]. rewrite Hn, Hns. split; [reflexivity | constructor; assumption].
Qed.

Lemma Forall2_Forall_r {A B} (R : A -> B -> Prop) (P : B -> Prop)
    (l : list A) (l' : list B) :
  (forall x y, R x y -> P y) -> Forall2 R l l' -> Forall P l'.
Proof.
  intros HR H. induction H as [|x y l l' Hxy _ IH]; constructor; eauto.
Qed.

Section DeprecationFacts.

Variable parseDocumentationAttributes :
  option string -> string -> string -> Attributes.
Variable pascalCase : string -> string.
Variable cleanDocsString : option string -> option string.
Variable getInputTypeName : string -> DmmfDocument -> string.
Variable getModelNameFromInputType : string -> option string.
Variable getTypeGraphQLType :
  TypeInfo -> DmmfDocument -> option string -> option string ->
  option bool -> string.
Variable getFieldTSType :
  DmmfDocument -> TypeInfo -> bool -> bool -> option string ->
  option string -> string.
Variable transformMappings :
  list RawModelMapping -> DmmfDocument -> result (list ModelMapping).

Local Abbreviation inputTypeOf :=
  (transformInputType getInputTypeName getModelNameFromInputType
     getTypeGraphQLType getFieldTSType).
Local Abbreviation outputTypeOf :=
  (transformOutputType pascalCase getInputTypeName getTypeGraphQLType
     getFieldTSType).

Lemma transformInputType_fields (d : DmmfDocument) (inputType : RawInputType)
    (transformed : InputType) :
  inputTypeOf d inputType = Ok transformed ->
  List.map sa_name (input_fields transformed)
  = List.map ra_name
      (List.filter (fun field => notDeprecated (ra_deprecation field))
                   (rit_fields inputType)) /\
  Forall (fun field => sa_deprecation field = None) (input_fields transformed).
Proof.
  unfold transformInputType.
  match goal with
  | |- context [mapM ?f ?l] => destruct (mapM f l) as [fields|] eqn:Ef
  end; cbn [rbind]; [|discriminate].
  intros [= <-]. cbn [input_fields].
  apply mapM_Ok_Forall2 in Ef.
  eapply Forall2_filter_names; [|exact Ef].
  intros x y Hkeep Hxy. cbn beta in Hxy. unfold transformInputField in Hxy.
  destruct (selectInputTypeFromTypes _ _ _) as [sel|]; cbn [rbind] in Hxy;
    [|discriminate].
  injection Hxy as <-. cbn [sa_name sa_deprecation].
  split; [reflexivity|]. unfold notDeprecated in Hkeep.
  destruct (ra_deprecation x); [discriminate | reflexivity].
Qed.

Lemma transformOutputType_fields (d : DmmfDocument) (outputType : RawOutputType)
    (transformed : OutputType) (cache cache' : NameCache) :
  outputTypeOf d outputType cache = (Ok transformed, cache') ->
  List.map of_name (output_fields transformed)
  = List.map rsf_name
      (List.filter (fun field => notDeprecated (rsf_deprecation field))
                   (rot_fields outputType)) /\
  Forall (fun field => of_deprecation field = None) (output_fields transformed).
Proof.
  unfold transformOutputType. unfold bind at 1.
  destruct (getMappedOutputTypeName d (rot_name outputType) cache)
    as [[typeName|msg] c1]; [|discriminate].
  unfold bind at 1.
  match goal with
  | |- context [mapMS ?f ?l c1] =>
      destruct (mapMS f l c1) as [[fields|msg] c2] eqn:Ef
  end; [|discriminate].
  unfold ret. intros [= <- _]. cbn [output_fields].
  apply mapMS_Ok_Forall2 in Ef.
  eapply Forall2_filter_names; [|exact Ef].
  intros x y Hkeep [s1 [s2 Hxy]]. unfold transformOutputField in Hxy.
  unfold bind at 1 in Hxy.
  destruct (getMappedOutputTypeName d _ s1) as [[mapped|msg] s3];
    [|discriminate].
  unfold bind at 1, lift in Hxy.
  destruct (mapM _ (rsf_args x)) as [args|msg]; [|discriminate].
  unfold ret in Hxy. injection Hxy as <- _. cbn [of_name of_deprecation].
  split; [reflexivity|]. unfold notDeprecated in Hkeep.
  destruct (rsf_deprecation x); [discriminate | reflexivity].
Qed.

Lemma cacheOutputTypes_schema (d : DmmfDocument) :
  schema_inputTypes (cacheOutputTypes d) = schema_inputTypes d /\
  schema_outputTypes (cacheOutputTypes d) = schema_outputTypes d.
Proof.
  unfold cacheOutputTypes.
  assert (H : forall l acc,
             let r := fold_left
                        (fun acc outputType =>
                           cacheOutputType outputType
                             (fold_left
                                (fun fc field => <[of_name field := field]> fc)
                                (output_fields outputType)
                                (∅ : gmap string OutputSchemaField))
                             acc) l acc in
             schema_inputTypes r = schema_inputTypes acc /\
             schema_outputTypes r = schema_outputTypes acc).
  { induction l as [|o l IH]; intros acc; [split; reflexivity|].
    cbn [fold_left]. cbv zeta in *. destruct (IH (cacheOutputType o
      (fold_left (fun fc field => <[of_name field := field]> fc)
                 (output_fields o) ∅) acc)) as [-> ->].
    split; reflexivity. }
  apply H.
Qed.

(** The input and output types of the document are the transformed
    types of the raw schema. *)
Lemma construct_schema (raw : RawDocument) (opts : GeneratorOptions)
    (cache cache' : NameCache) (d : DmmfDocument) :
  newDmmfDocument parseDocumentationAttributes pascalCase cleanDocsString
    getInputTypeName getModelNameFromInputType getTypeGraphQLType
    getFieldTSType transformMappings raw opts cache = (Ok d, cache') ->
  exists d7 rawInputs rawOutputs c0 c1,
    mapM (inputTypeOf d7) rawInputs = Ok (schema_inputTypes d) /\
    mapMS (outputTypeOf d7) rawOutputs c0 = (Ok (schema_outputTypes d), c1).
Proof.
  unfold newDmmfDocument, clearOutputTypeNameCache, modify.
  unfold bind at 1.
  match goal with
  | |- context [transformModelsWithFields _ _ _ _ _ ?d2 ?l] =>
      destruct (transformModelsWithFields parseDocumentationAttributes
                  pascalCase cleanDocsString getTypeGraphQLType
                  getFieldTSType d2 l) as [withFields d3]
  end.
  match goal with
  | |- context [transformAndCacheEnums _ ?d4 ?l] =>
      destruct (transformAndCacheEnums cleanDocsString d4 l) as [again d5]
  end.
  unfold bind at 1.
  match goal with
  | |- context [transformSchema ?a ?b ?c ?e ?f ?g ?h ?i] =>
      destruct (transformSchema a b c e f g h i) as [[schema|msg] c1] eqn:Es
  end; [|discriminate].
  unfold bind at 1, lift.
  match goal with
  | |- context [transformMappings ?a ?d9] =>
      destruct (transformMappings a d9) as [mappings|msg]
  end; [|discriminate].
  unfold bind at 1.
  match goal with
  | |- context [mapM ?f ?l] => destruct (mapM f l) as [relations|msg]
  end; [|discriminate].
  unfold ret. intros [= <- <-].
  cbn [set_relationModels set_modelMappings schema_inputTypes
         schema_outputTypes].
  match goal with
  | |- context [cacheOutputTypes ?d8] =>
      destruct (cacheOutputTypes_schema d8) as [-> ->]
  end.
  cbn [set_schema schema_inputTypes schema_outputTypes].
  unfold transformSchema in Es. unfold bind at 1, lift in Es.
  match type of Es with
  | context [mapM ?f ?l] => destruct (mapM f l) as [its|msg] eqn:Ei
  end; [|discriminate].
  unfold bind at 1 in Es.
  match type of Es with
  | context [mapMS ?f ?l ?c] => destruct (mapMS f l c) as [[ots|msg] c2] eqn:Eo
  end; [|discriminate].
  unfold ret in Es. injection Es as <- <-. cbn [fst snd].
  eexists _, _, _, _, _. split; [exact Ei | exact Eo].
Qed.

End DeprecationFacts.

(** C10.  The fields of a transformed input type and of a transformed
    output type are, in order and by name, the fields of the raw type
    that carry no deprecation, and none of them carries one; so no input
    or output type of the document that the constructor returns has a
    field with a deprecation. *)
Theorem deprecated_fields_excluded
    (parseDocumentationAttributes :
       option string -> string -> string -> Attributes)
    (pascalCase : string -> string)
    (cleanDocsString : option string -> option string)
    (getInputTypeName : string -> DmmfDocument -> string)
    (getModelNameFromInputType : string -> option string)
    (getTypeGraphQLType :
       TypeInfo -> DmmfDocument -> option string -> option string ->
       option bool -> string)
    (getFieldTSType :
       DmmfDocument -> TypeInfo -> bool -> bool -> option string ->
       option string -> string)
    (transformMappings :
       list RawModelMapping -> DmmfDocument -> result (list ModelMapping)) :
  (forall (d : DmmfDocument) (inputType : RawInputType)
          (transformed : InputType),
      transformInputType getInputTypeName getModelNameFromInputType
        getTypeGraphQLType getFieldTSType d inputType = Ok transformed ->
      List.map sa_name (input_fields transformed)
      = List.map ra_name
          (List.filter (fun field => notDeprecated (ra_deprecation field))
                       (rit_fields inputType)) /\
      Forall (fun field => sa_deprecation field = None)
             (input_fields transformed)) /\
  (forall (d : DmmfDocument) (outputType : RawOutputType)
          (transformed : OutputType) (cache cache' : NameCache),
      transformOutputType pascalCase getInputTypeName getTypeGraphQLType
        getFieldTSType d outputType cache = (Ok transformed, cache') ->
      List.map of_name (output_fields transformed)
      = List.map rsf_name
          (List.filter (fun field => notDeprecated (rsf_deprecation field))
                       (rot_fields outputType)) /\
      Forall (fun field => of_deprecation field = None)
             (output_fields transformed)) /\
  (forall (raw : RawDocument) (opts : GeneratorOptions)
          (cache cache' : NameCache) (d : DmmfDocument),
      newDmmfDocument parseDocumentationAttributes pascalCase cleanDocsString
        getInputTypeName getModelNameFromInputType getTypeGraphQLType
        getFieldTSType transformMappings raw opts cache = (Ok d, cache') ->
      Forall (fun t => Forall (fun field => sa_deprecation field = None)
                              (input_fields t))
             (schema_inputTypes d) /\
      Forall (fun t => Forall (fun field => of_deprecation field = None)
                              (output_fields t))
             (schema_outputTypes d)).
Proof.
  split; [|split].
  - intros d inputType transformed H.
    apply (transformInputType_fields _ _ _ _ _ _ _ H).
  - intros d outputType transformed cache cache' H.
    apply (transformOutputType_fields _ _ _ _ _ _ _ _ _ H).
  - intros raw opts cache cache' d H.
    destruct (construct_schema _ _ _ _ _ _ _ _ _ _ _ _ _ H)
      as [d7 [rawInputs [rawOutputs [c0 [c1 [Hi Ho]]]]]].
    split.
    + apply mapM_Ok_Forall2 in Hi.
      eapply Forall2_Forall_r; [|exact Hi].
      intros x y Hxy. apply (transformInputType_fields _ _ _ _ _ _ _ Hxy).
    + apply mapMS_Ok_Forall2 in Ho.
      eapply Forall2_Forall_r; [|exact Ho].
      intros x y [s1 [s2 Hxy]].
      apply (transformOutputType_fields _ _ _ _ _ _ _ _ _ Hxy).
Qed.

Lemma deprecated_fields_excluded_witness :
  transformInputType sampleInputTypeName sampleModelNameFromInputType
    sampleTypeGraphQLType sampleFieldTSType clientDocument userCreateInput
  = Ok userCreateInputTransformed /\
  List.map sa_name (input_fields userCreateInputTransformed) = ["name"; "age"].
Proof.
  assert (H : transformInputType sampleInputTypeName
                sampleModelNameFromInputType sampleTypeGraphQLType
                sampleFieldTSType clientDocument userCreateInput
              = Ok userCreateInputTransformed)
    by (vm_compute; reflexivity).
  split; [exact H|].
  destruct (deprecated_fields_excluded sampleParse samplePascalCase
              sampleCleanDocs sampleInputTypeName sampleModelNameFromInputType
              sampleTypeGraphQLType sampleFieldTSType sampleTransformMappings)
    as [Hinput _].
  destruct (Hinput clientDocument userCreateInput userCreateInputTransformed H)
    as [Hnames _].
  exact Hnames.
Defined.

(** ** The formatting step of the driver *)

Example formatterCommand_samples :
  formatterCommand (fun _ (_ : unit) => true) samplePathResolve tsc "out" tt
  = "tsc --noEmit --project out" /\
  formatterCommand (fun _ (_ : unit) => true) samplePathResolve prettier "out" tt
  = "npx prettier --write out/**/*.ts --ignore-path out/.prettierignore" /\
  formatterCommand (fun _ (_ : unit) => true) samplePathResolve biome "out" tt
  = "npx biome format --write out/**/*.ts".
Proof. repeat split; reflexivity. Qed.

Example resolveFormatGeneratedCodeOption_cases :
  resolveFormatGeneratedCodeOption None = Some tsc /\
  resolveFormatGeneratedCodeOption (Some (FormatFlag true)) = Some tsc /\
  resolveFormatGeneratedCodeOption (Some (FormatFlag false)) = None /\
  resolveFormatGeneratedCodeOption (Some (FormatWith biome)) = Some biome.
Proof. repeat split; reflexivity. Qed.

Section CodeGeneratorFacts.

Variable Project : Type.
Variable Disk : Type.
Variable parseDocumentationAttributes :
  option string -> string -> string -> Attributes.
Variable pascalCase : string -> string.
Variable cleanDocsString : option string -> option string.
Variable getInputTypeName : string -> DmmfDocument -> string.
Variable getModelNameFromInputType : string -> option string.
Variable getTypeGraphQLType :
  TypeInfo -> DmmfDocument -> option string -> option string ->
  option bool -> string.
Variable getFieldTSType :
  DmmfDocument -> TypeInfo -> bool -> bool -> option string ->
  option string -> string.
Variable transformMappings :
  list RawModelMapping -> DmmfDocument -> result (list ModelMapping).
Variable ensureInstalledCorrectPrismaPackage : result unit.
Variable getBlocksToEmit : option (list string) -> list string.
Variable newProject : bool -> Project.
Variable newBlockGenerator :
  string -> DmmfDocument -> GeneratorOptions -> string ->
  BlockGenerator (PipelineWorld Project Disk).
Variable generateAuxiliaryFiles :
  DmmfDocument -> list OutputType -> Project -> result Project.
Variable projectEmit : Project -> Disk -> result unit * Disk.
Variable projectSave : Project -> Disk -> result unit * Disk.
Variable execa : string -> string -> Disk -> result unit * Disk.
Variable fsAccess : string -> Disk -> bool.
Variable pathResolve : string -> string -> string.
Variable hasMetrics : bool.
Variable hasOnComplete : bool.

Local Abbreviation formatStep :=
  (formatGeneratedCodeStep Project Disk execa fsAccess pathResolve hasMetrics).


Local Abbreviation persist :=
  (generateAndPersist Project Disk parseDocumentationAttributes pascalCase
     cleanDocsString getInputTypeName getModelNameFromInputType
     getTypeGraphQLType getFieldTSType transformMappings newProject
     newBlockGenerator generateAuxiliaryFiles projectEmit projectSave
     hasMetrics).
Local Abbreviation run_generateCode :=
  (generateCode Project Disk parseDocumentationAttributes pascalCase
     cleanDocsString getInputTypeName getModelNameFromInputType
     getTypeGraphQLType getFieldTSType transformMappings
     ensureInstalledCorrectPrismaPackage getBlocksToEmit newProject
     newBlockGenerator generateAuxiliaryFiles projectEmit projectSave
     execa fsAccess pathResolve hasMetrics hasOnComplete).


End CodeGeneratorFacts.

Example sampleGenerateCode_outcome :
  fst sampleGenerateCode = Ok tt /\
  pw_logged _ _ (world (snd sampleGenerateCode))
  = [ "Transforming dmmfDocument..."; "Generating enums...";
      "Generating models..."; "Generating outputs..."; "Generating inputs...";
      "Generating relationResolvers..."; "Generating crudResolvers...";
      "Generate auxiliary files"; "Emitting final code";
      "Saving generated code"; "Formatting generated code with biome";
      "Warning: Code formatting failed: Command failed: "
      +:+ "npx biome format --write generated/**/*.ts" ] /\
  pw_disk _ _ (world (snd sampleGenerateCode))
  = pw_disk _ _ (world (snd samplePersist)) /\
  pw_disk _ _ (world (snd samplePersist))
  = [ "enums"; "models"; "outputs"; "inputs"; "relationResolvers";
      "crudResolvers"; "enhance"; "scalars"; "helpers"; "index" ].
Proof. by_evaluation. Qed.


(** * Further properties *)

(** ** Selection of the input type: results and errors *)





Lemma find_is_Some {A} (p : A -> bool) (l : list A) (x : A) :
  In x l -> p x = true -> exists y, List.find p l = Some y.
Proof.
  intros Hin Hp. destruct (List.find p l) as [y|] eqn:Ef; [eauto|].
  rewrite (find_none _ _ Ef _ Hin) in Hp. discriminate.
Qed.




(** ** Maps built by a loop of insertions *)

Lemma find_app {A} (p : A -> bool) (l1 l2 : list A) :
  List.find p (l1 ++ l2)
  = match List.find p l1 with
    | Some x => Some x
    | None => List.find p l2
    end.
Proof.
  induction l1 as [|x l1 IH]; [reflexivity|].
  cbn [app List.find]. destruct (p x); [reflexivity | exact IH].
Qed.

(** The last insertion under a key wins. *)
Lemma fold_insert_lookup {A V} (k : A -> string) (v : A -> V) (l : list A)
    (acc : gmap string V) (n : string) :
  fold_left (fun acc x => <[k x := v x]> acc) l acc !! n
  = match List.find (fun x => String.eqb (k x) n) (rev l) with
    | Some x => Some (v x)
    | None => acc !! n
    end.
Proof.
  revert acc. induction l as [|x l IH]; intros acc; [reflexivity|].
  cbn [fold_left rev]. rewrite IH, find_app.
  destruct (List.find _ (rev l)); [reflexivity|].
  cbn [List.find]. destruct (String.eqb_spec (k x) n) as [<-|Hne].
  - apply lookup_insert_eq.
  - apply lookup_insert_ne. exact Hne.
Qed.

Lemma fold_insert_filter {A V} (c : A -> bool) (k : A -> string) (v : A -> V)
    (l : list A) (acc : gmap string V) :
  fold_left (fun acc x => if c x then <[k x := v x]> acc else acc) l acc
  = fold_left (fun acc x => <[k x := v x]> acc) (List.filter c l) acc.
Proof.
  revert acc. induction l as [|x l IH]; intros acc; [reflexivity|].
  cbn [fold_left List.filter]. destruct (c x); cbn [fold_left]; apply IH.
Qed.

Lemma fold_insert_ext {A V} (k : A -> string) (v v' : A -> V) (l : list A)
    (acc : gmap string V) :
  (forall x, v x = v' x) ->
  fold_left (fun acc x => <[k x := v x]> acc) l acc
  = fold_left (fun acc x => <[k x := v' x]> acc) l acc.
Proof.
  intros Hv. revert acc. induction l as [|x l IH]; intros acc; [reflexivity|].
  cbn [fold_left]. rewrite Hv. apply IH.
Qed.

Lemma find_rev_sound {A} (k : A -> string) (l : list A) (n : string) (x : A) :
  List.find (fun x => String.eqb (k x) n) (rev l) = Some x ->
  In x l /\ k x = n.
Proof.
  intros H. apply find_some in H as [Hin Hk]. split.
  - apply in_rev. exact Hin.
  - apply String.eqb_eq. exact Hk.
Qed.

Lemma find_rev_complete {A} (k : A -> string) (l : list A) (x : A) :
  In x l ->
  exists y, List.find (fun y => String.eqb (k y) (k x)) (rev l) = Some y.
Proof.
  intros Hin. apply (find_is_Some _ _ x).
  - apply in_rev in Hin. exact Hin.
  - apply String.eqb_refl.
Qed.

Lemma NoDup_map_inj {A} (k : A -> string) (l : list A) (x y : A) :
  List.NoDup (List.map k l) -> In x l -> In y l -> k x = k y -> x = y.
Proof.
  induction l as [|z l IH]; intros Hnd Hx Hy Hk; [destruct Hx|].
  cbn [List.map] in Hnd. apply List.NoDup_cons_iff in Hnd as [Hnotin Hnd].
  destruct Hx as [<-|Hx], Hy as [<-|Hy].
  - reflexivity.
  - exfalso. apply Hnotin. rewrite Hk. apply in_map. exact Hy.
  - exfalso. apply Hnotin. rewrite <- Hk. apply in_map. exact Hx.
  - apply IH; assumption.
Qed.

Lemma find_rev_NoDup {A} (k : A -> string) (l : list A) (x : A) :
  List.NoDup (List.map k l) -> In x l ->
  List.find (fun y => String.eqb (k y) (k x)) (rev l) = Some x.
Proof.
  intros Hnd Hin. destruct (find_rev_complete k l x Hin) as [y Hy].
  rewrite Hy. f_equal.
  destruct (find_rev_sound _ _ _ _ Hy) as [Hyin Hk].
  apply (NoDup_map_inj k l); assumption.
Qed.

Lemma find_rev_None {A} (k : A -> string) (l : list A) (n : string) :
  List.find (fun x => String.eqb (k x) n) (rev l) = None <->
  ~ In n (List.map k l).
Proof.
  split.
  - intros H Hin. apply in_map_iff in Hin as [x [<- Hx]].
    destruct (find_rev_complete k l x Hx) as [y Hy]. congruence.
  - intros H. destruct (List.find _ (rev l)) as [x|] eqn:E; [|reflexivity].
    exfalso. apply H. destruct (find_rev_sound _ _ _ _ E) as [Hin <-].
    apply in_map. exact Hin.
Qed.

(** ** The stages of the constructor of [DmmfDocument] *)

Lemma transformEnums_reads (cleanDocsString : option string -> option string)
    (d d' : DmmfDocument) (enumDef : RawEnum) :
  models d' = models d -> modelsCache d' = modelsCache d ->
  fieldAliasCache d' = fieldAliasCache d ->
  transformEnums cleanDocsString d' enumDef
  = transformEnums cleanDocsString d enumDef.
Proof.
  intros Hm Hc Ha. unfold transformEnums, getModelTypeName, getModelFieldAlias.
  rewrite Hm, Hc, Ha. reflexivity.
Qed.

Lemma transformAndCacheEnums_eq
    (cleanDocsString : option string -> option string)
    (d : DmmfDocument) (enumTypes : list RawEnum) :
  transformAndCacheEnums cleanDocsString d enumTypes
  = (List.map (transformEnums cleanDocsString d) enumTypes,
     set_enumsCache
       (fold_left
          (fun acc e => <[re_name e := transformEnums cleanDocsString d e]> acc)
          enumTypes (enumsCache d))
       d).
Proof.
  assert (H : forall l v,
             transformAndCacheEnums cleanDocsString (set_enumsCache v d) l
             = (List.map (transformEnums cleanDocsString d) l,
                set_enumsCache
                  (fold_left
                     (fun acc e =>
                        <[re_name e := transformEnums cleanDocsString d e]> acc)
                     l v)
                  d)).
  { induction l as [|e l IH]; intros v; [reflexivity|].
    cbn [transformAndCacheEnums cacheEnum List.map fold_left].
    unfold cacheEnum.
    change (set_enumsCache ?w (set_enumsCache v d)) with (set_enumsCache w d).
    cbn [enumsCache set_enumsCache]. rewrite IH.
    rewrite (transformEnums_reads cleanDocsString d (set_enumsCache v d))
      by reflexivity.
    reflexivity. }
  specialize (H enumTypes (enumsCache d)).
  replace (set_enumsCache (enumsCache d) d) with d in H
    by (destruct d; reflexivity).
  exact H.
Qed.

Lemma cacheOutputTypes_eq (d : DmmfDocument) :
  cacheOutputTypes d
  = withOutputCaches
      (fold_left (fun acc ot => <[output_name ot := ot]> acc)
                 (schema_outputTypes d) (outputTypeCache d))
      (fold_left
         (fun acc ot =>
            <[output_name ot := outputFieldsMap (output_fields ot)]> acc)
         (schema_outputTypes d) (outputTypeFieldsCache d))
      d.
Proof.
  unfold cacheOutputTypes.
  assert (H : forall l oc ofc,
             fold_left
               (fun acc outputType =>
                  cacheOutputType outputType
                    (fold_left (fun fc field => <[of_name field := field]> fc)
                               (output_fields outputType)
                               (∅ : gmap string OutputSchemaField))
                    acc)
               l (withOutputCaches oc ofc d)
             = withOutputCaches
                 (fold_left (fun acc ot => <[output_name ot := ot]> acc) l oc)
                 (fold_left
                    (fun acc ot =>
                       <[output_name ot := outputFieldsMap (output_fields ot)]>
                         acc)
                    l ofc)
                 d).
  { induction l as [|ot l IH]; intros oc ofc; [reflexivity|].
    cbn [fold_left]. rewrite <- IH. reflexivity. }
  specialize (H (schema_outputTypes d) (outputTypeCache d)
                (outputTypeFieldsCache d)).
  replace (withOutputCaches (outputTypeCache d) (outputTypeFieldsCache d) d)
    with d in H by (destruct d; reflexivity).
  exact H.
Qed.

Section ConstructionFacts.

Variable parseDocumentationAttributes :
  option string -> string -> string -> Attributes.
Variable pascalCase : string -> string.
Variable cleanDocsString : option string -> option string.
Variable getInputTypeName : string -> DmmfDocument -> string.
Variable getModelNameFromInputType : string -> option string.
Variable getTypeGraphQLType :
  TypeInfo -> DmmfDocument -> option string -> option string ->
  option bool -> string.
Variable getFieldTSType :
  DmmfDocument -> TypeInfo -> bool -> bool -> option string ->
  option string -> string.
Variable transformMappings :
  list RawModelMapping -> DmmfDocument -> result (list ModelMapping).

Local Abbreviation bareModel :=
  (transformBareModel parseDocumentationAttributes pascalCase cleanDocsString).
Local Abbreviation modelWithFields :=
  (transformModelWithFields parseDocumentationAttributes pascalCase
     cleanDocsString getTypeGraphQLType getFieldTSType).
Local Abbreviation secondPass :=
  (transformModelsWithFields parseDocumentationAttributes pascalCase
     cleanDocsString getTypeGraphQLType getFieldTSType).
Local Abbreviation schemaOf :=
  (transformSchema pascalCase getInputTypeName getModelNameFromInputType
     getTypeGraphQLType getFieldTSType).
Local Abbreviation relationModel := (generateRelationModel pascalCase).
Local Abbreviation construct :=
  (newDmmfDocument parseDocumentationAttributes pascalCase cleanDocsString
     getInputTypeName getModelNameFromInputType getTypeGraphQLType
     getFieldTSType transformMappings).

(** What the second pass leaves in the four caches. *)
Lemma secondPass_snd (d : DmmfDocument) (rawModels : list RawModel) :
  snd (secondPass d rawModels)
  = withModelCaches
      (fold_left (fun acc m => <[model_name m := m]> acc)
                 (fst (secondPass d rawModels)) (modelsCache d))
      (fold_left (fun acc m => acc ∪ {[model_typeName m]})
                 (fst (secondPass d rawModels)) (modelTypeNameCache d))
      (fold_left
         (fun acc m =>
            if (0 <? size (fieldAliasesMap (model_fields m)))%nat
            then <[model_name m := fieldAliasesMap (model_fields m)]> acc
            else acc)
         (fst (secondPass d rawModels)) (fieldAliasCache d))
      (fold_left
         (fun acc m => <[model_name m := modelFieldsMap (model_fields m)]> acc)
         (fst (secondPass d rawModels)) (modelFieldsCache d))
      d.
Proof.
  revert d. induction rawModels as [|model rest IH]; intros d.
  - cbn [transformModelsWithFields fst snd fold_left]. destruct d; reflexivity.
  - cbn [transformModelsWithFields]. unfold transformAndCacheModel.
    match goal with
    | |- context [transformModelsWithFields _ _ _ _ _ ?d1 rest] =>
        specialize (IH d1);
        destruct (transformModelsWithFields parseDocumentationAttributes
                    pascalCase cleanDocsString getTypeGraphQLType
                    getFieldTSType d1 rest) as [others d2]
    end.
    cbn [fst snd] in IH |- *. rewrite IH. reflexivity.
Qed.

(** The finished document, stage by stage: what every property holds
    when the constructor returns, stated over the document itself. *)
Lemma construct_stages (raw : RawDocument) (opts : GeneratorOptions)
    (cache cache' : NameCache) (d : DmmfDocument) :
  construct raw opts cache = (Ok d, cache') ->
  options d = opts /\
  modelsCache d
  = fold_left (fun acc m => <[model_name m := m]> acc) (models d) ∅ /\
  modelTypeNameCache d
  = fold_left (fun acc m => acc ∪ {[model_typeName m]}) (models d) ∅ /\
  fieldAliasCache d
  = fold_left
      (fun acc m =>
         if (0 <? size (fieldAliasesMap (model_fields m)))%nat
         then <[model_name m := fieldAliasesMap (model_fields m)]> acc
         else acc)
      (models d) ∅ /\
  modelFieldsCache d
  = fold_left
      (fun acc m => <[model_name m := modelFieldsMap (model_fields m)]> acc)
      (models d) ∅ /\
  enums d = List.map (transformEnums cleanDocsString d) (rawEnumTypesOf raw) /\
  enumsCache d
  = fold_left
      (fun acc e => <[re_name e := transformEnums cleanDocsString d e]> acc)
      (rawEnumTypesOf raw) ∅ /\
  datamodel_models d = models d /\
  datamodel_enums d
  = List.map (transformEnums cleanDocsString d)
             (rd_enums (raw_datamodel raw)) /\
  schemaOf (raw_schema raw) (beforeSchema d) ∅
  = (Ok (schema_inputTypes d, schema_outputTypes d), cache') /\
  outputTypeCache d
  = fold_left (fun acc ot => <[output_name ot := ot]> acc)
              (schema_outputTypes d) ∅ /\
  outputTypeFieldsCache d
  = fold_left
      (fun acc ot =>
         <[output_name ot := outputFieldsMap (output_fields ot)]> acc)
      (schema_outputTypes d) ∅ /\
  transformMappings (raw_mappings raw) (beforeMappings d)
  = Ok (modelMappings d) /\
  mapM (relationModel (beforeRelationModels d)) (relationModelSources d)
  = Ok (relationModels d).
Proof.
  unfold newDmmfDocument, bind, clearOutputTypeNameCache, modify, lift, ret.
  match goal with
  | |- context [transformModelsWithFields _ _ _ _ _ ?d2 ?l] =>
      pose proof (secondPass_snd d2 l) as H3;
      destruct (transformModelsWithFields parseDocumentationAttributes
                  pascalCase cleanDocsString getTypeGraphQLType
                  getFieldTSType d2 l) as [withFields d3]
  end.
  cbn [fst snd] in H3. subst d3.
  rewrite transformAndCacheEnums_eq.
  match goal with
  | |- context [transformSchema ?a ?b ?c ?e ?f ?g ?h ?i] =>
      destruct (transformSchema a b c e f g h i) as [[[its ots]|msg] c1] eqn:Es
  end; [|discriminate].
  rewrite cacheOutputTypes_eq.
  match goal with
  | |- context [transformMappings ?a ?d9] =>
      destruct (transformMappings a d9) as [mappings|msg] eqn:Em
  end; [|discriminate].
  match goal with
  | |- context [mapM ?f ?l] =>
      destruct (mapM f l) as [relations|msg] eqn:Er
  end; [|discriminate].
  intros [= <- <-].
  cbv beta iota delta
    [beforeSchema beforeMappings beforeRelationModels
       models datamodel_models datamodel_enums schema_inputTypes
       schema_outputTypes enums modelMappings relationModels
       outputTypeCache modelsCache modelTypeNameCache fieldAliasCache
       enumsCache modelFieldsCache outputTypeFieldsCache options
       emptyDocument set_models set_enums set_enumsCache set_datamodel
       set_schema set_modelMappings set_relationModels withModelCaches
       withOutputCaches] in *.
  split; [reflexivity|].
  split; [reflexivity|].
  split; [reflexivity|].
  split; [reflexivity|].
  split; [reflexivity|].
  split; [apply map_ext; intros e; apply transformEnums_reads; reflexivity|].
  split.
  { apply fold_insert_ext. intros e. apply transformEnums_reads; reflexivity. }
  split; [reflexivity|].
  split; [apply map_ext; intros e; apply transformEnums_reads; reflexivity|].
  split; [exact Es|].
  split; [reflexivity|].
  split; [reflexivity|].
  split; [exact Em|].
  exact Er.
Qed.

(** ** The caches of models of the finished document *)

Lemma typeNames_fold (l : list Model) (acc : gset string) (t : string) :
  t ∈ fold_left (fun acc m => acc ∪ {[model_typeName m]}) l acc
  <-> t ∈ acc \/ In t (List.map model_typeName l).
Proof.
  revert acc. induction l as [|m l IH]; intros acc.
  - cbn [fold_left List.map In]. tauto.
  - cbn [fold_left List.map In]. rewrite IH, elem_of_union, elem_of_singleton.
    intuition congruence.
Qed.

(** The models that [isModelName] knows are those of the raw datamodel; a
    cached model is a model of the document, cached under its own name;
    [getModelTypeName] finds no type name exactly when no model of the
    document has the name, letter case put aside; and when the names of
    the raw models are distinct, every model of the document is the one
    cached under its name and [getModelTypeName] returns its type name. *)
Theorem modelsCache_of_constructed (raw : RawDocument)
    (opts : GeneratorOptions) (cache cache' : NameCache) (d : DmmfDocument) :
  construct raw opts cache = (Ok d, cache') ->
  (forall n, isModelName d n = true
             <-> In n (List.map rm_name (rawModelsOf raw))) /\
  (forall n m, modelsCache d !! n = Some m ->
               In m (models d) /\ model_name m = n) /\
  (forall n, getModelTypeName d n = None
             <-> forall m, In m (models d) ->
                           JS.toLocaleLowerCase (model_name m)
                           <> JS.toLocaleLowerCase n) /\
  (List.NoDup (List.map rm_name (rawModelsOf raw)) ->
   forall m, In m (models d) ->
             modelsCache d !! model_name m = Some m /\
             getModelTypeName d (model_name m) = Some (model_typeName m)).
Proof.
  intros H.
  destruct (construct_models parseDocumentationAttributes pascalCase
              cleanDocsString getInputTypeName getModelNameFromInputType
              getTypeGraphQLType getFieldTSType transformMappings
              _ _ _ _ _ H) as [_ Hnames].
  destruct (construct_stages _ _ _ _ _ H) as (_ & Hmc & _).
  assert (Hlookup : forall n,
             modelsCache d !! n
             = List.find (fun m => String.eqb (model_name m) n)
                         (rev (models d))).
  { intros n. rewrite Hmc, (fold_insert_lookup model_name (fun m => m)).
    destruct (List.find _ _); [reflexivity | apply lookup_empty]. }
  assert (Hsound : forall n m, modelsCache d !! n = Some m ->
                               In m (models d) /\ model_name m = n).
  { intros n m Hm. rewrite Hlookup in Hm.
    apply (find_rev_sound model_name _ _ _ Hm). }
  split; [|split; [exact Hsound|split]].
  - intros n. unfold isModelName, rawModelsOf. rewrite <- Hnames.
    rewrite bool_decide_eq_true, Hlookup.
    destruct (List.find _ _) as [m|] eqn:E.
    + split; [intros _ | eauto].
      destruct (find_rev_sound model_name _ _ _ E) as [Hin <-].
      apply in_map. exact Hin.
    + split; [intros [x Hx]; discriminate|].
      intros Hin. apply find_rev_None in E. contradiction.
  - intros n. unfold getModelTypeName.
    destruct (modelsCache d !! n) as [m|] eqn:E.
    + split; [discriminate|]. intros Hall.
      destruct (Hsound _ _ E) as [Hin Hn]. exfalso.
      apply (Hall m Hin). rewrite Hn. reflexivity.
    + destruct (List.find _ (models d)) as [m|] eqn:Ef.
      * split; [discriminate|]. intros Hall.
        apply find_some in Ef as [Hin Heq]. apply String.eqb_eq in Heq.
        exfalso. apply (Hall m Hin Heq).
      * split; [|reflexivity]. intros _ m Hin Heq.
        pose proof (find_none _ _ Ef m Hin) as Hne. cbv beta in Hne.
        rewrite Heq, String.eqb_refl in Hne. discriminate.
  - intros Hnd m Hin. unfold rawModelsOf in Hnd. rewrite <- Hnames in Hnd.
    assert (Hm : modelsCache d !! model_name m = Some m).
    { rewrite Hlookup. apply find_rev_NoDup; assumption. }
    split; [exact Hm|]. unfold getModelTypeName. rewrite Hm. reflexivity.
Qed.

(** [isModelTypeName] holds of the type names of the models of the
    document and of nothing else. *)
Theorem isModelTypeName_of_constructed (raw : RawDocument)
    (opts : GeneratorOptions) (cache cache' : NameCache) (d : DmmfDocument) :
  construct raw opts cache = (Ok d, cache') ->
  forall t,
    isModelTypeName d t = true
    <-> exists m, In m (models d) /\ model_typeName m = t.
Proof.
  intros H t.
  destruct (construct_stages _ _ _ _ _ H) as (_ & _ & Htn & _).
  unfold isModelTypeName. rewrite bool_decide_eq_true, Htn, typeNames_fold.
  rewrite in_map_iff. split.
  - intros [Hemp|[m [Ht Hin]]]; [|eauto].
    apply elem_of_empty in Hemp. destruct Hemp.
  - intros [m [Hin Ht]]. right. eauto.
Qed.

Lemma modelFieldsMap_lookup (fields : list ModelField) (f : string) :
  modelFieldsMap fields !! f
  = List.find (fun field => String.eqb (mf_name field) f) (rev fields).
Proof.
  unfold modelFieldsMap.
  rewrite (fold_insert_lookup mf_name (fun field => field)).
  destruct (List.find _ _); [reflexivity | apply lookup_empty].
Qed.

Lemma outputFieldsMap_lookup (fields : list OutputSchemaField) (f : string) :
  outputFieldsMap fields !! f
  = List.find (fun field => String.eqb (of_name field) f) (rev fields).
Proof.
  unfold outputFieldsMap.
  rewrite (fold_insert_lookup of_name (fun field => field)).
  destruct (List.find _ _); [reflexivity | apply lookup_empty].
Qed.

(** The fields are cached for the models that are cached, as the map of
    their fields. *)
Lemma construct_modelFieldsCache (raw : RawDocument) (opts : GeneratorOptions)
    (cache cache' : NameCache) (d : DmmfDocument) :
  construct raw opts cache = (Ok d, cache') ->
  forall n,
    modelFieldsCache d !! n
    = option_map (fun m => modelFieldsMap (model_fields m))
                 (modelsCache d !! n).
Proof.
  intros H n.
  destruct (construct_stages _ _ _ _ _ H) as (_ & Hmc & _ & _ & Hmf & _).
  rewrite Hmc, Hmf.
  rewrite (fold_insert_lookup model_name (fun m => m)),
    (fold_insert_lookup model_name
       (fun m => modelFieldsMap (model_fields m))).
  destruct (List.find _ _); cbn [option_map]; [reflexivity|].
  rewrite !lookup_empty. reflexivity.
Qed.

(** [getModelField] returns a field of the model cached under the name,
    with the name asked for; it finds every name that a field of that
    model has, and the field itself when the names of the fields are
    distinct; for a name that is not a model it returns nothing. *)
Theorem getModelField_of_constructed (raw : RawDocument)
    (opts : GeneratorOptions) (cache cache' : NameCache) (d : DmmfDocument) :
  construct raw opts cache = (Ok d, cache') ->
  (forall n f field,
      getModelField d n f = Some field ->
      exists m, modelsCache d !! n = Some m /\
                In field (model_fields m) /\ mf_name field = f) /\
  (forall n m field,
      modelsCache d !! n = Some m -> In field (model_fields m) ->
      exists found,
        getModelField d n (mf_name field) = Some found /\
        In found (model_fields m) /\ mf_name found = mf_name field) /\
  (forall n m field,
      modelsCache d !! n = Some m ->
      List.NoDup (List.map mf_name (model_fields m)) ->
      In field (model_fields m) ->
      getModelField d n (mf_name field) = Some field) /\
  (forall n f, isModelName d n = false -> getModelField d n f = None).
Proof.
  intros H. pose proof (construct_modelFieldsCache _ _ _ _ _ H) as Hsync.
  unfold getModelField.
  split; [|split; [|split]].
  - intros n f field. rewrite Hsync.
    destruct (modelsCache d !! n) as [m|]; cbn [option_map]; [|discriminate].
    rewrite modelFieldsMap_lookup. intros Hf.
    destruct (find_rev_sound mf_name _ _ _ Hf) as [Hin Hn]. eauto.
  - intros n m field Hm Hin. rewrite Hsync, Hm. cbn [option_map].
    rewrite modelFieldsMap_lookup.
    destruct (find_rev_complete mf_name _ _ Hin) as [found Hfound].
    exists found. split; [exact Hfound|].
    apply (find_rev_sound mf_name _ _ _ Hfound).
  - intros n m field Hm Hnd Hin. rewrite Hsync, Hm. cbn [option_map].
    rewrite modelFieldsMap_lookup. apply find_rev_NoDup; assumption.
  - intros n f Hn. rewrite Hsync. unfold isModelName in Hn.
    apply bool_decide_eq_false in Hn.
    destruct (modelsCache d !! n) as [m|]; [|reflexivity].
    exfalso. apply Hn. eauto.
Qed.

Lemma NoDup_map_filter {A} (k : A -> string) (c : A -> bool) (l : list A) :
  List.NoDup (List.map k l) -> List.NoDup (List.map k (List.filter c l)).
Proof.
  induction l as [|x l IH]; intros Hnd; [constructor|].
  cbn [List.map List.filter] in *.
  apply List.NoDup_cons_iff in Hnd as [Hnotin Hnd].
  destruct (c x); [|apply IH, Hnd].
  cbn [List.map]. constructor; [|apply IH, Hnd].
  intros Hin. apply Hnotin. apply in_map_iff in Hin as [y [Hy Hyin]].
  apply filter_In in Hyin as [Hyin _]. rewrite <- Hy. apply in_map. exact Hyin.
Qed.

Lemma fieldAliasesMap_lookup (fields : list ModelField) (f : string) :
  fieldAliasesMap fields !! f
  = option_map (fun field => JS.template (mf_typeFieldAlias field))
      (List.find (fun field => String.eqb (mf_name field) f)
         (rev (List.filter (fun field => truthy (mf_typeFieldAlias field))
                           fields))).
Proof.
  unfold fieldAliasesMap.
  rewrite (fold_insert_filter
             (fun field => truthy (mf_typeFieldAlias field)) mf_name
             (fun field => JS.template (mf_typeFieldAlias field))).
  rewrite fold_insert_lookup.
  destruct (List.find _ _); [reflexivity | apply lookup_empty].
Qed.

(** When the names of the raw models are distinct, the aliases cached
    for a model are those of the model cached under the name. *)
Lemma construct_fieldAliasCache (raw : RawDocument) (opts : GeneratorOptions)
    (cache cache' : NameCache) (d : DmmfDocument) :
  construct raw opts cache = (Ok d, cache') ->
  List.NoDup (List.map rm_name (rawModelsOf raw)) ->
  forall n f,
    getModelFieldAlias d n f
    = match modelsCache d !! n with
      | Some m => fieldAliasesMap (model_fields m) !! f
      | None => None
      end.
Proof.
  intros H Hnd n f.
  destruct (construct_models parseDocumentationAttributes pascalCase
              cleanDocsString getInputTypeName getModelNameFromInputType
              getTypeGraphQLType getFieldTSType transformMappings
              _ _ _ _ _ H) as [_ Hnames].
  unfold rawModelsOf in Hnd. rewrite <- Hnames in Hnd.
  destruct (construct_stages _ _ _ _ _ H) as (_ & Hmc & _ & Hfa & _).
  unfold getModelFieldAlias. rewrite Hmc, Hfa.
  rewrite (fold_insert_filter
             (fun m => (0 <? size (fieldAliasesMap (model_fields m)))%nat)
             model_name (fun m => fieldAliasesMap (model_fields m))).
  rewrite (fold_insert_lookup model_name (fun m => m)),
    (fold_insert_lookup model_name
       (fun m => fieldAliasesMap (model_fields m))).
  set (c := fun m : Model =>
              (0 <? size (fieldAliasesMap (model_fields m)))%nat).
  destruct (List.find _ (rev (List.filter c (models d)))) as [m'|] eqn:Ef.
  - destruct (find_rev_sound model_name _ _ _ Ef) as [Hin' Hn'].
    apply filter_In in Hin' as [Hin' _].
    rewrite <- Hn', (find_rev_NoDup model_name _ _ Hnd Hin'). reflexivity.
  - rewrite lookup_empty.
    destruct (List.find _ (rev (models d))) as [m|] eqn:Em;
      [|rewrite lookup_empty; reflexivity].
    destruct (find_rev_sound model_name _ _ _ Em) as [Hin Hn].
    destruct (c m) eqn:Hc.
    + exfalso. rewrite (find_rev_None model_name) in Ef. apply Ef.
      rewrite <- Hn. apply in_map. apply filter_In. split; assumption.
    + unfold c in Hc. apply Nat.ltb_ge in Hc.
      assert (Hsize : size (fieldAliasesMap (model_fields m)) = 0%nat) by lia.
      apply map_size_empty_iff in Hsize. rewrite Hsize, lookup_empty.
      reflexivity.
Qed.

(** When the names of the raw models are distinct, [getModelFieldAlias]
    returns only the non-empty alias of a field of the model with the
    name asked for; and when the names of the fields of the model are
    distinct as well, it returns the alias of every field that has a
    non-empty one and nothing for the others. *)
Theorem getModelFieldAlias_of_constructed (raw : RawDocument)
    (opts : GeneratorOptions) (cache cache' : NameCache) (d : DmmfDocument) :
  construct raw opts cache = (Ok d, cache') ->
  List.NoDup (List.map rm_name (rawModelsOf raw)) ->
  (forall n f alias,
      getModelFieldAlias d n f = Some alias ->
      exists m field,
        modelsCache d !! n = Some m /\ In field (model_fields m) /\
        mf_name field = f /\ mf_typeFieldAlias field = Some alias /\
        alias <> EmptyString) /\
  (forall n m field,
      modelsCache d !! n = Some m ->
      List.NoDup (List.map mf_name (model_fields m)) ->
      In field (model_fields m) ->
      getModelFieldAlias d n (mf_name field)
      = if truthy (mf_typeFieldAlias field)
        then mf_typeFieldAlias field else None).
Proof.
  intros H Hnd.
  pose proof (construct_fieldAliasCache _ _ _ _ _ H Hnd) as Halias.
  split.
  - intros n f alias. rewrite Halias.
    destruct (modelsCache d !! n) as [m|]; [|discriminate].
    rewrite fieldAliasesMap_lookup.
    destruct (List.find _ _) as [field|] eqn:Ef; cbn [option_map];
      [|discriminate].
    destruct (find_rev_sound mf_name _ _ _ Ef) as [Hin Hn].
    apply filter_In in Hin as [Hin Htruthy].
    destruct (mf_typeFieldAlias field) as [a|] eqn:Ea; cbn [truthy] in Htruthy;
      [|discriminate].
    cbn [JS.template]. intros [= <-]. exists m, field.
    repeat split; try assumption.
    intros ->. discriminate.
  - intros n m field Hm Hndf Hin. rewrite Halias, Hm.
    rewrite fieldAliasesMap_lookup.
    destruct (truthy (mf_typeFieldAlias field)) eqn:Htruthy.
    + rewrite (find_rev_NoDup mf_name).
      * cbn [option_map]. destruct (mf_typeFieldAlias field);
          [reflexivity | discriminate].
      * apply NoDup_map_filter. exact Hndf.
      * apply filter_In. split; assumption.
    + destruct (List.find _ _) as [found|] eqn:Ef; [|reflexivity].
      destruct (find_rev_sound mf_name _ _ _ Ef) as [Hfin Hfn].
      apply filter_In in Hfin as [Hfin Hft].
      rewrite (NoDup_map_inj mf_name _ _ _ Hndf Hfin Hin Hfn) in Hft.
      congruence.
Qed.

(** ** The caches of output types of the finished document *)

Lemma outputCaches_folds (d : DmmfDocument) :
  outputTypeCache d
  = fold_left (fun acc ot => <[output_name ot := ot]> acc)
              (schema_outputTypes d) ∅ ->
  outputTypeFieldsCache d
  = fold_left
      (fun acc ot =>
         <[output_name ot := outputFieldsMap (output_fields ot)]> acc)
      (schema_outputTypes d) ∅ ->
  outputCachesInSync d /\
  (forall n ot, outputTypeCache d !! n = Some ot ->
                In ot (schema_outputTypes d)) /\
  (forall ot, In ot (schema_outputTypes d) ->
              is_Some (outputTypeCache d !! output_name ot)).
Proof.
  intros Hoc Hofc.
  assert (Hlookup : forall n,
             outputTypeCache d !! n
             = List.find (fun ot => String.eqb (output_name ot) n)
                         (rev (schema_outputTypes d))).
  { intros n. rewrite Hoc, (fold_insert_lookup output_name (fun ot => ot)).
    destruct (List.find _ _); [reflexivity | apply lookup_empty]. }
  split; [|split].
  - intros n. split.
    + rewrite Hlookup, Hofc.
      rewrite (fold_insert_lookup output_name
                 (fun ot => outputFieldsMap (output_fields ot))).
      destruct (List.find _ _); cbn [option_map];
        [reflexivity | apply lookup_empty].
    + intros ot. rewrite Hlookup. intros Hf.
      apply (find_rev_sound output_name _ _ _ Hf).
  - intros n ot. rewrite Hlookup. intros Hf.
    apply (find_rev_sound output_name _ _ _ Hf).
  - intros ot Hin. rewrite Hlookup.
    destruct (find_rev_complete output_name _ _ Hin) as [y Hy]. eauto.
Qed.

(** An output type is cached under its own name and is one of the schema;
    every output type of the schema has a cached one of its name; and
    [getOutputTypeField] returns a field of the cached output type with
    the name asked for, and finds every name that a field of it has. *)
Theorem getOutputTypeField_of_constructed (raw : RawDocument)
    (opts : GeneratorOptions) (cache cache' : NameCache) (d : DmmfDocument) :
  construct raw opts cache = (Ok d, cache') ->
  (forall n ot, outputTypeCache d !! n = Some ot ->
                In ot (schema_outputTypes d) /\ output_name ot = n) /\
  (forall ot, In ot (schema_outputTypes d) ->
              is_Some (outputTypeCache d !! output_name ot)) /\
  (forall n f field,
      getOutputTypeField d n f = Some field ->
      exists ot, outputTypeCache d !! n = Some ot /\
                 In field (output_fields ot) /\ of_name field = f) /\
  (forall n ot field,
      outputTypeCache d !! n = Some ot -> In field (output_fields ot) ->
      exists found,
        getOutputTypeField d n (of_name field) = Some found /\
        In found (output_fields ot) /\ of_name found = of_name field).
Proof.
  intros H.
  destruct (construct_stages _ _ _ _ _ H)
    as (_ & _ & _ & _ & _ & _ & _ & _ & _ & _ & Hoc & Hofc & _).
  destruct (outputCaches_folds d Hoc Hofc) as (Hsync & Hin & Hall).
  unfold getOutputTypeField.
  split; [|split; [exact Hall|split]].
  - intros n ot Hot. split; [apply (Hin n ot Hot)|].
    apply (proj2 (Hsync n) ot Hot).
  - intros n f field. rewrite (proj1 (Hsync n)).
    destruct (outputTypeCache d !! n) as [ot|]; cbn [option_map];
      [|discriminate].
    rewrite outputFieldsMap_lookup. intros Hf.
    destruct (find_rev_sound of_name _ _ _ Hf) as [Hfin Hn]. eauto.
  - intros n ot field Hot Hfin. rewrite (proj1 (Hsync n)), Hot.
    cbn [option_map]. rewrite outputFieldsMap_lookup.
    destruct (find_rev_complete of_name _ _ Hfin) as [found Hfound].
    exists found. split; [exact Hfound|].
    apply (find_rev_sound of_name _ _ _ Hfound).
Qed.

(** ** Relation models *)


Lemma Forall2_In_r {A B} (R : A -> B -> Prop) (l : list A) (l' : list B)
    (y : B) :
  Forall2 R l l' -> In y l' -> exists x, In x l /\ R x y.
Proof.
  intros H. induction H as [|x y' l l' Hxy _ IH]; intros Hin;
    [destruct Hin|].
  destruct Hin as [<-|Hin].
  - exists x. split; [left; reflexivity | exact Hxy].
  - destruct (IH Hin) as [x' [Hx' HR]]. exists x'. split; [right|]; assumption.
Qed.

(** With the caches of output types in step, the output-type field of a
    relation field is found. *)
Lemma relationField_outputTypeField (d : DmmfDocument) (n : string)
    (ot : OutputType) (field : ModelField) :
  outputCachesInSync d ->
  outputTypeCache d !! n = Some ot ->
  isRelationFieldOf ot field = true ->
  exists otf,
    getOutputTypeField d (output_name ot) (mf_name field) = Some otf /\
    In otf (output_fields ot) /\ of_name otf = mf_name field.
Proof.
  intros Hsync Hot Hrel.
  rewrite (proj2 (Hsync n) ot Hot).
  unfold getOutputTypeField. rewrite (proj1 (Hsync n)), Hot.
  cbn [option_map]. rewrite outputFieldsMap_lookup.
  unfold isRelationFieldOf in Hrel.
  apply andb_true_iff in Hrel as [_ Hex].
  apply existsb_exists in Hex as [it [Hin Hname]].
  apply String.eqb_eq in Hname.
  destruct (find_rev_complete of_name _ _ Hin) as [found Hfound].
  rewrite Hname in Hfound. exists found. split; [exact Hfound|].
  apply (find_rev_sound of_name _ _ _ Hfound).
Qed.


(** What a relation model holds when the caches of output types are in
    step and the model has an output type. *)
Lemma relationModel_inv (d : DmmfDocument) (model : Model)
    (rel : RelationModel) (ot : OutputType) :
  outputCachesInSync d ->
  outputTypeCache d !! model_name model = Some ot ->
  relationModel d model = Ok rel ->
  rel_model rel = model /\
  rel_resolverName rel = model_typeName model +:+ "RelationsResolver" /\
  rel_outputType rel = Some ot /\
  List.map relf_field (rel_relationFields rel)
  = List.filter (isRelationFieldOf ot) (model_fields model) /\
  Forall
    (fun rf =>
       relf_type rf = getModelTypeName d (mf_type (relf_field rf)) /\
       exists otf,
         relf_outputTypeField rf = Some otf /\
         In otf (output_fields ot) /\
         of_name otf = mf_name (relf_field rf) /\
         relf_argsTypeName rf
         = if (0 <? length (of_args otf))%nat
           then Some (model_typeName model
                      +:+ pascalCase (mf_name (relf_field rf)) +:+ "Args")
           else None)
    (rel_relationFields rel).
Proof.
  intros Hsync Hot. unfold generateRelationModel. rewrite Hot.
  destruct (mapM _ _) as [rfs|] eqn:Hrfs; cbn [rbind]; [|discriminate].
  intros [= <-].
  cbn [rel_model rel_resolverName rel_outputType rel_relationFields].
  apply mapM_Ok_Forall2 in Hrfs.
  repeat split.
  - revert Hrfs. generalize (List.filter (isRelationFieldOf ot)
                               (model_fields model)).
    intros l Hrfs. induction Hrfs as [|field rf l rfs Hrf _ IH];
      [reflexivity|].
    cbn [List.map]. rewrite IH. f_equal.
    unfold generateRelationField in Hrf.
    destruct (getOutputTypeField _ _ _); [|discriminate].
    injection Hrf as <-. reflexivity.
  - apply List.Forall_forall. intros rf Hin.
    destruct (Forall2_In_r _ _ _ _ Hrfs Hin) as [field [Hfield Hrf]].
    apply filter_In in Hfield as [_ Hrel].
    destruct (relationField_outputTypeField d _ ot field Hsync Hot Hrel)
      as [otf [Hotf [Hin' Hname]]].
    unfold generateRelationField in Hrf. rewrite Hotf in Hrf.
    injection Hrf as <-.
    cbn [relf_type relf_field relf_outputTypeField relf_argsTypeName].
    split; [reflexivity|]. exists otf. repeat split; assumption.
Qed.


(** In the finished document, a relation model holds a model of the
    document, the output type cached under its name, the resolver name
    made of its type name, and one relation field for each field of the
    model that is a relation, is not omitted and is a field of the output
    type, in order; a relation field carries the output-type field of its
    name and has a name for its arguments exactly when that field has
    arguments. *)
Theorem relationModels_of_constructed (raw : RawDocument)
    (opts : GeneratorOptions) (cache cache' : NameCache) (d : DmmfDocument) :
  construct raw opts cache = (Ok d, cache') ->
  forall rel,
    In rel (relationModels d) ->
    In (rel_model rel) (models d) /\
    rel_resolverName rel
    = model_typeName (rel_model rel) +:+ "RelationsResolver" /\
    exists ot,
      rel_outputType rel = Some ot /\
      outputTypeCache d !! model_name (rel_model rel) = Some ot /\
      List.map relf_field (rel_relationFields rel)
      = List.filter (isRelationFieldOf ot) (model_fields (rel_model rel)) /\
      Forall
        (fun rf =>
           relf_type rf = getModelTypeName d (mf_type (relf_field rf)) /\
           exists otf,
             relf_outputTypeField rf = Some otf /\
             In otf (output_fields ot) /\
             of_name otf = mf_name (relf_field rf) /\
             relf_argsTypeName rf
             = if (0 <? length (of_args otf))%nat
               then Some (model_typeName (rel_model rel)
                          +:+ pascalCase (mf_name (relf_field rf))
                          +:+ "Args")
               else None)
        (rel_relationFields rel).
Proof.
  intros H rel Hin.
  destruct (construct_stages _ _ _ _ _ H)
    as (_ & _ & _ & _ & _ & _ & _ & _ & _ & _ & Hoc & Hofc & _ & Hrels).
  destruct (outputCaches_folds d Hoc Hofc) as (Hsync & _ & _).
  apply mapM_Ok_Forall2 in Hrels.
  destruct (Forall2_In_r _ _ _ _ Hrels Hin) as [model [Hmodel Hrel]].
  unfold relationModelSources in Hmodel.
  apply filter_In in Hmodel as [Hmodel Hexp].
  apply filter_In in Hmodel as [Hmodel _].
  assert (Hrel' : relationModel d model = Ok rel) by exact Hrel.
  unfold hasExposedRelationInOutput in Hexp.
  destruct (outputTypeCache d !! model_name model) as [ot|] eqn:Hot;
    [|discriminate].
  destruct (relationModel_inv d model rel ot Hsync Hot Hrel')
    as (Hm & Hname & Hout & Hfields & Hall).
  rewrite Hm. split; [exact Hmodel|]. split; [exact Hname|].
  exists ot. repeat split; assumption.
Qed.


(** ** Enums *)

(** The enums of the finished document are the raw enum types
    transformed against the finished document itself, in order.  The
    cache of enums is keyed by the raw name of the enum and not by its
    type name: [getEnumByTypeName] returns an enum of the document whose
    raw name is the name asked for, and finds every enum of the
    document by its raw name. *)
Theorem enums_of_constructed (raw : RawDocument)
    (opts : GeneratorOptions) (cache cache' : NameCache) (d : DmmfDocument) :
  construct raw opts cache = (Ok d, cache') ->
  enums d = List.map (transformEnums cleanDocsString d) (rawEnumTypesOf raw) /\
  datamodel_enums d
  = List.map (transformEnums cleanDocsString d)
             (rd_enums (raw_datamodel raw)) /\
  (forall n e, getEnumByTypeName d n = Some e ->
               In e (enums d) /\ enum_name e = n) /\
  (forall e, In e (enums d) ->
             exists found,
               getEnumByTypeName d (enum_name e) = Some found /\
               In found (enums d) /\ enum_name found = enum_name e) /\
  (List.NoDup (List.map re_name (rawEnumTypesOf raw)) ->
   forall e, In e (enums d) -> getEnumByTypeName d (enum_name e) = Some e).
Proof.
  intros H.
  destruct (construct_stages _ _ _ _ _ H)
    as (_ & _ & _ & _ & _ & He & Hec & _ & Hde & _).
  assert (Hlookup : forall n,
             getEnumByTypeName d n
             = option_map (transformEnums cleanDocsString d)
                 (List.find (fun e => String.eqb (re_name e) n)
                            (rev (rawEnumTypesOf raw)))).
  { intros n. unfold getEnumByTypeName. rewrite Hec.
    rewrite (fold_insert_lookup re_name (transformEnums cleanDocsString d)).
    destruct (List.find _ _); [reflexivity | apply lookup_empty]. }
  split; [exact He|]. split; [exact Hde|].
  split; [|split].
  - intros n e. rewrite Hlookup.
    destruct (List.find _ _) as [rawEnum|] eqn:Ef; cbn [option_map];
      [|discriminate].
    intros [= <-]. destruct (find_rev_sound re_name _ _ _ Ef) as [Hin Hn].
    split; [|exact Hn]. rewrite He. apply in_map. exact Hin.
  - intros e Hin. rewrite He in Hin.
    apply in_map_iff in Hin as [rawEnum [<- Hin]].
    change (enum_name (transformEnums cleanDocsString d rawEnum))
      with (re_name rawEnum).
    rewrite Hlookup.
    destruct (find_rev_complete re_name _ _ Hin) as [found Hfound].
    rewrite Hfound. cbn [option_map]. eexists. split; [reflexivity|].
    destruct (find_rev_sound re_name _ _ _ Hfound) as [Hfin Hfn].
    split; [|exact Hfn]. rewrite He. apply in_map. exact Hfin.
  - intros Hnd e Hin. rewrite He in Hin.
    apply in_map_iff in Hin as [rawEnum [<- Hin]].
    change (enum_name (transformEnums cleanDocsString d rawEnum))
      with (re_name rawEnum).
    rewrite Hlookup, (find_rev_NoDup re_name _ _ Hnd Hin). reflexivity.
Qed.

(** ** The schema of the finished document *)

Lemma mapMS_invariant {S A B} (I : S -> Prop) (Q : A -> B -> Prop)
    (f : A -> M S B) (l : list A) (s : S) :
  (forall x s, I s ->
               I (snd (f x s)) /\ forall y, fst (f x s) = Ok y -> Q x y) ->
  I s ->
  I (snd (mapMS f l s)) /\
  forall ys, fst (mapMS f l s) = Ok ys -> Forall2 Q l ys.
Proof.
  intros Hf. revert s. induction l as [|x l IH]; intros s Hs; cbn [mapMS].
  - split; [exact Hs|]. intros ys [= <-]. constructor.
  - unfold bind, ret. destruct (Hf x s Hs) as [H1 H2].
    destruct (f x s) as [[y|msg] s1]; cbn [fst snd] in *.
    + destruct (IH s1 H1) as [H3 H4].
      destruct (mapMS f l s1) as [[ys|msg] s2]; cbn [fst snd] in *.
      * split; [exact H3|]. intros ys' [= <-].
        constructor; [apply H2; reflexivity | apply H4; reflexivity].
      * split; [exact H3 | discriminate].
    + split; [exact H1 | discriminate].
Qed.

Lemma computeMappedOutputTypeName_reads (d d' : DmmfDocument) (n : string) :
  models d' = models d -> modelsCache d' = modelsCache d ->
  computeMappedOutputTypeName d' n = computeMappedOutputTypeName d n.
Proof.
  intros Hm Hc. unfold computeMappedOutputTypeName, getModelTypeName,
    isModelName. rewrite Hm, Hc. reflexivity.
Qed.

Lemma transformOutputField_agrees (d : DmmfDocument) (typeName : string)
    (field : RawSchemaField) (c : NameCache) :
  cacheAgrees d c ->
  cacheAgrees d
    (snd (transformOutputField pascalCase getInputTypeName getTypeGraphQLType
            getFieldTSType d typeName field c)).
Proof.
  intros Hc. unfold transformOutputField. unfold bind at 1.
  destruct (getMappedOutputTypeName_agrees d
              (it_type (rsf_outputType field)) c Hc) as [_ Hc1].
  destruct (getMappedOutputTypeName d _ c) as [[mapped|msg] c1];
    cbn [snd] in *; [|exact Hc1].
  unfold bind at 1, lift.
  destruct (mapM _ _) as [args|msg]; cbn [snd]; exact Hc1.
Qed.

Lemma transformOutputType_agrees (d : DmmfDocument)
    (outputType : RawOutputType) (c : NameCache) :
  cacheAgrees d c ->
  cacheAgrees d
    (snd (transformOutputType pascalCase getInputTypeName getTypeGraphQLType
            getFieldTSType d outputType c)) /\
  forall t,
    fst (transformOutputType pascalCase getInputTypeName getTypeGraphQLType
           getFieldTSType d outputType c) = Ok t ->
    output_name t = rot_name outputType /\
    computeMappedOutputTypeName d (rot_name outputType)
    = Ok (output_typeName t).
Proof.
  intros Hc.
  destruct (transformOutputType pascalCase getInputTypeName getTypeGraphQLType
              getFieldTSType d outputType c) as [r c'] eqn:E.
  cbn [fst snd]. unfold transformOutputType in E. unfold bind at 1 in E.
  destruct (getMappedOutputTypeName_agrees d (rot_name outputType) c Hc)
    as [Hres Hc1].
  destruct (getMappedOutputTypeName d _ c) as [[typeName|msg] c1];
    cbn [fst snd] in *;
    [|injection E as <- <-; split; [exact Hc1 | discriminate]].
  unfold bind at 1 in E.
  match type of E with
  | context [mapMS ?f ?l c1] =>
      destruct (mapMS_invariant (cacheAgrees d) (fun _ _ => True) f l c1)
        as [Hc2 _]; [|exact Hc1|];
      [|destruct (mapMS f l c1) as [[fields|msg] c2]]
  end.
  - intros x s Hs. split; [apply transformOutputField_agrees, Hs | tauto].
  - unfold ret in E. injection E as <- <-. cbn [snd] in Hc2.
    split; [exact Hc2|]. intros t [= <-].
    cbn [output_name output_typeName].
    split; [reflexivity | symmetry; exact Hres].
  - injection E as <- <-. cbn [snd] in Hc2.
    split; [exact Hc2 | discriminate].
Qed.

Lemma transformInputType_name (d : DmmfDocument) (inputType : RawInputType)
    (t : InputType) :
  transformInputType getInputTypeName getModelNameFromInputType
    getTypeGraphQLType getFieldTSType d inputType = Ok t ->
  input_name t = rit_name inputType.
Proof.
  unfold transformInputType.
  destruct (mapM _ _) as [fields|msg]; cbn [rbind]; [|discriminate].
  intros [= <-]. reflexivity.
Qed.

Lemma Forall2_map_eq {A B C} (f : A -> C) (g : B -> C) (l : list A)
    (l' : list B) :
  Forall2 (fun x y => g y = f x) l l' -> List.map g l' = List.map f l.
Proof.
  intros H. induction H as [|x y l l' Hxy _ IH]; [reflexivity|].
  cbn [List.map]. rewrite Hxy, IH. reflexivity.
Qed.

(** What [transformSchema] returns on a cache that agrees with the
    document. *)
Lemma transformSchema_inv (d : DmmfDocument) (datamodel : RawSchema)
    (c c' : NameCache) (its : list InputType) (ots : list OutputType) :
  cacheAgrees d c ->
  schemaOf datamodel d c = (Ok (its, ots), c') ->
  cacheAgrees d c' /\
  List.map input_name its
  = List.map rit_name
      (List.filter (uncheckedScalarInputsFilter d)
         (orEmpty (rs_inputObjectTypes_prisma datamodel)
          ++ orEmpty (rs_inputObjectTypes_model datamodel))) /\
  List.map output_name ots
  = List.map rot_name
      (orEmpty (rs_outputObjectTypes_prisma datamodel)
       ++ orEmpty (rs_outputObjectTypes_model datamodel)) /\
  Forall (fun ot => computeMappedOutputTypeName d (output_name ot)
                    = Ok (output_typeName ot)) ots.
Proof.
  intros Hc. unfold transformSchema. unfold bind at 1, lift.
  destruct (mapM _ _) as [its'|msg] eqn:Hits; [|discriminate].
  unfold bind at 1.
  match goal with
  | |- context [mapMS ?f ?l c] =>
      destruct (mapMS_invariant (cacheAgrees d)
                  (fun raw t => output_name t = rot_name raw /\
                                computeMappedOutputTypeName d (rot_name raw)
                                = Ok (output_typeName t)) f l c)
        as [Hc1 Hots]; [|exact Hc|]
  end.
  { intros x s Hs. apply transformOutputType_agrees, Hs. }
  match goal with
  | |- context [mapMS ?f ?l c] =>
      destruct (mapMS f l c) as [[ots'|msg] c1]
  end; cbn [fst snd] in *; [|discriminate].
  unfold ret. intros [= <- <- <-].
  specialize (Hots ots' eq_refl).
  split; [exact Hc1|]. split; [|split].
  - apply mapM_Ok_Forall2 in Hits. apply Forall2_map_eq.
    eapply Forall2_impl; [exact Hits|].
    intros x y Hxy. apply (transformInputType_name _ _ _ Hxy).
  - apply Forall2_map_eq. eapply Forall2_impl; [exact Hots|].
    intros x y [Hxy _]. exact Hxy.
  - eapply Forall2_Forall_r; [|exact Hots].
    intros x y [Hn Hr]. cbv beta. rewrite Hn. exact Hr.
Qed.

(** The input types of the finished document are those of the raw
    schema, in order, without the ones whose name includes [Unchecked]
    unless [useUncheckedScalarInputs] is set; the output types are all
    those of the raw schema, in order. *)
Theorem schema_names_of_constructed (raw : RawDocument)
    (opts : GeneratorOptions) (cache cache' : NameCache) (d : DmmfDocument) :
  construct raw opts cache = (Ok d, cache') ->
  List.map input_name (schema_inputTypes d)
  = List.filter
      (fun n => useUncheckedScalarInputs opts
                || negb (JS.includes "Unchecked" n))
      (List.map rit_name (rawInputTypesOf raw)) /\
  List.map output_name (schema_outputTypes d)
  = List.map rot_name (rawOutputTypesOf raw) /\
  (useUncheckedScalarInputs opts = false ->
   Forall (fun it => JS.includes "Unchecked" (input_name it) = false)
          (schema_inputTypes d)).
Proof.
  intros H.
  destruct (construct_stages _ _ _ _ _ H)
    as (Hopts & _ & _ & _ & _ & _ & _ & _ & _ & Hs & _).
  destruct (transformSchema_inv (beforeSchema d) _ _ _ _ _
              ltac:(intros k v Hk; rewrite lookup_empty in Hk; discriminate)
              Hs)
    as (_ & Hin & Hout & _).
  assert (Hnames :
            List.map input_name (schema_inputTypes d)
            = List.filter
                (fun n => useUncheckedScalarInputs opts
                          || negb (JS.includes "Unchecked" n))
                (List.map rit_name (rawInputTypesOf raw))).
  { rewrite Hin. unfold rawInputTypesOf.
    generalize (orEmpty (rs_inputObjectTypes_prisma (raw_schema raw))
                ++ orEmpty (rs_inputObjectTypes_model (raw_schema raw))).
    intros l. induction l as [|x l IH]; [reflexivity|].
    cbn [List.filter List.map]. unfold uncheckedScalarInputsFilter at 1.
    change (options (beforeSchema d)) with (options d). rewrite Hopts.
    destruct (useUncheckedScalarInputs opts); cbn [orb].
    - cbn [List.map]. rewrite IH. reflexivity.
    - destruct (negb (JS.includes "Unchecked" (rit_name x)));
        cbn [List.map]; rewrite IH; reflexivity. }
  split; [exact Hnames|]. split; [exact Hout|].
  intros Hun. apply List.Forall_forall. intros it Hit.
  assert (Hn : In (input_name it)
                 (List.map input_name (schema_inputTypes d)))
    by (apply in_map; exact Hit).
  rewrite Hnames, Hun in Hn. apply filter_In in Hn as [_ Hn].
  cbn [orb] in Hn. apply negb_true_iff in Hn. exact Hn.
Qed.

(** The cache of mapped names that the constructor leaves holds nothing
    stale: a later call of [getMappedOutputTypeName] on the finished
    document returns what the rules compute on that document, and the
    type name of every output type of the schema is what the rules
    compute for its name. *)
Theorem mapped_names_of_constructed (raw : RawDocument)
    (opts : GeneratorOptions) (cache cache' : NameCache) (d : DmmfDocument) :
  construct raw opts cache = (Ok d, cache') ->
  (forall n,
      fst (getMappedOutputTypeName d n cache')
      = computeMappedOutputTypeName d n) /\
  Forall (fun ot => computeMappedOutputTypeName d (output_name ot)
                    = Ok (output_typeName ot))
         (schema_outputTypes d).
Proof.
  intros H.
  destruct (construct_stages _ _ _ _ _ H)
    as (_ & _ & _ & _ & _ & _ & _ & _ & _ & Hs & _).
  destruct (transformSchema_inv (beforeSchema d) _ _ _ _ _
              ltac:(intros k v Hk; rewrite lookup_empty in Hk; discriminate)
              Hs)
    as (Hc & _ & _ & Hall).
  assert (Hreads : forall n,
             computeMappedOutputTypeName (beforeSchema d) n
             = computeMappedOutputTypeName d n)
    by (intros n; apply computeMappedOutputTypeName_reads; reflexivity).
  assert (Hc' : cacheAgrees d cache').
  { intros k v Hk. rewrite <- Hreads. apply Hc, Hk. }
  split.
  - intros n. apply (getMappedOutputTypeName_agrees d n cache' Hc').
  - eapply List.Forall_impl; [|exact Hall].
    intros ot Hot. cbv beta in Hot. rewrite <- Hreads. exact Hot.
Qed.

Lemma append_nonempty_r (a b : string) :
  a +:+ b = EmptyString -> b = EmptyString.
Proof. destruct a; cbn; [tauto | discriminate]. Qed.

(** The name of the arguments of a relation field of the finished
    document is never the empty string. *)
Lemma construct_argsTypeName (raw : RawDocument) (opts : GeneratorOptions)
    (cache cache' : NameCache) (d : DmmfDocument) :
  construct raw opts cache = (Ok d, cache') ->
  forall rel,
    In rel (relationModels d) ->
    Forall (fun rf => relf_argsTypeName rf <> Some EmptyString)
           (rel_relationFields rel).
Proof.
  intros H rel Hin.
  destruct (construct_stages _ _ _ _ _ H)
    as (_ & _ & _ & _ & _ & _ & _ & _ & _ & _ & Hoc & Hofc & _ & Hrels).
  destruct (outputCaches_folds d Hoc Hofc) as (Hsync & _ & _).
  apply mapM_Ok_Forall2 in Hrels.
  destruct (Forall2_In_r _ _ _ _ Hrels Hin) as [model [Hmodel Hrel]].
  unfold relationModelSources in Hmodel.
  apply filter_In in Hmodel as [_ Hexp].
  assert (Hrel' : relationModel d model = Ok rel) by exact Hrel.
  unfold hasExposedRelationInOutput in Hexp.
  destruct (outputTypeCache d !! model_name model) as [ot|] eqn:Hot;
    [|discriminate].
  destruct (relationModel_inv d model rel ot Hsync Hot Hrel')
    as (_ & _ & _ & _ & Hall).
  eapply List.Forall_impl; [|exact Hall].
  intros rf (_ & otf & _ & _ & _ & Hargs). rewrite Hargs.
  destruct (0 <? length (of_args otf))%nat; [|discriminate].
  intros [= Hempty]. do 2 apply append_nonempty_r in Hempty. discriminate.
Qed.

(** Every relation field of the finished document carries its
    output-type field. *)
Lemma construct_outputTypeField (raw : RawDocument) (opts : GeneratorOptions)
    (cache cache' : NameCache) (d : DmmfDocument) :
  construct raw opts cache = (Ok d, cache') ->
  forall rel,
    In rel (relationModels d) ->
    Forall (fun rf => is_Some (relf_outputTypeField rf))
           (rel_relationFields rel).
Proof.
  intros H rel Hin.
  destruct (construct_stages _ _ _ _ _ H)
    as (_ & _ & _ & _ & _ & _ & _ & _ & _ & _ & Hoc & Hofc & _ & Hrels).
  destruct (outputCaches_folds d Hoc Hofc) as (Hsync & _ & _).
  apply mapM_Ok_Forall2 in Hrels.
  destruct (Forall2_In_r _ _ _ _ Hrels Hin) as [model [Hmodel Hrel]].
  unfold relationModelSources in Hmodel.
  apply filter_In in Hmodel as [_ Hexp].
  assert (Hrel' : relationModel d model = Ok rel) by exact Hrel.
  unfold hasExposedRelationInOutput in Hexp.
  destruct (outputTypeCache d !! model_name model) as [ot|] eqn:Hot;
    [|discriminate].
  destruct (relationModel_inv d model rel ot Hsync Hot Hrel')
    as (_ & _ & _ & _ & Hall).
  eapply List.Forall_impl; [|exact Hall].
  intros rf (_ & otf & Hotf & _). rewrite Hotf. eauto.
Qed.

End ConstructionFacts.

(** ** The source file of a relation resolver *)

Lemma scanFields_fieldsCache (fields : list ModelField) :
  fieldsCache (scanFields fields) = modelFieldsMap fields.
Proof.
  unfold scanFields, modelFieldsMap.
  assert (H : forall acc,
             fieldsCache (fold_left scanField fields acc)
             = fold_left (fun m field => <[mf_name field := field]> m) fields
                         (fieldsCache acc)).
  { induction fields as [|f fields IH]; intros acc; [reflexivity|].
    cbn [fold_left]. rewrite IH. reflexivity. }
  rewrite H. reflexivity.
Qed.

Lemma fieldsCache_known (fields : list ModelField) (n : string) :
  is_Some (fieldsCache (scanFields fields) !! n)
  <-> In n (List.map mf_name fields).
Proof.
  rewrite scanFields_fieldsCache. unfold modelFieldsMap.
  rewrite (fold_insert_lookup mf_name (fun field => field)).
  destruct (List.find _ _) as [f|] eqn:E.
  - destruct (find_rev_sound mf_name _ _ _ E) as [Hin <-].
    split; [intros _; apply in_map; exact Hin | eauto].
  - apply find_rev_None in E. rewrite lookup_empty.
    split; [intros [x Hx]; discriminate | contradiction].
Qed.


Lemma lookupKeyFields_first_missing (what modelName : string)
    (fields : list ModelField) (known : list string) (n : string)
    (rest : list string) :
  (forall k, In k known -> In k (List.map mf_name fields)) ->
  ~ In n (List.map mf_name fields) ->
  lookupKeyFields what modelName (fieldsCache (scanFields fields))
    (known ++ n :: rest)
  = Throw (what +:+ " '" +:+ n +:+ "' not found in model '"
           +:+ modelName +:+ "' fields").
Proof.
  intros Hknown Hn. unfold lookupKeyFields.
  induction known as [|k known IH]; cbn [app mapM].
  - pose proof (fieldsCache_known fields n) as Hk.
    destruct (fieldsCache (scanFields fields) !! n) as [f|];
      [exfalso; apply Hn, Hk; eauto | reflexivity].
  - destruct (proj2 (fieldsCache_known fields k)
                (Hknown k (or_introl eq_refl))) as [f Hf].
    rewrite Hf. cbn [rbind]. rewrite IH; [reflexivity|].
    intros k' Hk'. apply Hknown. right. exact Hk'.
Qed.

Section RelationsResolverFileFacts.

Variable camelCase : string -> string.

Local Abbreviation generateClass :=
  (generateRelationsResolverClassesFromModel camelCase).
Local Abbreviation generateFile := (generateRelationsResolverFile camelCase).





(** A primary key that names a field the model does not have makes the
    generation throw the exception of the first such name, whatever
    single id or unique field the model has and even without relation
    fields. *)
Theorem relationsResolver_missing_primaryKey_field (rel : RelationModel)
    (pk : PrimaryKey) (known : list string) (n : string)
    (rest : list string) :
  model_primaryKey (rel_model rel) = Some pk ->
  pk_fields pk = known ++ n :: rest ->
  (forall k, In k known ->
             In k (List.map mf_name (model_fields (rel_model rel)))) ->
  ~ In n (List.map mf_name (model_fields (rel_model rel))) ->
  generateClass rel
  = Throw ("Primary key field '" +:+ n +:+ "' not found in model '"
           +:+ model_name (rel_model rel) +:+ "' fields").
Proof.
  intros Hpk Hfields Hknown Hn.
  unfold generateRelationsResolverClassesFromModel.
  rewrite Hpk, Hfields.
  rewrite (lookupKeyFields_first_missing "Primary key field" _ _ _ _ _
             Hknown Hn).
  reflexivity.
Qed.

(** The class bears the resolver name of the relation model and has one
    method for each relation field, in order, named by the alias of the
    field when it has one and by its name otherwise; all the methods of a
    class use the same filter. *)
Theorem relationsResolver_methods (rel : RelationModel) (cls : ResolverClass) :
  generateClass rel = Ok cls ->
  class_name cls = rel_resolverName rel /\
  List.map method_name (class_methods cls)
  = List.map (fun rf =>
                match mf_typeFieldAlias (relf_field rf) with
                | Some a => a
                | None => mf_name (relf_field rf)
                end)
             (rel_relationFields rel) /\
  List.map method_returnType (class_methods cls)
  = List.map (fun rf => "Promise<" +:+ mf_fieldTSType (relf_field rf) +:+ ">")
             (rel_relationFields rel) /\
  exists w,
    Forall (fun m => method_whereConditionString m = w) (class_methods cls).
Proof.
  unfold generateRelationsResolverClassesFromModel.
  destruct (match model_primaryKey (rel_model rel) with
            | Some pk => _ | None => _ end) as [ids|msg];
    cbn [rbind]; [|discriminate].
  destruct (match List.nth_error (model_uniqueIndexes (rel_model rel)) 0 with
            | Some ui => _ | None => _ end) as [us|msg];
    cbn [rbind]; [|discriminate].
  match goal with
  | |- rbind (mapM (relationMethod _ ?m ?s ?c) ?l) _ = _ -> _ =>
      set (single := s); set (composite := c);
      destruct (mapM (relationMethod camelCase m single composite) l)
        as [methods|msg] eqn:Em
  end; cbn [rbind]; [|discriminate].
  intros [= <-]. cbn [class_name class_methods].
  apply mapM_Ok_Forall2 in Em.
  split; [reflexivity|].
  assert (Hall : Forall2
                   (fun rf m =>
                      method_name m
                      = match mf_typeFieldAlias (relf_field rf) with
                        | Some a => a
                        | None => mf_name (relf_field rf)
                        end /\
                      method_returnType m
                      = "Promise<" +:+ mf_fieldTSType (relf_field rf) +:+ ">" /\
                      whereConditionString camelCase (rel_model rel) single
                        composite
                      = Ok (method_whereConditionString m))
                   (rel_relationFields rel) methods).
  { eapply Forall2_impl; [exact Em|]. intros rf m Hm.
    unfold relationMethod in Hm.
    destruct (whereConditionString camelCase (rel_model rel) single composite)
      as [w|msg]; cbn [rbind] in Hm; [|discriminate].
    injection Hm as <-. repeat split. }
  split; [|split].
  - apply Forall2_map_eq. eapply Forall2_impl; [exact Hall|].
    intros rf m (H1 & _). exact H1.
  - apply Forall2_map_eq. eapply Forall2_impl; [exact Hall|].
    intros rf m (_ & H2 & _). exact H2.
  - destruct (whereConditionString camelCase (rel_model rel) single composite)
      as [w|msg].
    + exists w. eapply Forall2_Forall_r; [|exact Hall].
      intros rf m (_ & _ & [= H3]). symmetry. exact H3.
    + exists EmptyString. eapply Forall2_Forall_r; [|exact Hall].
      intros rf m (_ & _ & H3). discriminate.
Qed.

(** *** The guard on the names of the argument types *)

Lemma argTypeNames_defined (relationFields : list RelationField) :
  Forall (fun rf => relf_argsTypeName rf <> Some EmptyString) relationFields ->
  argTypeNames relationFields
  = Ok (flat_map (fun rf => match relf_argsTypeName rf with
                            | Some n => [n]
                            | None => []
                            end)
                 relationFields).
Proof.
  unfold argTypeNames. induction 1 as [|rf rfs Hrf _ IH]; [reflexivity|].
  cbn [List.filter flat_map].
  destruct (relf_argsTypeName rf) as [n|] eqn:En.
  - rewrite bool_decide_eq_true_2 by eauto. cbn [mapM].
    rewrite En. cbn [truthy JS.template].
    destruct (String.eqb_spec n EmptyString) as [->|Hne];
      [contradiction|].
    cbn [negb rbind]. rewrite IH. reflexivity.
  - rewrite bool_decide_eq_false_2 by (intros [x Hx]; discriminate).
    exact IH.
Qed.


Lemma generateFile_after_guard (rel : RelationModel) (names : list string) :
  argTypeNames (rel_relationFields rel) = Ok names ->
  generateFile rel
  = rbind (generateClass rel)
      (fun cls =>
         Ok {| file_directory := model_typeName (rel_model rel);
               file_name := rel_resolverName rel +:+ ".ts";
               file_modelsImports :=
                 List.map relf_type (rel_relationFields rel)
                 ++ [Some (model_typeName (rel_model rel))];
               file_argsImports := names;
               file_class := cls |}).
Proof.
  intros Hnames.
  unfold generateRelationsResolverFile,
    generateRelationsResolverClassesFromModel.
  rewrite Hnames.
  destruct (match model_primaryKey (rel_model rel) with
            | Some pk => _ | None => _ end) as [ids|msg];
    cbn [rbind]; [|reflexivity].
  destruct (match List.nth_error (model_uniqueIndexes (rel_model rel)) 0 with
            | Some ui => _ | None => _ end) as [us|msg];
    cbn [rbind]; [|reflexivity].
  destruct (mapM _ _) as [methods|msg]; reflexivity.
Qed.


End RelationsResolverFileFacts.

(** For a relation model of the finished document the guard on the names
    of the argument types never throws: the source file is generated
    exactly when the class is, and imports the names of the arguments of
    the relation fields that have arguments. *)
Theorem relationsResolverFile_of_constructed
    (parseDocumentationAttributes :
       option string -> string -> string -> Attributes)
    (pascalCase : string -> string)
    (cleanDocsString : option string -> option string)
    (getInputTypeName : string -> DmmfDocument -> string)
    (getModelNameFromInputType : string -> option string)
    (getTypeGraphQLType :
       TypeInfo -> DmmfDocument -> option string -> option string ->
       option bool -> string)
    (getFieldTSType :
       DmmfDocument -> TypeInfo -> bool -> bool -> option string ->
       option string -> string)
    (transformMappings :
       list RawModelMapping -> DmmfDocument -> result (list ModelMapping))
    (camelCase : string -> string)
    (raw : RawDocument) (opts : GeneratorOptions) (cache cache' : NameCache)
    (d : DmmfDocument) :
  newDmmfDocument parseDocumentationAttributes pascalCase cleanDocsString
    getInputTypeName getModelNameFromInputType getTypeGraphQLType
    getFieldTSType transformMappings raw opts cache = (Ok d, cache') ->
  forall rel,
    In rel (relationModels d) ->
    generateRelationsResolverFile camelCase rel
    = rbind (generateRelationsResolverClassesFromModel camelCase rel)
        (fun cls =>
           Ok {| file_directory := model_typeName (rel_model rel);
                 file_name := rel_resolverName rel +:+ ".ts";
                 file_modelsImports :=
                   List.map relf_type (rel_relationFields rel)
                   ++ [Some (model_typeName (rel_model rel))];
                 file_argsImports :=
                   flat_map (fun rf => match relf_argsTypeName rf with
                                       | Some n => [n]
                                       | None => []
                                       end)
                            (rel_relationFields rel);
                 file_class := cls |}).
Proof.
  intros H rel Hin.
  apply generateFile_after_guard, argTypeNames_defined.
  apply (construct_argsTypeName _ _ _ _ _ _ _ _ _ _ _ _ _ H rel Hin).
Qed.

(** ** The block generators *)

Lemma emitted_nil (w : GeneratorWorld) : emitted [] w = w.
Proof. destruct w. unfold emitted. cbn. rewrite app_nil_r. reflexivity. Qed.

Lemma emitted_emitted (es es' : list Emission) (w : GeneratorWorld) :
  emitted es' (emitted es w) = emitted (es ++ es') w.
Proof. unfold emitted. cbn. rewrite app_assoc. reflexivity. Qed.

Lemma addToProject_emitted (e : Emission) (w : GeneratorWorld) :
  addToProject e w = (Ok tt, emitted [e] w).
Proof. reflexivity. Qed.

Lemma forEachM_ext {S A} (f g : A -> M S unit) (l : list A) (s : S) :
  (forall x s', In x l -> f x s' = g x s') ->
  forEachM f l s = forEachM g l s.
Proof.
  revert s. induction l as [|x l IH]; intros s Hfg; [reflexivity|].
  cbn [forEachM]. unfold bind. rewrite (Hfg x s (or_introl eq_refl)).
  destruct (g x s) as [[[]|msg] s1]; [|reflexivity].
  apply IH. intros y s' Hy. apply Hfg. right. exact Hy.
Qed.

Lemma forEachM_addToProject {A} (e : A -> Emission) (l : list A)
    (w : GeneratorWorld) :
  forEachM (fun x => addToProject (e x)) l w
  = (Ok tt, emitted (List.map e l) w).
Proof.
  revert w. induction l as [|x l IH]; intros w.
  - cbn [forEachM List.map]. rewrite emitted_nil. reflexivity.
  - cbn [forEachM List.map]. unfold bind. rewrite addToProject_emitted.
    rewrite IH, emitted_emitted. reflexivity.
Qed.

Lemma performanceNow_tick (w : GeneratorWorld) :
  exists t, performanceNow w = (Ok t, tick w).
Proof.
  unfold tick, performanceNow. destruct (gw_clock w); eexists; reflexivity.
Qed.

Lemma tick_project (w : GeneratorWorld) :
  gw_project (tick w) = gw_project w /\
  gw_outputTypesToGenerate (tick w) = gw_outputTypesToGenerate w.
Proof.
  unfold tick, performanceNow. destruct (gw_clock w); split; reflexivity.
Qed.

Lemma metricsSince_tick (startTime : Z) (items : nat) (w : GeneratorWorld) :
  exists t,
    metricsSince startTime items w
    = (Ok {| itemsGenerated := Z.of_nat items;
             timeElapsed := Some t |}, tick w).
Proof.
  unfold metricsSince, bind. destruct (performanceNow_tick w) as [t ->].
  eexists. reflexivity.
Qed.

(** *** Names without repetition *)

Lemma uniqueAfter_In (seen names : list string) (n : string) :
  In n (uniqueAfter seen names) <-> In n names /\ ~ In n seen.
Proof.
  revert seen. induction names as [|x names IH]; intros seen.
  - cbn. tauto.
  - cbn [uniqueAfter].
    destruct (existsb (String.eqb x) seen) eqn:Ex.
    + rewrite IH. apply existsb_exists in Ex as [y [Hy Hxy]].
      apply String.eqb_eq in Hxy. subst y. cbn [In].
      split; [tauto|]. intros [[<-|Hn] Hs]; [contradiction | tauto].
    + assert (Hx : ~ In x seen).
      { intros Hin. assert (existsb (String.eqb x) seen = true); [|congruence].
        apply existsb_exists. exists x. split; [exact Hin|].
        apply String.eqb_refl. }
      cbn [In]. rewrite IH. cbn [In].
      split.
      * intros [<-|[Hn Hs]]; [tauto|]. split; [tauto|]. tauto.
      * intros [[<-|Hn] Hs]; [tauto|].
        destruct (string_dec x n) as [->|Hne]; [tauto|]. right.
        split; [exact Hn|]. intros [Heq|Hin]; [contradiction | tauto].
Qed.

Lemma uniqueAfter_NoDup (seen names : list string) :
  List.NoDup (uniqueAfter seen names).
Proof.
  revert seen. induction names as [|x names IH]; intros seen; [constructor|].
  cbn [uniqueAfter]. destruct (existsb (String.eqb x) seen); [apply IH|].
  constructor; [|apply IH]. rewrite uniqueAfter_In. cbn [In]. tauto.
Qed.

Section BlockGeneratorFacts.

Variable d : DmmfDocument.

Lemma enumBlock_run (w : GeneratorWorld) :
  shouldGenerateBlock d "enums" = true ->
  exists elapsed,
    enumBlockGenerate d w
    = (Ok {| itemsGenerated := Z.of_nat (length (allEnums d));
             timeElapsed := Some elapsed |},
       tick (emitted (List.map EnumFile (allEnums d)
                      ++ [EnumsBarrelFile (emittedEnumNames d)]) (tick w))).
Proof.
  intros Hon. unfold enumBlockGenerate, guardedGenerate. rewrite Hon.
  unfold bind at 1. destruct (performanceNow_tick w) as [t0 ->].
  unfold bind at 1. rewrite forEachM_addToProject.
  unfold bind at 1. rewrite addToProject_emitted, emitted_emitted.
  apply metricsSince_tick.
Qed.

(** The barrel of enums exports, once each, exactly the type names of
    the enums for which a file is generated; the block never throws and
    reports the number of files, which can exceed the number of names. *)
Theorem enumBlock_files_and_barrel (w : GeneratorWorld) :
  shouldGenerateBlock d "enums" = true ->
  (exists elapsed,
      fst (enumBlockGenerate d w)
      = Ok {| itemsGenerated := Z.of_nat (length (allEnums d));
              timeElapsed := Some elapsed |}) /\
  gw_project (snd (enumBlockGenerate d w))
  = gw_project w ++ List.map EnumFile (allEnums d)
    ++ [EnumsBarrelFile (emittedEnumNames d)] /\
  List.NoDup (emittedEnumNames d) /\
  (forall n, In n (emittedEnumNames d)
             <-> In n (List.map enum_typeName (allEnums d))) /\
  (length (emittedEnumNames d) <= length (allEnums d))%nat.
Proof.
  intros Hon.
  assert (Hnames : forall n, In n (emittedEnumNames d)
                             <-> In n (List.map enum_typeName (allEnums d))).
  { intros n. unfold emittedEnumNames, unique, allEnums.
    rewrite uniqueAfter_In, List.map_app, !in_app_iff, !in_map_iff.
    cbn [In]. split.
    - intros [[[e [<- He]]|Hd] _]; [|left; exact Hd].
      destruct (existsb (String.eqb (enum_typeName e))
                  (List.map enum_typeName (datamodel_enums d))) eqn:Ex.
      + left. apply existsb_exists in Ex as [y [Hy Hxy]].
        apply String.eqb_eq in Hxy. subst y.
        apply in_map_iff in Hy. exact Hy.
      + right. exists e. split; [reflexivity|].
        apply filter_In. split; [exact He|]. rewrite Ex. reflexivity.
    - intros [Hd|[e [<- He]]]; (split; [|tauto]).
      + right. exact Hd.
      + apply filter_In in He as [He _]. left. eauto. }
  assert (Hnd : List.NoDup (emittedEnumNames d))
    by apply uniqueAfter_NoDup.
  destruct (enumBlock_run w Hon) as [t ->]. cbn [fst snd].
  split; [eauto|]. split.
  - rewrite (proj1 (tick_project _)). cbn [emitted gw_project].
    rewrite (proj1 (tick_project w)). reflexivity.
  - split; [exact Hnd|]. split; [exact Hnames|].
    rewrite <- (List.length_map enum_typeName (allEnums d)).
    apply List.NoDup_incl_length; [exact Hnd|].
    intros n Hn. apply Hnames, Hn.
Qed.

(** *** The block of output types *)

Lemma outputArgsFiles_run (w : GeneratorWorld) :
  forEachM outputArgsFile (outputTypesFieldsArgsToGenerate d) w
  = (Ok tt,
     emitted
       (List.map
          (fun field =>
             ArgsFile [resolversFolderName; outputsFolderName] (of_args field)
                      (JS.template (of_argsTypeName field)))
          (outputTypesFieldsArgsToGenerate d))
       w).
Proof.
  rewrite <- forEachM_addToProject. apply forEachM_ext.
  intros field s' Hin. unfold outputTypesFieldsArgsToGenerate in Hin.
  apply filter_In in Hin as [_ Htruthy].
  unfold outputArgsFile. rewrite Htruthy. reflexivity.
Qed.

Lemma outputArgsBarrelNames_defined (fields : list OutputSchemaField) :
  Forall (fun it => truthy (of_argsTypeName it) = true) fields ->
  outputArgsBarrelNames fields
  = Ok (List.map (fun field => JS.template (of_argsTypeName field)) fields).
Proof.
  unfold outputArgsBarrelNames. induction 1 as [|it fields Hit _ IH];
    [reflexivity|].
  cbn [mapM List.map]. rewrite Hit. cbn [negb rbind]. rewrite IH.
  reflexivity.
Qed.

Lemma outputBlock_run (w : GeneratorWorld) :
  shouldGenerateBlock d "outputs" = true ->
  exists elapsed,
    outputBlockGenerate d w
    = (Ok {| itemsGenerated := Z.of_nat (length (outputTypesToGenerate d));
             timeElapsed := Some elapsed |},
       tick (emitted (outputEmissions d)
               (withOutputTypes (outputTypesToGenerate d) (tick w)))).
Proof.
  intros Hon. unfold outputBlockGenerate, guardedGenerate. rewrite Hon.
  unfold bind at 1. destruct (performanceNow_tick w) as [t0 ->].
  unfold bind at 1.
  change (setOutputTypesToGenerate (outputTypesToGenerate d) (tick w))
    with (Ok tt, withOutputTypes (outputTypesToGenerate d) (tick w)).
  cbv iota beta.
  unfold bind at 1. rewrite forEachM_addToProject.
  unfold bind at 1.
  assert (Hargs :
            (if (0 <? length (outputTypesFieldsArgsToGenerate d))%nat
             then
               bind (forEachM outputArgsFile
                       (outputTypesFieldsArgsToGenerate d))
                 (fun _ =>
                    bind (lift (outputArgsBarrelNames
                                  (outputTypesFieldsArgsToGenerate d)))
                      (fun names =>
                         addToProject
                           (ArgsBarrelFile
                              [resolversFolderName; outputsFolderName;
                               argsFolderName] names)))
             else ret tt)
              (emitted (List.map OutputTypeFile (outputTypesToGenerate d))
                 (withOutputTypes (outputTypesToGenerate d) (tick w)))
            = (Ok tt,
               emitted (List.map OutputTypeFile (outputTypesToGenerate d)
                        ++ outputArgsEmissions d)
                 (withOutputTypes (outputTypesToGenerate d) (tick w)))).
  { unfold outputArgsEmissions.
    destruct (0 <? length (outputTypesFieldsArgsToGenerate d))%nat.
    - unfold bind at 1. rewrite outputArgsFiles_run.
      unfold bind at 1, lift.
      rewrite outputArgsBarrelNames_defined.
      + rewrite addToProject_emitted, !emitted_emitted. reflexivity.
      + apply List.Forall_forall. intros it Hit.
        unfold outputTypesFieldsArgsToGenerate in Hit.
        apply filter_In in Hit. tauto.
    - unfold ret. rewrite app_nil_r. reflexivity. }
  rewrite Hargs. unfold bind at 1.
  rewrite addToProject_emitted, emitted_emitted, <- app_assoc.
  apply metricsSince_tick.
Qed.

(** The block of output types never throws.  It stores and generates
    the output types of the schema that are neither named like a model
    of the datamodel nor [Query] or [Mutation], and reports their
    number; every file of arguments it emits bears a non-empty name. *)
Theorem outputBlock_types (w : GeneratorWorld) :
  shouldGenerateBlock d "outputs" = true ->
  (exists elapsed,
      fst (outputBlockGenerate d w)
      = Ok {| itemsGenerated := Z.of_nat (length (outputTypesToGenerate d));
              timeElapsed := Some elapsed |}) /\
  gw_outputTypesToGenerate (snd (outputBlockGenerate d w))
  = outputTypesToGenerate d /\
  gw_project (snd (outputBlockGenerate d w))
  = gw_project w ++ outputEmissions d /\
  (forall type,
      In type (outputTypesToGenerate d)
      <-> In type (schema_outputTypes d) /\
          ~ In (output_name type)
               (List.map model_name (datamodel_models d)) /\
          output_name type <> "Query" /\ output_name type <> "Mutation") /\
  Forall (fun e => match e with
                   | ArgsFile _ _ argsTypeName => argsTypeName <> EmptyString
                   | _ => True
                   end)
         (outputEmissions d).
Proof.
  intros Hon. destruct (outputBlock_run w Hon) as [t ->]. cbn [fst snd].
  split; [eauto|]. split; [|split; [|split]].
  - rewrite (proj2 (tick_project _)). reflexivity.
  - rewrite (proj1 (tick_project _)). cbn [emitted withOutputTypes gw_project].
    rewrite (proj1 (tick_project w)). reflexivity.
  - intros type. unfold outputTypesToGenerate, isRootType.
    rewrite filter_In, andb_true_iff, !negb_true_iff.
    cbn [existsb]. rewrite orb_false_r, orb_false_iff.
    rewrite !String.eqb_neq.
    split.
    + intros [Hin [Hmodel [Hq Hm]]]. repeat split; try assumption.
      intros Hname.
      assert (existsb (String.eqb (output_name type))
                (List.map model_name (datamodel_models d)) = true);
        [|congruence].
      apply existsb_exists. exists (output_name type).
      split; [exact Hname | apply String.eqb_refl].
    + intros [Hin [Hmodel [Hq Hm]]]. repeat split; try assumption.
      destruct (existsb _ _) eqn:Ex; [|reflexivity].
      exfalso. apply Hmodel. apply existsb_exists in Ex as [n [Hn Heq]].
      apply String.eqb_eq in Heq. rewrite Heq. exact Hn.
  - unfold outputEmissions, outputArgsEmissions.
    apply List.Forall_app. split.
    { apply List.Forall_forall. intros e He.
      apply in_map_iff in He as [x [<- _]]. exact I. }
    apply List.Forall_app. split; [|repeat constructor].
    destruct (0 <? length (outputTypesFieldsArgsToGenerate d))%nat;
      [|constructor].
    apply List.Forall_app. split; [|repeat constructor].
    apply List.Forall_forall. intros e He.
    apply in_map_iff in He as [field [<- Hfield]].
    unfold outputTypesFieldsArgsToGenerate in Hfield.
    apply filter_In in Hfield as [_ Htruthy].
    destruct (of_argsTypeName field) as [n|]; cbn in Htruthy;
      [|discriminate].
    cbn [JS.template]. intros ->. discriminate.
Qed.

(** *** The block of models *)

Section ModelBlockFacts.

Variable convertNewLines : string -> string.
Variable emitIsAbstract : bool.
Variable simpleResolvers : bool.

Local Abbreviation modelFileOf :=
  (modelFile d convertNewLines emitIsAbstract simpleResolvers).
Local Abbreviation filesOf :=
  (modelFilesOf convertNewLines emitIsAbstract simpleResolvers d).
Local Abbreviation generateModels :=
  (modelBlockGenerate d convertNewLines emitIsAbstract simpleResolvers).

Lemma modelFiles_all (someModels : list Model) (w : GeneratorWorld) :
  Forall (fun model => is_Some (outputTypeCache d !! model_name model))
         someModels ->
  forEachM modelFileOf someModels w = (Ok tt, emitted (filesOf someModels) w).
Proof.
  intros Hall. revert w.
  induction Hall as [|model rest [ot Hot] _ IH]; intros w.
  - cbn [forEachM modelFilesOf flat_map]. rewrite emitted_nil. reflexivity.
  - cbn [forEachM]. unfold bind, modelFile at 1. rewrite Hot.
    rewrite addToProject_emitted, IH, emitted_emitted.
    unfold modelFilesOf. cbn [flat_map]. rewrite Hot. reflexivity.
Qed.

Lemma modelFiles_first_missing (before : list Model) (model : Model)
    (after : list Model) (w : GeneratorWorld) :
  Forall (fun model => is_Some (outputTypeCache d !! model_name model))
         before ->
  outputTypeCache d !! model_name model = None ->
  forEachM modelFileOf (before ++ model :: after) w
  = (Throw (noOutputTypeMessage model), emitted (filesOf before) w).
Proof.
  intros Hall Hnone. revert w.
  induction Hall as [|m rest [ot Hot] _ IH]; intros w.
  - cbn [app forEachM modelFilesOf flat_map]. unfold bind, modelFile.
    rewrite Hnone, emitted_nil. reflexivity.
  - cbn [app forEachM]. unfold bind, modelFile at 1. rewrite Hot.
    rewrite addToProject_emitted, IH, emitted_emitted.
    unfold modelFilesOf. cbn [flat_map]. rewrite Hot. reflexivity.
Qed.

(** The block of models succeeds when every model of the datamodel has
    an output type cached under its name, and then emits one file for
    each model, in order, and the barrel of their type names.  With a
    model that has none it throws for the first such model, after the
    files of the models before it were added to the project and before
    any barrel is. *)
Theorem modelBlock_outcome (w : GeneratorWorld) :
  shouldGenerateBlock d "models" = true ->
  (Forall (fun model => is_Some (outputTypeCache d !! model_name model))
          (datamodel_models d) ->
   (exists elapsed,
       fst (generateModels w)
       = Ok {| itemsGenerated := Z.of_nat (length (datamodel_models d));
               timeElapsed := Some elapsed |}) /\
   gw_project (snd (generateModels w))
   = gw_project w ++ filesOf (datamodel_models d)
     ++ [ModelsBarrelFile (List.map model_typeName (datamodel_models d))] /\
   length (filesOf (datamodel_models d)) = length (datamodel_models d)) /\
  (forall before model after,
      datamodel_models d = before ++ model :: after ->
      Forall (fun model => is_Some (outputTypeCache d !! model_name model))
             before ->
      outputTypeCache d !! model_name model = None ->
      fst (generateModels w) = Throw (noOutputTypeMessage model) /\
      gw_project (snd (generateModels w)) = gw_project w ++ filesOf before).
Proof.
  intros Hon. split.
  - intros Hall.
    assert (Hrun : exists elapsed,
               generateModels w
               = (Ok {| itemsGenerated :=
                          Z.of_nat (length (datamodel_models d));
                        timeElapsed := Some elapsed |},
                  tick (emitted
                          (filesOf (datamodel_models d)
                           ++ [ModelsBarrelFile
                                 (List.map model_typeName
                                           (datamodel_models d))])
                          (tick w)))).
    { unfold modelBlockGenerate, guardedGenerate. rewrite Hon.
      unfold bind at 1. destruct (performanceNow_tick w) as [t0 ->].
      unfold bind at 1. rewrite (modelFiles_all _ _ Hall).
      unfold bind at 1. rewrite addToProject_emitted, emitted_emitted.
      apply metricsSince_tick. }
    destruct Hrun as [t ->]. cbn [fst snd].
    split; [eauto|]. split.
    + rewrite (proj1 (tick_project _)). cbn [emitted gw_project].
      rewrite (proj1 (tick_project w)). reflexivity.
    + clear -Hall. induction Hall as [|model rest [ot Hot] _ IH];
        [reflexivity|].
      unfold modelFilesOf in *. cbn [flat_map]. rewrite Hot.
      cbn [app length]. rewrite IH. reflexivity.
  - intros before model after Hmodels Hall Hnone.
    assert (Hrun : generateModels w
                   = (Throw (noOutputTypeMessage model),
                      emitted (filesOf before) (tick w))).
    { unfold modelBlockGenerate, guardedGenerate. rewrite Hon.
      unfold bind at 1. destruct (performanceNow_tick w) as [t0 ->].
      unfold bind at 1.
      rewrite Hmodels, (modelFiles_first_missing _ _ _ _ Hall Hnone).
      reflexivity. }
    rewrite Hrun. cbn [fst snd emitted gw_project].
    rewrite (proj1 (tick_project w)). split; reflexivity.
Qed.

End ModelBlockFacts.

(** *** The block of relation resolvers *)

Lemma first_failing {A} (p : A -> bool) (l : list A) :
  Forall (fun x => p x = true) l \/
  exists before x after,
    l = before ++ x :: after /\
    Forall (fun x => p x = true) before /\ p x = false.
Proof.
  induction l as [|x l IH]; [left; constructor|].
  destruct (p x) eqn:Hx.
  - destruct IH as [Hall|(before & y & after & -> & Hb & Hy)].
    + left. constructor; assumption.
    + right. exists (x :: before), y, after.
      repeat split; [constructor; assumption | exact Hy].
  - right. exists [], x, l. repeat split; [constructor | exact Hx].
Qed.

Section RelationBlockFacts.

Variable camelCase : string -> string.

Local Abbreviation generateFile := (generateRelationsResolverFile camelCase).
Local Abbreviation generateRelations :=
  (relationResolverBlockGenerate d camelCase).

Lemma relationFiles_all (someRelationModels : list RelationModel)
    (w : GeneratorWorld) :
  Forall (fun rel => isOk (generateFile rel) = true) someRelationModels ->
  forEachM (relationResolverFile camelCase) someRelationModels w
  = (Ok tt, emitted (relationFilesOf camelCase someRelationModels) w).
Proof.
  intros Hall. revert w. induction Hall as [|rel rest Hrel _ IH]; intros w.
  - cbn [forEachM relationFilesOf flat_map]. rewrite emitted_nil. reflexivity.
  - cbn [forEachM]. unfold bind at 1, relationResolverFile at 1.
    unfold bind, lift. unfold relationFilesOf. cbn [flat_map].
    destruct (generateFile rel) as [file|msg]; [|discriminate].
    rewrite addToProject_emitted.
    change (flat_map _ rest) with (relationFilesOf camelCase rest).
    rewrite <- emitted_emitted. apply IH.
Qed.

Lemma relationFiles_first_failing (before : list RelationModel)
    (rel : RelationModel) (after : list RelationModel) (msg : string)
    (w : GeneratorWorld) :
  Forall (fun rel => isOk (generateFile rel) = true) before ->
  generateFile rel = Throw msg ->
  forEachM (relationResolverFile camelCase) (before ++ rel :: after) w
  = (Throw msg, emitted (relationFilesOf camelCase before) w).
Proof.
  intros Hall Hrel. revert w. induction Hall as [|r rest Hr _ IH]; intros w.
  - cbn [app forEachM relationFilesOf flat_map].
    unfold bind at 1, relationResolverFile. unfold bind, lift.
    rewrite Hrel, emitted_nil. reflexivity.
  - cbn [app forEachM]. unfold bind at 1, relationResolverFile at 1.
    unfold bind, lift. unfold relationFilesOf. cbn [flat_map].
    destruct (generateFile r) as [file|msg']; [|discriminate].
    rewrite addToProject_emitted.
    change (flat_map _ rest) with (relationFilesOf camelCase rest).
    rewrite <- emitted_emitted. apply IH.
Qed.

Lemma relationBarrelFiles_run (w : GeneratorWorld) :
  relationBarrelFiles d w = (Ok tt, emitted (relationBarrelEmissions d) w).
Proof.
  unfold relationBarrelFiles, relationBarrelEmissions.
  unfold bind at 1. rewrite addToProject_emitted.
  unfold bind at 1.
  destruct (0 <? length (relationModelsWithArgs d))%nat.
  - rewrite !addToProject_emitted, !emitted_emitted. reflexivity.
  - unfold ret. rewrite addToProject_emitted, emitted_emitted. reflexivity.
Qed.

Lemma relationArgsBarrelNames_defined (relationFields : list RelationField) :
  Forall (fun field => relf_argsTypeName field <> Some EmptyString)
         relationFields ->
  relationArgsBarrelNames relationFields
  = Ok (List.map (fun field => JS.template (relf_argsTypeName field))
          (List.filter (fun field => truthy (relf_argsTypeName field))
                       relationFields)).
Proof.
  unfold relationArgsBarrelNames. induction 1 as [|rf rfs Hrf _ IH];
    [reflexivity|].
  cbn [List.filter].
  destruct (relf_argsTypeName rf) as [n|] eqn:En.
  - rewrite bool_decide_eq_true_2 by eauto. cbn [mapM truthy].
    rewrite En. cbn [truthy].
    destruct (String.eqb_spec n EmptyString) as [->|Hne];
      [contradiction|].
    cbn [negb rbind List.map]. rewrite IH, En. reflexivity.
  - rewrite bool_decide_eq_false_2 by (intros [x Hx]; discriminate).
    cbn [truthy]. exact IH.
Qed.

Lemma relationArgsOf_run (rel : RelationModel) (w : GeneratorWorld) :
  relationFieldsComplete rel ->
  relationArgsOf rel w = (Ok tt, emitted (relationArgsEmissions rel) w).
Proof.
  intros Hcomplete. unfold relationArgsOf, relationArgsEmissions.
  cbv zeta. unfold bind at 1.
  assert (Hfiles : forall fields w',
             Forall (fun field => is_Some (relf_outputTypeField field))
                    fields ->
             forEachM
               (relationArgsFile
                  (relationsFolder
                   ++ [Folder (model_typeName (rel_model rel))]))
               (List.filter (fun field => truthy (relf_argsTypeName field))
                            fields)
               w'
             = (Ok tt,
                emitted
                  (flat_map
                     (fun field =>
                        match relf_outputTypeField field with
                        | Some outputTypeField =>
                            [ ArgsFile
                                (relationsFolder
                                 ++ [Folder (model_typeName (rel_model rel))])
                                (of_args outputTypeField)
                                (JS.template (relf_argsTypeName field)) ]
                        | None => []
                        end)
                     (List.filter
                        (fun field => truthy (relf_argsTypeName field))
                        fields))
                  w')).
  { intros fields w' Hall. revert w'.
    induction Hall as [|rf rfs [otf Hotf] _ IH]; intros w'.
    - cbn [List.filter forEachM flat_map]. rewrite emitted_nil. reflexivity.
    - cbn [List.filter].
      destruct (truthy (relf_argsTypeName rf)) eqn:Htruthy; [|apply IH].
      cbn [forEachM flat_map]. unfold bind, relationArgsFile at 1.
      rewrite Htruthy, Hotf. cbn [negb].
      rewrite addToProject_emitted, IH, emitted_emitted. reflexivity. }
  rewrite Hfiles.
  2: { eapply List.Forall_impl; [|exact Hcomplete]. intros rf [H _]. exact H. }
  unfold bind at 1, lift.
  rewrite relationArgsBarrelNames_defined.
  2: { eapply List.Forall_impl; [|exact Hcomplete]. intros rf [_ H]. exact H. }
  rewrite List.length_map.
  destruct (0 <? length _)%nat.
  - rewrite addToProject_emitted, emitted_emitted. reflexivity.
  - unfold ret. rewrite app_nil_r. reflexivity.
Qed.

Lemma relationArgs_all (someRelationModels : list RelationModel)
    (w : GeneratorWorld) :
  Forall relationFieldsComplete someRelationModels ->
  forEachM relationArgsOf someRelationModels w
  = (Ok tt, emitted (flat_map relationArgsEmissions someRelationModels) w).
Proof.
  intros Hall. revert w. induction Hall as [|rel rest Hrel _ IH]; intros w.
  - cbn [forEachM flat_map]. rewrite emitted_nil. reflexivity.
  - cbn [forEachM flat_map]. unfold bind.
    rewrite (relationArgsOf_run rel w Hrel), IH, emitted_emitted.
    reflexivity.
Qed.

Lemma relationBlock_enabled :
  relationModels d <> [] ->
  shouldGenerateBlock d "relationResolvers" = true ->
  ((0 <? length (relationModels d))%nat
   && shouldGenerateBlock d "relationResolvers") = true.
Proof.
  intros Hne Hon. rewrite Hon.
  destruct (relationModels d); [contradiction | reflexivity].
Qed.

Lemma relationBlock_succeeds (w : GeneratorWorld) :
  relationModels d <> [] ->
  shouldGenerateBlock d "relationResolvers" = true ->
  Forall (fun rel => isOk (generateFile rel) = true) (relationModels d) ->
  Forall relationFieldsComplete (relationModels d) ->
  exists elapsed,
    generateRelations w
    = (Ok {| itemsGenerated := Z.of_nat (length (relationModels d));
             timeElapsed := Some elapsed |},
       tick (emitted
               (relationFilesOf camelCase (relationModels d)
                ++ relationBarrelEmissions d
                ++ flat_map relationArgsEmissions (relationModels d))
               (tick w))).
Proof.
  intros Hne Hon Hfiles Hcomplete.
  unfold relationResolverBlockGenerate, guardedGenerate.
  rewrite (relationBlock_enabled Hne Hon).
  unfold bind at 1. destruct (performanceNow_tick w) as [t0 ->].
  unfold bind at 1. rewrite (relationFiles_all _ _ Hfiles).
  unfold bind at 1. rewrite relationBarrelFiles_run.
  unfold bind at 1. rewrite (relationArgs_all _ _ Hcomplete).
  rewrite !emitted_emitted, <- ?app_assoc.
  apply metricsSince_tick.
Qed.

Lemma relationBlock_throws (w : GeneratorWorld) (before : list RelationModel)
    (rel : RelationModel) (after : list RelationModel) (msg : string) :
  relationModels d <> [] ->
  shouldGenerateBlock d "relationResolvers" = true ->
  relationModels d = before ++ rel :: after ->
  Forall (fun rel => isOk (generateFile rel) = true) before ->
  generateFile rel = Throw msg ->
  generateRelations w
  = (Throw msg, emitted (relationFilesOf camelCase before) (tick w)).
Proof.
  intros Hne Hon Hrels Hbefore Hrel.
  unfold relationResolverBlockGenerate, guardedGenerate.
  rewrite (relationBlock_enabled Hne Hon).
  unfold bind at 1. destruct (performanceNow_tick w) as [t0 ->].
  unfold bind at 1.
  rewrite Hrels, (relationFiles_first_failing _ _ _ _ _ Hbefore Hrel).
  reflexivity.
Qed.


End RelationBlockFacts.

(** *** What leaves the stored output types alone *)

Lemma keeps_bind {A B} (m : M GeneratorWorld A) (k : A -> M GeneratorWorld B) :
  keepsOutputTypes m -> (forall a, keepsOutputTypes (k a)) ->
  keepsOutputTypes (bind m k).
Proof.
  intros Hm Hk w. unfold bind. specialize (Hm w).
  destruct (m w) as [[a|msg] w1]; cbn [snd] in *; [|exact Hm].
  rewrite (Hk a w1). exact Hm.
Qed.

Lemma keeps_addToProject (e : Emission) : keepsOutputTypes (addToProject e).
Proof. intros w. reflexivity. Qed.

Lemma keeps_performanceNow : keepsOutputTypes performanceNow.
Proof. intros w. apply (proj2 (tick_project w)). Qed.

Lemma keeps_forEachM {A} (f : A -> M GeneratorWorld unit) (l : list A) :
  (forall x, keepsOutputTypes (f x)) -> keepsOutputTypes (forEachM f l).
Proof.
  intros Hf. induction l as [|x l IH]; [intros w; reflexivity|].
  cbn [forEachM]. apply keeps_bind; [apply Hf | intros _; exact IH].
Qed.

Lemma keeps_metricsSince (startTime : Z) (items : nat) :
  keepsOutputTypes (metricsSince startTime items).
Proof.
  unfold metricsSince. apply keeps_bind; [apply keeps_performanceNow|].
  intros t w. reflexivity.
Qed.

Lemma keeps_guardedGenerate (b : bool)
    (body : M GeneratorWorld GenerationMetrics) :
  keepsOutputTypes body ->
  keepsOutputTypes (guardedGenerate GeneratorWorld (fun _ => b) body).
Proof.
  intros Hbody w. unfold guardedGenerate. destruct b; [apply Hbody|].
  reflexivity.
Qed.

Lemma keeps_enumBlock : keepsOutputTypes (enumBlockGenerate d).
Proof.
  unfold enumBlockGenerate. apply keeps_guardedGenerate.
  apply keeps_bind; [apply keeps_performanceNow | intros t0].
  apply keeps_bind.
  { apply keeps_forEachM. intros x. apply keeps_addToProject. }
  intros _. apply keeps_bind; [apply keeps_addToProject | intros _].
  apply keeps_metricsSince.
Qed.

Lemma keeps_modelBlock (convertNewLines : string -> string)
    (emitIsAbstract simpleResolvers : bool) :
  keepsOutputTypes
    (modelBlockGenerate d convertNewLines emitIsAbstract simpleResolvers).
Proof.
  unfold modelBlockGenerate. apply keeps_guardedGenerate.
  apply keeps_bind; [apply keeps_performanceNow | intros t0].
  apply keeps_bind.
  { apply keeps_forEachM. intros model. unfold modelFile.
    destruct (outputTypeCache d !! model_name model);
      [apply keeps_addToProject | intros w; reflexivity]. }
  intros _. apply keeps_bind; [apply keeps_addToProject | intros _].
  apply keeps_metricsSince.
Qed.

End BlockGeneratorFacts.

(** For a finished document with relation models, the block of relation
    resolvers succeeds exactly when the class of every relation model
    can be generated: the guards on the names of the argument types and
    the reads of the output-type fields never throw. *)
Theorem relationBlock_of_constructed
    (parseDocumentationAttributes :
       option string -> string -> string -> Attributes)
    (pascalCase : string -> string)
    (cleanDocsString : option string -> option string)
    (getInputTypeName : string -> DmmfDocument -> string)
    (getModelNameFromInputType : string -> option string)
    (getTypeGraphQLType :
       TypeInfo -> DmmfDocument -> option string -> option string ->
       option bool -> string)
    (getFieldTSType :
       DmmfDocument -> TypeInfo -> bool -> bool -> option string ->
       option string -> string)
    (transformMappings :
       list RawModelMapping -> DmmfDocument -> result (list ModelMapping))
    (camelCase : string -> string)
    (raw : RawDocument) (opts : GeneratorOptions) (cache cache' : NameCache)
    (d : DmmfDocument) (w : GeneratorWorld) :
  newDmmfDocument parseDocumentationAttributes pascalCase cleanDocsString
    getInputTypeName getModelNameFromInputType getTypeGraphQLType
    getFieldTSType transformMappings raw opts cache = (Ok d, cache') ->
  relationModels d <> [] ->
  shouldGenerateBlock d "relationResolvers" = true ->
  isOk (fst (relationResolverBlockGenerate d camelCase w)) = true
  <-> Forall (fun rel =>
                isOk (generateRelationsResolverClassesFromModel camelCase rel)
                = true)
             (relationModels d).
Proof.
  intros H Hne Hon.
  assert (Hargs : forall rel, In rel (relationModels d) ->
                    Forall (fun rf => relf_argsTypeName rf <> Some EmptyString)
                           (rel_relationFields rel))
    by apply (construct_argsTypeName _ _ _ _ _ _ _ _ _ _ _ _ _ H).
  assert (Hout : forall rel, In rel (relationModels d) ->
                   Forall (fun rf => is_Some (relf_outputTypeField rf))
                          (rel_relationFields rel))
    by apply (construct_outputTypeField _ _ _ _ _ _ _ _ _ _ _ _ _ H).
  assert (Hfile : forall rel, In rel (relationModels d) ->
                    isOk (generateRelationsResolverFile camelCase rel)
                    = isOk (generateRelationsResolverClassesFromModel
                              camelCase rel)).
  { intros rel Hin.
    rewrite (generateFile_after_guard camelCase rel _
               (argTypeNames_defined _ (Hargs rel Hin))).
    destruct (generateRelationsResolverClassesFromModel camelCase rel);
      reflexivity. }
  assert (Hcomplete : Forall relationFieldsComplete (relationModels d)).
  { apply List.Forall_forall. intros rel Hin. unfold relationFieldsComplete.
    pose proof (Hargs rel Hin) as Ha. pose proof (Hout rel Hin) as Ho.
    rewrite List.Forall_forall in Ha, Ho |- *.
    intros rf Hrf. split; [apply Ho | apply Ha]; exact Hrf. }
  destruct (first_failing
              (fun rel => isOk (generateRelationsResolverFile camelCase rel))
              (relationModels d))
    as [Hall|(before & rel & after & Hrels & Hbefore & Hrel)].
  - destruct (relationBlock_succeeds d camelCase w Hne Hon Hall Hcomplete)
      as [t ->].
    cbn [fst isOk]. split; [intros _|reflexivity].
    apply List.Forall_forall. intros rel Hin.
    rewrite <- (Hfile rel Hin). rewrite List.Forall_forall in Hall.
    apply Hall, Hin.
  - destruct (generateRelationsResolverFile camelCase rel) as [file|msg]
      eqn:Efile; [discriminate|].
    rewrite (relationBlock_throws d camelCase w _ _ _ _ Hne Hon Hrels
               Hbefore Efile).
    cbn [fst isOk]. split; [discriminate|]. intros Hclass.
    rewrite List.Forall_forall in Hclass.
    assert (Hin : In rel (relationModels d))
      by (rewrite Hrels; apply in_or_app; right; left; reflexivity).
    specialize (Hclass rel Hin). rewrite <- (Hfile rel Hin), Efile in Hclass.
    discriminate.
Qed.

(** ** The class of a model *)

(** In the class of a model every field has its property, in order, and
    the property of [_count] comes last when it is emitted; a property
    bears either the exclamation or the question token.  A field that is
    neither a relation nor omitted from the output is exposed exactly
    once: by the decorator of its property when it has no alias, and
    otherwise by an accessor named by its alias, which is not empty; a
    relation or an omitted field is exposed by neither. *)
Theorem modelClass_exposure (convertNewLines : string -> string)
    (emitIsAbstract simpleResolvers : bool) (model : Model)
    (modelOutputType : OutputType) (d : DmmfDocument) :
  (exists countProperties,
      mcf_properties
        (generateObjectTypeClassFromModel convertNewLines emitIsAbstract
           simpleResolvers model modelOutputType d)
      = List.map (fieldProperty convertNewLines) (model_fields model)
        ++ countProperties /\
      length countProperties
      = if bool_decide
             (is_Some (getOutputTypeField d (output_name modelOutputType)
                         "_count"))
           && shouldGenerateBlock d "crudResolvers"
        then 1%nat else 0%nat) /\
  Forall (fun p => prop_hasExclamationToken p = negb (prop_hasQuestionToken p))
         (mcf_properties
            (generateObjectTypeClassFromModel convertNewLines emitIsAbstract
               simpleResolvers model modelOutputType d)) /\
  List.map acc_name
    (mcf_getAccessors
       (generateObjectTypeClassFromModel convertNewLines emitIsAbstract
          simpleResolvers model modelOutputType d))
  = List.map (fun field => JS.template (mf_typeFieldAlias field))
             (List.filter hasAccessor (model_fields model)) /\
  Forall (fun a => acc_name a <> EmptyString)
         (mcf_getAccessors
            (generateObjectTypeClassFromModel convertNewLines emitIsAbstract
               simpleResolvers model modelOutputType d)) /\
  forall field,
    In field (model_fields model) ->
    (prop_decorators (fieldProperty convertNewLines field) <> [] ->
     hasAccessor field = false) /\
    ((prop_decorators (fieldProperty convertNewLines field) <> [] \/
      hasAccessor field = true)
     <-> truthy (mf_relationName field) = false /\
         mf_isOmitted_output field = false).
Proof.
  unfold generateObjectTypeClassFromModel.
  cbn [mcf_properties mcf_getAccessors].
  split; [|split; [|split; [|split]]].
  - eexists. split; [reflexivity|].
    destruct (getOutputTypeField d (output_name modelOutputType) "_count")
      as [countField|].
    + rewrite bool_decide_eq_true_2 by eauto. cbn [andb].
      destruct (shouldGenerateBlock d "crudResolvers"); reflexivity.
    + rewrite bool_decide_eq_false_2 by (intros [x Hx]; discriminate).
      reflexivity.
  - apply List.Forall_app. split.
    + apply List.Forall_forall. intros p Hp.
      apply in_map_iff in Hp as [field [<- _]].
      cbn [fieldProperty prop_hasExclamationToken prop_hasQuestionToken].
      reflexivity.
    + destruct (getOutputTypeField d (output_name modelOutputType) "_count")
        as [countField|]; [|constructor].
      destruct (_ && _); [|constructor].
      repeat constructor.
      cbn [countProperty prop_hasExclamationToken prop_hasQuestionToken].
      rewrite negb_involutive. reflexivity.
  - rewrite List.map_map. reflexivity.
  - apply List.Forall_forall. intros a Ha.
    apply in_map_iff in Ha as [field [<- Hfield]].
    apply filter_In in Hfield as [_ Hacc]. unfold hasAccessor in Hacc.
    cbn [fieldAccessor acc_name].
    destruct (mf_typeFieldAlias field) as [alias|];
      cbn [truthy andb] in Hacc; [|discriminate].
    cbn [JS.template]. intros ->. discriminate.
  - intros field _. unfold hasAccessor.
    cbn [fieldProperty prop_decorators].
    destruct (truthy (mf_relationName field)),
      (truthy (mf_typeFieldAlias field)),
      (mf_isOmitted_output field); cbn [orb andb negb];
      (split;
       [ intros H; first [reflexivity | exfalso; apply H; reflexivity]
       | split;
         [ intros [H|H];
           first [ split; reflexivity
                 | exfalso; apply H; reflexivity
                 | discriminate ]
         | intros [H1 H2];
           first [ discriminate
                 | right; reflexivity
                 | left; discriminate ] ] ]).
Qed.

(** ** The output types that the orchestrator returns *)

Section OrchestratorReturn.

Variable World : Type.
Variable generators : gmap string (BlockGenerator World).
Variable log : string -> M World unit.
Variable metricsCallback : option (string -> GenerationMetrics -> M World unit).

(** A turn of the loop that ends normally: the logger, [generate] and,
    when it is called, the callback have returned, in this order. *)
Lemma generateBlock_Ok_inv (b : string) (g : BlockGenerator World)
    (outputTypes o : list OutputType) (r r1 : Run World) :
  generators !! b = Some g ->
  generateBlock World generators log metricsCallback outputTypes b r
  = (Ok o, r1) ->
  exists w1 m w2,
    log ("Generating " +:+ getBlockName g +:+ "...") (world r) = (Ok tt, w1) /\
    generate g w1 = (Ok m, w2) /\
    (world r1 = w2 \/
     exists callback,
       metricsCallback = Some callback /\
       callback b m w2 = (Ok tt, world r1)) /\
    o = if String.eqb b "outputs" && isOutputBlockGenerator g
        then getGeneratedOutputTypes g (world r1)
        else outputTypes.
Proof.
  intros Hg. unfold generateBlock. rewrite Hg.
  unfold bind, onWorld, emit, modify, ret, get.
  destruct (log _ (world r)) as [[[]|msg] w1] eqn:El;
    cbn [fst snd trace world]; [|discriminate].
  destruct (generate g w1) as [[m|msg] w2] eqn:Eg;
    cbn [fst snd trace world]; [|discriminate].
  intros H. exists w1, m, w2.
  split; [first [reflexivity | exact El]|].
  split; [first [reflexivity | exact Eg]|].
  destruct metricsCallback as [callback|].
  - destruct (0 <? itemsGenerated m)%Z; cbn [fst snd trace world] in H.
    + destruct (callback b m w2) as [[[]|msg] w3] eqn:Ecb;
        cbn [fst snd trace world] in H; [|discriminate].
      destruct (String.eqb b "outputs" && isOutputBlockGenerator g);
        cbn [fst snd trace world] in H; injection H as <- <-;
        cbn [world]; (split; [right; eauto | reflexivity]).
    + destruct (String.eqb b "outputs" && isOutputBlockGenerator g);
        cbn [fst snd trace world] in H; injection H as <- <-;
        cbn [world]; (split; [left; reflexivity | reflexivity]).
  - destruct (String.eqb b "outputs" && isOutputBlockGenerator g);
      cbn [fst snd trace world] in H; injection H as <- <-;
      cbn [world]; (split; [left; reflexivity | reflexivity]).
Qed.

(** A turn for a block other than [outputs] hands on the output types it
    was given. *)
Lemma generateBlock_passes (b : string) (outputTypes o : list OutputType)
    (r r1 : Run World) :
  String.eqb b "outputs" = false ->
  generateBlock World generators log metricsCallback outputTypes b r
  = (Ok o, r1) ->
  o = outputTypes.
Proof.
  intros Hb H. destruct (generators !! b) as [g|] eqn:Hg.
  - destruct (generateBlock_Ok_inv b g _ _ _ _ Hg H)
      as (w1 & m & w2 & _ & _ & _ & Ho).
    rewrite Hb in Ho. exact Ho.
  - unfold generateBlock in H. rewrite Hg in H. injection H as <- _.
    reflexivity.
Qed.

Lemma generateBlocks_pass (names : list string)
    (outputTypes o : list OutputType) (r r1 : Run World) :
  Forall (fun b => String.eqb b "outputs" = false) names ->
  generateBlocks World generators log metricsCallback outputTypes names r
  = (Ok o, r1) ->
  o = outputTypes.
Proof.
  intros Hnames. revert outputTypes r.
  induction Hnames as [|b names Hb _ IH]; intros outputTypes r.
  - cbn [generateBlocks]. unfold ret. intros [= <- _]. reflexivity.
  - rewrite generateBlocks_cons.
    destruct (generateBlock World generators log metricsCallback
                outputTypes b r) as [[o1|msg] r2] eqn:E; [|discriminate].
    intros H. rewrite (IH _ _ H). apply (generateBlock_passes _ _ _ _ _ Hb E).
Qed.

End OrchestratorReturn.

(** The output types that [generateAllBlocks] returns with the
    generators of the factory are those that the generator of output
    types has stored: the output types of the schema that are neither
    models nor root types when the block of output types is emitted, and
    those stored before, none for a new generator, when it is not.  The
    logger and the callback are taken not to touch what the generator
    has stored. *)
Theorem generateAllBlocks_outputTypes (d : DmmfDocument)
    (convertNewLines : string -> string)
    (emitIsAbstract simpleResolvers : bool) (camelCase : string -> string)
    (crudResolverBlockGenerate : M GeneratorWorld GenerationMetrics)
    (log : string -> M GeneratorWorld unit)
    (metricsCallback :
       option (string -> GenerationMetrics -> M GeneratorWorld unit))
    (r r' : Run GeneratorWorld) (outputTypes : list OutputType) :
  (forall msg, keepsOutputTypes (log msg)) ->
  (forall callback blockName metrics,
      metricsCallback = Some callback ->
      keepsOutputTypes (callback blockName metrics)) ->
  generateAllBlocks GeneratorWorld
    (blockGenerators d convertNewLines emitIsAbstract simpleResolvers
       camelCase crudResolverBlockGenerate)
    log metricsCallback r
  = (Ok outputTypes, r') ->
  outputTypes
  = if shouldGenerateBlock d "outputs"
    then outputTypesToGenerate d
    else gw_outputTypesToGenerate (world r).
Proof.
  intros Hlog Hcb. unfold generateAllBlocks, blockOrder.
  set (generators := blockGenerators d convertNewLines emitIsAbstract
                       simpleResolvers camelCase crudResolverBlockGenerate).
  assert (Hturn : forall b g o0 o (r0 r1 : Run GeneratorWorld),
             generators !! b = Some g ->
             keepsOutputTypes (generate g) ->
             generateBlock GeneratorWorld generators log metricsCallback
               o0 b r0 = (Ok o, r1) ->
             gw_outputTypesToGenerate (world r1)
             = gw_outputTypesToGenerate (world r0)).
  { intros b g o0 o r0 r1 Hg Hkeeps H.
    destruct (generateBlock_Ok_inv GeneratorWorld generators log
                metricsCallback b g _ _ _ _ Hg H)
      as (w1 & m & w2 & Hl & Hgen & Hw & _).
    match type of Hl with
    | log ?msg _ = _ => pose proof (Hlog msg (world r0)) as H1
    end.
    rewrite Hl in H1.
    pose proof (Hkeeps w1) as H2. rewrite Hgen in H2. cbn [snd] in *.
    destruct Hw as [->|(callback & Hc & Hcall)].
    - congruence.
    - pose proof (Hcb callback b m Hc w2) as H3. rewrite Hcall in H3.
      cbn [snd] in H3. congruence. }
  rewrite generateBlocks_cons.
  destruct (generateBlock GeneratorWorld generators log metricsCallback
              [] "enums" r) as [[o1|msg] r1] eqn:E1; [|discriminate].
  rewrite generateBlocks_cons.
  destruct (generateBlock GeneratorWorld generators log metricsCallback
              o1 "models" r1) as [[o2|msg] r2] eqn:E2; [|discriminate].
  rewrite generateBlocks_cons.
  destruct (generateBlock GeneratorWorld generators log metricsCallback
              o2 "outputs" r2) as [[o3|msg] r3] eqn:E3; [|discriminate].
  intros Hrest.
  apply generateBlocks_pass in Hrest; [|repeat constructor].
  subst outputTypes.
  pose proof (Hturn "enums" _ _ _ _ _ eq_refl (keeps_enumBlock d) E1) as F1.
  pose proof (Hturn "models" _ _ _ _ _ eq_refl
                (keeps_modelBlock d convertNewLines emitIsAbstract
                   simpleResolvers) E2) as F2.
  destruct (generateBlock_Ok_inv GeneratorWorld generators log
              metricsCallback "outputs" (outputBlockGenerator d) _ _ _ _
              eq_refl E3)
    as (w1 & m & w2 & Hl & Hgen & Hw & Ho).
  cbn [String.eqb Ascii.eqb Bool.eqb andb isOutputBlockGenerator
         outputBlockGenerator getGeneratedOutputTypes] in Ho.
  cbn [generate outputBlockGenerator] in Hgen.
  assert (Hfield : gw_outputTypesToGenerate (world r3)
                   = gw_outputTypesToGenerate w2).
  { destruct Hw as [->|(callback & Hc & Hcall)]; [reflexivity|].
    pose proof (Hcb callback "outputs" m Hc w2) as H3. rewrite Hcall in H3.
    exact H3. }
  match type of Hl with
  | log ?msg _ = _ => pose proof (Hlog msg (world r2)) as H1
  end.
  rewrite Hl in H1. cbn [snd] in H1.
  rewrite Ho, Hfield.
  destruct (shouldGenerateBlock d "outputs") eqn:Hon.
  - destruct (outputBlock_run d w1 Hon) as [t Hrun].
    rewrite Hrun in Hgen. injection Hgen as _ <-.
    rewrite (proj2 (tick_project _)). reflexivity.
  - unfold outputBlockGenerate in Hgen.
    rewrite guardedGenerate_disabled in Hgen by exact Hon.
    injection Hgen as _ <-. congruence.
Qed.

(** ** The driver *)

Section CodeGeneratorReport.

Variable Project : Type.
Variable Disk : Type.
Variable parseDocumentationAttributes :
  option string -> string -> string -> Attributes.
Variable pascalCase : string -> string.
Variable cleanDocsString : option string -> option string.
Variable getInputTypeName : string -> DmmfDocument -> string.
Variable getModelNameFromInputType : string -> option string.
Variable getTypeGraphQLType :
  TypeInfo -> DmmfDocument -> option string -> option string ->
  option bool -> string.
Variable getFieldTSType :
  DmmfDocument -> TypeInfo -> bool -> bool -> option string ->
  option string -> string.
Variable transformMappings :
  list RawModelMapping -> DmmfDocument -> result (list ModelMapping).
Variable ensureInstalledCorrectPrismaPackage : result unit.
Variable getBlocksToEmit : option (list string) -> list string.
Variable newProject : bool -> Project.
Variable newBlockGenerator :
  string -> DmmfDocument -> GeneratorOptions -> string ->
  BlockGenerator (PipelineWorld Project Disk).
Variable generateAuxiliaryFiles :
  DmmfDocument -> list OutputType -> Project -> result Project.
Variable projectEmit : Project -> Disk -> result unit * Disk.
Variable projectSave : Project -> Disk -> result unit * Disk.
Variable execa : string -> string -> Disk -> result unit * Disk.
Variable fsAccess : string -> Disk -> bool.
Variable pathResolve : string -> string -> string.
Variable hasMetrics : bool.
Variable hasOnComplete : bool.

Local Abbreviation formatStep :=
  (formatGeneratedCodeStep Project Disk execa fsAccess pathResolve hasMetrics).
Local Abbreviation report :=
  (formatAndReport Project Disk execa fsAccess pathResolve hasMetrics
     hasOnComplete).
Local Abbreviation run_generateCode :=
  (generateCode Project Disk parseDocumentationAttributes pascalCase
     cleanDocsString getInputTypeName getModelNameFromInputType
     getTypeGraphQLType getFieldTSType transformMappings
     ensureInstalledCorrectPrismaPackage getBlocksToEmit newProject
     newBlockGenerator generateAuxiliaryFiles projectEmit projectSave
     execa fsAccess pathResolve hasMetrics hasOnComplete).
Local Abbreviation formatterOutcome :=
  (fun (tool : FormatTool) (options : GeneratorOptions)
       (w : PipelineWorld Project Disk) =>
     execa (formatterCommand fsAccess pathResolve tool (outputDirPath options)
              (pw_disk _ _ w))
           (outputDirPath options) (pw_disk _ _ w)).

(** The formatting step with a formatter: one call of the formatter,
    whose exception is turned into a warning. *)
Lemma formatGeneratedCodeStep_outcome (options : GeneratorOptions)
    (tool : FormatTool) (w : PipelineWorld Project Disk) :
  formatGeneratedCode options = Some tool ->
  formatStep options w
  = (Ok tt,
     {| pw_project := pw_project _ _ w;
        pw_disk := snd (formatterOutcome tool options w);
        pw_outputTypeNameCache := pw_outputTypeNameCache _ _ w;
        pw_logged :=
          pw_logged _ _ w
          ++ formattingLines tool (fst (formatterOutcome tool options w));
        pw_sink :=
          pw_sink _ _ w
          ++ formattingMetrics hasMetrics tool
               (fst (formatterOutcome tool options w)) |}).
Proof.
  intros Htool. unfold formatGeneratedCodeStep. rewrite Htool.
  unfold tryCatch, formattingLines, formattingMetrics.
  unfold bind at 1. unfold log at 1, modify at 1. unfold bind at 1.
  destruct tool; unfold runFormatter, formatterCommand.
  - unfold bind at 1, get. unfold bind at 1, onDisk.
    cbn [pw_disk pw_project pw_logged pw_sink pw_outputTypeNameCache].
    destruct (fsAccess _ (pw_disk _ _ w)); cbv zeta; cbn [app];
      (match goal with
       | |- context [execa ?c ?dir ?disk] =>
           destruct (execa c dir disk) as [[[]|message] disk']
       end;
       unfold emitMetric, toSink, log, modify, ret;
       destruct hasMetrics;
       cbn [fst snd pw_disk pw_project pw_logged pw_sink
              pw_outputTypeNameCache formatToolName];
       rewrite <- ?app_assoc, ?app_nil_r; reflexivity).
  - unfold bind at 1, onDisk.
    cbn [pw_disk pw_project pw_logged pw_sink pw_outputTypeNameCache].
    match goal with
    | |- context [execa ?c ?dir ?disk] =>
        destruct (execa c dir disk) as [[[]|message] disk']
    end;
      unfold emitMetric, toSink, log, modify, ret;
      destruct hasMetrics;
      cbn [fst snd pw_disk pw_project pw_logged pw_sink
             pw_outputTypeNameCache formatToolName];
      rewrite <- ?app_assoc, ?app_nil_r; reflexivity.
  - unfold bind at 1, onDisk.
    cbn [pw_disk pw_project pw_logged pw_sink pw_outputTypeNameCache].
    match goal with
    | |- context [execa ?c ?dir ?disk] =>
        destruct (execa c dir disk) as [[[]|message] disk']
    end;
      unfold emitMetric, toSink, log, modify, ret;
      destruct hasMetrics;
      cbn [fst snd pw_disk pw_project pw_logged pw_sink
             pw_outputTypeNameCache formatToolName];
      rewrite <- ?app_assoc, ?app_nil_r; reflexivity.
Qed.

(** Once the output is persisted, nothing makes [generate] throw: the
    formatting step and the closing metrics return normally whatever the
    formatter does.  Without a formatter the disk and the log are left
    as they are; with one, the formatter is called once, an exception of
    it adds a warning to the log and nothing to the metrics, and the
    closing metrics follow in either case. *)
Theorem formatAndReport_total (options : GeneratorOptions)
    (r : Run (PipelineWorld Project Disk)) :
  fst (report options r) = Ok tt /\
  trace (snd (report options r)) = trace r /\
  pw_project _ _ (world (snd (report options r)))
  = pw_project _ _ (world r) /\
  (formatGeneratedCode options = None ->
   pw_disk _ _ (world (snd (report options r))) = pw_disk _ _ (world r) /\
   pw_logged _ _ (world (snd (report options r)))
   = pw_logged _ _ (world r) /\
   pw_sink _ _ (world (snd (report options r)))
   = pw_sink _ _ (world r) ++ closingMetrics hasMetrics hasOnComplete) /\
  (forall tool,
      formatGeneratedCode options = Some tool ->
      pw_disk _ _ (world (snd (report options r)))
      = snd (formatterOutcome tool options (world r)) /\
      pw_logged _ _ (world (snd (report options r)))
      = pw_logged _ _ (world r)
        ++ formattingLines tool (fst (formatterOutcome tool options (world r)))
      /\
      pw_sink _ _ (world (snd (report options r)))
      = pw_sink _ _ (world r)
        ++ formattingMetrics hasMetrics tool
             (fst (formatterOutcome tool options (world r)))
        ++ closingMetrics hasMetrics hasOnComplete).
Proof.
  assert (Hrun : exists w',
             formatStep options (world r) = (Ok tt, w') /\
             report options r
             = (Ok tt,
                {| world :=
                     {| pw_project := pw_project _ _ w';
                        pw_disk := pw_disk _ _ w';
                        pw_outputTypeNameCache :=
                          pw_outputTypeNameCache _ _ w';
                        pw_logged := pw_logged _ _ w';
                        pw_sink :=
                          pw_sink _ _ w'
                          ++ closingMetrics hasMetrics hasOnComplete |};
                   trace := trace r |})).
  { assert (Hstep : exists w', formatStep options (world r) = (Ok tt, w')).
    { destruct (formatGeneratedCode options) as [tool|] eqn:Htool.
      - rewrite (formatGeneratedCodeStep_outcome options tool (world r) Htool).
        eauto.
      - unfold formatGeneratedCodeStep. rewrite Htool. unfold ret. eauto. }
    destruct Hstep as [w' Hstep]. exists w'. split; [exact Hstep|].
    unfold formatAndReport. unfold bind at 1. unfold onWorld at 1.
    rewrite Hstep.
    unfold bind, onWorld, emitMetric, toSink, modify, ret, closingMetrics.
    destruct hasMetrics, hasOnComplete;
      cbn [andb world trace pw_disk pw_project pw_logged pw_sink
             pw_outputTypeNameCache fst snd];
      rewrite <- ?app_assoc, ?app_nil_r; try reflexivity.
    all: destruct w'; reflexivity. }
  destruct Hrun as [w' [Hstep ->]].
  cbn [fst snd world trace pw_project pw_disk pw_logged pw_sink].
  split; [reflexivity|]. split; [reflexivity|].
  split; [|split].
  - destruct (formatGeneratedCode options) as [tool|] eqn:Htool.
    + rewrite (formatGeneratedCodeStep_outcome options tool (world r) Htool)
        in Hstep.
      injection Hstep as <-. reflexivity.
    + unfold formatGeneratedCodeStep in Hstep. rewrite Htool in Hstep.
      injection Hstep as <-. reflexivity.
  - intros Hnone. unfold formatGeneratedCodeStep in Hstep.
    rewrite Hnone in Hstep. injection Hstep as <-. repeat split.
  - intros tool Htool.
    rewrite (formatGeneratedCodeStep_outcome options tool (world r) Htool)
      in Hstep.
    injection Hstep as <-.
    cbn [pw_project pw_disk pw_logged pw_sink]. rewrite <- app_assoc.
    repeat split.
Qed.

(** An exception before the blocks leaves no file: when the check of
    the installed Prisma package throws, nothing at all has happened;
    when the constructor of the document throws, one line is logged, no
    generator has been entered, and the disk and the metrics are as
    before. *)
Theorem generateCode_early_failure (dmmf : RawDocument)
    (baseOptions : BaseOptions) (r : Run (PipelineWorld Project Disk))
    (msg : string) :
  (ensureInstalledCorrectPrismaPackage = Throw msg ->
   run_generateCode dmmf baseOptions r = (Throw msg, r)) /\
  (forall cache',
      ensureInstalledCorrectPrismaPackage = Ok tt ->
      newDmmfDocument parseDocumentationAttributes pascalCase cleanDocsString
        getInputTypeName getModelNameFromInputType getTypeGraphQLType
        getFieldTSType transformMappings dmmf
        (resolveOptions getBlocksToEmit baseOptions)
        (pw_outputTypeNameCache _ _ (world r))
      = (Throw msg, cache') ->
      fst (run_generateCode dmmf baseOptions r) = Throw msg /\
      trace (snd (run_generateCode dmmf baseOptions r)) = trace r /\
      pw_disk _ _ (world (snd (run_generateCode dmmf baseOptions r)))
      = pw_disk _ _ (world r) /\
      pw_sink _ _ (world (snd (run_generateCode dmmf baseOptions r)))
      = pw_sink _ _ (world r) /\
      pw_logged _ _ (world (snd (run_generateCode dmmf baseOptions r)))
      = pw_logged _ _ (world r) ++ ["Transforming dmmfDocument..."]).
Proof.
  split.
  - intros Hinstalled. unfold generateCode. unfold bind at 1, lift.
    rewrite Hinstalled. reflexivity.
  - intros cache' Hinstalled Hthrow.
    assert (Hrun : exists r',
               run_generateCode dmmf baseOptions r = (Throw msg, r') /\
               trace r' = trace r /\
               pw_disk _ _ (world r') = pw_disk _ _ (world r) /\
               pw_sink _ _ (world r') = pw_sink _ _ (world r) /\
               pw_logged _ _ (world r')
               = pw_logged _ _ (world r) ++ ["Transforming dmmfDocument..."]).
    { unfold generateCode. unfold bind at 1, lift. rewrite Hinstalled.
      unfold bind at 1. unfold generateAndPersist.
      unfold bind at 1. unfold onWorld at 1, onProject at 1.
      cbn [world trace].
      unfold bind at 1. unfold onWorld at 1, log at 1, modify at 1.
      cbn [world trace pw_project pw_disk pw_logged pw_sink
             pw_outputTypeNameCache].
      unfold bind at 1. unfold onWorld at 1, onNameCache at 1.
      cbn [world trace pw_project pw_disk pw_logged pw_sink
             pw_outputTypeNameCache].
      rewrite Hthrow. eexists. split; [reflexivity|].
      cbn [world trace pw_project pw_disk pw_logged pw_sink]. repeat split. }
    destruct Hrun as (r' & -> & Ht & Hd & Hs & Hl). cbn [fst snd].
    repeat split; assumption.
Qed.

End CodeGeneratorReport.

(** ** The metrics collector *)

Lemma uniqueAfter_snoc (seen names : list string) (n : string) :
  uniqueAfter seen (names ++ [n])
  = uniqueAfter seen names
    ++ (if existsb (String.eqb n) (seen ++ names) then [] else [n]).
Proof.
  revert seen. induction names as [|x names IH]; intros seen.
  - cbn [app uniqueAfter]. rewrite app_nil_r.
    destruct (existsb (String.eqb n) seen); reflexivity.
  - cbn [app uniqueAfter].
    assert (Hex : forall seen',
               (forall y, In y seen' <-> In y (seen ++ x :: names)) ->
               existsb (String.eqb n) seen'
               = existsb (String.eqb n) (seen ++ x :: names)).
    { intros seen' Hsame.
      destruct (existsb (String.eqb n) (seen ++ x :: names)) eqn:E.
      - apply existsb_exists in E as [y [Hy Hny]]. apply existsb_exists.
        exists y. split; [apply Hsame, Hy | exact Hny].
      - destruct (existsb (String.eqb n) seen') eqn:E'; [|reflexivity].
        apply existsb_exists in E' as [y [Hy Hny]].
        assert (existsb (String.eqb n) (seen ++ x :: names) = true);
          [|congruence].
        apply existsb_exists. exists y. split; [apply Hsame, Hy | exact Hny]. }
    destruct (existsb (String.eqb x) seen) eqn:Ex.
    + rewrite IH. f_equal. rewrite (Hex (seen ++ names)); [reflexivity|].
      intros y. rewrite !in_app_iff. cbn [In].
      apply existsb_exists in Ex as [z [Hz Hxz]].
      apply String.eqb_eq in Hxz. subst z.
      split; [tauto|]. intros [H|[<-|H]]; tauto.
    + rewrite IH. rewrite (Hex ((x :: seen) ++ names)); [reflexivity|].
      intros y. rewrite !in_app_iff. cbn [In]. tauto.
Qed.

Section CollectorFacts.

Variable Num : Type.
Variable zero : Num.
Variable add : Num -> Num -> Num.
Variable divide : Num -> nat -> Num.
Variable minOf : list Num -> Num.
Variable maxOf : list Num -> Num.
Variable toFixed2 : Num -> string.
Variable showNumber : Z -> string.
Variable Details : Type.
Variable metricSign : string.
Variable summaryLines :
  Num -> list (PhaseStatistics Num) -> list (MetricData Num Details) ->
  list string.

Local Abbreviation emitMetricAt :=
  (collectorEmitMetric Num toFixed2 showNumber Details metricSign).
Local Abbreviation onCompleteOf :=
  (collectorOnComplete Num zero add divide minOf maxOf Details summaryLines).
Local Abbreviation called :=
  (collectorCalls Num zero add divide minOf maxOf toFixed2 showNumber Details
     metricSign summaryLines).
Local Abbreviation callOne :=
  (collectorCall Num zero add divide minOf maxOf toFixed2 showNumber Details
     metricSign summaryLines).
Local Abbreviation statistics :=
  (getPhaseStatistics Num zero add divide minOf maxOf Details).

(** What a call leaves of the fields of the collector. *)
Lemma logMetric_fields (metric : MetricData Num Details)
    (c : Collector Num Details) :
  metrics _ _ (logMetric Num toFixed2 showNumber Details metricSign metric c)
  = metrics _ _ c /\
  phaseTimings _ _
    (logMetric Num toFixed2 showNumber Details metricSign metric c)
  = phaseTimings _ _ c /\
  startTime _ _
    (logMetric Num toFixed2 showNumber Details metricSign metric c)
  = startTime _ _ c /\
  verboseLogging _ _
    (logMetric Num toFixed2 showNumber Details metricSign metric c)
  = verboseLogging _ _ c.
Proof.
  unfold logMetric. destruct (verboseLogging _ _ c) eqn:Hv;
    repeat split; try reflexivity; exact Hv.
Qed.

Lemma consoleLogs_fields (lines : list string) (c : Collector Num Details) :
  metrics _ _ (fold_left (fun acc line => consoleLog _ _ line acc) lines c)
  = metrics _ _ c /\
  phaseTimings _ _
    (fold_left (fun acc line => consoleLog _ _ line acc) lines c)
  = phaseTimings _ _ c /\
  startTime _ _ (fold_left (fun acc line => consoleLog _ _ line acc) lines c)
  = startTime _ _ c /\
  verboseLogging _ _
    (fold_left (fun acc line => consoleLog _ _ line acc) lines c)
  = verboseLogging _ _ c /\
  console _ _ (fold_left (fun acc line => consoleLog _ _ line acc) lines c)
  = console _ _ c ++ lines.
Proof.
  revert c. induction lines as [|line lines IH]; intros c.
  - cbn [fold_left]. rewrite app_nil_r. repeat split.
  - cbn [fold_left]. destruct (IH (consoleLog _ _ line c))
      as (-> & -> & -> & -> & ->).
    cbn [consoleLog metrics phaseTimings startTime verboseLogging console].
    rewrite <- app_assoc. repeat split.
Qed.

Lemma onComplete_fields (c : Collector Num Details) :
  metrics _ _ (onCompleteOf c) = metrics _ _ c /\
  phaseTimings _ _ (onCompleteOf c) = phaseTimings _ _ c /\
  startTime _ _ (onCompleteOf c) = startTime _ _ c /\
  verboseLogging _ _ (onCompleteOf c) = verboseLogging _ _ c.
Proof.
  unfold collectorOnComplete.
  destruct (verboseLogging _ _ c) eqn:Hv; cbn [negb];
    [|repeat split; try reflexivity; exact Hv].
  destruct (consoleLogs_fields
              (summaryLines
                 (getTotalDuration Num zero add Details c)
                 (statistics c) (metrics _ _ c)) c)
    as (-> & -> & -> & -> & _).
  repeat split; try reflexivity; exact Hv.
Qed.

(** *** The timings of the phases *)

Lemma pushTiming_keys (phase : string) (duration : Num)
    (timings : list (string * list Num)) :
  List.map fst (pushTiming Num phase duration timings)
  = List.map fst timings
    ++ (if existsb (String.eqb phase) (List.map fst timings)
        then [] else [phase]).
Proof.
  induction timings as [|[p ds] rest IH]; [reflexivity|].
  cbn [pushTiming List.map fst existsb].
  rewrite (String.eqb_sym phase p).
  destruct (String.eqb p phase); cbn [orb List.map fst app].
  - rewrite app_nil_r. reflexivity.
  - rewrite IH. reflexivity.
Qed.

Lemma pushTiming_In (phase : string) (duration : Num)
    (timings : list (string * list Num)) (p : string) (ds : list Num) :
  List.NoDup (List.map fst timings) ->
  In (p, ds) (pushTiming Num phase duration timings) ->
  (p <> phase /\ In (p, ds) timings) \/
  (p = phase /\
   ((exists before, In (phase, before) timings /\ ds = before ++ [duration]) \/
    (~ In phase (List.map fst timings) /\ ds = [duration]))).
Proof.
  induction timings as [|[q qs] rest IH]; intros Hnd Hin.
  - cbn [pushTiming In] in Hin. destruct Hin as [[= <- <-]|[]].
    right. split; [reflexivity|]. right. split; [intros []|reflexivity].
  - cbn [List.map fst] in Hnd.
    apply List.NoDup_cons_iff in Hnd as [Hq Hnd].
    cbn [pushTiming] in Hin.
    destruct (String.eqb_spec q phase) as [->|Hne].
    + destruct Hin as [[= <- <-]|Hin].
      * right. split; [reflexivity|]. left. exists qs.
        split; [left; reflexivity | reflexivity].
      * left. split; [|right; exact Hin].
        intros ->. apply Hq. apply (in_map fst) in Hin. exact Hin.
    + destruct Hin as [[= <- <-]|Hin].
      * left. split; [exact Hne | left; reflexivity].
      * destruct (IH Hnd Hin) as [[Hp Hold]|[Hp [[before [Hb Hds]]|[Hnew Hds]]]].
        -- left. split; [exact Hp | right; exact Hold].
        -- right. split; [exact Hp|]. left. exists before.
           split; [right; exact Hb | exact Hds].
        -- right. split; [exact Hp|]. right. split; [|exact Hds].
           cbn [List.map fst In]. intros [Heq|Hin']; [contradiction|].
           contradiction.
Qed.

Lemma existsb_unique (n : string) (names : list string) :
  existsb (String.eqb n) (unique names) = existsb (String.eqb n) names.
Proof.
  assert (Hsame : forall y, In y (unique names) <-> In y names).
  { intros y. unfold unique. rewrite uniqueAfter_In. cbn [In]. tauto. }
  destruct (existsb (String.eqb n) names) eqn:E.
  - apply existsb_exists in E as [y [Hy Hny]]. apply existsb_exists.
    exists y. split; [apply Hsame, Hy | exact Hny].
  - destruct (existsb (String.eqb n) (unique names)) eqn:E'; [|reflexivity].
    apply existsb_exists in E' as [y [Hy Hny]].
    assert (existsb (String.eqb n) names = true); [|congruence].
    apply existsb_exists. exists y. split; [apply Hsame, Hy | exact Hny].
Qed.

Lemma durationsOf_timed (p : string) (ms : list (MetricData Num Details)) :
  durationsOf _ _ p ms <> [] <-> In p (timedPhases _ _ ms).
Proof.
  unfold durationsOf, timedPhases.
  induction ms as [|m ms IH]; [cbn; tauto|].
  cbn [flat_map List.filter].
  destruct (metric_duration _ _ m) as [d|] eqn:Ed.
  - rewrite bool_decide_eq_true_2 by eauto. cbn [List.map In].
    destruct (String.eqb_spec (metric_phase _ _ m) p) as [Hp|Hp].
    + cbn [app]. split; [intros _; left; exact Hp | discriminate].
    + cbn [app]. rewrite IH. tauto.
  - rewrite bool_decide_eq_false_2 by (intros [x Hx]; discriminate).
    destruct (String.eqb (metric_phase _ _ m) p); cbn [app]; exact IH.
Qed.

Lemma timingsAgree_emitMetric (phase : string) (duration : option Num)
    (count : option Z) (details : option Details) (now : Z)
    (c : Collector Num Details) :
  timingsAgree _ _ c ->
  timingsAgree _ _ (emitMetricAt phase duration count details now c).
Proof.
  intros [Hkeys Hentries]. unfold timingsAgree, collectorEmitMetric.
  match goal with
  | |- context [logMetric _ _ _ _ _ ?m ?c0] =>
      destruct (logMetric_fields m c0) as (-> & -> & _)
  end.
  cbn [metrics phaseTimings].
  assert (Hnd : List.NoDup (List.map fst (phaseTimings _ _ c)))
    by (rewrite Hkeys; apply uniqueAfter_NoDup).
  destruct duration as [d|].
  - assert (Htimed :
              timedPhases _ _
                (metrics _ _ c
                 ++ [ {| metric_phase := phase; metric_duration := Some d;
                         metric_count := count; metric_details := details;
                         metric_timestamp := (now - startTime _ _ c)%Z |} ])
              = timedPhases _ _ (metrics _ _ c) ++ [phase]).
    { unfold timedPhases. rewrite List.filter_app, List.map_app.
      cbn [List.filter metric_duration].
      rewrite bool_decide_eq_true_2 by eauto. reflexivity. }
    assert (Hdur : forall p,
               durationsOf _ _ p
                 (metrics _ _ c
                  ++ [ {| metric_phase := phase; metric_duration := Some d;
                          metric_count := count; metric_details := details;
                          metric_timestamp := (now - startTime _ _ c)%Z |} ])
               = durationsOf _ _ p (metrics _ _ c)
                 ++ (if String.eqb phase p then [d] else [])).
    { intros p. unfold durationsOf. rewrite List.flat_map_app.
      cbn [flat_map metric_phase metric_duration]. rewrite app_nil_r.
      reflexivity. }
    split.
    + rewrite pushTiming_keys, Htimed, Hkeys. unfold unique.
      rewrite uniqueAfter_snoc. cbn [app].
      fold (unique (timedPhases _ _ (metrics _ _ c))).
      rewrite existsb_unique. reflexivity.
    + intros p ds Hin. rewrite Hdur.
      destruct (pushTiming_In _ _ _ _ _ Hnd Hin)
        as [[Hp Hold]|[-> [[before [Hb ->]]|[Hnew ->]]]].
      * destruct (Hentries p ds Hold) as [-> Hne].
        destruct (String.eqb_spec phase p) as [Heq|_];
          [congruence|]. rewrite app_nil_r. split; [reflexivity | exact Hne].
      * destruct (Hentries phase before Hb) as [-> _].
        rewrite String.eqb_refl. split; [reflexivity|].
        intros E. apply app_eq_nil in E as [_ E]. discriminate.
      * rewrite String.eqb_refl.
        assert (Hnone : durationsOf _ _ phase (metrics _ _ c) = []).
        { destruct (durationsOf _ _ phase (metrics _ _ c)) eqn:E;
            [reflexivity|].
          exfalso. apply Hnew. rewrite Hkeys. unfold unique.
          rewrite uniqueAfter_In. split; [|intros []].
          apply durationsOf_timed. rewrite E. discriminate. }
        rewrite Hnone. split; [reflexivity | discriminate].
  - assert (Htimed :
              timedPhases _ _
                (metrics _ _ c
                 ++ [ {| metric_phase := phase; metric_duration := None;
                         metric_count := count; metric_details := details;
                         metric_timestamp := (now - startTime _ _ c)%Z |} ])
              = timedPhases _ _ (metrics _ _ c)).
    { unfold timedPhases. rewrite List.filter_app, List.map_app.
      cbn [List.filter metric_duration].
      rewrite bool_decide_eq_false_2 by (intros [x Hx]; discriminate).
      apply app_nil_r. }
    assert (Hdur : forall p,
               durationsOf _ _ p
                 (metrics _ _ c
                  ++ [ {| metric_phase := phase; metric_duration := None;
                          metric_count := count; metric_details := details;
                          metric_timestamp := (now - startTime _ _ c)%Z |} ])
               = durationsOf _ _ p (metrics _ _ c)).
    { intros p. unfold durationsOf. rewrite List.flat_map_app.
      cbn [flat_map metric_phase metric_duration].
      destruct (String.eqb phase p); rewrite !app_nil_r; reflexivity. }
    split.
    + rewrite Htimed. exact Hkeys.
    + intros p ds Hin. rewrite Hdur. apply Hentries, Hin.
Qed.

Lemma timingsAgree_call (c : Collector Num Details)
    (call : CollectorCall Num Details) :
  timingsAgree _ _ c -> timingsAgree _ _ (callOne c call).
Proof.
  intros Hc. destruct call as [phase duration count details now| |now].
  - apply timingsAgree_emitMetric, Hc.
  - unfold timingsAgree, collectorCall.
    destruct (onComplete_fields c) as (-> & -> & _). exact Hc.
  - split; [reflexivity | intros p ds []].
Qed.

Lemma timingsAgree_calls (calls : list (CollectorCall Num Details))
    (c : Collector Num Details) :
  timingsAgree _ _ c -> timingsAgree _ _ (called calls c).
Proof.
  revert c. induction calls as [|call calls IH]; intros c Hc; [exact Hc|].
  cbn [collectorCalls fold_left]. apply IH, timingsAgree_call, Hc.
Qed.

(** Whatever calls were made on a new collector, the statistics hold
    one entry for each phase that was emitted with a duration since the
    last reset, in the order of the first such emission; the count of an
    entry is the number of these emissions, which is never zero, and its
    total is the sum of their durations taken in the order of
    emission. *)
Theorem collector_phase_statistics (calls : list (CollectorCall Num Details))
    (verbose : option bool) (now : Z) :
  List.map (stat_phase _)
    (statistics (called calls (newCollector _ _ verbose now)))
  = unique (timedPhases _ _
              (getMetrics _ _ (called calls (newCollector _ _ verbose now))))
  /\
  List.NoDup
    (List.map (stat_phase _)
       (statistics (called calls (newCollector _ _ verbose now)))) /\
  Forall
    (fun s =>
       (1 <= stat_count _ s)%nat /\
       stat_count _ s
       = length
           (durationsOf _ _ (stat_phase _ s)
              (getMetrics _ _ (called calls (newCollector _ _ verbose now))))
       /\
       stat_totalTime _ s
       = fold_left add
           (durationsOf _ _ (stat_phase _ s)
              (getMetrics _ _ (called calls (newCollector _ _ verbose now))))
           zero)
    (statistics (called calls (newCollector _ _ verbose now))).
Proof.
  assert (Hagree : timingsAgree _ _
                     (called calls (newCollector _ _ verbose now))).
  { apply timingsAgree_calls. split; [reflexivity | intros p ds []]. }
  destruct Hagree as [Hkeys Hentries]. unfold getPhaseStatistics, getMetrics.
  rewrite List.map_map. cbn [stat_phase].
  assert (Hmap : List.map (fun x : string * list Num => fst x)
                   (phaseTimings _ _
                      (called calls (newCollector _ _ verbose now)))
                 = List.map fst
                     (phaseTimings _ _
                        (called calls (newCollector _ _ verbose now))))
    by reflexivity.
  rewrite Hmap, Hkeys.
  split; [reflexivity|]. split; [apply uniqueAfter_NoDup|].
  apply List.Forall_forall. intros s Hs.
  apply in_map_iff in Hs as [[p ds] [<- Hin]].
  cbn [stat_count stat_phase stat_totalTime fst snd].
  destruct (Hentries p ds Hin) as [Hds Hne]. rewrite <- Hds.
  split; [|split; reflexivity].
  destruct ds; [contradiction | cbn [length]; lia].
Qed.

(** *** The console and the metrics *)

Lemma call_verboseLogging (c : Collector Num Details)
    (call : CollectorCall Num Details) :
  verboseLogging _ _ (callOne c call) = verboseLogging _ _ c.
Proof.
  destruct call as [phase duration count details now| |now].
  - unfold collectorCall, collectorEmitMetric.
    match goal with
    | |- context [logMetric _ _ _ _ _ ?m ?c0] =>
        destruct (logMetric_fields m c0) as (_ & _ & _ & ->)
    end.
    reflexivity.
  - apply onComplete_fields.
  - reflexivity.
Qed.

Lemma call_quiet (c : Collector Num Details)
    (call : CollectorCall Num Details) :
  verboseLogging _ _ c = false ->
  console _ _ (callOne c call) = console _ _ c.
Proof.
  intros Hquiet. destruct call as [phase duration count details now| |now].
  - unfold collectorCall, collectorEmitMetric, logMetric.
    cbn [verboseLogging]. rewrite Hquiet. reflexivity.
  - unfold collectorCall, collectorOnComplete. rewrite Hquiet. reflexivity.
  - reflexivity.
Qed.

Lemma call_metrics (c : Collector Num Details)
    (call : CollectorCall Num Details) :
  isReset _ _ call = false ->
  metrics _ _ (callOne c call)
  = metrics _ _ c ++ metricsOfCalls _ _ (startTime _ _ c) [call] /\
  startTime _ _ (callOne c call) = startTime _ _ c.
Proof.
  intros Hcall. destruct call as [phase duration count details now| |now];
    [| |discriminate].
  - unfold collectorCall, collectorEmitMetric.
    match goal with
    | |- context [logMetric _ _ _ _ _ ?m ?c0] =>
        destruct (logMetric_fields m c0) as (-> & _ & -> & _)
    end.
    split; reflexivity.
  - unfold collectorCall. destruct (onComplete_fields c) as (-> & _ & -> & _).
    cbn [metricsOfCalls flat_map]. rewrite app_nil_r. split; reflexivity.
Qed.

Lemma calls_metrics (calls : list (CollectorCall Num Details))
    (c : Collector Num Details) :
  forallb (fun call => negb (isReset _ _ call)) calls = true ->
  metrics _ _ (called calls c)
  = metrics _ _ c ++ metricsOfCalls _ _ (startTime _ _ c) calls.
Proof.
  revert c. induction calls as [|call calls IH]; intros c Hcalls.
  - cbn. rewrite app_nil_r. reflexivity.
  - cbn [forallb] in Hcalls. apply andb_true_iff in Hcalls as [Hcall Hcalls].
    apply negb_true_iff in Hcall.
    cbn [collectorCalls fold_left].
    fold (called calls (callOne c call)). rewrite (IH _ Hcalls).
    destruct (call_metrics c call Hcall) as [-> ->].
    rewrite <- app_assoc. unfold metricsOfCalls.
    rewrite <- List.flat_map_app. reflexivity.
Qed.

(** A collector never changes whether it logs, and one that does not log
    writes nothing to the console, whatever is called on it.
    [getMetrics] returns the metrics emitted since the collector was
    made or last reset, in order, each stamped with the time elapsed
    since then. *)
Theorem collector_console_and_metrics
    (calls : list (CollectorCall Num Details)) (c : Collector Num Details) :
  verboseLogging _ _ (called calls c) = verboseLogging _ _ c /\
  (verboseLogging _ _ c = false ->
   console _ _ (called calls c) = console _ _ c) /\
  (forallb (fun call => negb (isReset _ _ call)) calls = true ->
   getMetrics _ _ (called calls c)
   = getMetrics _ _ c ++ metricsOfCalls _ _ (startTime _ _ c) calls) /\
  (forall before now after,
      calls = before ++ CallReset _ _ now :: after ->
      forallb (fun call => negb (isReset _ _ call)) after = true ->
      getMetrics _ _ (called calls c) = metricsOfCalls _ _ now after).
Proof.
  assert (Hverbose : forall calls' c',
             verboseLogging _ _ (called calls' c') = verboseLogging _ _ c').
  { induction calls' as [|call calls' IH]; intros c'; [reflexivity|].
    cbn [collectorCalls fold_left]. fold (called calls' (callOne c' call)).
    rewrite IH. apply call_verboseLogging. }
  split; [apply Hverbose|]. split; [|split].
  - revert c. induction calls as [|call calls IH]; intros c Hquiet;
      [reflexivity|].
    cbn [collectorCalls fold_left]. fold (called calls (callOne c call)).
    rewrite IH.
    + apply call_quiet, Hquiet.
    + rewrite call_verboseLogging. exact Hquiet.
  - apply calls_metrics.
  - intros before now after -> Hafter. unfold getMetrics, collectorCalls.
    rewrite fold_left_app. cbn [fold_left collectorCall].
    fold (called before c).
    fold (called after (collectorReset _ _ now (called before c))).
    rewrite (calls_metrics after _ Hafter). reflexivity.
Qed.

End CollectorFacts.
(** * Instances of the further properties *)

Lemma modelsCache_of_constructed_witness :
  sampleConstruct blogDocument
  = (Ok (documentOf (fst (sampleConstruct blogDocument))),
     snd (sampleConstruct blogDocument)) /\
  List.NoDup (List.map rm_name (rawModelsOf blogDocument)) /\
  forall m,
    In m (models (documentOf (fst (sampleConstruct blogDocument)))) ->
    getModelTypeName (documentOf (fst (sampleConstruct blogDocument)))
      (model_name m)
    = Some (model_typeName m).
Proof.
  assert (H : sampleConstruct blogDocument
              = (Ok (documentOf (fst (sampleConstruct blogDocument))),
                 snd (sampleConstruct blogDocument)))
    by (vm_compute; reflexivity).
  assert (Hnd : List.NoDup (List.map rm_name (rawModelsOf blogDocument))).
  { repeat constructor; cbn; intuition discriminate. }
  split; [exact H|]. split; [exact Hnd|].
  intros m Hin.
  exact (proj2 (proj2 (proj2 (proj2 (modelsCache_of_constructed
                  sampleParse samplePascalCase sampleCleanDocs
                  sampleInputTypeName sampleModelNameFromInputType
                  sampleTypeGraphQLType sampleFieldTSType
                  sampleTransformMappings
                  blogDocument (sampleOptions false false) ∅ _ _ H)))
                 Hnd m Hin)).
Defined.


Lemma isModelTypeName_of_constructed_witness :
  sampleConstruct blogDocument
  = (Ok (documentOf (fst (sampleConstruct blogDocument))),
     snd (sampleConstruct blogDocument)) /\
  (isModelTypeName (documentOf (fst (sampleConstruct blogDocument))) "Client"
   = true
   <-> exists m,
         In m (models (documentOf (fst (sampleConstruct blogDocument)))) /\
         model_typeName m = "Client").
Proof.
  assert (H : sampleConstruct blogDocument
              = (Ok (documentOf (fst (sampleConstruct blogDocument))),
                 snd (sampleConstruct blogDocument)))
    by (vm_compute; reflexivity).
  split; [exact H|].
  exact (isModelTypeName_of_constructed
           sampleParse samplePascalCase sampleCleanDocs
           sampleInputTypeName sampleModelNameFromInputType
           sampleTypeGraphQLType sampleFieldTSType sampleTransformMappings
           blogDocument (sampleOptions false false) ∅ _ _ H "Client").
Defined.

Lemma getModelField_of_constructed_witness :
  sampleConstruct blogDocument
  = (Ok (documentOf (fst (sampleConstruct blogDocument))),
     snd (sampleConstruct blogDocument)) /\
  forall n f,
    isModelName (documentOf (fst (sampleConstruct blogDocument))) n = false ->
    getModelField (documentOf (fst (sampleConstruct blogDocument))) n f = None.
Proof.
  assert (H : sampleConstruct blogDocument
              = (Ok (documentOf (fst (sampleConstruct blogDocument))),
                 snd (sampleConstruct blogDocument)))
    by (vm_compute; reflexivity).
  split; [exact H|].
  exact (proj2 (proj2 (proj2 (getModelField_of_constructed
           sampleParse samplePascalCase sampleCleanDocs
           sampleInputTypeName sampleModelNameFromInputType
           sampleTypeGraphQLType sampleFieldTSType sampleTransformMappings
           blogDocument (sampleOptions false false) ∅ _ _ H)))).
Defined.

Lemma getModelFieldAlias_of_constructed_witness :
  sampleConstruct blogDocument
  = (Ok (documentOf (fst (sampleConstruct blogDocument))),
     snd (sampleConstruct blogDocument)) /\
  List.NoDup (List.map rm_name (rawModelsOf blogDocument)) /\
  forall n f alias,
    getModelFieldAlias (documentOf (fst (sampleConstruct blogDocument))) n f
    = Some alias ->
    alias <> EmptyString.
Proof.
  assert (H : sampleConstruct blogDocument
              = (Ok (documentOf (fst (sampleConstruct blogDocument))),
                 snd (sampleConstruct blogDocument)))
    by (vm_compute; reflexivity).
  assert (Hnd : List.NoDup (List.map rm_name (rawModelsOf blogDocument))).
  { repeat constructor; cbn; intuition discriminate. }
  split; [exact H|]. split; [exact Hnd|].
  intros n f alias Halias.
  destruct (proj1 (getModelFieldAlias_of_constructed
                     sampleParse samplePascalCase sampleCleanDocs
                     sampleInputTypeName sampleModelNameFromInputType
                     sampleTypeGraphQLType sampleFieldTSType
                     sampleTransformMappings
                     blogDocument (sampleOptions false false) ∅ _ _ H Hnd)
              n f alias Halias)
    as (m & field & _ & _ & _ & _ & Hne).
  exact Hne.
Defined.

Lemma getOutputTypeField_of_constructed_witness :
  sampleConstruct blogDocument
  = (Ok (documentOf (fst (sampleConstruct blogDocument))),
     snd (sampleConstruct blogDocument)) /\
  forall ot,
    In ot (schema_outputTypes (documentOf (fst (sampleConstruct blogDocument))))
    -> is_Some (outputTypeCache
                  (documentOf (fst (sampleConstruct blogDocument)))
                !! output_name ot).
Proof.
  assert (H : sampleConstruct blogDocument
              = (Ok (documentOf (fst (sampleConstruct blogDocument))),
                 snd (sampleConstruct blogDocument)))
    by (vm_compute; reflexivity).
  split; [exact H|].
  exact (proj1 (proj2 (getOutputTypeField_of_constructed
           sampleParse samplePascalCase sampleCleanDocs
           sampleInputTypeName sampleModelNameFromInputType
           sampleTypeGraphQLType sampleFieldTSType sampleTransformMappings
           blogDocument (sampleOptions false false) ∅ _ _ H))).
Defined.

Lemma relationModels_of_constructed_witness :
  sampleConstruct blogDocument
  = (Ok (documentOf (fst (sampleConstruct blogDocument))),
     snd (sampleConstruct blogDocument)) /\
  forall rel,
    In rel (relationModels (documentOf (fst (sampleConstruct blogDocument))))
    -> rel_resolverName rel
       = model_typeName (rel_model rel) +:+ "RelationsResolver".
Proof.
  assert (H : sampleConstruct blogDocument
              = (Ok (documentOf (fst (sampleConstruct blogDocument))),
                 snd (sampleConstruct blogDocument)))
    by (vm_compute; reflexivity).
  split; [exact H|].
  intros rel Hin.
  exact (proj1 (proj2 (relationModels_of_constructed
           sampleParse samplePascalCase sampleCleanDocs
           sampleInputTypeName sampleModelNameFromInputType
           sampleTypeGraphQLType sampleFieldTSType sampleTransformMappings
           blogDocument (sampleOptions false false) ∅ _ _ H rel Hin))).
Defined.


Lemma enums_of_constructed_witness :
  sampleConstruct blogDocument
  = (Ok (documentOf (fst (sampleConstruct blogDocument))),
     snd (sampleConstruct blogDocument)) /\
  enums (documentOf (fst (sampleConstruct blogDocument)))
  = List.map
      (transformEnums sampleCleanDocs
         (documentOf (fst (sampleConstruct blogDocument))))
      (rawEnumTypesOf blogDocument).
Proof.
  assert (H : sampleConstruct blogDocument
              = (Ok (documentOf (fst (sampleConstruct blogDocument))),
                 snd (sampleConstruct blogDocument)))
    by (vm_compute; reflexivity).
  split; [exact H|].
  exact (proj1 (enums_of_constructed
           sampleParse samplePascalCase sampleCleanDocs
           sampleInputTypeName sampleModelNameFromInputType
           sampleTypeGraphQLType sampleFieldTSType sampleTransformMappings
           blogDocument (sampleOptions false false) ∅ _ _ H)).
Defined.

Lemma schema_names_of_constructed_witness :
  sampleConstruct blogDocument
  = (Ok (documentOf (fst (sampleConstruct blogDocument))),
     snd (sampleConstruct blogDocument)) /\
  List.map output_name
    (schema_outputTypes (documentOf (fst (sampleConstruct blogDocument))))
  = List.map rot_name (rawOutputTypesOf blogDocument).
Proof.
  assert (H : sampleConstruct blogDocument
              = (Ok (documentOf (fst (sampleConstruct blogDocument))),
                 snd (sampleConstruct blogDocument)))
    by (vm_compute; reflexivity).
  split; [exact H|].
  exact (proj1 (proj2 (schema_names_of_constructed
           sampleParse samplePascalCase sampleCleanDocs
           sampleInputTypeName sampleModelNameFromInputType
           sampleTypeGraphQLType sampleFieldTSType sampleTransformMappings
           blogDocument (sampleOptions false false) ∅ _ _ H))).
Defined.

Lemma mapped_names_of_constructed_witness :
  sampleConstruct blogDocument
  = (Ok (documentOf (fst (sampleConstruct blogDocument))),
     snd (sampleConstruct blogDocument)) /\
  Forall
    (fun ot =>
       computeMappedOutputTypeName
         (documentOf (fst (sampleConstruct blogDocument))) (output_name ot)
       = Ok (output_typeName ot))
    (schema_outputTypes (documentOf (fst (sampleConstruct blogDocument)))).
Proof.
  assert (H : sampleConstruct blogDocument
              = (Ok (documentOf (fst (sampleConstruct blogDocument))),
                 snd (sampleConstruct blogDocument)))
    by (vm_compute; reflexivity).
  split; [exact H|].
  exact (proj2 (mapped_names_of_constructed
           sampleParse samplePascalCase sampleCleanDocs
           sampleInputTypeName sampleModelNameFromInputType
           sampleTypeGraphQLType sampleFieldTSType sampleTransformMappings
           blogDocument (sampleOptions false false) ∅ _ _ H)).
Defined.

Lemma relationsResolver_missing_primaryKey_field_witness :
  generateRelationsResolverClassesFromModel sampleCamelCase
    (sampleRelationModel orderWithUnknownKey [])
  = Throw "Primary key field 'shop' not found in model 'Order' fields".
Proof.
  apply (relationsResolver_missing_primaryKey_field sampleCamelCase
           (sampleRelationModel orderWithUnknownKey [])
           {| pk_name := None; pk_fields := ["id"; "shop"] |}
           ["id"] "shop" []).
  - reflexivity.
  - reflexivity.
  - intros k [<-|[]]. left. reflexivity.
  - cbn. intuition discriminate.
Defined.

Lemma relationsResolver_methods_witness :
  generateRelationsResolverClassesFromModel sampleCamelCase postRelationModel
  = Ok (classOf (generateRelationsResolverClassesFromModel sampleCamelCase
                   postRelationModel)) /\
  List.map method_name
    (class_methods
       (classOf (generateRelationsResolverClassesFromModel sampleCamelCase
                   postRelationModel)))
  = ["author"].
Proof.
  assert (H : generateRelationsResolverClassesFromModel sampleCamelCase
                postRelationModel
              = Ok (classOf (generateRelationsResolverClassesFromModel
                               sampleCamelCase postRelationModel)))
    by (vm_compute; reflexivity).
  split; [exact H|].
  exact (proj1 (proj2 (relationsResolver_methods sampleCamelCase
                         postRelationModel _ H))).
Defined.


Lemma relationsResolverFile_of_constructed_witness :
  sampleConstruct blogDocument
  = (Ok (documentOf (fst (sampleConstruct blogDocument))),
     snd (sampleConstruct blogDocument)) /\
  forall rel,
    In rel (relationModels (documentOf (fst (sampleConstruct blogDocument))))
    -> isOk (generateRelationsResolverFile sampleCamelCase rel)
       = isOk (generateRelationsResolverClassesFromModel sampleCamelCase rel).
Proof.
  assert (H : sampleConstruct blogDocument
              = (Ok (documentOf (fst (sampleConstruct blogDocument))),
                 snd (sampleConstruct blogDocument)))
    by (vm_compute; reflexivity).
  split; [exact H|].
  intros rel Hin.
  rewrite (relationsResolverFile_of_constructed
             sampleParse samplePascalCase sampleCleanDocs
             sampleInputTypeName sampleModelNameFromInputType
             sampleTypeGraphQLType sampleFieldTSType sampleTransformMappings
             sampleCamelCase
             blogDocument (sampleOptions false false) ∅ _ _ H rel Hin).
  destruct (generateRelationsResolverClassesFromModel sampleCamelCase rel);
    reflexivity.
Defined.

Lemma enumBlock_files_and_barrel_witness :
  shouldGenerateBlock forum "enums" = true /\
  gw_project (snd (enumBlockGenerate forum freshProject))
  = gw_project freshProject ++ List.map EnumFile (allEnums forum)
    ++ [EnumsBarrelFile (emittedEnumNames forum)].
Proof.
  assert (H : shouldGenerateBlock forum "enums" = true)
    by (vm_compute; reflexivity).
  split; [exact H|].
  exact (proj1 (proj2 (enumBlock_files_and_barrel forum freshProject H))).
Defined.

Lemma outputBlock_types_witness :
  shouldGenerateBlock forum "outputs" = true /\
  gw_outputTypesToGenerate (snd (outputBlockGenerate forum freshProject))
  = outputTypesToGenerate forum /\
  gw_project (snd (outputBlockGenerate forum freshProject))
  = gw_project freshProject ++ outputEmissions forum.
Proof.
  assert (H : shouldGenerateBlock forum "outputs" = true)
    by (vm_compute; reflexivity).
  split; [exact H|].
  pose proof (outputBlock_types forum freshProject H) as (_ & Ht & Hp & _).
  split; [exact Ht | exact Hp].
Defined.

Lemma modelBlock_outcome_witness :
  shouldGenerateBlock forum "models" = true /\
  Forall (fun model => is_Some (outputTypeCache forum !! model_name model))
         (datamodel_models forum) /\
  gw_project (snd (modelBlockGenerate forum id false false freshProject))
  = gw_project freshProject
    ++ modelFilesOf id false false forum (datamodel_models forum)
    ++ [ModelsBarrelFile
          (List.map model_typeName (datamodel_models forum))].
Proof.
  assert (H : shouldGenerateBlock forum "models" = true)
    by (vm_compute; reflexivity).
  assert (Hall : Forall (fun model =>
                           is_Some (outputTypeCache forum !! model_name model))
                        (datamodel_models forum)).
  { apply List.Forall_forall. intros model Hin.
    assert (Hb : forallb
                   (fun model =>
                      bool_decide
                        (is_Some (outputTypeCache forum !! model_name model)))
                   (datamodel_models forum) = true)
      by (vm_compute; reflexivity).
    rewrite forallb_forall in Hb.
    exact (bool_decide_eq_true_1 _ (Hb model Hin)). }
  split; [exact H|]. split; [exact Hall|].
  exact (proj1 (proj2 (proj1 (modelBlock_outcome forum id false false
                                freshProject H) Hall))).
Defined.


Lemma relationBlock_of_constructed_witness :
  sampleConstruct forumDocument
  = (Ok forum, snd (sampleConstruct forumDocument)) /\
  relationModels forum <> [] /\
  shouldGenerateBlock forum "relationResolvers" = true /\
  (isOk (fst (relationResolverBlockGenerate forum sampleCamelCase
                freshProject)) = true
   <-> Forall (fun rel =>
                 isOk (generateRelationsResolverClassesFromModel
                         sampleCamelCase rel) = true)
              (relationModels forum)).
Proof.
  assert (H : sampleConstruct forumDocument
              = (Ok forum, snd (sampleConstruct forumDocument)))
    by (vm_compute; reflexivity).
  assert (Hne : relationModels forum <> []).
  { assert (Hl : length (relationModels forum) = 2%nat)
      by (vm_compute; reflexivity).
    intros E. rewrite E in Hl. clear E. discriminate Hl. }
  assert (Hon : shouldGenerateBlock forum "relationResolvers" = true)
    by (vm_compute; reflexivity).
  split; [exact H|]. split; [exact Hne|]. split; [exact Hon|].
  exact (relationBlock_of_constructed
           sampleParse samplePascalCase sampleCleanDocs
           sampleInputTypeName sampleModelNameFromInputType
           sampleTypeGraphQLType sampleFieldTSType sampleTransformMappings
           sampleCamelCase forumDocument (sampleOptions false false) ∅ _
           forum freshProject H Hne Hon).
Defined.

Lemma generateAllBlocks_outputTypes_witness :
  (forall msg, keepsOutputTypes (quietLog msg)) /\
  forumBlocks = (Ok (outputTypesToGenerate forum), snd forumBlocks) /\
  outputTypesToGenerate forum
  = if shouldGenerateBlock forum "outputs"
    then outputTypesToGenerate forum
    else gw_outputTypesToGenerate freshProject.
Proof.
  assert (Hlog : forall msg, keepsOutputTypes (quietLog msg))
    by (intros msg w; reflexivity).
  assert (Hrun : forumBlocks
                 = (Ok (outputTypesToGenerate forum), snd forumBlocks))
    by (vm_compute; reflexivity).
  split; [exact Hlog|]. split; [exact Hrun|].
  exact (generateAllBlocks_outputTypes forum id false false sampleCamelCase
           noCrudResolvers quietLog None
           {| world := freshProject; trace := [] |} (snd forumBlocks)
           (outputTypesToGenerate forum) Hlog
           (fun callback blockName metrics E => ltac:(discriminate E))
           Hrun).
Defined.

Lemma generateCode_early_failure_witness :
  orphanConstruct
  = (Throw (messageOf (fst orphanConstruct)), snd orphanConstruct) /\
  fst orphanGenerateCode = Throw (messageOf (fst orphanConstruct)) /\
  trace (snd orphanGenerateCode) = trace sampleStart /\
  pw_disk _ _ (world (snd orphanGenerateCode))
  = pw_disk _ _ (world sampleStart) /\
  pw_sink _ _ (world (snd orphanGenerateCode))
  = pw_sink _ _ (world sampleStart) /\
  pw_logged _ _ (world (snd orphanGenerateCode))
  = pw_logged _ _ (world sampleStart) ++ ["Transforming dmmfDocument..."].
Proof.
  assert (H : orphanConstruct
              = (Throw (messageOf (fst orphanConstruct)),
                 snd orphanConstruct))
    by (vm_compute; reflexivity).
  split; [exact H|].
  exact (proj2 (generateCode_early_failure (list string) (list string)
                  sampleParse samplePascalCase sampleCleanDocs
                  sampleInputTypeName sampleModelNameFromInputType
                  sampleTypeGraphQLType sampleFieldTSType
                  sampleTransformMappings (Ok tt) sampleGetBlocksToEmit
                  (fun _ => []) sampleBlockGenerator
                  (fun _ _ project =>
                     Ok (project ++ ["enhance"; "scalars"; "helpers"; "index"]))
                  sampleSave sampleSave sampleExeca (fun _ _ => false)
                  samplePathResolve true true orphanDocument
                  sampleBaseOptions sampleStart
                  (messageOf (fst orphanConstruct)))
           (snd orphanConstruct) eq_refl H).
Defined.
